(** * Esoterica reflector: the type-reflection code generator

    A shallow embedding of [Code/Applications/Reflector/TypeReflection/CodeGenerator.cpp]:
    the type ordering pass, the per-header, per-project and per-solution
    composers, the enumeration emitter and the resource loading-status
    emitter, together with the properties of the generated registration
    protocol. *)

From Stdlib Require Import String Ascii Decimal DecimalFacts DecimalNat DecimalString OrdersEx.
From Stdlib Require Import ZArith Lia Bool Arith PeanoNat Relations.
From Stdlib Require Import List Permutation Sorted Setoid.
Import ListNotations.

Local Open Scope string_scope.
Local Open Scope list_scope.

Infix "+++" := String.append (right associativity, at level 60).

(** ** Text helpers *)

Module Text.

(** The double quote and the line feed of the C++ string literals. *)
Definition dq : string := String (ascii_of_nat 34) EmptyString.
Definition nl : string := String (ascii_of_nat 10) EmptyString.

(** [stream << i] for an unsigned index. *)
Definition of_nat (n : nat) : string := NilZero.string_of_uint (Nat.to_uint n).

(** A decimal digit. *)
Definition IsDigit (c : ascii) : bool :=
  existsb (Ascii.eqb c) ["0"; "1"; "2"; "3"; "4"; "5"; "6"; "7"; "8"; "9"]%char.

(** [stream << v] for a signed integer. *)
Definition of_Z (z : Z) : string := NilZero.string_of_int (Z.to_int z).

(** [StringUtils::ReplaceAllOccurrences] of the scope separator by an
    underscore: every separator, scanned from the left, becomes one
    underscore. *)
Fixpoint ReplaceScopeSeparators (s : string) : string :=
  match s with
  | EmptyString => EmptyString
  | String c r =>
      match r with
      | String c' r' =>
          if (Ascii.eqb c ":" && Ascii.eqb c' ":")%bool
          then String "_" (ReplaceScopeSeparators r')
          else String c (ReplaceScopeSeparators r)
      | EmptyString => String c EmptyString
      end
  end.

(** [StringUtils::ReplaceAllOccurrencesInPlace] of a double quote by a
    backslash and a double quote. *)
Fixpoint EscapeQuotes (s : string) : string :=
  match s with
  | EmptyString => EmptyString
  | String c r =>
      if Ascii.eqb c (ascii_of_nat 34)
      then String "\" (String c (EscapeQuotes r))
      else String c (EscapeQuotes r)
  end.

(** First [n] characters of [s]: what fits a fixed character buffer. *)
Fixpoint Truncate (n : nat) (s : string) : string :=
  match n, s with
  | S m, String c r => String c (Truncate m r)
  | _, _ => EmptyString
  end.

End Text.

(** ** Topological sorter *)

Module TopologicalSorter.

(** [TopologicalSorter::Node]: the identifier given at construction and the
    child pointers.  A [Node*] into the vector being sorted is the position
    of the pointed node in that vector. *)
Record Node : Type := mkNode {
  m_ID : nat;
  m_children : list nat
}.

Definition emptyNode : Node := mkNode 0 [].

Definition NodeAt (nodes : list Node) (p : nat) : Node := nth p nodes emptyNode.

(** [HasChild nodes p c]: node [p] holds a pointer to node [c]. *)
Definition HasChild (nodes : list Node) (p c : nat) : bool :=
  existsb (Nat.eqb c) (m_children (NodeAt nodes p)).

(** [edge p k] says that [p] is to be placed before [k]: a node is blocked
    while a node still to be placed is to come before it. *)
Definition Blocked (edge : nat -> nat -> bool) (remaining : list nat) (k : nat) : bool :=
  existsb (fun p => edge p k) remaining.

(** [Before nodes p k]: node [k] holds a pointer to node [p], so [p] is to
    be placed before [k]. *)
Definition Before (nodes : list Node) (p k : nat) : bool := HasChild nodes k p.

Definition Remove (k : nat) (remaining : list nat) : list nat :=
  filter (fun x => negb (Nat.eqb x k)) remaining.

(** Modelled from the spec: the body of [TopologicalSorter::Sort], by
    in-degree reduction, one of the two algorithms section 4.1 of the
    specification accepts.  The first node, in input order, that no node
    still to be placed is to come before is placed next; when nodes are
    left and all of them are blocked, the graph has a cycle.  [fuel]
    bounds the number of placements; the number of nodes is enough. *)
Fixpoint Reduce (edge : nat -> nat -> bool) (fuel : nat) (remaining : list nat)
  : option (list nat) :=
  match remaining with
  | [] => Some []
  | _ :: _ =>
      match fuel with
      | O => None
      | S fuel' =>
          match find (fun k => negb (Blocked edge remaining k)) remaining with
          | None => None
          | Some k =>
              match Reduce edge fuel' (Remove k remaining) with
              | None => None
              | Some order => Some (k :: order)
              end
          end
      end
  end.

(** Modelled from the spec: [TopologicalSorter::Sort] of
    [Base/Utils/TopologicalSort.h], which the sources at hand only call.
    The specification asks for a linear order with all dependencies
    preceding dependents, or a reported failure if a cycle exists
    (sections 2 and 4.1); in-degree reduction (Kahn) is an accepted
    algorithm and ties are broken by input order.  Which end of a pointer
    is the dependency is fixed by the one caller: the ordering pass stores
    the parent of a type in [m_children] of the node of the type, and its
    output is parent before child (section 4.2), so the nodes a node holds
    in [m_children] are the ones placed before it.  The result is the
    success flag and the vector as it is left to the caller: reordered on
    success, untouched on failure. *)
Definition Sort (nodes : list Node) : bool * list Node :=
  match Reduce (Before nodes) (length nodes) (seq 0 (length nodes)) with
  | Some order => (true, map (NodeAt nodes) order)
  | None => (false, nodes)
  end.

End TopologicalSorter.

(** ** Schema model *)

(** [TypeID], [HeaderID] and [ProjectID] wrap a string identifier; the
    default-constructed (empty) identifier is the invalid one. *)
Definition TypeID := string.
Definition HeaderID := string.
Definition ProjectID := string.

Definition IsValid (id : string) : bool := negb (String.eqb id EmptyString).

(** The core type identifiers the generator names, and the rest of them. *)
Inductive CoreTypeID : Type :=
| Uint8 | Int8 | Uint16 | Int16 | Uint32 | Int32
| ResourcePtr | TResourcePtr
| OtherCoreType (name : string).

(** The type identifier of a property: a core type or a reflected type. *)
Inductive PropertyTypeID : Type :=
| CoreType (id : CoreTypeID)
| ReflectedTypeID (id : TypeID).

Definition IsCoreType (id : PropertyTypeID) : bool :=
  match id with CoreType _ => true | ReflectedTypeID _ => false end.

Definition IsResourcePtrType (id : PropertyTypeID) : bool :=
  match id with
  | CoreType TResourcePtr | CoreType ResourcePtr => true
  | _ => false
  end.

Inductive ArrayCategory : Type := NotAnArray | StaticArray | DynamicArray.

Module ReflectedProperty.

Record t : Type := mk {
  m_name : string;
  m_typeName : string;
  m_typeID : PropertyTypeID;
  m_arrayCategory : ArrayCategory;
  m_arraySize : nat;
  m_isDevOnly : bool;
  m_isEnum : bool;
  m_isBitFlags : bool
}.

Definition IsArrayProperty (p : t) : bool :=
  match m_arrayCategory p with NotAnArray => false | _ => true end.

Definition IsDynamicArrayProperty (p : t) : bool :=
  match m_arrayCategory p with DynamicArray => true | _ => false end.

Definition IsEnumProperty (p : t) : bool := m_isEnum p.
Definition IsBitFlagsProperty (p : t) : bool := m_isBitFlags p.

(** A property that holds a reflected structure: neither a core type, nor
    an enumeration, nor bit flags. *)
Definition IsStructureProperty (p : t) : bool :=
  negb (IsCoreType (m_typeID p)) && negb (IsEnumProperty p) && negb (IsBitFlagsProperty p).

End ReflectedProperty.

Module ReflectedEnumConstant.

Record t : Type := mk {
  m_label : string;
  m_value : Z;
  m_description : string
}.

Definition empty : t := mk EmptyString 0%Z EmptyString.

End ReflectedEnumConstant.

Module ReflectedType.

Record t : Type := mk {
  m_ID : TypeID;
  m_parentID : TypeID;
  m_namespace : string;
  m_name : string;
  m_isDevOnly : bool;
  m_isAbstract : bool;
  m_isEnum : bool;
  m_isEntityComponent : bool;
  m_underlyingType : CoreTypeID;
  m_enumConstants : list ReflectedEnumConstant.t;
  m_properties : list ReflectedProperty.t
}.

Definition empty : t :=
  mk EmptyString EmptyString EmptyString EmptyString false false false false Uint8 [] [].

Definition IsAbstract (type : t) : bool := m_isAbstract type.
Definition IsEnum (type : t) : bool := m_isEnum type.
Definition IsEntityComponent (type : t) : bool := m_isEntityComponent type.
Definition HasProperties (type : t) : bool :=
  match m_properties type with [] => false | _ :: _ => true end.

(** Modelled from the spec: [ReflectedType::HasResourcePtrOrStructProperties],
    declared outside the sources at hand.  Section 4.3: the resource
    methods have a body only if the type has at least one resource-pointer
    property or at least one nested structure property. *)
Definition HasResourcePtrOrStructProperties (type : t) : bool :=
  existsb
    (fun p => IsResourcePtrType (ReflectedProperty.m_typeID p)
              || ReflectedProperty.IsStructureProperty p)
    (m_properties type).

(** [m_namespace + m_name]. *)
Definition fullTypeName (type : t) : string := m_namespace type +++ m_name type.

(** The identifier used in the names of the free registration functions. *)
Definition typenameStr (type : t) : string :=
  Text.ReplaceScopeSeparators (m_namespace type +++ m_name type).

End ReflectedType.

Module ReflectedHeader.

Record t : Type := mk {
  m_ID : HeaderID;
  m_path : string;
  m_typeInfoPath : string
}.

End ReflectedHeader.

Module ReflectedProject.

Record t : Type := mk {
  m_ID : ProjectID;
  m_name : string;
  m_moduleClassName : string;
  m_exportMacro : string;
  m_headerFiles : list ReflectedHeader.t;
  m_dependencyCount : Z;
  m_isToolsProject : bool;
  m_moduleHeaderID : HeaderID
}.

Definition moduleStr (project : t) : string :=
  Text.ReplaceScopeSeparators (m_moduleClassName project).

End ReflectedProject.

Module ReflectedResourceType.

Record t : Type := mk {
  m_typeID : TypeID;
  m_resourceTypeID : string;
  m_friendlyName : string;
  m_parents : list TypeID;
  m_isDevOnly : bool
}.

End ReflectedResourceType.

Module ReflectedDataFileType.

Record t : Type := mk {
  m_typeID : TypeID;
  m_extensionFourCC : nat;
  m_friendlyName : string
}.

End ReflectedDataFileType.

(** The read accessors of the reflection database the generator uses. *)
Module ReflectionDatabase.

Record t : Type := mk {
  GetReflectedProjects : list ReflectedProject.t;
  GetAllTypesForHeader : HeaderID -> list ReflectedType.t;
  GetAllTypesForProject : ProjectID -> list ReflectedType.t;
  GetType : TypeID -> option ReflectedType.t;
  GetAllRegisteredResourceTypes : list ReflectedResourceType.t;
  GetAllRegisteredDataFileTypes : list ReflectedDataFileType.t
}.

End ReflectionDatabase.

Inductive CompilationMode : Type := Runtime | Tools.

(** ** Type ordering pass *)

(** The inner loop of [SortTypesByDependencies]: the children pushed onto
    [list[i]], in increasing [j]. *)
Definition DependencyChildren (structureTypes : list ReflectedType.t) (i : nat) : list nat :=
  filter
    (fun j =>
       negb (Nat.eqb i j) &&
       String.eqb (ReflectedType.m_ID (nth j structureTypes ReflectedType.empty))
                  (ReflectedType.m_parentID (nth i structureTypes ReflectedType.empty)))
    (seq 0 (length structureTypes)).

Definition DependencyNodes (structureTypes : list ReflectedType.t) : list TopologicalSorter.Node :=
  map (fun i => TopologicalSorter.mkNode i (DependencyChildren structureTypes i))
      (seq 0 (length structureTypes)).

(** [SortTypesByDependencies]: the returned flag and the caller's vector
    after the call. *)
Definition SortTypesByDependencies (structureTypes : list ReflectedType.t)
  : bool * list ReflectedType.t :=
  let numTypes := length structureTypes in
  if (numTypes <=? 1)%nat then (true, structureTypes)
  else
    match TopologicalSorter.Sort (DependencyNodes structureTypes) with
    | (false, _) => (false, structureTypes)
    | (true, sorted) =>
        (true,
         map (fun node => nth (TopologicalSorter.m_ID node) structureTypes ReflectedType.empty)
             sorted)
    end.

(** ** Generated text *)

(** How a chunk of generated text stands with respect to the
    development-tools conditional compilation: it opens a guarded region
    ([#if EE_DEVELOPMENT_TOOLS]), closes one ([#endif]), is one statement
    inside the [EE_DEVELOPMENT_TOOLS_ONLY( )] macro, or is none of these. *)
Inductive Directive : Type :=
| NoDirective
| OpenDevTools
| CloseDevTools
| MacroDevTools.

Inductive TypeFunction : Type := RegisterType | CreateDefaultInstance | UnregisterType.

Inductive ModuleFunction : Type := RegisterTypes | CreateDefaultInstances | UnregisterTypes.

(** One [stream << ...;] statement of the generator: the text it appends,
    and how that text stands with respect to the conditional compilation. *)
Record Line : Type := mkLine {
  text : string;
  directive : Directive
}.

Definition T (s : string) : Line := mkLine s NoDirective.

(** The characters of a generated file. *)
Definition Render (lines : list Line) : string :=
  fold_right (fun l s => text l +++ s) EmptyString lines.

(** What is left of generated text once the preprocessor has run with
    [EE_DEVELOPMENT_TOOLS] off: guarded regions, nested or not, and
    statements inside the macro are gone.  [depth] counts the guarded
    regions that are open. *)
Fixpoint Preprocess (depth : nat) (lines : list Line) : list Line :=
  match lines with
  | [] => []
  | l :: rest =>
      match directive l with
      | OpenDevTools => Preprocess (S depth) rest
      | CloseDevTools => Preprocess (pred depth) rest
      | MacroDevTools => Preprocess depth rest
      | NoDirective =>
          match depth with
          | O => l :: Preprocess depth rest
          | S _ => Preprocess depth rest
          end
      end
  end.

Definition RuntimeBuild (lines : list Line) : list Line := Preprocess 0 lines.

(** ** Reading the generated text *)

(** What the generated files declare, define, call and register is read
    from their characters. *)

(** [Reverse s]: the characters of [s] from the last to the first. *)
Fixpoint Reverse (s : string) : string :=
  match s with
  | EmptyString => EmptyString
  | String c r => Reverse r +++ String c EmptyString
  end.

(** [StripPrefix p s]: what follows [p] in [s], when [s] starts with [p]. *)
Fixpoint StripPrefix (p s : string) : option string :=
  match p with
  | EmptyString => Some s
  | String a p' =>
      match s with
      | String b s' => if Ascii.eqb a b then StripPrefix p' s' else None
      | EmptyString => None
      end
  end.

(** [StripSuffix suffix s]: what stands before [suffix] in [s], when [s]
    ends with [suffix]. *)
Definition StripSuffix (suffix s : string) : option string :=
  match StripPrefix (Reverse suffix) (Reverse s) with
  | Some r => Some (Reverse r)
  | None => None
  end.

(** [Between p suffix s]: what stands between [p] and [suffix] in [s],
    when [s] starts with [p] and what follows ends with [suffix]. *)
Definition Between (p suffix s : string) : option string :=
  match StripPrefix p s with
  | Some r => StripSuffix suffix r
  | None => None
  end.

(** [Clash p s]: [p] and [s] differ at a position both have, so that
    neither starts with the other. *)
Fixpoint Clash (p s : string) : bool :=
  match p, s with
  | String a p', String b s' => if Ascii.eqb a b then Clash p' s' else true
  | _, _ => false
  end.

(** The same from the end. *)
Definition ClashEnd (suffix s : string) : bool := Clash (Reverse suffix) (Reverse s).

(** A way to read a chunk of text: what it starts with, what it ends
    with, and what to make of the characters between the two. *)
Record Pattern (A : Type) : Type := mkPattern {
  m_prefix : string;
  m_suffix : string;
  m_found : string -> A
}.

Arguments mkPattern {A} _ _ _.
Arguments m_prefix {A} _.
Arguments m_suffix {A} _.
Arguments m_found {A} _ _.

(** The reading of the first pattern that fits. *)
Fixpoint ReadFirst {A : Type} (patterns : list (Pattern A)) (s : string) : option A :=
  match patterns with
  | [] => None
  | pattern :: rest =>
      match Between (m_prefix pattern) (m_suffix pattern) s with
      | Some x => Some (m_found pattern x)
      | None => ReadFirst rest s
      end
  end.

(** What a reader finds in the chunks of a file, in the order of the text. *)
Fixpoint Collect {A : Type} (read : string -> option A) (lines : list Line) : list A :=
  match lines with
  | [] => []
  | l :: rest =>
      match read (text l) with
      | Some a => a :: Collect read rest
      | None => Collect read rest
      end
  end.

(** A chunk the reader does not read. *)
Definition Unread {A : Type} (read : string -> option A) (l : Line) : Prop :=
  read (text l) = None.

(** *** Guarded regions *)

Definition IsBlank (c : ascii) : bool := Ascii.eqb c " " || Ascii.eqb c (ascii_of_nat 10).

(** [s] without the blanks and line feeds it starts with. *)
Fixpoint SkipBlanks (s : string) : string :=
  match s with
  | EmptyString => EmptyString
  | String c r => if IsBlank c then SkipBlanks r else s
  end.

(** The chunk is the directive [#if EE_DEVELOPMENT_TOOLS] on a line of its
    own, indented or not: the chunk ends its line, or it starts with a
    line feed and leaves the line to be ended by the next chunk. *)
Definition OpensRegion (s : string) : bool :=
  String.eqb (SkipBlanks s) ("#if EE_DEVELOPMENT_TOOLS" +++ Text.nl)
  || String.eqb (SkipBlanks s) "#if EE_DEVELOPMENT_TOOLS".

(** The chunk is the directive [#endif] on a line of its own, followed or
    not by an empty line. *)
Definition ClosesRegion (s : string) : bool :=
  String.eqb (SkipBlanks s) ("#endif" +++ Text.nl)
  || String.eqb (SkipBlanks s) ("#endif" +++ Text.nl +++ Text.nl).


(** A chunk whose characters open or close a region exactly when it is
    marked as doing so. *)
Definition GuardLegible (l : Line) : Prop :=
  OpensRegion (text l) = match directive l with OpenDevTools => true | _ => false end
  /\ ClosesRegion (text l) = match directive l with CloseDevTools => true | _ => false end.

(** *** Per-type functions *)

(** A declaration, a definition or a call of a per-type function is read
    as the characters that stand for the name of the type, together with
    whether the statement stands inside [EE_DEVELOPMENT_TOOLS_ONLY( )]. *)
Definition Plainly (n : string) : string * bool := (n, false).
Definition InMacro (n : string) : string * bool := (n, true).

(** The calls of the per-type functions in the type-info source file of a
    project. *)
Definition TypeCallPatterns (f : TypeFunction) : list (Pattern (string * bool)) :=
  match f with
  | RegisterType =>
      [ mkPattern "        RegisterType_" ("( typeRegistry );" +++ Text.nl) Plainly;
        mkPattern "        EE_DEVELOPMENT_TOOLS_ONLY( RegisterType_"
                  ("( typeRegistry ) );" +++ Text.nl) InMacro ]
  | CreateDefaultInstance =>
      [ mkPattern "        CreateDefaultInstance_" ("();" +++ Text.nl) Plainly;
        mkPattern "        EE_DEVELOPMENT_TOOLS_ONLY( CreateDefaultInstance_"
                  ("() );" +++ Text.nl) InMacro ]
  | UnregisterType =>
      [ mkPattern "        UnregisterType_" ("( typeRegistry );" +++ Text.nl) Plainly;
        mkPattern "        EE_DEVELOPMENT_TOOLS_ONLY( UnregisterType_"
                  ("( typeRegistry ) );" +++ Text.nl) InMacro ]
  end.

Definition ReadTypeCall (f : TypeFunction) : string -> option (string * bool) :=
  ReadFirst (TypeCallPatterns f).

Definition TypeCalls (f : TypeFunction) (lines : list Line) : list (string * bool) :=
  Collect (ReadTypeCall f) lines.


(** The declarations of the per-type functions in the type-info header
    file of a project. *)
Definition TypeDeclarationPatterns (f : TypeFunction) : list (Pattern (string * bool)) :=
  match f with
  | RegisterType =>
      [ mkPattern "    void RegisterType_"
                  ("( TypeSystem::TypeRegistry& typeRegistry );" +++ Text.nl) Plainly;
        mkPattern "    EE_DEVELOPMENT_TOOLS_ONLY( void RegisterType_"
                  ("( TypeSystem::TypeRegistry& typeRegistry ) );" +++ Text.nl) InMacro ]
  | CreateDefaultInstance =>
      [ mkPattern "    void CreateDefaultInstance_" ("();" +++ Text.nl) Plainly;
        mkPattern "    EE_DEVELOPMENT_TOOLS_ONLY( void CreateDefaultInstance_"
                  ("() );" +++ Text.nl) InMacro ]
  | UnregisterType =>
      [ mkPattern "    void UnregisterType_"
                  ("( TypeSystem::TypeRegistry& typeRegistry );" +++ Text.nl +++ Text.nl) Plainly;
        mkPattern "    EE_DEVELOPMENT_TOOLS_ONLY( void UnregisterType_"
                  ("( TypeSystem::TypeRegistry& typeRegistry ) );" +++ Text.nl +++ Text.nl) InMacro ]
  end.

Definition ReadTypeDeclaration (f : TypeFunction) : string -> option (string * bool) :=
  ReadFirst (TypeDeclarationPatterns f).

Definition DeclaredTypes (f : TypeFunction) (lines : list Line) : list (string * bool) :=
  Collect (ReadTypeDeclaration f) lines.

(** The declarations of one kind of per-type function, in the order of the
    text. *)
Definition DeclaredTypeFunctions (f : TypeFunction) (lines : list Line) : list string :=
  map fst (DeclaredTypes f lines).

(** The definitions of the per-type functions in the type-info file of a
    header: what stands between [void RegisterType_] and the call of the
    static member function that ends the body is the name of the type, the
    parameters and the class the function forwards to. *)
Definition TypeDefinitionPatterns (f : TypeFunction) : list (Pattern (string * bool)) :=
  match f with
  | RegisterType =>
      [ mkPattern "    void RegisterType_"
                  (">::RegisterType( typeRegistry ); }" +++ Text.nl) Plainly;
        mkPattern "    EE_DEVELOPMENT_TOOLS_ONLY( void RegisterType_"
                  (">::RegisterType( typeRegistry ); } );" +++ Text.nl) InMacro ]
  | CreateDefaultInstance =>
      [ mkPattern "    void CreateDefaultInstance_"
                  (">::CreateDefaultInstance(); };" +++ Text.nl) Plainly;
        mkPattern "    EE_DEVELOPMENT_TOOLS_ONLY( void CreateDefaultInstance_"
                  (">::CreateDefaultInstance(); } );" +++ Text.nl) InMacro ]
  | UnregisterType =>
      [ mkPattern "    void UnregisterType_"
                  (">::UnregisterType( typeRegistry ); }" +++ Text.nl) Plainly;
        mkPattern "    EE_DEVELOPMENT_TOOLS_ONLY( void UnregisterType_"
                  (">::UnregisterType( typeRegistry ); } );" +++ Text.nl) InMacro ]
  end.

Definition ReadTypeDefinition (f : TypeFunction) : string -> option (string * bool) :=
  ReadFirst (TypeDefinitionPatterns f).

Definition TypeDefinitions (f : TypeFunction) (lines : list Line) : list (string * bool) :=
  Collect (ReadTypeDefinition f) lines.

(** The definitions of one kind of per-type function, in the order of the
    text. *)
Definition DefinedTypeFunctions (f : TypeFunction) (lines : list Line) : list string :=
  map fst (TypeDefinitions f lines).

(** A chunk of the type info of a type that is not the definition of a
    per-type function, and whose characters open or close a region
    exactly when it is marked so. *)
Definition Quiet (l : Line) : Prop :=
  GuardLegible l /\ forall f, Unread (ReadTypeDefinition f) l.

(** *** Per-project functions and includes *)

(** The calls of the per-project functions in an aggregate file. *)
Definition ModuleCallPattern (f : ModuleFunction) : Pattern string :=
  match f with
  | RegisterTypes =>
      mkPattern "        " ("_RegisterTypes( typeRegistry );" +++ Text.nl) (fun n => n)
  | CreateDefaultInstances =>
      mkPattern "        " ("_CreateDefaultInstances();" +++ Text.nl) (fun n => n)
  | UnregisterTypes =>
      mkPattern "        " ("_UnregisterTypes( typeRegistry );" +++ Text.nl) (fun n => n)
  end.

(** The calls of one kind of per-project function, in the order of the text. *)
Definition ReadModuleCall (f : ModuleFunction) : string -> option string :=
  ReadFirst [ModuleCallPattern f].

Definition CalledModuleFunctions (f : ModuleFunction) (lines : list Line) : list string :=
  Collect (ReadModuleCall f) lines.

(** The files a file includes, in the order of the text. *)
Definition ReadInclude : string -> option string :=
  ReadFirst [mkPattern ("#include " +++ Text.dq) (Text.dq +++ Text.nl) (fun path => path)].

Definition IncludedFiles (lines : list Line) : list string := Collect ReadInclude lines.

(** A chunk that is neither the call of a per-project function nor an
    include directive. *)
Definition NoProjectStatement (l : Line) : Prop :=
  (forall f, Unread (ReadModuleCall f) l) /\ Unread ReadInclude l.

(** *** Resource types *)

(** What a statement of the generated resource registration functions
    does to the registry or to the local [resourceInfo]. *)
Inductive RegistryStatement : Type :=
| AssignsResourceTypeID (resourceTypeID : string)
| RegistersResourceInfo
| UnregistersResourceTypeID (resourceTypeID : string).

Definition RegistryStatementPatterns : list (Pattern RegistryStatement) :=
  [ mkPattern ("        resourceInfo.m_resourceTypeID = ResourceTypeID( " +++ Text.dq)
              (Text.dq +++ " );" +++ Text.nl) AssignsResourceTypeID;
    mkPattern "        typeRegistry.RegisterResourceTypeID( resourceInfo );" Text.nl
              (fun _ => RegistersResourceInfo);
    mkPattern ("        typeRegistry.UnregisterResourceTypeID( ResourceTypeID( " +++ Text.dq)
              (Text.dq +++ " ) );" +++ Text.nl) UnregistersResourceTypeID ].

Definition ReadRegistryStatement : string -> option RegistryStatement :=
  ReadFirst RegistryStatementPatterns.





(** *** The constant table of an enumeration *)

(** The number a string of decimal digits stands for. *)
Definition ParseNat (s : string) : option nat :=
  match NilZero.uint_of_string s with
  | Some d => Some (Nat.of_uint d)
  | None => None
  end.

Definition ReadConstantLabel : string -> option string :=
  ReadFirst [mkPattern ("            constantInfo.m_ID = StringID( " +++ Text.dq)
                       (Text.dq +++ " );" +++ Text.nl) (fun label => label)].


Definition ReadAlphabeticalOrder (s : string) : option nat :=
  match Between "            constantInfo.m_alphabeticalOrder = " (";" +++ Text.nl) s with
  | Some digits => ParseNat digits
  | None => None
  end.


(** ** Generator state *)

Record GeneratedFile : Type := mkGeneratedFile {
  m_path : string;
  m_contents : list Line
}.

Module CodeGenerator.

(** The mutable members of the generator. *)
Record t : Type := mk {
  m_generatedFiles : list GeneratedFile;
  m_errorMessage : string;
  m_warningMessage : string
}.

Definition initial : t := mk [] EmptyString EmptyString.

End CodeGenerator.

(** A member function either returns, leaving the generator in a state, or
    halts the process ([EE_ASSERT], [EE_HALT], [EE_UNREACHABLE_CODE]). *)
Inductive Result (A : Type) : Type :=
| Returned (a : A) (g : CodeGenerator.t)
| Halted.

Arguments Returned {A} a g.
Arguments Halted {A}.

Definition Gen (A : Type) : Type := CodeGenerator.t -> Result A.

Definition ret {A : Type} (a : A) : Gen A := fun g => Returned a g.

Definition bind {A B : Type} (c : Gen A) (k : A -> Gen B) : Gen B :=
  fun g => match c g with
           | Returned a g' => k a g'
           | Halted => Halted
           end.

Notation "x <- c ;; k" := (bind c (fun x => k))
  (at level 61, c at next level, right associativity).

Definition halt {A : Type} : Gen A := fun _ => Halted.

(** The state after an error has been logged: the message, cut to the
    256-byte buffer of [LogError], replaces the last error. *)
Definition WithError (g : CodeGenerator.t) (message : string) : CodeGenerator.t :=
  CodeGenerator.mk (CodeGenerator.m_generatedFiles g)
                   (Text.Truncate 255 message)
                   (CodeGenerator.m_warningMessage g).

(** The state after a file has been added at the end of the generated
    files. *)
Definition WithFile (g : CodeGenerator.t) (path : string) (contents : list Line)
  : CodeGenerator.t :=
  CodeGenerator.mk (CodeGenerator.m_generatedFiles g ++ [mkGeneratedFile path contents])
                   (CodeGenerator.m_errorMessage g)
                   (CodeGenerator.m_warningMessage g).

(** [LogError]: records the formatted message and returns [false]. *)
Definition LogError (message : string) : Gen bool :=
  fun g => Returned false (WithError g message).

(** [m_generatedFiles.emplace_back()] followed by the two assignments. *)
Definition EmplaceFile (path : string) (contents : list Line) : Gen unit :=
  fun g => Returned tt (WithFile g path contents).

(** ** What the generator takes from elsewhere *)

(** What the composers below take as given: the library sort and the path
    and naming accessors of the schema records, which the sources at hand
    do not define, and the text of the per-type emitters of a structure,
    which [SourceExternals] gives further down as the source writes it. *)
Class Externals : Type := {
  (** [eastl::sort( first, last, compare )]. *)
  eastl_sort : forall A : Type, (A -> A -> bool) -> list A -> list A;
  (** [project.GetModuleHeader()->m_path]. *)
  GetModuleHeaderPath : ReflectedProject.t -> string;
  GetTypeInfoHeaderFilePath : ReflectedProject.t -> string;
  GetTypeInfoSourceFilePath : ReflectedProject.t -> string;
  GetRuntimeTypeRegistrationPath : string -> string;
  GetToolsTypeRegistrationPath : string -> string;
  GetFriendlyName : ReflectedType.t -> string;
  GetInternalNamespace : ReflectedType.t -> string;
  GetCategory : ReflectedType.t -> string;
  (** [GenerateTypeInfoStaticTypeRegistrationMethods]. *)
  StaticTypeRegistrationMethods : ReflectedType.t -> list Line;
  (** From [GenerateTypeInfoConstructor] to [GenerateTypeInfoUnloadResourcesMethod]. *)
  MethodsBeforeLoadingStatus : ReflectedType.t -> ReflectedType.t -> list Line;
  (** From [GenerateTypeInfoResourceUnloadingStatusMethod] to
      [GenerateTypeInfoSetToDefaultValueMethod]. *)
  MethodsAfterLoadingStatus : ReflectedType.t -> list Line
}.

Local Abbreviation nl := Text.nl.
Local Abbreviation dq := Text.dq.

(** ** Enumeration emitter *)

(** [v[i] = x] on a vector; an index past the end leaves it as it is. *)
Fixpoint Assign {A : Type} (i : nat) (x : A) (v : list A) : list A :=
  match v, i with
  | [], _ => []
  | _ :: r, O => x :: r
  | y :: r, S j => y :: Assign j x r
  end.

(** Modelled from the spec: the comparison [<] of two constant labels; the
    type of [m_label] is declared outside the sources at hand.  Section
    4.3 of the specification: the constants are sorted by label
    lexicographically. *)
Definition LabelLess (a b : string) : bool := String.ltb a b.

(** The [Comparator] lambda of [GenerateEnumTypeInfo]: constant [a] sorts
    before constant [b] when its label is the smaller one. *)
Definition Comparator (typeInfo : ReflectedType.t) (a b : nat) : bool :=
  LabelLess
    (ReflectedEnumConstant.m_label (nth a (ReflectedType.m_enumConstants typeInfo) ReflectedEnumConstant.empty))
    (ReflectedEnumConstant.m_label (nth b (ReflectedType.m_enumConstants typeInfo) ReflectedEnumConstant.empty)).

(** The loop [sortedOrder[sortingConstantIndices[i]] = i], for [i] from
    [i0] on. *)
Fixpoint FillSortedOrder (sortingConstantIndices : list nat) (i0 : nat) (sortedOrder : list nat)
  : list nat :=
  match sortingConstantIndices with
  | [] => sortedOrder
  | k :: rest => FillSortedOrder rest (S i0) (Assign k i0 sortedOrder)
  end.

Section EnumTypeInfo.

Context {E : Externals}.

(** The sorted list of constant indices. *)
Definition SortingConstantIndices (typeInfo : ReflectedType.t) : list nat :=
  eastl_sort nat (Comparator typeInfo)
    (seq 0 (length (ReflectedType.m_enumConstants typeInfo))).

(** The final order for each constant. *)
Definition SortedOrder (typeInfo : ReflectedType.t) : list nat :=
  let sortingConstantIndices := SortingConstantIndices typeInfo in
  FillSortedOrder sortingConstantIndices 0 (repeat 0 (length sortingConstantIndices)).

(** The [switch] on the underlying type; [None] is the halting default. *)
Definition UnderlyingTypeLine (id : CoreTypeID) : option Line :=
  match id with
  | Uint8 => Some (T ("            enumInfo.m_underlyingType = TypeSystem::CoreTypeID::Uint8;" +++ nl))
  | Int8 => Some (T ("            enumInfo.m_underlyingType = TypeSystem::CoreTypeID::Int8;" +++ nl))
  | Uint16 => Some (T ("            enumInfo.m_underlyingType = TypeSystem::CoreTypeID::Uint16;" +++ nl))
  | Int16 => Some (T ("            enumInfo.m_underlyingType = TypeSystem::CoreTypeID::Int16;" +++ nl))
  | Uint32 => Some (T ("            enumInfo.m_underlyingType = TypeSystem::CoreTypeID::Uint32;" +++ nl))
  | Int32 => Some (T ("            enumInfo.m_underlyingType = TypeSystem::CoreTypeID::Int32;" +++ nl))
  | _ => None
  end.

(** One turn of the loop over the constants: the entry of constant [c],
    whose final order is [order]. *)
Definition ConstantEntry (c : ReflectedEnumConstant.t) (order : nat) : list Line :=
  let escapedDescription := Text.EscapeQuotes (ReflectedEnumConstant.m_description c) in
  [ T nl;
    T ("            constantInfo.m_ID = StringID( " +++ dq +++ ReflectedEnumConstant.m_label c +++ dq +++ " );" +++ nl);
    T ("            constantInfo.m_value = " +++ Text.of_Z (ReflectedEnumConstant.m_value c) +++ ";" +++ nl);
    T ("            constantInfo.m_alphabeticalOrder = " +++ Text.of_nat order +++ ";" +++ nl);
    mkLine ("            EE_DEVELOPMENT_TOOLS_ONLY( constantInfo.m_description = " +++ dq +++ escapedDescription +++ dq +++ " );" +++ nl)
           MacroDevTools;
    T ("            enumInfo.m_constants.emplace_back( constantInfo );" +++ nl) ].

(** The loop over the constants, from index [i] on. *)
Fixpoint ConstantTable (constants : list ReflectedEnumConstant.t) (i : nat) (sortedOrder : list nat)
  : list Line :=
  match constants with
  | [] => []
  | c :: rest => ConstantEntry c (nth i sortedOrder 0) ++ ConstantTable rest (S i) sortedOrder
  end.

Definition EnumVirtualMethods : list Line :=
  [ T ("        virtual void CopyProperties( IReflectedType* pTypeInstance, IReflectedType const* pRHS ) const override { EE_HALT(); }" +++ nl);
    T ("        virtual IReflectedType* CreateType() const override { EE_HALT(); return nullptr; }" +++ nl);
    T ("        virtual void CreateTypeInPlace( IReflectedType* pAllocatedMemory ) const override { EE_HALT(); }" +++ nl);
    T ("        virtual void ResetType(IReflectedType* pTypeInstance ) const override { EE_HALT(); }" +++ nl);
    T ("        virtual void LoadResources( Resource::ResourceSystem* pResourceSystem, Resource::ResourceRequesterID const& requesterID, IReflectedType * pType ) const override { EE_HALT(); }" +++ nl);
    T ("        virtual void UnloadResources( Resource::ResourceSystem* pResourceSystem, Resource::ResourceRequesterID const& requesterID, IReflectedType * pType ) const override { EE_HALT(); }" +++ nl);
    T ("        virtual LoadingStatus GetResourceLoadingStatus( IReflectedType* pType ) const override { EE_HALT(); return LoadingStatus::Failed; }" +++ nl);
    T ("        virtual LoadingStatus GetResourceUnloadingStatus( IReflectedType* pType ) const override { EE_HALT(); return LoadingStatus::Failed; }" +++ nl);
    T ("        virtual ResourceTypeID GetExpectedResourceTypeForProperty( IReflectedType * pType, uint64_t propertyID ) const override { EE_HALT(); return ResourceTypeID(); }" +++ nl);
    T ("        virtual void GetReferencedResources( IReflectedType const* pType, TVector<ResourceID>&outReferencedResources ) const override {};" +++ nl);
    T ("        virtual uint8_t* GetArrayElementDataPtr( IReflectedType* pTypeInstance, uint64_t arrayID, size_t arrayIdx ) const override { EE_HALT(); return 0; }" +++ nl);
    T ("        virtual size_t GetArraySize( IReflectedType const* pTypeInstance, uint64_t arrayID ) const override { EE_HALT(); return 0; }" +++ nl);
    T ("        virtual size_t GetArrayElementSize( uint64_t arrayID ) const override { EE_HALT(); return 0; }" +++ nl);
    T ("        virtual void SetArraySize( IReflectedType* pTypeInstance, uint64_t arrayID, size_t size ) const override { EE_HALT(); }" +++ nl);
    T ("        virtual void ClearArray( IReflectedType* pTypeInstance, uint64_t arrayID ) const override { EE_HALT(); }" +++ nl);
    T ("        virtual void AddArrayElement( IReflectedType* pTypeInstance, uint64_t arrayID ) const override { EE_HALT(); }" +++ nl);
    T ("        virtual void InsertArrayElement( IReflectedType* pTypeInstance, uint64_t arrayID, size_t insertIdx ) const override { EE_HALT(); }" +++ nl);
    T ("        virtual void MoveArrayElement( IReflectedType* pTypeInstance, uint64_t arrayID, size_t originalElementIdx, size_t newElementIdx ) const override { EE_HALT(); }" +++ nl);
    T ("        virtual void RemoveArrayElement( IReflectedType* pTypeInstance, uint64_t arrayID, size_t arrayIdx ) const override { EE_HALT(); }" +++ nl);
    T ("        virtual bool AreAllPropertyValuesEqual( IReflectedType const* pTypeInstance, IReflectedType const* pOtherTypeInstance ) const override { EE_HALT(); return false; }" +++ nl);
    T ("        virtual bool IsPropertyValueEqual( IReflectedType const* pTypeInstance, IReflectedType const* pOtherTypeInstance, uint64_t propertyID, int32_t arrayIdx = InvalidIndex ) const override { EE_HALT(); return false; }" +++ nl);
    T ("        virtual void ResetToDefault( IReflectedType* pTypeInstance, uint64_t propertyID ) const override { EE_HALT(); }" +++ nl) ].

(** The text between the two development-tools tests of
    [GenerateEnumTypeInfo], given the line of the underlying type. *)
Definition EnumTypeInfoBody (typeInfo : ReflectedType.t) (underlying : Line) : list Line :=
  let fullTypeName := ReflectedType.fullTypeName typeInfo in
  [ T ("namespace EE::TypeSystem" +++ nl);
    T ("{" +++ nl);
    T ("    template<>" +++ nl);
    T ("    class TTypeInfo<" +++ fullTypeName +++ "> final : public TypeInfo" +++ nl);
    T ("    {" +++ nl);
    T ("        static TypeInfo* s_pInstance;" +++ nl +++ nl);
    T ("    public:" +++ nl +++ nl);
    T ("        static void RegisterType( TypeSystem::TypeRegistry& typeRegistry )" +++ nl);
    T ("        {" +++ nl);
    T ("            EE_ASSERT( s_pInstance == nullptr );" +++ nl);
    T ("            s_pInstance = EE::New< TTypeInfo<" +++ fullTypeName +++ ">>();" +++ nl);
    T ("            s_pInstance->m_ID = TypeSystem::TypeID( " +++ dq +++ fullTypeName +++ dq +++ " );" +++ nl);
    T ("            s_pInstance->m_size = sizeof( " +++ fullTypeName +++ " );" +++ nl);
    T ("            s_pInstance->m_alignment = alignof( " +++ fullTypeName +++ " );" +++ nl);
    T ("            typeRegistry.RegisterType( s_pInstance );" +++ nl +++ nl);
    T ("            TypeSystem::EnumInfo enumInfo;" +++ nl);
    T ("            enumInfo.m_ID = TypeSystem::TypeID( " +++ dq +++ fullTypeName +++ dq +++ " );" +++ nl);
    underlying;
    T nl;
    T ("            //-------------------------------------------------------------------------" +++ nl +++ nl);
    T ("            TypeSystem::EnumInfo::ConstantInfo constantInfo;" +++ nl) ]
  ++ ConstantTable (ReflectedType.m_enumConstants typeInfo) 0 (SortedOrder typeInfo)
  ++ [ T nl;
       T ("            //-------------------------------------------------------------------------" +++ nl +++ nl);
       T ("            typeRegistry.RegisterEnum( enumInfo );" +++ nl);
       T ("        }" +++ nl +++ nl);
       T ("        static void UnregisterType( TypeSystem::TypeRegistry& typeRegistry )" +++ nl);
       T ("        {" +++ nl);
       T ("            EE_ASSERT( s_pInstance != nullptr );" +++ nl);
       T ("            typeRegistry.UnregisterEnum( s_pInstance->m_ID );" +++ nl);
       T ("            typeRegistry.UnregisterType( s_pInstance );" +++ nl);
       T ("            EE::Delete( s_pInstance );" +++ nl);
       T ("        }" +++ nl +++ nl);
       T ("    public:" +++ nl +++ nl);
       T ("        TTypeInfo()" +++ nl);
       T ("        {" +++ nl);
       T ("            m_ID = TypeSystem::TypeID( " +++ dq +++ fullTypeName +++ dq +++ " );" +++ nl);
       T ("            m_size = sizeof( " +++ fullTypeName +++ " );" +++ nl);
       T ("            m_alignment = alignof( " +++ fullTypeName +++ " );" +++ nl +++ nl);
       mkLine ("            EE_DEVELOPMENT_TOOLS_ONLY( m_friendlyName = " +++ dq +++ GetFriendlyName typeInfo +++ dq +++ " );" +++ nl)
              MacroDevTools;
       mkLine ("            EE_DEVELOPMENT_TOOLS_ONLY( m_namespace = " +++ dq +++ GetInternalNamespace typeInfo +++ dq +++ " );" +++ nl)
              MacroDevTools;
       mkLine ("            EE_DEVELOPMENT_TOOLS_ONLY( m_category = " +++ dq +++ GetCategory typeInfo +++ dq +++ " );" +++ nl)
              MacroDevTools;
       T ("        }" +++ nl +++ nl) ]
  ++ EnumVirtualMethods
  ++ [ T ("    };" +++ nl +++ nl);
       T ("    TypeInfo* TTypeInfo<" +++ fullTypeName +++ ">::s_pInstance = nullptr;" +++ nl);
       T ("}" +++ nl) ].

Definition EnumBanner (typeInfo : ReflectedType.t) : list Line :=
  [ T ("//-------------------------------------------------------------------------" +++ nl);
    T ("// Enum Info: " +++ ReflectedType.fullTypeName typeInfo +++ nl);
    T ("//-------------------------------------------------------------------------" +++ nl +++ nl) ].

(** [GenerateEnumTypeInfo]: the text appended to the stream, or [None]
    when the [switch] on the underlying type halts. *)
Definition GenerateEnumTypeInfo (exportMacro : string) (typeInfo : ReflectedType.t)
  : option (list Line) :=
  match UnderlyingTypeLine (ReflectedType.m_underlyingType typeInfo) with
  | None => None
  | Some underlying =>
      Some
        (EnumBanner typeInfo
         ++ (if ReflectedType.m_isDevOnly typeInfo
             then [mkLine ("#if EE_DEVELOPMENT_TOOLS" +++ nl) OpenDevTools] else [])
         ++ EnumTypeInfoBody typeInfo underlying
         ++ (if ReflectedType.m_isDevOnly typeInfo
             then [mkLine ("#endif" +++ nl) CloseDevTools] else [])
         ++ [T nl])
  end.

End EnumTypeInfo.

(** ** Resource loading-status emitter *)

(** The statements [GenerateTypeInfoResourceLoadingStatusMethod] writes
    into the body of the generated [GetResourceLoadingStatus]. *)
Inductive StatusStatement : Type :=
| ResourcePtrCheck (name : string)
| ResourcePtrElementCheck (name : string) (i : nat)
| ResourcePtrLoop (name : string)
| StructureCheck (typeName name : string)
| StructureElementCheck (typeName name : string) (i : nat)
| StructureLoop (typeName name : string)
| GuardOpen
| GuardClose
| BlankLine.

(** The text of each statement. *)
Definition StatusStatementText (s : StatusStatement) : list Line :=
  match s with
  | ResourcePtrCheck name =>
      [ T ("                if ( pActualType->" +++ name +++ ".HasLoadingFailed() )" +++ nl);
        T ("                {" +++ nl);
        T ("                    status = LoadingStatus::Failed;" +++ nl);
        T ("                }" +++ nl);
        T ("                else if ( pActualType->" +++ name +++ ".IsSet() && !pActualType->" +++ name +++ ".IsLoaded() )" +++ nl);
        T ("                {" +++ nl);
        T ("                    return LoadingStatus::Loading;" +++ nl);
        T ("                }" +++ nl) ]
  | ResourcePtrElementCheck name i =>
      [ T ("                if ( pActualType->" +++ name +++ "[" +++ Text.of_nat i +++ "].HasLoadingFailed() )" +++ nl);
        T ("                {" +++ nl);
        T ("                    status = LoadingStatus::Failed;" +++ nl);
        T ("                }" +++ nl);
        T ("                else if ( pActualType->" +++ name +++ ".IsSet() && !pActualType->" +++ name +++ "[" +++ Text.of_nat i +++ "].IsLoaded() )" +++ nl);
        T ("                {" +++ nl);
        T ("                    return LoadingStatus::Loading;" +++ nl);
        T ("                }" +++ nl) ]
  | ResourcePtrLoop name =>
      [ T ("                for ( auto const& resourcePtr : pActualType->" +++ name +++ " )" +++ nl);
        T ("                {" +++ nl);
        T ("                    if ( resourcePtr.HasLoadingFailed() )" +++ nl);
        T ("                    {" +++ nl);
        T ("                        status = LoadingStatus::Failed;" +++ nl);
        T ("                    }" +++ nl);
        T ("                    else if ( resourcePtr.IsSet() && !resourcePtr.IsLoaded() )" +++ nl);
        T ("                    {" +++ nl);
        T ("                        return LoadingStatus::Loading;" +++ nl);
        T ("                    }" +++ nl);
        T ("                }" +++ nl) ]
  | StructureCheck typeName name =>
      [ T ("                status = " +++ typeName +++ "::s_pTypeInfo->GetResourceLoadingStatus( &pActualType->" +++ name +++ " );" +++ nl);
        T ("                if ( status == LoadingStatus::Loading )" +++ nl);
        T ("                {" +++ nl);
        T ("                    return LoadingStatus::Loading;" +++ nl);
        T ("                }" +++ nl) ]
  | StructureElementCheck typeName name i =>
      [ T ("                status = " +++ typeName +++ "::s_pTypeInfo->GetResourceLoadingStatus( &pActualType->" +++ name +++ "[" +++ Text.of_nat i +++ "] ); " +++ nl);
        T ("                if ( status == LoadingStatus::Loading )" +++ nl);
        T ("                {" +++ nl);
        T ("                    return LoadingStatus::Loading;" +++ nl);
        T ("                }" +++ nl) ]
  | StructureLoop typeName name =>
      [ T ("                for ( auto& propertyValue : pActualType->" +++ name +++ " )" +++ nl);
        T ("                {" +++ nl);
        T ("                    status = " +++ typeName +++ "::s_pTypeInfo->GetResourceLoadingStatus( &propertyValue );" +++ nl);
        T ("                    if ( status == LoadingStatus::Loading )" +++ nl);
        T ("                    {" +++ nl);
        T ("                        return LoadingStatus::Loading;" +++ nl);
        T ("                    }" +++ nl);
        T ("                }" +++ nl) ]
  | GuardOpen => [ mkLine ("                #if EE_DEVELOPMENT_TOOLS" +++ nl) OpenDevTools ]
  | GuardClose => [ mkLine ("                #endif" +++ nl) CloseDevTools ]
  | BlankLine => [ T nl ]
  end.

(** One turn of the loop over [type.m_properties]. *)
Definition PropertyStatusStatements (propertyDesc : ReflectedProperty.t) : list StatusStatement :=
  let name := ReflectedProperty.m_name propertyDesc in
  let typeName := ReflectedProperty.m_typeName propertyDesc in
  if IsResourcePtrType (ReflectedProperty.m_typeID propertyDesc) then
    (if ReflectedProperty.m_isDevOnly propertyDesc then [GuardOpen] else [])
    ++ (if ReflectedProperty.IsArrayProperty propertyDesc then
          if ReflectedProperty.IsDynamicArrayProperty propertyDesc
          then [ResourcePtrLoop name]
          else map (ResourcePtrElementCheck name) (seq 0 (ReflectedProperty.m_arraySize propertyDesc))
        else [ResourcePtrCheck name])
    ++ (if ReflectedProperty.m_isDevOnly propertyDesc then [GuardClose] else [])
    ++ [BlankLine]
  else if negb (IsCoreType (ReflectedProperty.m_typeID propertyDesc))
          && negb (ReflectedProperty.IsEnumProperty propertyDesc)
          && negb (ReflectedProperty.IsBitFlagsProperty propertyDesc) then
    (if ReflectedProperty.m_isDevOnly propertyDesc then [GuardOpen] else [])
    ++ (if ReflectedProperty.IsArrayProperty propertyDesc then
          if ReflectedProperty.IsDynamicArrayProperty propertyDesc
          then [StructureLoop typeName name]
          else map (StructureElementCheck typeName name) (seq 0 (ReflectedProperty.m_arraySize propertyDesc))
        else [StructureCheck typeName name])
    ++ (if ReflectedProperty.m_isDevOnly propertyDesc then [GuardClose] else [])
    ++ [BlankLine]
  else [].

(** The statements between the declaration of [status] and [return status]. *)
Definition LoadingStatusStatements (type : ReflectedType.t) : list StatusStatement :=
  if ReflectedType.HasResourcePtrOrStructProperties type
  then flat_map PropertyStatusStatements (ReflectedType.m_properties type)
  else [].

(** [GenerateTypeInfoResourceLoadingStatusMethod]: the text appended. *)
Definition GenerateTypeInfoResourceLoadingStatusMethod (type : ReflectedType.t) : list Line :=
  [ T ("            virtual LoadingStatus GetResourceLoadingStatus( IReflectedType* pType ) const override final" +++ nl);
    T ("            {" +++ nl);
    T ("                LoadingStatus status = LoadingStatus::Loaded;" +++ nl) ]
  ++ (if ReflectedType.HasResourcePtrOrStructProperties type
      then [ T nl;
             T ("                auto pActualType = reinterpret_cast<" +++ ReflectedType.m_namespace type +++ ReflectedType.m_name type +++ "*>( pType );" +++ nl +++ nl) ]
      else [])
  ++ flat_map StatusStatementText (LoadingStatusStatements type)
  ++ [ T ("                return status;" +++ nl);
       T ("            }" +++ nl +++ nl) ].

(** *** What the generated method computes *)

Inductive LoadingStatus : Type := Loading | Loaded | Failed.

(** What the generated code asks of a resource pointer. *)
Record ResourcePtrState : Type := mkResourcePtr {
  HasLoadingFailed : bool;
  IsSet : bool;
  IsLoaded : bool
}.

(** The object behind [pActualType], as the generated code sees it: its
    resource-pointer members, alone or in arrays, and the loading status
    that the type info of each nested structure reports for it.  For a
    fixed-size array of resource pointers the generated text asks [IsSet]
    of the member itself, not of the element; [m_arrayIsSet] is the answer. *)
Record Instance : Type := mkInstance {
  m_resourcePtr : string -> ResourcePtrState;
  m_resourcePtrArray : string -> list ResourcePtrState;
  m_arrayIsSet : string -> bool;
  m_structureStatus : string -> LoadingStatus;
  m_structureArrayStatus : string -> list LoadingStatus
}.

(** Control after a statement: go on with a value of [status], or leave
    the function with a value. *)
Inductive Flow : Type :=
| GoOn (status : LoadingStatus)
| Return (value : LoadingStatus).

(** [if ( failed ) status = Failed; else if ( isSet && !loaded ) return Loading;] *)
Definition CheckResourcePtr (failed isSet loaded : bool) (status : LoadingStatus) : Flow :=
  if failed then GoOn Failed
  else if isSet && negb loaded then Return Loading
  else GoOn status.

(** [status = nested; if ( status == Loading ) return Loading;] *)
Definition CheckStructure (nested : LoadingStatus) : Flow :=
  match nested with
  | Loading => Return Loading
  | _ => GoOn nested
  end.

Fixpoint ForEachResourcePtr (elements : list ResourcePtrState) (status : LoadingStatus) : Flow :=
  match elements with
  | [] => GoOn status
  | r :: rest =>
      match CheckResourcePtr (HasLoadingFailed r) (IsSet r) (IsLoaded r) status with
      | GoOn status' => ForEachResourcePtr rest status'
      | Return v => Return v
      end
  end.

Fixpoint ForEachStructure (elements : list LoadingStatus) (status : LoadingStatus) : Flow :=
  match elements with
  | [] => GoOn status
  | nested :: rest =>
      match CheckStructure nested with
      | GoOn status' => ForEachStructure rest status'
      | Return v => Return v
      end
  end.

Definition emptyResourcePtr : ResourcePtrState := mkResourcePtr false false false.

Definition RunStatement (pActualType : Instance) (s : StatusStatement) (status : LoadingStatus)
  : Flow :=
  match s with
  | ResourcePtrCheck name =>
      let r := m_resourcePtr pActualType name in
      CheckResourcePtr (HasLoadingFailed r) (IsSet r) (IsLoaded r) status
  | ResourcePtrElementCheck name i =>
      let r := nth i (m_resourcePtrArray pActualType name) emptyResourcePtr in
      CheckResourcePtr (HasLoadingFailed r) (m_arrayIsSet pActualType name) (IsLoaded r) status
  | ResourcePtrLoop name => ForEachResourcePtr (m_resourcePtrArray pActualType name) status
  | StructureCheck _ name => CheckStructure (m_structureStatus pActualType name)
  | StructureElementCheck _ name i =>
      CheckStructure (nth i (m_structureArrayStatus pActualType name) Loaded)
  | StructureLoop _ name => ForEachStructure (m_structureArrayStatus pActualType name) status
  | GuardOpen | GuardClose | BlankLine => GoOn status
  end.

(** The statements in sequence.  [developmentTools] says whether
    [EE_DEVELOPMENT_TOOLS] is on; [skipping] whether a guarded region that
    is compiled out is open. *)
Fixpoint RunStatements (developmentTools : bool) (pActualType : Instance)
  (skipping : bool) (body : list StatusStatement) (status : LoadingStatus) : LoadingStatus :=
  match body with
  | [] => status
  | GuardOpen :: rest =>
      RunStatements developmentTools pActualType (negb developmentTools) rest status
  | GuardClose :: rest => RunStatements developmentTools pActualType false rest status
  | s :: rest =>
      if skipping then RunStatements developmentTools pActualType skipping rest status
      else
        match RunStatement pActualType s status with
        | GoOn status' => RunStatements developmentTools pActualType skipping rest status'
        | Return v => v
        end
  end.

(** The generated [GetResourceLoadingStatus] of [type], called on an
    instance. *)
Definition GetResourceLoadingStatus (developmentTools : bool) (type : ReflectedType.t)
  (pType : Instance) : LoadingStatus :=
  RunStatements developmentTools pType false (LoadingStatusStatements type) Loaded.

(** ** Composers *)

(** The outcome of a loop that appends text and may stop early: the text,
    a logged error, or a halt of the process. *)
Inductive Emission : Type :=
| Emitted (lines : list Line)
| Rejected (message : string)
| Aborted.

Section Composers.

Context {E : Externals}.

(** [m_pDatabase] and [m_solutionDirectoryPath]. *)
Variable m_pDatabase : ReflectionDatabase.t.
Variable m_solutionDirectoryPath : string.

(** *** Structure type info *)

Definition StructureBanner (typeInfo : ReflectedType.t) : list Line :=
  [ T ("//-------------------------------------------------------------------------" +++ nl);
    T ("// TypeInfo: " +++ ReflectedType.fullTypeName typeInfo +++ nl);
    T ("//-------------------------------------------------------------------------" +++ nl +++ nl) ].

(** The text between the two development-tools tests of
    [GenerateStructureTypeInfo]. *)
Definition StructureTypeInfoBody (typeInfo parentType : ReflectedType.t) : list Line :=
  [ T ("namespace EE" +++ nl);
    T ("{" +++ nl);
    T ("    namespace TypeSystem" +++ nl);
    T ("    {" +++ nl);
    T ("        template<>" +++ nl);
    T ("        class TTypeInfo<" +++ ReflectedType.fullTypeName typeInfo +++ "> final : public TypeInfo" +++ nl);
    T ("        {" +++ nl);
    T ("        public:" +++ nl +++ nl) ]
  ++ StaticTypeRegistrationMethods typeInfo
  ++ [ T ("        public:" +++ nl +++ nl) ]
  ++ MethodsBeforeLoadingStatus typeInfo parentType
  ++ GenerateTypeInfoResourceLoadingStatusMethod typeInfo
  ++ MethodsAfterLoadingStatus typeInfo
  ++ [ T ("        };" +++ nl);
       T ("    }" +++ nl);
       T ("}" +++ nl) ].

Definition GenerateStructureTypeInfo (exportMacro : string) (typeInfo parentType : ReflectedType.t)
  : list Line :=
  StructureBanner typeInfo
  ++ (if ReflectedType.m_isDevOnly typeInfo
      then [mkLine ("#if EE_DEVELOPMENT_TOOLS" +++ nl) OpenDevTools] else [])
  ++ StructureTypeInfoBody typeInfo parentType
  ++ (if ReflectedType.m_isDevOnly typeInfo
      then [mkLine ("#endif" +++ nl) CloseDevTools] else [])
  ++ [T nl].

(** *** Entity component methods *)

Definition ComponentBanner (typeInfo : ReflectedType.t) : list Line :=
  [ T ("//-------------------------------------------------------------------------" +++ nl);
    T ("// Component: " +++ ReflectedType.fullTypeName typeInfo +++ nl);
    T ("//-------------------------------------------------------------------------" +++ nl +++ nl) ].

Definition ComponentMethods (typeInfo : ReflectedType.t) : list Line :=
  let fullTypeName := ReflectedType.fullTypeName typeInfo in
  if ReflectedType.IsEntityComponent typeInfo then
    [ T ("void " +++ fullTypeName +++ "::Load( EntityModel::LoadingContext const& context, Resource::ResourceRequesterID const& requesterID )" +++ nl);
      T ("{" +++ nl) ]
    ++ (if ReflectedType.HasProperties typeInfo
        then [ T ("    " +++ fullTypeName +++ "::s_pTypeInfo->LoadResources( context.m_pResourceSystem, requesterID, this );" +++ nl);
               T ("    m_status = Status::Loading;" +++ nl) ]
        else [ T ("    m_status = Status::Loaded;" +++ nl) ])
    ++ [ T ("}" +++ nl);
         T nl;
         T ("void " +++ fullTypeName +++ "::Unload( EntityModel::LoadingContext const& context, Resource::ResourceRequesterID const& requesterID )" +++ nl);
         T ("{" +++ nl) ]
    ++ (if ReflectedType.HasProperties typeInfo
        then [ T ("    " +++ fullTypeName +++ "::s_pTypeInfo->UnloadResources( context.m_pResourceSystem, requesterID, this );" +++ nl) ]
        else [])
    ++ [ T ("    m_status = Status::Unloaded;" +++ nl);
         T ("}" +++ nl);
         T nl;
         T ("void " +++ fullTypeName +++ "::UpdateLoading()" +++ nl);
         T ("{" +++ nl);
         T ("    if( m_status == Status::Loading )" +++ nl);
         T ("    {" +++ nl) ]
    ++ (if ReflectedType.HasProperties typeInfo
        then [ T ("        auto const resourceLoadingStatus = " +++ fullTypeName +++ "::s_pTypeInfo->GetResourceLoadingStatus( this );" +++ nl);
               T ("        if ( resourceLoadingStatus == LoadingStatus::Loading )" +++ nl);
               T ("        {" +++ nl);
               T ("           return; // Something is still loading so early-out" +++ nl);
               T ("        }" +++ nl +++ nl);
               T ("        if ( resourceLoadingStatus == LoadingStatus::Failed )" +++ nl);
               T ("        {" +++ nl);
               T ("           m_status = EntityComponent::Status::LoadingFailed;" +++ nl);
               T ("        }" +++ nl);
               T ("        else" +++ nl);
               T ("        {" +++ nl);
               T ("           m_status = EntityComponent::Status::Loaded;" +++ nl);
               T ("        }" +++ nl) ]
        else [ T ("        m_status = EntityComponent::Status::Loaded;" +++ nl) ])
    ++ [ T ("    }" +++ nl);
         T ("}" +++ nl) ]
  else [].

Definition GenerateComponentCodegen (typeInfo : ReflectedType.t) : list Line :=
  ComponentBanner typeInfo
  ++ (if ReflectedType.m_isDevOnly typeInfo
      then [mkLine ("#if EE_DEVELOPMENT_TOOLS" +++ nl) OpenDevTools] else [])
  ++ ComponentMethods typeInfo
  ++ (if ReflectedType.m_isDevOnly typeInfo
      then [mkLine ("#endif" +++ nl) CloseDevTools] else [])
  ++ [T nl].

(** *** Per-header composer *)

(** The definitions of the free registration functions of one type. *)
Definition TypeRegistrationFunctions (typeInfo : ReflectedType.t) : list Line :=
  let typenameStr := ReflectedType.typenameStr typeInfo in
  let m_namespace := ReflectedType.m_namespace typeInfo in
  let m_name := ReflectedType.m_name typeInfo in
  if ReflectedType.m_isDevOnly typeInfo then
    [ mkLine ("    EE_DEVELOPMENT_TOOLS_ONLY( void RegisterType_" +++ typenameStr +++ "( TypeSystem::TypeRegistry& typeRegistry ) { TypeSystem::TTypeInfo<" +++ m_namespace +++ m_name +++ ">::RegisterType( typeRegistry ); } );" +++ nl)
             MacroDevTools ]
    ++ (if negb (ReflectedType.IsAbstract typeInfo) && negb (ReflectedType.IsEnum typeInfo)
        then [ mkLine ("    EE_DEVELOPMENT_TOOLS_ONLY( void CreateDefaultInstance_" +++ typenameStr +++ "() { TypeSystem::TTypeInfo<" +++ m_namespace +++ m_name +++ ">::CreateDefaultInstance(); } );" +++ nl)
                      MacroDevTools ]
        else [])
    ++ [ mkLine ("    EE_DEVELOPMENT_TOOLS_ONLY( void UnregisterType_" +++ typenameStr +++ "( TypeSystem::TypeRegistry& typeRegistry ) { TypeSystem::TTypeInfo<" +++ m_namespace +++ m_name +++ ">::UnregisterType( typeRegistry ); } );" +++ nl)
                MacroDevTools ]
  else
    [ T ("    void RegisterType_" +++ typenameStr +++ "( TypeSystem::TypeRegistry& typeRegistry ) { TypeSystem::TTypeInfo<" +++ m_namespace +++ m_name +++ ">::RegisterType( typeRegistry ); }" +++ nl) ]
    ++ (if negb (ReflectedType.IsAbstract typeInfo) && negb (ReflectedType.IsEnum typeInfo)
        then [ T ("    void CreateDefaultInstance_" +++ typenameStr +++ "() { TypeSystem::TTypeInfo<" +++ m_namespace +++ m_name +++ ">::CreateDefaultInstance(); };" +++ nl) ]
        else [])
    ++ [ T ("    void UnregisterType_" +++ typenameStr +++ "( TypeSystem::TypeRegistry& typeRegistry ) { TypeSystem::TTypeInfo<" +++ m_namespace +++ m_name +++ ">::UnregisterType( typeRegistry ); }" +++ nl) ].

(** The message of the parent validation. *)
Definition InvalidParentMessage (typeInfo : ReflectedType.t) : string :=
  "Invalid parent hierarchy for type (" +++ ReflectedType.fullTypeName typeInfo
  +++ "), all registered types must derived from a registered type.".

(** The type info of one type: the first part of a turn of the loop over
    [typesInHeader]. *)
Definition TypeInfoBlock (project : ReflectedProject.t) (typeInfo : ReflectedType.t) : Emission :=
  if ReflectedType.IsEnum typeInfo then
    match GenerateEnumTypeInfo (ReflectedProject.m_exportMacro project) typeInfo with
    | Some lines => Emitted lines
    | None => Aborted
    end
  else if negb (IsValid (ReflectedType.m_parentID typeInfo)) then
    Rejected (InvalidParentMessage typeInfo)
  else
    match ReflectionDatabase.GetType m_pDatabase (ReflectedType.m_parentID typeInfo) with
    | None => Aborted
    | Some pParentTypeInfo =>
        Emitted (GenerateStructureTypeInfo (ReflectedProject.m_exportMacro project) typeInfo pParentTypeInfo)
    end.

(** What follows the type info in a turn of the loop. *)
Definition TypeBlockTail (typeInfo : ReflectedType.t) : list Line :=
  (if ReflectedType.IsEntityComponent typeInfo then GenerateComponentCodegen typeInfo else [])
  ++ [ T ("namespace EE" +++ nl);
       T ("{" +++ nl) ]
  ++ TypeRegistrationFunctions typeInfo
  ++ [ T ("}" +++ nl +++ nl) ].

(** The loop over [typesInHeader]. *)
Fixpoint HeaderTypeBlocks (project : ReflectedProject.t) (typesInHeader : list ReflectedType.t)
  : Emission :=
  match typesInHeader with
  | [] => Emitted []
  | typeInfo :: rest =>
      match TypeInfoBlock project typeInfo with
      | Emitted info =>
          match HeaderTypeBlocks project rest with
          | Emitted lines => Emitted (info ++ TypeBlockTail typeInfo ++ lines)
          | stopped => stopped
          end
      | stopped => stopped
      end
  end.

Definition HeaderFilePreamble (header : ReflectedHeader.t) : list Line :=
  [ T ("#pragma once" +++ nl +++ nl);
    T ("//*************************************************************************" +++ nl);
    T ("// This is an auto-generated file - DO NOT edit" +++ nl);
    T ("//*************************************************************************" +++ nl +++ nl);
    T ("#include " +++ dq +++ ReflectedHeader.m_path header +++ dq +++ nl);
    T ("#include " +++ dq +++ "Base/TypeSystem/TypeRegistry.h" +++ dq +++ nl);
    T ("#include " +++ dq +++ "Base/TypeSystem/EnumInfo.h" +++ dq +++ nl);
    T ("#include " +++ dq +++ "Base/Resource/ResourceTypeID.h" +++ dq +++ nl);
    T ("#include " +++ dq +++ "Base/Resource/ResourceSystem.h" +++ dq +++ nl +++ nl) ].

Definition GenerateTypeInfoFileForHeader (project : ReflectedProject.t) (header : ReflectedHeader.t)
  (typesInHeader : list ReflectedType.t) (outputPath : string) : Gen bool :=
  match HeaderTypeBlocks project typesInHeader with
  | Rejected message => LogError message
  | Aborted => halt
  | Emitted lines =>
      _ <- EmplaceFile outputPath (HeaderFilePreamble header ++ lines) ;;
      ret true
  end.

(** *** Per-project composer *)

(** One turn of the loop over the sorted types in
    [GenerateProjectTypeInfoHeaderFile]. *)
Definition TypeDeclarations (type : ReflectedType.t) : list Line :=
  let typenameStr := ReflectedType.typenameStr type in
  if ReflectedType.m_isDevOnly type then
    [ mkLine ("    EE_DEVELOPMENT_TOOLS_ONLY( void RegisterType_" +++ typenameStr +++ "( TypeSystem::TypeRegistry& typeRegistry ) );" +++ nl)
             MacroDevTools ]
    ++ (if negb (ReflectedType.IsAbstract type) && negb (ReflectedType.IsEnum type)
        then [ mkLine ("    EE_DEVELOPMENT_TOOLS_ONLY( void CreateDefaultInstance_" +++ typenameStr +++ "() );" +++ nl)
                      MacroDevTools ]
        else [])
    ++ [ mkLine ("    EE_DEVELOPMENT_TOOLS_ONLY( void UnregisterType_" +++ typenameStr +++ "( TypeSystem::TypeRegistry& typeRegistry ) );" +++ nl +++ nl)
                MacroDevTools ]
  else
    [ T ("    void RegisterType_" +++ typenameStr +++ "( TypeSystem::TypeRegistry& typeRegistry );" +++ nl) ]
    ++ (if negb (ReflectedType.IsAbstract type) && negb (ReflectedType.IsEnum type)
        then [ T ("    void CreateDefaultInstance_" +++ typenameStr +++ "();" +++ nl) ]
        else [])
    ++ [ T ("    void UnregisterType_" +++ typenameStr +++ "( TypeSystem::TypeRegistry& typeRegistry );" +++ nl +++ nl) ].

Definition ProjectTypeInfoHeaderLines (project : ReflectedProject.t)
  (typesInProject : list ReflectedType.t) : list Line :=
  let moduleStr := ReflectedProject.moduleStr project in
  [ T ("//-------------------------------------------------------------------------" +++ nl);
    T ("// This is an auto-generated file - DO NOT edit" +++ nl);
    T ("//-------------------------------------------------------------------------" +++ nl);
    T ("// Generated For: " +++ GetModuleHeaderPath project +++ nl +++ nl);
    T ("#include " +++ dq +++ "../../API.h" +++ dq +++ nl);
    T ("#include " +++ dq +++ "Base/Esoterica.h" +++ dq +++ nl +++ nl);
    T ("//-------------------------------------------------------------------------" +++ nl +++ nl);
    T ("namespace EE" +++ nl);
    T ("{" +++ nl);
    T ("    namespace TypeSystem { class TypeRegistry; }" +++ nl +++ nl);
    T ("    //-------------------------------------------------------------------------" +++ nl +++ nl) ]
  ++ flat_map TypeDeclarations typesInProject
  ++ [ T ("    //-------------------------------------------------------------------------" +++ nl +++ nl);
       T ("    " +++ ReflectedProject.m_exportMacro project +++ " void " +++ moduleStr +++ "_RegisterTypes( TypeSystem::TypeRegistry& typeRegistry );" +++ nl);
       T ("    " +++ ReflectedProject.m_exportMacro project +++ " void " +++ moduleStr +++ "_CreateDefaultInstances();" +++ nl);
       T ("    " +++ ReflectedProject.m_exportMacro project +++ " void " +++ moduleStr +++ "_UnregisterTypes( TypeSystem::TypeRegistry& typeRegistry );" +++ nl);
       T "}" ].

Definition CyclicDependencyMessage (project : ReflectedProject.t) : string :=
  "Cyclic header dependency detected in project: " +++ ReflectedProject.m_name project.

Definition GenerateProjectTypeInfoHeaderFile (project : ReflectedProject.t) : Gen bool :=
  match SortTypesByDependencies
          (ReflectionDatabase.GetAllTypesForProject m_pDatabase (ReflectedProject.m_ID project)) with
  | (false, _) => LogError (CyclicDependencyMessage project)
  | (true, typesInProject) =>
      _ <- EmplaceFile (GetTypeInfoHeaderFilePath project)
                       (ProjectTypeInfoHeaderLines project typesInProject) ;;
      ret true
  end.

(** The turns of the three loops of [GenerateProjectTypeInfoSourceFile]. *)
Definition RegisterTypeCall (type : ReflectedType.t) : Line :=
  let typenameStr := ReflectedType.typenameStr type in
  if ReflectedType.m_isDevOnly type
  then mkLine ("        EE_DEVELOPMENT_TOOLS_ONLY( RegisterType_" +++ typenameStr +++ "( typeRegistry ) );" +++ nl)
              MacroDevTools
  else T ("        RegisterType_" +++ typenameStr +++ "( typeRegistry );" +++ nl).

Definition CreateDefaultInstanceCall (type : ReflectedType.t) : list Line :=
  let typenameStr := ReflectedType.typenameStr type in
  if ReflectedType.IsAbstract type || ReflectedType.IsEnum type then []
  else if ReflectedType.m_isDevOnly type
  then [ mkLine ("        EE_DEVELOPMENT_TOOLS_ONLY( CreateDefaultInstance_" +++ typenameStr +++ "() );" +++ nl)
                MacroDevTools ]
  else [ T ("        CreateDefaultInstance_" +++ typenameStr +++ "();" +++ nl) ].

Definition UnregisterTypeCall (type : ReflectedType.t) : Line :=
  let typenameStr := ReflectedType.typenameStr type in
  if ReflectedType.m_isDevOnly type
  then mkLine ("        EE_DEVELOPMENT_TOOLS_ONLY( UnregisterType_" +++ typenameStr +++ "( typeRegistry ) );" +++ nl)
              MacroDevTools
  else T ("        UnregisterType_" +++ typenameStr +++ "( typeRegistry );" +++ nl).

Definition ProjectTypeInfoSourceLines (project : ReflectedProject.t)
  (typesInProject : list ReflectedType.t) : list Line :=
  let moduleStr := ReflectedProject.moduleStr project in
  [ T ("//-------------------------------------------------------------------------" +++ nl);
    T ("// This is an auto-generated file - DO NOT edit" +++ nl);
    T ("//-------------------------------------------------------------------------" +++ nl +++ nl);
    T ("#include " +++ dq +++ GetTypeInfoHeaderFilePath project +++ dq +++ nl +++ nl);
    T ("//-------------------------------------------------------------------------" +++ nl +++ nl);
    T ("namespace EE" +++ nl);
    T ("{" +++ nl);
    T ("    void " +++ moduleStr +++ "_RegisterTypes( TypeSystem::TypeRegistry& typeRegistry )" +++ nl);
    T ("    {" +++ nl) ]
  ++ map RegisterTypeCall typesInProject
  ++ [ T ("    }" +++ nl +++ nl);
       T ("    void " +++ moduleStr +++ "_CreateDefaultInstances()" +++ nl);
       T ("    {" +++ nl) ]
  ++ flat_map CreateDefaultInstanceCall typesInProject
  ++ [ T ("    }" +++ nl +++ nl);
       T ("    void " +++ moduleStr +++ "_UnregisterTypes( TypeSystem::TypeRegistry& typeRegistry )" +++ nl);
       T ("    {" +++ nl) ]
  ++ map UnregisterTypeCall (rev typesInProject)
  ++ [ T ("    }" +++ nl);
       T "}" ].

Definition GenerateProjectTypeInfoSourceFile (project : ReflectedProject.t) : Gen bool :=
  match SortTypesByDependencies
          (ReflectionDatabase.GetAllTypesForProject m_pDatabase (ReflectedProject.m_ID project)) with
  | (false, _) => LogError (CyclicDependencyMessage project)
  | (true, typesInProject) =>
      _ <- EmplaceFile (GetTypeInfoSourceFilePath project)
                       (ProjectTypeInfoSourceLines project typesInProject) ;;
      ret true
  end.

(** The loop over [project.m_headerFiles] in [GenerateCodeForProject]. *)
Fixpoint GenerateHeaderFiles (project : ReflectedProject.t) (headers : list ReflectedHeader.t)
  : Gen bool :=
  match headers with
  | [] => ret true
  | header :: rest =>
      if String.eqb (ReflectedHeader.m_ID header) (ReflectedProject.m_moduleHeaderID project)
      then GenerateHeaderFiles project rest
      else
        let typesInHeader :=
          ReflectionDatabase.GetAllTypesForHeader m_pDatabase (ReflectedHeader.m_ID header) in
        match typesInHeader with
        | [] => GenerateHeaderFiles project rest
        | _ :: _ =>
            ok <- GenerateTypeInfoFileForHeader project header typesInHeader
                    (ReflectedHeader.m_typeInfoPath header) ;;
            if ok then GenerateHeaderFiles project rest else ret false
        end
  end.

(** [GenerateCodeForProject].  The directory of the generated files is
    made on disk first; the file system is not part of the state here. *)
Definition GenerateCodeForProject (project : ReflectedProject.t) : Gen bool :=
  ok <- GenerateHeaderFiles project (ReflectedProject.m_headerFiles project) ;;
  if negb ok then ret false
  else
    ok <- GenerateProjectTypeInfoHeaderFile project ;;
    if negb ok then ret false
    else
      ok <- GenerateProjectTypeInfoSourceFile project ;;
      if negb ok then ret false
      else ret true.

(** *** Resource and data file registration *)

(** The [GetResourceTypeIDForTypeID] lambda; [None] is the unreachable
    code after the loop. *)
Definition GetResourceTypeIDForTypeID (registeredResourceTypes : list ReflectedResourceType.t)
  (typeID : TypeID) : option string :=
  match find (fun r => String.eqb (ReflectedResourceType.m_typeID r) typeID)
             registeredResourceTypes with
  | Some r => Some (ReflectedResourceType.m_resourceTypeID r)
  | None => None
  end.

(** The loop over [registeredResourceType.m_parents]. *)
Fixpoint ParentTypeLines (registeredResourceTypes : list ReflectedResourceType.t)
  (parents : list TypeID) : option (list Line) :=
  match parents with
  | [] => Some []
  | parentType :: rest =>
      match GetResourceTypeIDForTypeID registeredResourceTypes parentType with
      | None => None
      | Some resourceTypeID =>
          match ParentTypeLines registeredResourceTypes rest with
          | None => None
          | Some lines =>
              Some (T ("        resourceInfo.m_parentTypes.emplace_back( ResourceTypeID( " +++ dq +++ resourceTypeID +++ dq +++ " ) );" +++ nl)
                    :: lines)
          end
      end
  end.

(** One turn of the registration loop for a resource type that is not
    skipped. *)
Definition ResourceRegistration (registeredResourceTypes : list ReflectedResourceType.t)
  (rt : ReflectedResourceType.t) : option (list Line) :=
  match ParentTypeLines registeredResourceTypes (ReflectedResourceType.m_parents rt) with
  | None => None
  | Some parentLines =>
      Some
        ([ T nl;
           T ("        resourceInfo.m_typeID = TypeSystem::TypeID( " +++ dq +++ ReflectedResourceType.m_typeID rt +++ dq +++ ");" +++ nl);
           T ("        resourceInfo.m_resourceTypeID = ResourceTypeID( " +++ dq +++ ReflectedResourceType.m_resourceTypeID rt +++ dq +++ " );" +++ nl);
           T ("        resourceInfo.m_parentTypes.clear();" +++ nl) ]
         ++ parentLines
         ++ [ mkLine ("        EE_DEVELOPMENT_TOOLS_ONLY( resourceInfo.m_friendlyName = " +++ dq +++ ReflectedResourceType.m_friendlyName rt +++ dq +++ " );" +++ nl)
                     MacroDevTools;
              T ("        typeRegistry.RegisterResourceTypeID( resourceInfo );" +++ nl) ])
  end.

(** The registration loop. *)
Fixpoint ResourceRegistrations (mode : CompilationMode)
  (registeredResourceTypes rts : list ReflectedResourceType.t) : option (list Line) :=
  match rts with
  | [] => Some []
  | rt :: rest =>
      if (match mode with Runtime => true | Tools => false end)
         && ReflectedResourceType.m_isDevOnly rt
      then ResourceRegistrations mode registeredResourceTypes rest
      else
        match ResourceRegistration registeredResourceTypes rt with
        | None => None
        | Some block =>
            match ResourceRegistrations mode registeredResourceTypes rest with
            | None => None
            | Some lines => Some (block ++ lines)
            end
        end
  end.

(** One turn of the unregistration loop. *)
Definition ResourceUnregistration (mode : CompilationMode) (rt : ReflectedResourceType.t)
  : list Line :=
  if (match mode with Runtime => true | Tools => false end)
     && ReflectedResourceType.m_isDevOnly rt
  then []
  else [ T ("        typeRegistry.UnregisterResourceTypeID( ResourceTypeID( " +++ dq +++ ReflectedResourceType.m_resourceTypeID rt +++ dq +++ " ) );" +++ nl) ].

(** [GenerateResourceRegistrationMethods]: the text appended to the stream,
    or [None] when a parent is not a registered resource type. *)
Definition GenerateResourceRegistrationMethods (mode : CompilationMode) : option (list Line) :=
  let registeredResourceTypes := ReflectionDatabase.GetAllRegisteredResourceTypes m_pDatabase in
  match ResourceRegistrations mode registeredResourceTypes registeredResourceTypes with
  | None => None
  | Some registrations =>
      Some
        ([ T ("    inline void RegisterResourceTypes( TypeSystem::TypeRegistry& typeRegistry )" +++ nl);
           T ("    {" +++ nl) ]
         ++ (match registeredResourceTypes with
             | [] => []
             | _ :: _ => [ T ("        TypeSystem::ResourceInfo resourceInfo;" +++ nl) ]
             end)
         ++ registrations
         ++ [ T ("    }" +++ nl +++ nl);
              T ("    inline void UnregisterResourceTypes( TypeSystem::TypeRegistry& typeRegistry )" +++ nl);
              T ("    {" +++ nl) ]
         ++ flat_map (ResourceUnregistration mode) (rev registeredResourceTypes)
         ++ [ T ("    }" +++ nl) ])
  end.

Definition DataFileRegistration (dt : ReflectedDataFileType.t) : list Line :=
  [ T nl;
    T ("        dataFileInfo.m_typeID = TypeSystem::TypeID( " +++ dq +++ ReflectedDataFileType.m_typeID dt +++ dq +++ ");" +++ nl);
    T ("        dataFileInfo.m_extensionFourCC = " +++ Text.of_nat (ReflectedDataFileType.m_extensionFourCC dt) +++ ";" +++ nl);
    T ("        dataFileInfo.m_friendlyName = " +++ dq +++ ReflectedDataFileType.m_friendlyName dt +++ dq +++ ";" +++ nl);
    T ("        typeRegistry.RegisterDataFileInfo( dataFileInfo );" +++ nl) ].

Definition GenerateDataFileRegistrationMethods : list Line :=
  let registeredResourceTypes := ReflectionDatabase.GetAllRegisteredDataFileTypes m_pDatabase in
  [ T ("    inline void RegisterDataFileTypes( TypeSystem::TypeRegistry& typeRegistry )" +++ nl);
    T ("    {" +++ nl) ]
  ++ (match registeredResourceTypes with
      | [] => []
      | _ :: _ => [ T ("        TypeSystem::DataFileInfo dataFileInfo;" +++ nl) ]
      end)
  ++ flat_map DataFileRegistration registeredResourceTypes
  ++ [ T ("    }" +++ nl +++ nl);
       T ("    inline void UnregisterDataFileTypes( TypeSystem::TypeRegistry& typeRegistry )" +++ nl);
       T ("    {" +++ nl) ]
  ++ map (fun dt =>
            T ("        typeRegistry.UnregisterDataFileInfo( TypeSystem::TypeID( " +++ dq +++ ReflectedDataFileType.m_typeID dt +++ dq +++ " ) );" +++ nl))
         (rev registeredResourceTypes)
  ++ [ T ("    }" +++ nl) ].

(** *** Per-solution composer *)

(** [sortPredicate]. *)
Definition sortPredicate (pA pB : ReflectedProject.t) : bool :=
  (ReflectedProject.m_dependencyCount pA <? ReflectedProject.m_dependencyCount pB)%Z.

(** [v.erase_unsorted( v.begin() + i )]: the last element takes the place
    of the erased one. *)
Definition erase_unsorted {A : Type} (v : list A) (i : nat) : list A :=
  match nth_error v (length v - 1) with
  | Some back => removelast (Assign i back v)
  | None => v
  end.

(** The loop that erases the projects that are not wanted.  After an
    erasure the source decrements [i] and the loop header increments it
    again: the same position is looked at once more.  Every turn erases a
    project or moves on, so [fuel] turns are enough when [fuel] is the
    number of projects. *)
Fixpoint EraseUnwantedProjects (mode : CompilationMode) (fuel : nat) (i : nat)
  (projects : list ReflectedProject.t) : list ReflectedProject.t :=
  match fuel with
  | O => projects
  | S fuel' =>
      match nth_error projects i with
      | None => projects
      | Some p =>
          if (match mode with Runtime => true | Tools => false end)
             && ReflectedProject.m_isToolsProject p
          then EraseUnwantedProjects mode fuel' i (erase_unsorted projects i)
          else if negb (IsValid (ReflectedProject.m_moduleHeaderID p))
          then EraseUnwantedProjects mode fuel' i (erase_unsorted projects i)
          else EraseUnwantedProjects mode fuel' (S i) projects
      end
  end.

(** The projects of the aggregate file of [mode], in the order of their
    calls. *)
Definition SolutionProjects (mode : CompilationMode) : list ReflectedProject.t :=
  let projects := ReflectionDatabase.GetReflectedProjects m_pDatabase in
  eastl_sort ReflectedProject.t sortPredicate
    (EraseUnwantedProjects mode (length projects) 0 projects).

Definition ModuleCall (f : ModuleFunction) (project : ReflectedProject.t) : Line :=
  let moduleStr := ReflectedProject.moduleStr project in
  match f with
  | RegisterTypes =>
      T ("        " +++ moduleStr +++ "_RegisterTypes( typeRegistry );" +++ nl)
  | CreateDefaultInstances =>
      T ("        " +++ moduleStr +++ "_CreateDefaultInstances();" +++ nl)
  | UnregisterTypes =>
      T ("        " +++ moduleStr +++ "_UnregisterTypes( typeRegistry );" +++ nl)
  end.

Definition ModuleInclude (project : ReflectedProject.t) : Line :=
  T ("#include " +++ dq +++ GetTypeInfoHeaderFilePath project +++ dq +++ nl).

Definition IsTools (mode : CompilationMode) : bool :=
  match mode with Tools => true | Runtime => false end.

(** The text of the aggregate file, given the sorted projects and the text
    of the resource registration methods. *)
Definition SolutionTypeRegistrationLines (mode : CompilationMode)
  (projects : list ReflectedProject.t) (resourceMethods : list Line) : list Line :=
  [ T ("//-------------------------------------------------------------------------" +++ nl);
    T ("// This is an auto-generated file - DO NOT edit" +++ nl);
    T ("//-------------------------------------------------------------------------" +++ nl +++ nl);
    T ("#include " +++ dq +++ "Base/TypeSystem/TypeRegistry.h" +++ dq +++ nl);
    T ("#include " +++ dq +++ "Base/TypeSystem/ResourceInfo.h" +++ dq +++ nl);
    T ("#include " +++ dq +++ "Base/TypeSystem/DataFileInfo.h" +++ dq +++ nl);
    T (nl +++ "//-------------------------------------------------------------------------" +++ nl +++ nl) ]
  ++ map ModuleInclude projects
  ++ [ T (nl +++ "//-------------------------------------------------------------------------" +++ nl +++ nl);
       T ("namespace EE::TypeSystem::Reflection" +++ nl);
       T ("{" +++ nl) ]
  ++ resourceMethods
  ++ (if IsTools mode then T nl :: GenerateDataFileRegistrationMethods else [])
  ++ [ T (nl +++ "    //-------------------------------------------------------------------------" +++ nl +++ nl);
       T ("    inline void RegisterTypes( TypeSystem::TypeRegistry& typeRegistry )" +++ nl);
       T ("    {" +++ nl);
       T ("        typeRegistry.RegisterInternalTypes();" +++ nl);
       T (nl +++ "        //-------------------------------------------------------------------------" +++ nl +++ nl) ]
  ++ map (ModuleCall RegisterTypes) projects
  ++ [ T (nl +++ "        //-------------------------------------------------------------------------" +++ nl +++ nl) ]
  ++ map (ModuleCall CreateDefaultInstances) projects
  ++ [ T (nl +++ "        //-------------------------------------------------------------------------" +++ nl +++ nl);
       T ("        RegisterResourceTypes( typeRegistry );" +++ nl) ]
  ++ (if IsTools mode then [ T ("        RegisterDataFileTypes( typeRegistry );" +++ nl) ] else [])
  ++ [ T ("    }" +++ nl +++ nl);
       T ("    inline void UnregisterTypes( TypeSystem::TypeRegistry& typeRegistry )" +++ nl);
       T ("    {" +++ nl) ]
  ++ map (ModuleCall UnregisterTypes) (rev projects)
  ++ [ T (nl +++ "        //-------------------------------------------------------------------------" +++ nl +++ nl);
       T ("        UnregisterResourceTypes( typeRegistry );" +++ nl) ]
  ++ (if IsTools mode then [ T ("        UnregisterDataFileTypes( typeRegistry );" +++ nl) ] else [])
  ++ [ T (nl +++ "        //-------------------------------------------------------------------------" +++ nl +++ nl);
       T ("        typeRegistry.UnregisterInternalTypes();" +++ nl);
       T ("    }" +++ nl);
       T ("}" +++ nl) ].

Definition GenerateSolutionTypeRegistrationFile (mode : CompilationMode) : Gen bool :=
  match GenerateResourceRegistrationMethods mode with
  | None => halt
  | Some resourceMethods =>
      _ <- EmplaceFile
             (match mode with
              | Runtime => GetRuntimeTypeRegistrationPath m_solutionDirectoryPath
              | Tools => GetToolsTypeRegistrationPath m_solutionDirectoryPath
              end)
             (SolutionTypeRegistrationLines mode (SolutionProjects mode) resourceMethods) ;;
      ret true
  end.

(** *** Solution generation *)

(** The loop over the projects in [GenerateCodeForSolution]: the value
    [GenerateCodeForProject] returns is dropped. *)
Fixpoint GenerateCodeForProjects (projects : list ReflectedProject.t) : Gen unit :=
  match projects with
  | [] => ret tt
  | prj :: rest =>
      if negb (IsValid (ReflectedProject.m_moduleHeaderID prj))
      then GenerateCodeForProjects rest
      else
        _ <- GenerateCodeForProject prj ;;
        GenerateCodeForProjects rest
  end.

Definition GenerateCodeForSolution : Gen bool :=
  _ <- GenerateCodeForProjects (ReflectionDatabase.GetReflectedProjects m_pDatabase) ;;
  ok <- GenerateSolutionTypeRegistrationFile Runtime ;;
  if negb ok then ret false
  else
    ok <- GenerateSolutionTypeRegistrationFile Tools ;;
    if negb ok then ret false
    else ret true.

End Composers.

(** ** Parent graph of a type list *)

(** [ParentEdge types i j]: the type at position [j] is the parent of the
    type at position [i]. *)
Definition ParentEdge (types : list ReflectedType.t) (i j : nat) : Prop :=
  i < length types /\ j < length types /\
  ReflectedType.m_ID (nth j types ReflectedType.empty)
  = ReflectedType.m_parentID (nth i types ReflectedType.empty).

(** The edges the ordering pass gives to the sorter: parent edges between
    two different positions. *)
Definition DependencyEdge (types : list ReflectedType.t) (i j : nat) : Prop :=
  i <> j /\ ParentEdge types i j.

Definition HasCycle (edge : nat -> nat -> Prop) : Prop :=
  exists i, clos_trans nat edge i i.

(** [Precedes l x y]: [x] occurs in [l] at a position before one of [y]. *)
Definition Precedes {A : Type} (l : list A) (x y : A) : Prop :=
  exists l1 l2 l3, l = l1 ++ x :: l2 ++ y :: l3.

(** ** A sort to run the generator with *)

Fixpoint InsertSorted {A : Type} (compare : A -> A -> bool) (x : A) (l : list A) : list A :=
  match l with
  | [] => [x]
  | y :: r => if compare y x then y :: InsertSorted compare x r else x :: l
  end.

Fixpoint InsertionSort (A : Type) (compare : A -> A -> bool) (l : list A) : list A :=
  match l with
  | [] => []
  | x :: r => InsertSorted compare x (InsertionSort A compare r)
  end.

(** Externals to evaluate the generator on examples: paths and names are
    derived from the record, the per-type emitters that are not modelled
    emit nothing. *)
Definition ExampleExternals : Externals := {|
  eastl_sort := InsertionSort;
  GetModuleHeaderPath := fun p => ReflectedProject.m_moduleHeaderID p;
  GetTypeInfoHeaderFilePath := fun p => ReflectedProject.m_name p +++ ".typeinfo.h";
  GetTypeInfoSourceFilePath := fun p => ReflectedProject.m_name p +++ ".typeinfo.cpp";
  GetRuntimeTypeRegistrationPath := fun d => d +++ "RuntimeTypeRegistration.h";
  GetToolsTypeRegistrationPath := fun d => d +++ "ToolsTypeRegistration.h";
  GetFriendlyName := ReflectedType.m_name;
  GetInternalNamespace := ReflectedType.m_namespace;
  GetCategory := fun _ => EmptyString;
  StaticTypeRegistrationMethods := fun _ => [];
  MethodsBeforeLoadingStatus := fun _ _ => [];
  MethodsAfterLoadingStatus := fun _ => []
|}.

(** ** Graphs over node positions *)

(** The edges of [edge] between two nodes of [l]. *)
Definition Within (edge : nat -> nat -> bool) (l : list nat) (p c : nat) : Prop :=
  In p l /\ In c l /\ edge p c = true.

(** [Ordered edge l]: no node of [l] is a child of a node that stands at
    its place or after it. *)
Fixpoint Ordered (edge : nat -> nat -> bool) (l : list nat) : Prop :=
  match l with
  | [] => True
  | k :: r => (forall p, In p (k :: r) -> edge p k = false) /\ Ordered edge r
  end.

(** [Chain R l]: each element of [l] is related to the next one. *)
Fixpoint Chain (R : nat -> nat -> Prop) (l : list nat) : Prop :=
  match l with
  | [] => True
  | x :: r => match r with [] => True | y :: _ => R x y end /\ Chain R r
  end.

(** The chain that starts at [x] and goes from each node to the node
    [pred] gives for it. *)
Fixpoint Backwards (pred : nat -> nat) (n : nat) (x : nat) : list nat :=
  match n with
  | O => [x]
  | S m => x :: Backwards pred m (pred x)
  end.

(** ** What is assumed of the externals *)

(** The comparison functions a sort is called with. *)
Definition StrictWeakOrder {A : Type} (compare : A -> A -> bool) : Prop :=
  (forall x, compare x x = false) /\
  (forall x y z, compare x y = true -> compare y z = true -> compare x z = true) /\
  (forall x y z, compare x y = false -> compare y z = false -> compare x z = false).

(** Text that closes every guarded region it opens: inside a region that
    is compiled out it is compiled out whole. *)
Definition Balanced (lines : list Line) : Prop :=
  forall depth rest, Preprocess (S depth) (lines ++ rest) = Preprocess (S depth) rest.

(** A chunk of text that neither opens nor closes a guarded region. *)
Definition Unbracketed (l : Line) : Prop :=
  directive l = NoDirective \/ directive l = MacroDevTools.

(** The library sort returns its input reordered, with no element after an
    element it compares less than; the order among equal elements is left
    open. *)
Class ExternalsLaws (E : Externals) : Prop := {
  eastl_sort_permutation :
    forall (A : Type) (compare : A -> A -> bool) (l : list A),
      Permutation l (eastl_sort A compare l);
  eastl_sort_sorted :
    forall (A : Type) (compare : A -> A -> bool) (l : list A),
      StrictWeakOrder compare ->
      StronglySorted (fun x y => compare y x = false) (eastl_sort A compare l)
}.

(** ** Vocabulary of the statements *)



(** The projects the aggregate file of [mode] is for: those with a module
    header, the tools projects left out in runtime mode. *)
Definition IsWantedProject (mode : CompilationMode) (p : ReflectedProject.t) : bool :=
  IsValid (ReflectedProject.m_moduleHeaderID p)
  && negb (negb (IsTools mode) && ReflectedProject.m_isToolsProject p).

(** The resource types registered in [mode]. *)
Definition IsRegisteredIn (mode : CompilationMode) (rt : ReflectedResourceType.t) : bool :=
  IsTools mode || negb (ReflectedResourceType.m_isDevOnly rt).

(** ** Example schemas *)

(** A structure type of namespace [EE::], with no property. *)
Definition ExampleType (name : string) (parentID : TypeID) : ReflectedType.t :=
  ReflectedType.mk ("EE::" +++ name) parentID "EE::" name
                   false false false false Uint8 [] [].

(** Scenario A of the specification. *)
Definition typeBase : ReflectedType.t := ExampleType "Base" EmptyString.
Definition typeMid : ReflectedType.t := ExampleType "Mid" "EE::Base".
Definition typeLeaf : ReflectedType.t := ExampleType "Leaf" "EE::Mid".

(** Scenario B of the specification. *)
Definition typeA : ReflectedType.t := ExampleType "A" "EE::B".
Definition typeB : ReflectedType.t := ExampleType "B" "EE::A".

(** A type whose parent identity is its own identity. *)
Definition typeSelf : ReflectedType.t := ExampleType "Self" "EE::Self".

(** A structure type with no valid parent. *)
Definition typeOrphan : ReflectedType.t := ExampleType "Orphan" EmptyString.

(** A second structure type with no valid parent. *)
Definition typeStray : ReflectedType.t := ExampleType "Stray" EmptyString.

(** An enumeration over a 64-bit integer, an underlying type the [switch]
    of [GenerateEnumTypeInfo] has no case for. *)
Definition typeWide : ReflectedType.t :=
  ReflectedType.mk "EE::Wide" EmptyString "EE::" "Wide"
                   false false true false (OtherCoreType "Uint64") [] [].

(** A structure type whose parent identifier is valid and names no type
    of the database. *)
Definition typeLost : ReflectedType.t := ExampleType "Lost" "EE::Missing".

Definition ExampleHeader : ReflectedHeader.t :=
  ReflectedHeader.mk "Types.h" "Game/Types.h" "Game/_Module/_AutoGenerated/Types.h".

Definition ExampleProject : ReflectedProject.t :=
  ReflectedProject.mk "Game" "Game" "EE::Game::GameModule" "GAME_API"
                      [ExampleHeader] 1%Z false "Module.h".

(** A database with one project, whose one header and whose project hold
    [types]; parents are looked up among [types] and [typeBase]. *)
Definition ExampleDatabase (types : list ReflectedType.t) : ReflectionDatabase.t :=
  ReflectionDatabase.mk
    [ExampleProject]
    (fun header => if String.eqb header "Types.h" then types else [])
    (fun project => if String.eqb project "Game" then types else [])
    (fun id => find (fun t => String.eqb (ReflectedType.m_ID t) id) (typeBase :: types))
    [] [].

(** Scenario C of the specification. *)
Definition typeGreek : ReflectedType.t :=
  ReflectedType.mk "EE::Greek" EmptyString "EE::" "Greek"
                   false false true false Uint8
                   [ ReflectedEnumConstant.mk "Beta" 1%Z EmptyString;
                     ReflectedEnumConstant.mk "Alpha" 0%Z EmptyString ]
                   [].

(** A structure with a resource pointer followed by a nested structure,
    and the same two properties the other way round. *)
Definition propertyMesh : ReflectedProperty.t :=
  ReflectedProperty.mk "m_mesh" "EE::TResourcePtr" (CoreType TResourcePtr)
                       NotAnArray 0 false false false.

Definition propertySettings : ReflectedProperty.t :=
  ReflectedProperty.mk "m_settings" "EE::Settings" (ReflectedTypeID "EE::Settings")
                       NotAnArray 0 false false false.

Definition typeMeshThenSettings : ReflectedType.t :=
  ReflectedType.mk "EE::Actor" "EE::Base" "EE::" "Actor"
                   false false false false Uint8 [] [propertyMesh; propertySettings].

Definition typeSettingsThenMesh : ReflectedType.t :=
  ReflectedType.mk "EE::Actor" "EE::Base" "EE::" "Actor"
                   false false false false Uint8 [] [propertySettings; propertyMesh].

(** An instance whose mesh has failed to load and whose settings report
    that everything they own is loaded. *)
Definition instanceFailedMesh : Instance :=
  mkInstance (fun _ => mkResourcePtr true true false)
             (fun _ => [])
             (fun _ => false)
             (fun _ => Loaded)
             (fun _ => []).

(** A development-only entity component with one resource pointer. *)
Definition typeDebugComponent : ReflectedType.t :=
  ReflectedType.mk "EE::DebugComponent" "EE::Base" "EE::" "DebugComponent"
                   true false false true Uint8 [] [propertyMesh].

(** A solution of four projects: an engine project, a tools project, a
    project with no module header and a base project. *)
Definition projectEngine : ReflectedProject.t :=
  ReflectedProject.mk "Engine" "Engine" "EE::Engine::EngineModule" "ENGINE_API" [] 1%Z false "EngineModule.h".
Definition projectEditor : ReflectedProject.t :=
  ReflectedProject.mk "Editor" "Editor" "EE::EngineTools::ToolsModule" "TOOLS_API" [] 2%Z true "ToolsModule.h".
Definition projectScratch : ReflectedProject.t :=
  ReflectedProject.mk "Scratch" "Scratch" "EE::Scratch" "SCRATCH_API" [] 0%Z false EmptyString.
Definition projectBase : ReflectedProject.t :=
  ReflectedProject.mk "Base" "Base" "EE::Base::BaseModule" "BASE_API" [] 0%Z false "BaseModule.h".

Definition resourceMesh : ReflectedResourceType.t :=
  ReflectedResourceType.mk "EE::Mesh" "mesh" "Mesh" [] false.
Definition resourceSkeletalMesh : ReflectedResourceType.t :=
  ReflectedResourceType.mk "EE::SkeletalMesh" "smsh" "Skeletal Mesh" ["EE::Mesh"] false.
Definition resourceGraphDefinition : ReflectedResourceType.t :=
  ReflectedResourceType.mk "EE::GraphDefinition" "agdf" "Graph Definition" [] true.

Definition SolutionDatabase : ReflectionDatabase.t :=
  ReflectionDatabase.mk
    [projectEngine; projectEditor; projectScratch; projectBase]
    (fun _ => []) (fun _ => []) (fun _ => None)
    [resourceMesh; resourceSkeletalMesh; resourceGraphDefinition] [].
(** ** Warnings *)

(** The state after a warning has been logged: the message, cut to the
    256-byte buffer of [LogWarning], replaces the last warning. *)
Definition WithWarning (g : CodeGenerator.t) (message : string) : CodeGenerator.t :=
  CodeGenerator.mk (CodeGenerator.m_generatedFiles g)
                   (CodeGenerator.m_errorMessage g)
                   (Text.Truncate 255 message).

(** [LogWarning]: records the formatted message. *)
Definition LogWarning (message : string) : Gen unit :=
  fun g => Returned tt (WithWarning g message).

(** ** The functions of a type and the files of a project *)

(** What the text says of a per-type function of [type]: the name of the
    type, and whether the statement stands inside the development-tools
    macro. *)
Definition NameAndGuard (type : ReflectedType.t) : string * bool :=
  (ReflectedType.typenameStr type, ReflectedType.m_isDevOnly type).

(** The same for a definition: after the name come the parameters of the
    function and the class it forwards to. *)
Definition DefinitionAndGuard (f : TypeFunction) (type : ReflectedType.t) : string * bool :=
  (ReflectedType.typenameStr type
   +++ match f with
       | CreateDefaultInstance => "()"
       | _ => "( TypeSystem::TypeRegistry& typeRegistry )"
       end
   +++ " { TypeSystem::TTypeInfo<" +++ ReflectedType.m_namespace type +++ ReflectedType.m_name type,
   ReflectedType.m_isDevOnly type).

(** The types a function of kind [f] is generated for: every type, and for
    the default instances the types that are neither abstract nor
    enumerations. *)
Definition HasTypeFunction (f : TypeFunction) (type : ReflectedType.t) : bool :=
  match f with
  | CreateDefaultInstance =>
      negb (ReflectedType.IsAbstract type) && negb (ReflectedType.IsEnum type)
  | _ => true
  end.

(** The headers of a project that get a type-info file: all but the module
    header and the headers with no reflected type. *)
Definition HeadersWithTypes (m_pDatabase : ReflectionDatabase.t) (project : ReflectedProject.t)
  : list ReflectedHeader.t :=
  filter
    (fun header =>
       negb (String.eqb (ReflectedHeader.m_ID header) (ReflectedProject.m_moduleHeaderID project))
       && match ReflectionDatabase.GetAllTypesForHeader m_pDatabase (ReflectedHeader.m_ID header) with
          | [] => false
          | _ :: _ => true
          end)
    (ReflectedProject.m_headerFiles project).

(** ** Databases the generator does not halt on *)

(** The underlying types the [switch] of [GenerateEnumTypeInfo] knows. *)
Definition IsIntegralType (id : CoreTypeID) : bool :=
  match id with
  | Uint8 | Int8 | Uint16 | Int16 | Uint32 | Int32 => true
  | _ => false
  end.

(** A type whose type info is generated or refused with an error: an
    enumeration over one of the six integral types, or a structure whose
    parent identifier, when valid, names a type of the database. *)
Definition TypeResolves (m_pDatabase : ReflectionDatabase.t) (typeInfo : ReflectedType.t) : bool :=
  if ReflectedType.IsEnum typeInfo
  then IsIntegralType (ReflectedType.m_underlyingType typeInfo)
  else negb (IsValid (ReflectedType.m_parentID typeInfo))
       || match ReflectionDatabase.GetType m_pDatabase (ReflectedType.m_parentID typeInfo) with
          | Some _ => true
          | None => false
          end.

(** A resource type all of whose parents are registered resource types. *)
Definition ParentsResolve (registeredResourceTypes : list ReflectedResourceType.t)
  (rt : ReflectedResourceType.t) : bool :=
  forallb
    (fun parentType =>
       existsb (fun r => String.eqb (ReflectedResourceType.m_typeID r) parentType)
               registeredResourceTypes)
    (ReflectedResourceType.m_parents rt).

Definition DatabaseResolves (m_pDatabase : ReflectionDatabase.t) : bool :=
  forallb
    (fun prj =>
       forallb
         (fun header =>
            forallb (TypeResolves m_pDatabase)
                    (ReflectionDatabase.GetAllTypesForHeader m_pDatabase (ReflectedHeader.m_ID header)))
         (ReflectedProject.m_headerFiles prj))
    (ReflectionDatabase.GetReflectedProjects m_pDatabase)
  && forallb (ParentsResolve (ReflectionDatabase.GetAllRegisteredResourceTypes m_pDatabase))
             (ReflectionDatabase.GetAllRegisteredResourceTypes m_pDatabase).

(** ** What the loading status depends on *)

(** A property whose statements are compiled: every property with the
    development tools on, the ones that are not development-only with the
    development tools off. *)
Definition CompiledIn (developmentTools : bool) (propertyDesc : ReflectedProperty.t) : bool :=
  developmentTools || negb (ReflectedProperty.m_isDevOnly propertyDesc).

(** The type without its development-only properties. *)
Definition WithoutDevOnlyProperties (type : ReflectedType.t) : ReflectedType.t :=
  ReflectedType.mk
    (ReflectedType.m_ID type) (ReflectedType.m_parentID type)
    (ReflectedType.m_namespace type) (ReflectedType.m_name type)
    (ReflectedType.m_isDevOnly type) (ReflectedType.m_isAbstract type)
    (ReflectedType.m_isEnum type) (ReflectedType.m_isEntityComponent type)
    (ReflectedType.m_underlyingType type) (ReflectedType.m_enumConstants type)
    (filter (fun p => negb (ReflectedProperty.m_isDevOnly p)) (ReflectedType.m_properties type)).

Definition IsLoadingStatus (status : LoadingStatus) : bool :=
  match status with Loading => true | _ => false end.

Definition IsFailedStatus (status : LoadingStatus) : bool :=
  match status with Failed => true | _ => false end.

(** A resource pointer that is still loading, as the generated test sees
    it: it has not failed, it is set and it is not loaded. *)
Definition PointerPending (failed isSet loaded : bool) : bool :=
  negb failed && isSet && negb loaded.

(** A fixed-size array of resource pointers. *)
Definition IsStaticResourcePtrArray (propertyDesc : ReflectedProperty.t) : bool :=
  IsResourcePtrType (ReflectedProperty.m_typeID propertyDesc)
  && match ReflectedProperty.m_arrayCategory propertyDesc with
     | StaticArray => true
     | _ => false
     end.

(** A property that is still loading: one of its resource pointers has
    not failed, is set and is not loaded, or one of its nested structures
    reports [Loading]. *)
Definition PropertyPending (pActualType : Instance) (propertyDesc : ReflectedProperty.t) : bool :=
  let name := ReflectedProperty.m_name propertyDesc in
  if IsResourcePtrType (ReflectedProperty.m_typeID propertyDesc) then
    match ReflectedProperty.m_arrayCategory propertyDesc with
    | NotAnArray =>
        let r := m_resourcePtr pActualType name in
        PointerPending (HasLoadingFailed r) (IsSet r) (IsLoaded r)
    | StaticArray =>
        existsb
          (fun i =>
             let r := nth i (m_resourcePtrArray pActualType name) emptyResourcePtr in
             PointerPending (HasLoadingFailed r) (IsSet r) (IsLoaded r))
          (seq 0 (ReflectedProperty.m_arraySize propertyDesc))
    | DynamicArray =>
        existsb (fun r => PointerPending (HasLoadingFailed r) (IsSet r) (IsLoaded r))
                (m_resourcePtrArray pActualType name)
    end
  else if ReflectedProperty.IsStructureProperty propertyDesc then
    match ReflectedProperty.m_arrayCategory propertyDesc with
    | NotAnArray => IsLoadingStatus (m_structureStatus pActualType name)
    | StaticArray =>
        existsb (fun i => IsLoadingStatus (nth i (m_structureArrayStatus pActualType name) Loaded))
                (seq 0 (ReflectedProperty.m_arraySize propertyDesc))
    | DynamicArray => existsb IsLoadingStatus (m_structureArrayStatus pActualType name)
    end
  else false.

(** The condition under which the statements written for a property
    return [Loading], as the tests are written: for an element of a
    fixed-size array of resource pointers the generated test asks [IsSet]
    of the array member, not of the element. *)
Definition PropertyReturnsLoading (pActualType : Instance) (propertyDesc : ReflectedProperty.t)
  : bool :=
  let name := ReflectedProperty.m_name propertyDesc in
  if IsResourcePtrType (ReflectedProperty.m_typeID propertyDesc) then
    match ReflectedProperty.m_arrayCategory propertyDesc with
    | StaticArray =>
        existsb
          (fun i =>
             let r := nth i (m_resourcePtrArray pActualType name) emptyResourcePtr in
             PointerPending (HasLoadingFailed r) (m_arrayIsSet pActualType name) (IsLoaded r))
          (seq 0 (ReflectedProperty.m_arraySize propertyDesc))
    | _ => PropertyPending pActualType propertyDesc
    end
  else PropertyPending pActualType propertyDesc.

(** A resource-pointer property one of whose pointers has failed to load. *)
Definition PropertyFailed (pActualType : Instance) (propertyDesc : ReflectedProperty.t) : bool :=
  let name := ReflectedProperty.m_name propertyDesc in
  if IsResourcePtrType (ReflectedProperty.m_typeID propertyDesc) then
    match ReflectedProperty.m_arrayCategory propertyDesc with
    | NotAnArray => HasLoadingFailed (m_resourcePtr pActualType name)
    | StaticArray =>
        existsb (fun i => HasLoadingFailed (nth i (m_resourcePtrArray pActualType name) emptyResourcePtr))
                (seq 0 (ReflectedProperty.m_arraySize propertyDesc))
    | DynamicArray => existsb HasLoadingFailed (m_resourcePtrArray pActualType name)
    end
  else false.

(** The value of [status] after the statements of a property that did not
    return: [Failed] once a resource pointer has failed, the status of the
    last nested structure asked, the value before otherwise. *)
Definition StatusAfterProperty (pActualType : Instance) (propertyDesc : ReflectedProperty.t)
  (status : LoadingStatus) : LoadingStatus :=
  let name := ReflectedProperty.m_name propertyDesc in
  if IsResourcePtrType (ReflectedProperty.m_typeID propertyDesc) then
    if PropertyFailed pActualType propertyDesc then Failed else status
  else if ReflectedProperty.IsStructureProperty propertyDesc then
    match ReflectedProperty.m_arrayCategory propertyDesc with
    | NotAnArray => m_structureStatus pActualType name
    | StaticArray =>
        match ReflectedProperty.m_arraySize propertyDesc with
        | O => status
        | S last => nth last (m_structureArrayStatus pActualType name) Loaded
        end
    | DynamicArray => last (m_structureArrayStatus pActualType name) status
    end
  else status.

(** ** The nesting of guarded regions *)

(** The number of guarded regions that are open after [lines], read with
    [depth] regions open; [None] when a closing directive finds no region
    to close. *)
Fixpoint GuardDepth (depth : nat) (lines : list Line) : option nat :=
  match lines with
  | [] => Some depth
  | l :: rest =>
      match directive l with
      | OpenDevTools => GuardDepth (S depth) rest
      | CloseDevTools =>
          match depth with
          | O => None
          | S d => GuardDepth d rest
          end
      | _ => GuardDepth depth rest
      end
  end.

(** Text in which every closing directive closes a region the text has
    opened, and that leaves no region open. *)
Definition WellNested (lines : list Line) : Prop := GuardDepth 0 lines = Some 0.

(** Text that closes [k] regions opened before it, and is well nested
    apart from that. *)
Definition Nests (k : nat) (lines : list Line) : Prop :=
  forall depth rest, GuardDepth (k + depth) (lines ++ rest) = GuardDepth depth rest.

(** ** Files added by a generation step *)

(** The generator states before and after a step that only adds files,
    each with contents that satisfy [P]. *)
Definition AddsFiles (P : list Line -> Prop) (g g' : CodeGenerator.t) : Prop :=
  exists files,
    CodeGenerator.m_generatedFiles g' = CodeGenerator.m_generatedFiles g ++ files
    /\ Forall (fun file => P (m_contents file)) files.
(** ** Resource load, unload and enumeration emitters *)

(** What a statement of the generated [LoadResources], [UnloadResources]
    or [GetReferencedResources] does with a resource pointer or a nested
    structure. *)
Inductive ResourceOperation : Type :=
| LoadOperation
| UnloadOperation
| ReferenceOperation.

(** The statements the three emitters write into the body of the
    generated method. *)
Inductive ResourceStatement : Type :=
| PointerStatement (op : ResourceOperation) (name : string)
| PointerElementStatement (op : ResourceOperation) (name : string) (i : nat)
| PointerLoopStatement (op : ResourceOperation) (name : string)
| StructureStatement (op : ResourceOperation) (typeName name : string)
| StructureElementStatement (op : ResourceOperation) (typeName name : string) (i : nat)
| StructureLoopStatement (op : ResourceOperation) (typeName name : string)
| RegionOpen
| RegionClose
| RegionCloseBlank
| Blank.

(** The text of each statement. *)
Definition ResourceStatementText (s : ResourceStatement) : list Line :=
  match s with
  | PointerStatement LoadOperation name =>
      [ T ("                if ( pActualType->" +++ name +++ ".IsSet() )" +++ nl);
        T ("                {" +++ nl);
        T ("                    pResourceSystem->LoadResource( pActualType->" +++ name +++ ", requesterID );" +++ nl);
        T ("                }" +++ nl) ]
  | PointerStatement UnloadOperation name =>
      [ T ("                if ( pActualType->" +++ name +++ ".IsSet() )" +++ nl);
        T ("                {" +++ nl);
        T ("                    pResourceSystem->UnloadResource( pActualType->" +++ name +++ ", requesterID );" +++ nl);
        T ("                }" +++ nl) ]
  | PointerStatement ReferenceOperation name =>
      [ T ("                if ( pActualType->" +++ name +++ ".IsSet() )" +++ nl);
        T ("                {" +++ nl);
        T ("                    outReferencedResources.emplace_back( pActualType->" +++ name +++ ".GetResourceID() );" +++ nl);
        T ("                }" +++ nl) ]
  | PointerElementStatement LoadOperation name i =>
      [ T ("                if ( pActualType->" +++ name +++ "[" +++ Text.of_nat i +++ "].IsSet() )" +++ nl);
        T ("                {" +++ nl);
        T ("                    pResourceSystem->LoadResource( pActualType->" +++ name +++ "[" +++ Text.of_nat i +++ "], requesterID );" +++ nl);
        T ("                }" +++ nl) ]
  | PointerElementStatement UnloadOperation name i =>
      [ T ("                if ( pActualType->" +++ name +++ "[" +++ Text.of_nat i +++ "].IsSet() )" +++ nl);
        T ("                {" +++ nl);
        T ("                    pResourceSystem->UnloadResource( pActualType->" +++ name +++ "[" +++ Text.of_nat i +++ "], requesterID );" +++ nl);
        T ("                }" +++ nl) ]
  | PointerElementStatement ReferenceOperation name i =>
      [ T ("                if ( pActualType->" +++ name +++ "[" +++ Text.of_nat i +++ "].IsSet() )" +++ nl);
        T ("                {" +++ nl);
        T ("                    outReferencedResources.emplace_back( pActualType->" +++ name +++ "[" +++ Text.of_nat i +++ "].GetResourceID() );" +++ nl);
        T ("                }" +++ nl) ]
  | PointerLoopStatement LoadOperation name =>
      [ T ("                for ( auto& resourcePtr : pActualType->" +++ name +++ " )" +++ nl);
        T ("                {" +++ nl);
        T ("                    if ( resourcePtr.IsSet() )" +++ nl);
        T ("                    {" +++ nl);
        T ("                        pResourceSystem->LoadResource( resourcePtr, requesterID );" +++ nl);
        T ("                    }" +++ nl);
        T ("                }" +++ nl) ]
  | PointerLoopStatement UnloadOperation name =>
      [ T ("                for ( auto& resourcePtr : pActualType->" +++ name +++ " )" +++ nl);
        T ("                {" +++ nl);
        T ("                    if ( resourcePtr.IsSet() )" +++ nl);
        T ("                    {" +++ nl);
        T ("                        pResourceSystem->UnloadResource( resourcePtr, requesterID );" +++ nl);
        T ("                    }" +++ nl);
        T ("                }" +++ nl) ]
  | PointerLoopStatement ReferenceOperation name =>
      [ T ("                for ( auto const& resourcePtr : pActualType->" +++ name +++ " )" +++ nl);
        T ("                {" +++ nl);
        T ("                    if ( resourcePtr.IsSet() )" +++ nl);
        T ("                    {" +++ nl);
        T ("                        outReferencedResources.emplace_back( resourcePtr.GetResourceID() );" +++ nl);
        T ("                    }" +++ nl);
        T ("                }" +++ nl) ]
  | StructureStatement LoadOperation typeName name =>
      [ T ("                " +++ typeName +++ "::s_pTypeInfo->LoadResources( pResourceSystem, requesterID, &pActualType->" +++ name +++ " );" +++ nl) ]
  | StructureStatement UnloadOperation typeName name =>
      [ T ("                " +++ typeName +++ "::s_pTypeInfo->UnloadResources( pResourceSystem, requesterID, &pActualType->" +++ name +++ " );" +++ nl) ]
  | StructureStatement ReferenceOperation typeName name =>
      [ T ("                " +++ typeName +++ "::s_pTypeInfo->GetReferencedResources( &pActualType->" +++ name +++ ", outReferencedResources );" +++ nl) ]
  | StructureElementStatement LoadOperation typeName name i =>
      [ T ("                " +++ typeName +++ "::s_pTypeInfo->LoadResources( pResourceSystem, requesterID, &pActualType->" +++ name +++ "[" +++ Text.of_nat i +++ "] );" +++ nl) ]
  | StructureElementStatement UnloadOperation typeName name i =>
      [ T ("                " +++ typeName +++ "::s_pTypeInfo->UnloadResources( pResourceSystem, requesterID, &pActualType->" +++ name +++ "[" +++ Text.of_nat i +++ "] );" +++ nl) ]
  | StructureElementStatement ReferenceOperation typeName name i =>
      [ T ("                " +++ typeName +++ "::s_pTypeInfo->GetReferencedResources( &pActualType->" +++ name +++ "[" +++ Text.of_nat i +++ "], outReferencedResources ); " +++ nl) ]
  | StructureLoopStatement LoadOperation typeName name =>
      [ T ("                for ( auto& propertyValue : pActualType->" +++ name +++ " )" +++ nl);
        T ("                {" +++ nl);
        T ("                    " +++ typeName +++ "::s_pTypeInfo->LoadResources( pResourceSystem, requesterID, &propertyValue );" +++ nl);
        T ("                }" +++ nl) ]
  | StructureLoopStatement UnloadOperation typeName name =>
      [ T ("                for ( auto& propertyValue : pActualType->" +++ name +++ " )" +++ nl);
        T ("                {" +++ nl);
        T ("                    " +++ typeName +++ "::s_pTypeInfo->UnloadResources( pResourceSystem, requesterID, &propertyValue );" +++ nl);
        T ("                }" +++ nl) ]
  | StructureLoopStatement ReferenceOperation typeName name =>
      [ T ("                for ( auto& propertyValue : pActualType->" +++ name +++ " )" +++ nl);
        T ("                {" +++ nl);
        T ("                    " +++ typeName +++ "::s_pTypeInfo->GetReferencedResources( &propertyValue, outReferencedResources );" +++ nl);
        T ("                }" +++ nl) ]
  | RegionOpen => [ mkLine ("                #if EE_DEVELOPMENT_TOOLS" +++ nl) OpenDevTools ]
  | RegionClose => [ mkLine ("                #endif" +++ nl) CloseDevTools ]
  | RegionCloseBlank => [ mkLine ("                #endif" +++ nl +++ nl) CloseDevTools ]
  | Blank => [ T nl ]
  end.

(** One turn of the loop over [type.m_properties] in
    [GenerateTypeInfoLoadResourcesMethod]. *)
Definition LoadResourcesPropertyStatements (propertyDesc : ReflectedProperty.t)
  : list ResourceStatement :=
  let name := ReflectedProperty.m_name propertyDesc in
  let typeName := ReflectedProperty.m_typeName propertyDesc in
  if IsResourcePtrType (ReflectedProperty.m_typeID propertyDesc) then
    (if ReflectedProperty.m_isDevOnly propertyDesc then [RegionOpen] else [])
    ++ (if ReflectedProperty.IsArrayProperty propertyDesc then
          if ReflectedProperty.IsDynamicArrayProperty propertyDesc
          then [PointerLoopStatement LoadOperation name]
          else map (PointerElementStatement LoadOperation name)
                   (seq 0 (ReflectedProperty.m_arraySize propertyDesc))
        else [PointerStatement LoadOperation name])
    ++ (if ReflectedProperty.m_isDevOnly propertyDesc then [RegionClose] else [Blank])
  else if negb (IsCoreType (ReflectedProperty.m_typeID propertyDesc))
          && negb (ReflectedProperty.IsEnumProperty propertyDesc)
          && negb (ReflectedProperty.IsBitFlagsProperty propertyDesc) then
    (if ReflectedProperty.m_isDevOnly propertyDesc then [RegionOpen] else [])
    ++ (if ReflectedProperty.IsArrayProperty propertyDesc then
          if ReflectedProperty.IsDynamicArrayProperty propertyDesc
          then [StructureLoopStatement LoadOperation typeName name]
          else map (StructureElementStatement LoadOperation typeName name)
                   (seq 0 (ReflectedProperty.m_arraySize propertyDesc))
        else [StructureStatement LoadOperation typeName name])
    ++ (if ReflectedProperty.m_isDevOnly propertyDesc then [RegionCloseBlank] else [Blank])
  else [].

(** One turn of the loop in [GenerateTypeInfoUnloadResourcesMethod]. *)
Definition UnloadResourcesPropertyStatements (propertyDesc : ReflectedProperty.t)
  : list ResourceStatement :=
  let name := ReflectedProperty.m_name propertyDesc in
  let typeName := ReflectedProperty.m_typeName propertyDesc in
  if IsResourcePtrType (ReflectedProperty.m_typeID propertyDesc) then
    (if ReflectedProperty.m_isDevOnly propertyDesc then [RegionOpen] else [])
    ++ (if ReflectedProperty.IsArrayProperty propertyDesc then
          if ReflectedProperty.IsDynamicArrayProperty propertyDesc
          then [PointerLoopStatement UnloadOperation name]
          else map (PointerElementStatement UnloadOperation name)
                   (seq 0 (ReflectedProperty.m_arraySize propertyDesc))
        else [PointerStatement UnloadOperation name])
    ++ (if ReflectedProperty.m_isDevOnly propertyDesc then [RegionCloseBlank] else [Blank])
  else if negb (IsCoreType (ReflectedProperty.m_typeID propertyDesc))
          && negb (ReflectedProperty.IsEnumProperty propertyDesc)
          && negb (ReflectedProperty.IsBitFlagsProperty propertyDesc) then
    (if ReflectedProperty.m_isDevOnly propertyDesc then [RegionOpen] else [])
    ++ (if ReflectedProperty.IsArrayProperty propertyDesc then
          if ReflectedProperty.IsDynamicArrayProperty propertyDesc
          then [StructureLoopStatement UnloadOperation typeName name]
          else map (StructureElementStatement UnloadOperation typeName name)
                   (seq 0 (ReflectedProperty.m_arraySize propertyDesc))
        else [StructureStatement UnloadOperation typeName name])
    ++ (if ReflectedProperty.m_isDevOnly propertyDesc then [RegionCloseBlank] else [Blank])
  else [].

(** One turn of the loop in [GenerateTypeInfoGetReferencedResourceMethod]. *)
Definition ReferencedResourcesPropertyStatements (propertyDesc : ReflectedProperty.t)
  : list ResourceStatement :=
  let name := ReflectedProperty.m_name propertyDesc in
  let typeName := ReflectedProperty.m_typeName propertyDesc in
  if IsResourcePtrType (ReflectedProperty.m_typeID propertyDesc) then
    (if ReflectedProperty.m_isDevOnly propertyDesc then [RegionOpen] else [])
    ++ (if ReflectedProperty.IsArrayProperty propertyDesc then
          if ReflectedProperty.IsDynamicArrayProperty propertyDesc
          then [PointerLoopStatement ReferenceOperation name]
          else map (PointerElementStatement ReferenceOperation name)
                   (seq 0 (ReflectedProperty.m_arraySize propertyDesc))
        else [PointerStatement ReferenceOperation name])
    ++ (if ReflectedProperty.m_isDevOnly propertyDesc then [RegionClose] else [])
    ++ [Blank]
  else if negb (IsCoreType (ReflectedProperty.m_typeID propertyDesc))
          && negb (ReflectedProperty.IsEnumProperty propertyDesc)
          && negb (ReflectedProperty.IsBitFlagsProperty propertyDesc) then
    (if ReflectedProperty.m_isDevOnly propertyDesc then [RegionOpen] else [])
    ++ (if ReflectedProperty.IsArrayProperty propertyDesc then
          if ReflectedProperty.IsDynamicArrayProperty propertyDesc
          then [StructureLoopStatement ReferenceOperation typeName name]
          else map (StructureElementStatement ReferenceOperation typeName name)
                   (seq 0 (ReflectedProperty.m_arraySize propertyDesc))
        else [StructureStatement ReferenceOperation typeName name])
    ++ (if ReflectedProperty.m_isDevOnly propertyDesc then [RegionClose] else [])
    ++ [Blank]
  else [].

(** The statements of the three bodies. *)
Definition LoadResourcesStatements (type : ReflectedType.t) : list ResourceStatement :=
  if ReflectedType.HasResourcePtrOrStructProperties type
  then flat_map LoadResourcesPropertyStatements (ReflectedType.m_properties type)
  else [].

Definition UnloadResourcesStatements (type : ReflectedType.t) : list ResourceStatement :=
  if ReflectedType.HasResourcePtrOrStructProperties type
  then flat_map UnloadResourcesPropertyStatements (ReflectedType.m_properties type)
  else [].

Definition ReferencedResourcesStatements (type : ReflectedType.t) : list ResourceStatement :=
  if ReflectedType.HasResourcePtrOrStructProperties type
  then flat_map ReferencedResourcesPropertyStatements (ReflectedType.m_properties type)
  else [].

(** [GenerateTypeInfoLoadResourcesMethod]: the text appended. *)
Definition GenerateTypeInfoLoadResourcesMethod (type : ReflectedType.t) : list Line :=
  [ T ("            virtual void LoadResources( Resource::ResourceSystem* pResourceSystem, Resource::ResourceRequesterID const& requesterID, IReflectedType* pType ) const override final" +++ nl);
    T ("            {" +++ nl) ]
  ++ (if ReflectedType.HasResourcePtrOrStructProperties type
      then [ T ("                EE_ASSERT( pResourceSystem != nullptr );" +++ nl);
             T ("                auto pActualType = reinterpret_cast<" +++ ReflectedType.m_namespace type +++ ReflectedType.m_name type +++ "*>( pType );" +++ nl +++ nl) ]
      else [])
  ++ flat_map ResourceStatementText (LoadResourcesStatements type)
  ++ [ T ("            }" +++ nl +++ nl) ].

(** [GenerateTypeInfoUnloadResourcesMethod]: the text appended. *)
Definition GenerateTypeInfoUnloadResourcesMethod (type : ReflectedType.t) : list Line :=
  [ T ("            virtual void UnloadResources( Resource::ResourceSystem* pResourceSystem, Resource::ResourceRequesterID const& requesterID, IReflectedType* pType ) const override final" +++ nl);
    T ("            {" +++ nl) ]
  ++ (if ReflectedType.HasResourcePtrOrStructProperties type
      then [ T ("                EE_ASSERT( pResourceSystem != nullptr );" +++ nl);
             T ("                auto pActualType = reinterpret_cast<" +++ ReflectedType.m_namespace type +++ ReflectedType.m_name type +++ "*>( pType );" +++ nl +++ nl) ]
      else [])
  ++ flat_map ResourceStatementText (UnloadResourcesStatements type)
  ++ [ T ("            }" +++ nl +++ nl) ].

(** [GenerateTypeInfoGetReferencedResourceMethod]: the text appended. *)
Definition GenerateTypeInfoGetReferencedResourceMethod (type : ReflectedType.t) : list Line :=
  [ T ("            virtual void GetReferencedResources( IReflectedType const* pType, TVector<ResourceID>& outReferencedResources ) const override final" +++ nl);
    T ("            {" +++ nl) ]
  ++ (if ReflectedType.HasResourcePtrOrStructProperties type
      then [ T ("                auto pActualType = reinterpret_cast<" +++ ReflectedType.m_namespace type +++ ReflectedType.m_name type +++ " const*>( pType );" +++ nl) ]
      else [])
  ++ flat_map ResourceStatementText (ReferencedResourcesStatements type)
  ++ [ T ("            }" +++ nl +++ nl) ].

(** *** What the generated methods do *)

(** The resource pointer or nested structure a statement is about: a
    member of the instance, or an element of a member that is an array. *)
Inductive ResourceTarget : Type :=
| Member (name : string)
| Element (name : string) (i : nat).

(** What a generated method does, in order: a request to the resource
    system for a resource pointer that is set (for the enumeration, the
    identifier of the pointer appended to the output), or the call of the
    same method of the type info of a nested structure. *)
Inductive ResourceEvent : Type :=
| OnPointer (op : ResourceOperation) (target : ResourceTarget)
| OnStructure (op : ResourceOperation) (typeName : string) (target : ResourceTarget).

(** The range-based loop over an array of resource pointers, from index
    [i] on. *)
Fixpoint ForEachPointer (op : ResourceOperation) (name : string) (i : nat)
  (elements : list ResourcePtrState) : list ResourceEvent :=
  match elements with
  | [] => []
  | r :: rest =>
      (if IsSet r then [OnPointer op (Element name i)] else [])
      ++ ForEachPointer op name (S i) rest
  end.

(** One statement on the object behind [pActualType].  The elements of an
    array of nested structures are as many as the statuses the instance
    holds for it. *)
Definition RunResourceStatement (pActualType : Instance) (s : ResourceStatement)
  : list ResourceEvent :=
  match s with
  | PointerStatement op name =>
      if IsSet (m_resourcePtr pActualType name) then [OnPointer op (Member name)] else []
  | PointerElementStatement op name i =>
      if IsSet (nth i (m_resourcePtrArray pActualType name) emptyResourcePtr)
      then [OnPointer op (Element name i)] else []
  | PointerLoopStatement op name =>
      ForEachPointer op name 0 (m_resourcePtrArray pActualType name)
  | StructureStatement op typeName name => [OnStructure op typeName (Member name)]
  | StructureElementStatement op typeName name i => [OnStructure op typeName (Element name i)]
  | StructureLoopStatement op typeName name =>
      map (fun i => OnStructure op typeName (Element name i))
          (seq 0 (length (m_structureArrayStatus pActualType name)))
  | RegionOpen | RegionClose | RegionCloseBlank | Blank => []
  end.

(** The statements in sequence.  [developmentTools] says whether
    [EE_DEVELOPMENT_TOOLS] is on; [skipping] whether a guarded region that
    is compiled out is open. *)
Fixpoint RunResourceStatements (developmentTools : bool) (pActualType : Instance)
  (skipping : bool) (body : list ResourceStatement) : list ResourceEvent :=
  match body with
  | [] => []
  | RegionOpen :: rest =>
      RunResourceStatements developmentTools pActualType (negb developmentTools) rest
  | RegionClose :: rest | RegionCloseBlank :: rest =>
      RunResourceStatements developmentTools pActualType false rest
  | s :: rest =>
      if skipping then RunResourceStatements developmentTools pActualType skipping rest
      else RunResourceStatement pActualType s
           ++ RunResourceStatements developmentTools pActualType skipping rest
  end.

(** The generated [LoadResources], [UnloadResources] and
    [GetReferencedResources] of [type], called on an instance. *)
Definition LoadResources (developmentTools : bool) (type : ReflectedType.t) (pType : Instance)
  : list ResourceEvent :=
  RunResourceStatements developmentTools pType false (LoadResourcesStatements type).

Definition UnloadResources (developmentTools : bool) (type : ReflectedType.t) (pType : Instance)
  : list ResourceEvent :=
  RunResourceStatements developmentTools pType false (UnloadResourcesStatements type).

Definition GetReferencedResources (developmentTools : bool) (type : ReflectedType.t)
  (pType : Instance) : list ResourceEvent :=
  RunResourceStatements developmentTools pType false (ReferencedResourcesStatements type).

(** An event with its operation replaced. *)
Definition WithOperation (op : ResourceOperation) (e : ResourceEvent) : ResourceEvent :=
  match e with
  | OnPointer _ target => OnPointer op target
  | OnStructure _ typeName target => OnStructure op typeName target
  end.

(** A statement with its operation set to [LoadOperation] and its layout
    dropped: the closing of a region with no blank line after it; [None]
    for a blank line. *)
Definition Essence (s : ResourceStatement) : option ResourceStatement :=
  match s with
  | PointerStatement _ name => Some (PointerStatement LoadOperation name)
  | PointerElementStatement _ name i => Some (PointerElementStatement LoadOperation name i)
  | PointerLoopStatement _ name => Some (PointerLoopStatement LoadOperation name)
  | StructureStatement _ typeName name => Some (StructureStatement LoadOperation typeName name)
  | StructureElementStatement _ typeName name i =>
      Some (StructureElementStatement LoadOperation typeName name i)
  | StructureLoopStatement _ typeName name =>
      Some (StructureLoopStatement LoadOperation typeName name)
  | RegionOpen => Some RegionOpen
  | RegionClose | RegionCloseBlank => Some RegionClose
  | Blank => None
  end.

Fixpoint Essentials (body : list ResourceStatement) : list ResourceStatement :=
  match body with
  | [] => []
  | s :: rest =>
      match Essence s with
      | Some s' => s' :: Essentials rest
      | None => Essentials rest
      end
  end.

(** The operation of the statements of a body: [op] wherever there is one. *)
Definition HasOperation (op : ResourceOperation) (s : ResourceStatement) : Prop :=
  match s with
  | PointerStatement o _ | PointerElementStatement o _ _ | PointerLoopStatement o _
  | StructureStatement o _ _ | StructureElementStatement o _ _ _
  | StructureLoopStatement o _ _ => o = op
  | RegionOpen | RegionClose | RegionCloseBlank | Blank => True
  end.

(** ** Resource unloading-status emitter *)

(** The statements [GenerateTypeInfoResourceUnloadingStatusMethod] writes
    into the body of the generated [GetResourceUnloadingStatus]. *)
Inductive UnloadingStatement : Type :=
| UnloadedCheck (name : string)
| UnloadedElementCheck (name : string) (i : nat)
| UnloadedLoop (name : string)
| StructureUnloadedCheck (typeName name : string)
| StructureUnloadedElementCheck (typeName name : string) (i : nat)
| StructureUnloadedLoop (typeName name : string)
| UnloadingGuardOpen
| UnloadingGuardClose
| UnloadingBlankLine.

(** The text of each statement. *)
Definition UnloadingStatementText (s : UnloadingStatement) : list Line :=
  match s with
  | UnloadedCheck name =>
      [ T ("                EE_ASSERT( !pActualType->" +++ name +++ ".IsLoading() );" +++ nl);
        T ("                if ( !pActualType->" +++ name +++ ".IsUnloaded() )" +++ nl);
        T ("                {" +++ nl);
        T ("                    return LoadingStatus::Unloading;" +++ nl);
        T ("                }" +++ nl) ]
  | UnloadedElementCheck name i =>
      [ T ("                EE_ASSERT( !pActualType->" +++ name +++ "[" +++ Text.of_nat i +++ "].IsLoading() );" +++ nl);
        T ("                if ( !pActualType->" +++ name +++ "[" +++ Text.of_nat i +++ "].IsUnloaded() )" +++ nl);
        T ("                {" +++ nl);
        T ("                    return LoadingStatus::Unloading;" +++ nl);
        T ("                }" +++ nl) ]
  | UnloadedLoop name =>
      [ T ("                for ( auto const& resourcePtr : pActualType->" +++ name +++ " )" +++ nl);
        T ("                {" +++ nl);
        T ("                    EE_ASSERT( !resourcePtr.IsLoading() );" +++ nl);
        T ("                    if ( !resourcePtr.IsUnloaded() )" +++ nl);
        T ("                    {" +++ nl);
        T ("                        return LoadingStatus::Unloading;" +++ nl);
        T ("                    }" +++ nl);
        T ("                }" +++ nl) ]
  | StructureUnloadedCheck typeName name =>
      [ T ("                if ( " +++ typeName +++ "::s_pTypeInfo->GetResourceUnloadingStatus( &pActualType->" +++ name +++ " ) != LoadingStatus::Unloaded )" +++ nl);
        T ("                {" +++ nl);
        T ("                    return LoadingStatus::Unloading;" +++ nl);
        T ("                }" +++ nl) ]
  | StructureUnloadedElementCheck typeName name i =>
      [ T ("                if ( " +++ typeName +++ "::s_pTypeInfo->GetResourceUnloadingStatus( &pActualType->" +++ name +++ "[" +++ Text.of_nat i +++ "] ) != LoadingStatus::Unloaded )" +++ nl);
        T ("                {" +++ nl);
        T ("                    return LoadingStatus::Unloading;" +++ nl);
        T ("                }" +++ nl) ]
  | StructureUnloadedLoop typeName name =>
      [ T ("                for ( auto& propertyValue : pActualType->" +++ name +++ " )" +++ nl);
        T ("                {" +++ nl);
        T ("                    LoadingStatus const status = " +++ typeName +++ "::s_pTypeInfo->GetResourceUnloadingStatus( &propertyValue );" +++ nl);
        T ("                    if ( status != LoadingStatus::Unloaded )" +++ nl);
        T ("                    {" +++ nl);
        T ("                        return LoadingStatus::Unloading;" +++ nl);
        T ("                    }" +++ nl);
        T ("                }" +++ nl) ]
  | UnloadingGuardOpen => [ mkLine ("                #if EE_DEVELOPMENT_TOOLS" +++ nl) OpenDevTools ]
  | UnloadingGuardClose => [ mkLine ("                #endif" +++ nl) CloseDevTools ]
  | UnloadingBlankLine => [ T nl ]
  end.

(** One turn of the loop over [type.m_properties].  After the check of the
    last element of a fixed-size array of nested structures the emitter
    writes a blank line of its own. *)
Definition PropertyUnloadingStatements (propertyDesc : ReflectedProperty.t)
  : list UnloadingStatement :=
  let name := ReflectedProperty.m_name propertyDesc in
  let typeName := ReflectedProperty.m_typeName propertyDesc in
  if IsResourcePtrType (ReflectedProperty.m_typeID propertyDesc) then
    (if ReflectedProperty.m_isDevOnly propertyDesc then [UnloadingGuardOpen] else [])
    ++ (if ReflectedProperty.IsArrayProperty propertyDesc then
          if ReflectedProperty.IsDynamicArrayProperty propertyDesc
          then [UnloadedLoop name]
          else map (UnloadedElementCheck name) (seq 0 (ReflectedProperty.m_arraySize propertyDesc))
        else [UnloadedCheck name])
    ++ (if ReflectedProperty.m_isDevOnly propertyDesc then [UnloadingGuardClose] else [])
    ++ [UnloadingBlankLine]
  else if negb (IsCoreType (ReflectedProperty.m_typeID propertyDesc))
          && negb (ReflectedProperty.IsEnumProperty propertyDesc)
          && negb (ReflectedProperty.IsBitFlagsProperty propertyDesc) then
    (if ReflectedProperty.m_isDevOnly propertyDesc then [UnloadingGuardOpen] else [])
    ++ (if ReflectedProperty.IsArrayProperty propertyDesc then
          if ReflectedProperty.IsDynamicArrayProperty propertyDesc
          then [StructureUnloadedLoop typeName name]
          else flat_map
                 (fun i =>
                    StructureUnloadedElementCheck typeName name i
                    :: (if (i =? ReflectedProperty.m_arraySize propertyDesc - 1)%nat
                        then [UnloadingBlankLine] else []))
                 (seq 0 (ReflectedProperty.m_arraySize propertyDesc))
        else [StructureUnloadedCheck typeName name])
    ++ (if ReflectedProperty.m_isDevOnly propertyDesc then [UnloadingGuardClose] else [])
    ++ [UnloadingBlankLine]
  else [].

(** The statements before [return LoadingStatus::Unloaded]. *)
Definition UnloadingStatusStatements (type : ReflectedType.t) : list UnloadingStatement :=
  if ReflectedType.HasResourcePtrOrStructProperties type
  then flat_map PropertyUnloadingStatements (ReflectedType.m_properties type)
  else [].

(** [GenerateTypeInfoResourceUnloadingStatusMethod]: the text appended. *)
Definition GenerateTypeInfoResourceUnloadingStatusMethod (type : ReflectedType.t) : list Line :=
  [ T ("            virtual LoadingStatus GetResourceUnloadingStatus( IReflectedType* pType ) const override final" +++ nl);
    T ("            {" +++ nl) ]
  ++ (if ReflectedType.HasResourcePtrOrStructProperties type
      then [ T ("                auto pActualType = reinterpret_cast<" +++ ReflectedType.m_namespace type +++ ReflectedType.m_name type +++ "*>( pType );" +++ nl +++ nl) ]
      else [])
  ++ flat_map UnloadingStatementText (UnloadingStatusStatements type)
  ++ [ T ("                return LoadingStatus::Unloaded;" +++ nl);
       T ("            }" +++ nl +++ nl) ].

(** *** What the generated method computes *)

(** The values of [LoadingStatus] the unloading side deals in, beside the
    ones of the loading side. *)
Inductive ResourceStatus : Type :=
| Unloading
| Unloaded
| StatusOf (status : LoadingStatus).

Definition IsUnloadedStatus (status : ResourceStatus) : bool :=
  match status with Unloaded => true | _ => false end.

(** What the generated code asks of a resource pointer. *)
Record UnloadingPtrState : Type := mkUnloadingPtr {
  IsLoading : bool;
  IsUnloaded : bool
}.

Definition unloadedPtr : UnloadingPtrState := mkUnloadingPtr false true.

(** The object behind [pActualType], as the generated code sees it: its
    resource-pointer members, alone or in arrays, and the unloading status
    that the type info of each nested structure reports for it. *)
Record UnloadingInstance : Type := mkUnloadingInstance {
  m_unloadingPtr : string -> UnloadingPtrState;
  m_unloadingPtrArray : string -> list UnloadingPtrState;
  m_structureUnloading : string -> ResourceStatus;
  m_structureArrayUnloading : string -> list ResourceStatus
}.

(** What the generated method comes to: a returned status, or the halt of
    a failed assertion. *)
Inductive UnloadingResult : Type :=
| Reports (status : ResourceStatus)
| AssertionFailed.

(** Control after a statement: go on, or stop with a result. *)
Inductive UnloadingFlow : Type :=
| Next
| Stop (result : UnloadingResult).

(** [EE_ASSERT( !loading ); if ( !unloaded ) return Unloading;] *)
Definition CheckUnloaded (r : UnloadingPtrState) : UnloadingFlow :=
  if IsLoading r then Stop AssertionFailed
  else if negb (IsUnloaded r) then Stop (Reports Unloading)
  else Next.

(** [if ( nested != Unloaded ) return Unloading;] *)
Definition CheckStructureUnloaded (nested : ResourceStatus) : UnloadingFlow :=
  if IsUnloadedStatus nested then Next else Stop (Reports Unloading).

Fixpoint ForEachUnloaded {A : Type} (check : A -> UnloadingFlow) (elements : list A)
  : UnloadingFlow :=
  match elements with
  | [] => Next
  | x :: rest =>
      match check x with
      | Next => ForEachUnloaded check rest
      | Stop result => Stop result
      end
  end.

Definition RunUnloadingStatement (pActualType : UnloadingInstance) (s : UnloadingStatement)
  : UnloadingFlow :=
  match s with
  | UnloadedCheck name => CheckUnloaded (m_unloadingPtr pActualType name)
  | UnloadedElementCheck name i =>
      CheckUnloaded (nth i (m_unloadingPtrArray pActualType name) unloadedPtr)
  | UnloadedLoop name => ForEachUnloaded CheckUnloaded (m_unloadingPtrArray pActualType name)
  | StructureUnloadedCheck _ name => CheckStructureUnloaded (m_structureUnloading pActualType name)
  | StructureUnloadedElementCheck _ name i =>
      CheckStructureUnloaded (nth i (m_structureArrayUnloading pActualType name) Unloaded)
  | StructureUnloadedLoop _ name =>
      ForEachUnloaded CheckStructureUnloaded (m_structureArrayUnloading pActualType name)
  | UnloadingGuardOpen | UnloadingGuardClose | UnloadingBlankLine => Next
  end.

(** The statements in sequence, then [return LoadingStatus::Unloaded]. *)
Fixpoint RunUnloadingStatements (developmentTools : bool) (pActualType : UnloadingInstance)
  (skipping : bool) (body : list UnloadingStatement) : UnloadingResult :=
  match body with
  | [] => Reports Unloaded
  | UnloadingGuardOpen :: rest =>
      RunUnloadingStatements developmentTools pActualType (negb developmentTools) rest
  | UnloadingGuardClose :: rest =>
      RunUnloadingStatements developmentTools pActualType false rest
  | s :: rest =>
      if skipping then RunUnloadingStatements developmentTools pActualType skipping rest
      else
        match RunUnloadingStatement pActualType s with
        | Next => RunUnloadingStatements developmentTools pActualType skipping rest
        | Stop result => result
        end
  end.

(** The generated [GetResourceUnloadingStatus] of [type], called on an
    instance. *)
Definition GetResourceUnloadingStatus (developmentTools : bool) (type : ReflectedType.t)
  (pType : UnloadingInstance) : UnloadingResult :=
  RunUnloadingStatements developmentTools pType false (UnloadingStatusStatements type).

(** A property all of whose resource pointers are unloaded and not
    loading, and all of whose nested structures report [Unloaded]. *)
Definition PointerUnloaded (r : UnloadingPtrState) : bool :=
  negb (IsLoading r) && IsUnloaded r.

Definition PropertyUnloaded (pActualType : UnloadingInstance) (propertyDesc : ReflectedProperty.t)
  : bool :=
  let name := ReflectedProperty.m_name propertyDesc in
  if IsResourcePtrType (ReflectedProperty.m_typeID propertyDesc) then
    match ReflectedProperty.m_arrayCategory propertyDesc with
    | NotAnArray => PointerUnloaded (m_unloadingPtr pActualType name)
    | StaticArray =>
        forallb (fun i => PointerUnloaded (nth i (m_unloadingPtrArray pActualType name) unloadedPtr))
                (seq 0 (ReflectedProperty.m_arraySize propertyDesc))
    | DynamicArray => forallb PointerUnloaded (m_unloadingPtrArray pActualType name)
    end
  else if ReflectedProperty.IsStructureProperty propertyDesc then
    match ReflectedProperty.m_arrayCategory propertyDesc with
    | NotAnArray => IsUnloadedStatus (m_structureUnloading pActualType name)
    | StaticArray =>
        forallb (fun i => IsUnloadedStatus (nth i (m_structureArrayUnloading pActualType name) Unloaded))
                (seq 0 (ReflectedProperty.m_arraySize propertyDesc))
    | DynamicArray => forallb IsUnloadedStatus (m_structureArrayUnloading pActualType name)
    end
  else true.

(** A property one of whose resource pointers is loading. *)
Definition PropertyLoading (pActualType : UnloadingInstance) (propertyDesc : ReflectedProperty.t)
  : bool :=
  let name := ReflectedProperty.m_name propertyDesc in
  if IsResourcePtrType (ReflectedProperty.m_typeID propertyDesc) then
    match ReflectedProperty.m_arrayCategory propertyDesc with
    | NotAnArray => IsLoading (m_unloadingPtr pActualType name)
    | StaticArray =>
        existsb (fun i => IsLoading (nth i (m_unloadingPtrArray pActualType name) unloadedPtr))
                (seq 0 (ReflectedProperty.m_arraySize propertyDesc))
    | DynamicArray => existsb IsLoading (m_unloadingPtrArray pActualType name)
    end
  else false.

(** ** The statements of a region, in sequence *)

(** The statements of the loading status that open or close a region. *)
Definition IsGuard (s : StatusStatement) : bool :=
  match s with GuardOpen | GuardClose => true | _ => false end.

(** Statements with no guard among them, one after the other. *)
Fixpoint RunChecks (pActualType : Instance) (body : list StatusStatement)
  (status : LoadingStatus) : Flow :=
  match body with
  | [] => GoOn status
  | s :: rest =>
      match RunStatement pActualType s status with
      | GoOn status' => RunChecks pActualType rest status'
      | Return v => Return v
      end
  end.

(** The value of [status] at the end of the generated method when no
    statement returns before. *)
Definition StatusAtEnd (developmentTools : bool) (pActualType : Instance)
  (properties : list ReflectedProperty.t) (status : LoadingStatus) : LoadingStatus :=
  fold_left
    (fun st p => if CompiledIn developmentTools p then StatusAfterProperty pActualType p st else st)
    properties status.

Definition IsUnloadingGuard (s : UnloadingStatement) : bool :=
  match s with UnloadingGuardOpen | UnloadingGuardClose => true | _ => false end.

Fixpoint RunUnloadingChecks (pActualType : UnloadingInstance) (body : list UnloadingStatement)
  : UnloadingFlow :=
  match body with
  | [] => Next
  | s :: rest =>
      match RunUnloadingStatement pActualType s with
      | Next => RunUnloadingChecks pActualType rest
      | Stop result => Stop result
      end
  end.

Definition IsRegion (s : ResourceStatement) : bool :=
  match s with RegionOpen | RegionClose | RegionCloseBlank => true | _ => false end.


(** What the statements of one property come to when they are compiled. *)
Definition PropertyUnloadingFlow (pActualType : UnloadingInstance)
  (propertyDesc : ReflectedProperty.t) : UnloadingFlow :=
  let name := ReflectedProperty.m_name propertyDesc in
  if IsResourcePtrType (ReflectedProperty.m_typeID propertyDesc) then
    match ReflectedProperty.m_arrayCategory propertyDesc with
    | NotAnArray => CheckUnloaded (m_unloadingPtr pActualType name)
    | StaticArray =>
        ForEachUnloaded
          (fun i => CheckUnloaded (nth i (m_unloadingPtrArray pActualType name) unloadedPtr))
          (seq 0 (ReflectedProperty.m_arraySize propertyDesc))
    | DynamicArray => ForEachUnloaded CheckUnloaded (m_unloadingPtrArray pActualType name)
    end
  else if ReflectedProperty.IsStructureProperty propertyDesc then
    match ReflectedProperty.m_arrayCategory propertyDesc with
    | NotAnArray => CheckStructureUnloaded (m_structureUnloading pActualType name)
    | StaticArray =>
        ForEachUnloaded
          (fun i => CheckStructureUnloaded
                      (nth i (m_structureArrayUnloading pActualType name) Unloaded))
          (seq 0 (ReflectedProperty.m_arraySize propertyDesc))
    | DynamicArray =>
        ForEachUnloaded CheckStructureUnloaded (m_structureArrayUnloading pActualType name)
    end
  else Next.

Definition IsNext (flow : UnloadingFlow) : bool :=
  match flow with Next => true | Stop _ => false end.

Definition IsUnloadedResult (result : UnloadingResult) : bool :=
  match result with Reports Unloaded => true | _ => false end.

(** An instance whose resource pointers are all being unloaded still. *)
Definition instanceUnloading : UnloadingInstance :=
  mkUnloadingInstance (fun _ => mkUnloadingPtr false false)
                      (fun _ => [mkUnloadingPtr false false])
                      (fun _ => Unloaded)
                      (fun _ => []).
(** ** The emitters of the structure type info *)

(** [stream << v] for an unsigned 64-bit number. *)
Definition of_N (n : N) : string := NilZero.string_of_uint (N.to_uint n).

Module PropertyMetadata.

(** The key of an annotation: a flag of the metadata table, or none that
    the table knows. *)
Inductive Flag : Type :=
| Unknown
| Known (index : nat).

Definition IsUnknown (key : Flag) : bool :=
  match key with Unknown => true | Known _ => false end.

(** [PropertyMetadata::KV]. *)
Record KV : Type := mkKV {
  m_key : Flag;
  m_keyValue : string;
  m_value : string
}.

End PropertyMetadata.

(** Members and methods of the schema records that the records above leave
    out and that the sources at hand only use: each is a function of the
    record. *)
Class SchemaMembers : Type := {
  (** [propertyDesc.m_propertyID]. *)
  m_propertyID : ReflectedProperty.t -> N;
  (** [propertyDesc.m_templateArgTypeName]. *)
  m_templateArgTypeName : ReflectedProperty.t -> string;
  (** What the stream prints for [prop.m_flags]. *)
  m_flags : ReflectedProperty.t -> N;
  (** [(uint32_t) prop.m_metaData.m_flags]. *)
  m_metaDataFlags : ReflectedProperty.t -> N;
  (** [prop.m_metaData.m_keyValues]. *)
  m_keyValues : ReflectedProperty.t -> list PropertyMetadata.KV;
  (** [PropertyMetadata::s_flagStrings]. *)
  s_flagStrings : PropertyMetadata.Flag -> string;
  IsTypeInstanceProperty : ReflectedProperty.t -> bool;
  GetArraySize : ReflectedProperty.t -> nat;
  (** [type.m_ID.ToUint()]. *)
  ToUint : TypeID -> N;
  m_hasCustomDefaultInstanceCtor : ReflectedType.t -> bool;
  HasArrayProperties : ReflectedType.t -> bool;
  HasDynamicArrayProperties : ReflectedType.t -> bool;
  HasResourcePtrProperties : ReflectedType.t -> bool
}.

Definition IsStaticArrayProperty (p : ReflectedProperty.t) : bool :=
  match ReflectedProperty.m_arrayCategory p with StaticArray => true | _ => false end.

(** [id == CoreTypeID::TResourcePtr] and [id == CoreTypeID::ResourcePtr]. *)
Definition IsTResourcePtr (id : PropertyTypeID) : bool :=
  match id with CoreType TResourcePtr => true | _ => false end.

Definition IsPlainResourcePtr (id : PropertyTypeID) : bool :=
  match id with CoreType ResourcePtr => true | _ => false end.

Section StructureEmitters.

Context {E : Externals} {M : SchemaMembers}.

(** The local [templateSpecializationString]: empty when the property has
    no template argument, the argument between angle brackets otherwise. *)
Definition templateSpecializationString (propertyDesc : ReflectedProperty.t) : string :=
  if String.eqb (m_templateArgTypeName propertyDesc) EmptyString
  then EmptyString
  else "<" +++ m_templateArgTypeName propertyDesc +++ ">".

Definition GenerateTypeInfoCreationMethod (type : ReflectedType.t) : list Line :=
  [ T ("            virtual IReflectedType* CreateType() const override final" +++ nl);
    T ("            {" +++ nl) ]
  ++ (if negb (ReflectedType.IsAbstract type)
    then [ T ("                auto pMemory = EE::Alloc( sizeof( " +++ ReflectedType.m_namespace type +++ ReflectedType.m_name type +++ " ), alignof( " +++ ReflectedType.m_namespace type +++ ReflectedType.m_name type +++ " ) );" +++ nl);
          T ("                return new ( pMemory ) " +++ ReflectedType.m_namespace type +++ ReflectedType.m_name type +++ "();" +++ nl) ]
    else [ T ("                EE_HALT(); // Error! Trying to instantiate an abstract type!" +++ nl);
          T ("                return nullptr;" +++ nl) ])
  ++ [ T ("            }" +++ nl +++ nl) ].

Definition GenerateTypeInfoInPlaceCreationMethod (type : ReflectedType.t) : list Line :=
  [ T ("            virtual void CreateTypeInPlace( IReflectedType* pAllocatedMemory ) const override final" +++ nl);
    T ("            {" +++ nl) ]
  ++ (if negb (ReflectedType.IsAbstract type)
    then [ T ("                EE_ASSERT( pAllocatedMemory != nullptr );" +++ nl);
          T ("                new( pAllocatedMemory ) " +++ ReflectedType.m_namespace type +++ ReflectedType.m_name type +++ "();" +++ nl) ]
    else [ T ("                EE_HALT(); // Error! Trying to instantiate an abstract type!" +++ nl) ])
  ++ [ T ("            }" +++ nl +++ nl) ].

Definition GenerateTypeInfoResetTypeMethod (type : ReflectedType.t) : list Line :=
  [ T ("            virtual void ResetType( IReflectedType* pTypeInstance ) const override final" +++ nl);
    T ("            {" +++ nl) ]
  ++ (if negb (ReflectedType.IsAbstract type)
    then [ T ("                EE_ASSERT( pTypeInstance != nullptr );" +++ nl);
          T ("                pTypeInstance->~IReflectedType();" +++ nl);
          T ("                CreateTypeInPlace( pTypeInstance );" +++ nl) ]
    else [ T ("                EE_HALT(); // Error! Trying to reset an abstract type!" +++ nl) ])
  ++ [ T ("            }" +++ nl +++ nl) ].

Definition GenerateTypeInfoArrayAccessorMethod (type : ReflectedType.t) : list Line :=
  [ T ("            virtual uint8_t* GetArrayElementDataPtr( IReflectedType* pType, uint64_t arrayID, size_t arrayIdx ) const override final" +++ nl);
    T ("            {" +++ nl) ]
  ++ (if HasArrayProperties type
    then [ T ("                auto pActualType = reinterpret_cast<" +++ ReflectedType.m_namespace type +++ ReflectedType.m_name type +++ "*>( pType );" +++ nl +++ nl) ]
        ++ flat_map (fun propertyDesc =>
            (if ReflectedProperty.IsDynamicArrayProperty propertyDesc
                then (if ReflectedProperty.m_isDevOnly propertyDesc
                      then [ mkLine ("                #if EE_DEVELOPMENT_TOOLS" +++ nl) OpenDevTools ]
                      else [])
                    ++ [ T ("                if ( arrayID == " +++ of_N (m_propertyID propertyDesc) +++ " )" +++ nl);
                      T ("                {" +++ nl);
                      T ("                    if ( ( arrayIdx + 1 ) >= pActualType->" +++ ReflectedProperty.m_name propertyDesc +++ ".size() )" +++ nl);
                      T ("                    {" +++ nl);
                      T ("                        pActualType->" +++ ReflectedProperty.m_name propertyDesc +++ ".resize( arrayIdx + 1 );" +++ nl);
                      T ("                    }" +++ nl +++ nl);
                      T ("                    return (uint8_t*) &pActualType->" +++ ReflectedProperty.m_name propertyDesc +++ "[arrayIdx];" +++ nl);
                      T ("                }" +++ nl) ]
                    ++ (if ReflectedProperty.m_isDevOnly propertyDesc
                      then [ mkLine ("                #endif" +++ nl) CloseDevTools ]
                      else [])
                    ++ [ T nl ]
                else (if IsStaticArrayProperty propertyDesc
                      then (if ReflectedProperty.m_isDevOnly propertyDesc
                            then [ mkLine ("                #if EE_DEVELOPMENT_TOOLS" +++ nl) OpenDevTools ]
                            else [])
                          ++ [ T ("                if ( arrayID == " +++ of_N (m_propertyID propertyDesc) +++ " )" +++ nl);
                            T ("                {" +++ nl);
                            T ("                    return (uint8_t*) &pActualType->" +++ ReflectedProperty.m_name propertyDesc +++ "[arrayIdx];" +++ nl);
                            T ("                }" +++ nl) ]
                          ++ (if ReflectedProperty.m_isDevOnly propertyDesc
                            then [ mkLine ("                #endif" +++ nl) CloseDevTools ]
                            else [])
                          ++ [ T nl ]
                      else [])))
          (ReflectedType.m_properties type)
    else [])
  ++ [ T ("                // We should never get here since we are asking for a ptr to an invalid property" +++ nl);
    T ("                EE_UNREACHABLE_CODE();" +++ nl);
    T ("                return nullptr;" +++ nl);
    T ("            }" +++ nl +++ nl) ].

Definition GenerateTypeInfoArraySizeMethod (type : ReflectedType.t) : list Line :=
  [ T ("            virtual size_t GetArraySize( IReflectedType const* pTypeInstance, uint64_t arrayID ) const override final" +++ nl);
    T ("            {" +++ nl) ]
  ++ (if HasArrayProperties type
    then [ T ("                auto pActualType = reinterpret_cast<" +++ ReflectedType.m_namespace type +++ ReflectedType.m_name type +++ " const*>( pTypeInstance );" +++ nl);
          T ("                EE_ASSERT( pActualType != nullptr );" +++ nl +++ nl) ]
        ++ flat_map (fun propertyDesc =>
            (if ReflectedProperty.IsDynamicArrayProperty propertyDesc
                then (if ReflectedProperty.m_isDevOnly propertyDesc
                      then [ mkLine ("                #if EE_DEVELOPMENT_TOOLS" +++ nl) OpenDevTools ]
                      else [])
                    ++ [ T ("                if ( arrayID == " +++ of_N (m_propertyID propertyDesc) +++ " )" +++ nl);
                      T ("                {" +++ nl);
                      T ("                    return pActualType->" +++ ReflectedProperty.m_name propertyDesc +++ ".size();" +++ nl);
                      T ("                }" +++ nl) ]
                    ++ (if ReflectedProperty.m_isDevOnly propertyDesc
                      then [ mkLine ("                #endif" +++ nl) CloseDevTools ]
                      else [])
                    ++ [ T nl ]
                else (if IsStaticArrayProperty propertyDesc
                      then (if ReflectedProperty.m_isDevOnly propertyDesc
                            then [ mkLine ("                #if EE_DEVELOPMENT_TOOLS" +++ nl) OpenDevTools ]
                            else [])
                          ++ [ T ("                if ( arrayID == " +++ of_N (m_propertyID propertyDesc) +++ " )" +++ nl);
                            T ("                {" +++ nl);
                            T ("                    return " +++ Text.of_nat (GetArraySize propertyDesc) +++ ";" +++ nl);
                            T ("                }" +++ nl) ]
                          ++ (if ReflectedProperty.m_isDevOnly propertyDesc
                            then [ mkLine ("                #endif" +++ nl) CloseDevTools ]
                            else [])
                          ++ [ T nl ]
                      else [])))
          (ReflectedType.m_properties type)
    else [])
  ++ [ T ("                // We should never get here since we are asking for a ptr to an invalid property" +++ nl);
    T ("                EE_UNREACHABLE_CODE();" +++ nl);
    T ("                return 0;" +++ nl);
    T ("            }" +++ nl +++ nl) ].

Definition GenerateTypeInfoArrayElementSizeMethod (type : ReflectedType.t) : list Line :=
  [ T ("            virtual size_t GetArrayElementSize( uint64_t arrayID ) const override final" +++ nl);
    T ("            {" +++ nl) ]
  ++ flat_map (fun propertyDesc =>
      (if ReflectedProperty.IsArrayProperty propertyDesc
          then (if ReflectedProperty.m_isDevOnly propertyDesc
                then [ mkLine ("                #if EE_DEVELOPMENT_TOOLS" +++ nl) OpenDevTools ]
                else [])
              ++ [ T ("                if ( arrayID == " +++ of_N (m_propertyID propertyDesc) +++ " )" +++ nl);
                T ("                {" +++ nl);
                T ("                    return sizeof( " +++ ReflectedProperty.m_typeName propertyDesc +++ templateSpecializationString propertyDesc +++ " );" +++ nl);
                T ("                }" +++ nl) ]
              ++ (if ReflectedProperty.m_isDevOnly propertyDesc
                then [ mkLine ("                #endif" +++ nl) CloseDevTools ]
                else [])
              ++ [ T nl ]
          else []))
    (ReflectedType.m_properties type)
  ++ [ T ("                // We should never get here since we are asking for a ptr to an invalid property" +++ nl);
    T ("                EE_UNREACHABLE_CODE();" +++ nl);
    T ("                return 0;" +++ nl);
    T ("            }" +++ nl +++ nl) ].

Definition GenerateTypeInfoArraySetSizeMethod (type : ReflectedType.t) : list Line :=
  [ T ("            virtual void SetArraySize( IReflectedType* pTypeInstance, uint64_t arrayID, size_t size ) const override final" +++ nl);
    T ("            {" +++ nl) ]
  ++ (if HasArrayProperties type
    then [ T ("                auto pActualType = reinterpret_cast<" +++ ReflectedType.m_namespace type +++ ReflectedType.m_name type +++ " *>( pTypeInstance );" +++ nl);
          T ("                EE_ASSERT( pActualType != nullptr );" +++ nl +++ nl) ]
        ++ flat_map (fun propertyDesc =>
            (if ReflectedProperty.IsDynamicArrayProperty propertyDesc
                then (if ReflectedProperty.m_isDevOnly propertyDesc
                      then [ mkLine ("                #if EE_DEVELOPMENT_TOOLS" +++ nl) OpenDevTools ]
                      else [])
                    ++ [ T ("                if ( arrayID == " +++ of_N (m_propertyID propertyDesc) +++ " )" +++ nl);
                      T ("                {" +++ nl);
                      T ("                    pActualType->" +++ ReflectedProperty.m_name propertyDesc +++ ".resize( size );" +++ nl);
                      T ("                    return;" +++ nl);
                      T ("                }" +++ nl) ]
                    ++ (if ReflectedProperty.m_isDevOnly propertyDesc
                      then [ mkLine ("                #endif" +++ nl) CloseDevTools ]
                      else [])
                    ++ [ T nl ]
                else []))
          (ReflectedType.m_properties type)
    else [])
  ++ [ T ("                // We should never get here since we are asking for a ptr to an invalid property" +++ nl);
    T ("                EE_UNREACHABLE_CODE();" +++ nl);
    T ("            }" +++ nl +++ nl) ].

Definition GenerateTypeInfoArrayClearMethod (type : ReflectedType.t) : list Line :=
  [ T ("            virtual void ClearArray( IReflectedType* pTypeInstance, uint64_t arrayID ) const override final" +++ nl);
    T ("            {" +++ nl) ]
  ++ (if HasDynamicArrayProperties type
    then [ T ("                auto pActualType = reinterpret_cast<" +++ ReflectedType.m_namespace type +++ ReflectedType.m_name type +++ "*>( pTypeInstance );" +++ nl);
          T ("                EE_ASSERT( pActualType != nullptr );" +++ nl +++ nl) ]
        ++ flat_map (fun propertyDesc =>
            (if ReflectedProperty.IsDynamicArrayProperty propertyDesc
                then (if ReflectedProperty.m_isDevOnly propertyDesc
                      then [ mkLine ("                #if EE_DEVELOPMENT_TOOLS" +++ nl) OpenDevTools ]
                      else [])
                    ++ [ T ("                if ( arrayID == " +++ of_N (m_propertyID propertyDesc) +++ " )" +++ nl);
                      T ("                {" +++ nl);
                      T ("                    pActualType->" +++ ReflectedProperty.m_name propertyDesc +++ ".clear();" +++ nl);
                      T ("                    return;" +++ nl);
                      T ("                }" +++ nl) ]
                    ++ (if ReflectedProperty.m_isDevOnly propertyDesc
                      then [ mkLine ("                #endif" +++ nl) CloseDevTools ]
                      else [])
                    ++ [ T nl ]
                else []))
          (ReflectedType.m_properties type)
    else [])
  ++ [ T ("                // We should never get here since we are asking for a ptr to an invalid property" +++ nl);
    T ("                EE_UNREACHABLE_CODE();" +++ nl);
    T ("            }" +++ nl +++ nl) ].

Definition GenerateTypeInfoAddArrayElementMethod (type : ReflectedType.t) : list Line :=
  [ T ("            virtual void AddArrayElement( IReflectedType* pTypeInstance, uint64_t arrayID ) const override final" +++ nl);
    T ("            {" +++ nl) ]
  ++ (if HasDynamicArrayProperties type
    then [ T ("                auto pActualType = reinterpret_cast<" +++ ReflectedType.m_namespace type +++ ReflectedType.m_name type +++ "*>( pTypeInstance );" +++ nl);
          T ("                EE_ASSERT( pActualType != nullptr );" +++ nl +++ nl) ]
        ++ flat_map (fun propertyDesc =>
            (if ReflectedProperty.IsDynamicArrayProperty propertyDesc
                then (if ReflectedProperty.m_isDevOnly propertyDesc
                      then [ mkLine ("                #if EE_DEVELOPMENT_TOOLS" +++ nl) OpenDevTools ]
                      else [])
                    ++ [ T ("                if ( arrayID == " +++ of_N (m_propertyID propertyDesc) +++ " )" +++ nl);
                      T ("                {" +++ nl);
                      T ("                    pActualType->" +++ ReflectedProperty.m_name propertyDesc +++ ".emplace_back();" +++ nl);
                      T ("                    return;" +++ nl);
                      T ("                }" +++ nl) ]
                    ++ (if ReflectedProperty.m_isDevOnly propertyDesc
                      then [ mkLine ("                #endif" +++ nl) CloseDevTools ]
                      else [])
                    ++ [ T nl ]
                else []))
          (ReflectedType.m_properties type)
    else [])
  ++ [ T ("                // We should never get here since we are asking for a ptr to an invalid property" +++ nl);
    T ("                EE_UNREACHABLE_CODE();" +++ nl);
    T ("            }" +++ nl +++ nl) ].

Definition GenerateTypeInfoInsertArrayElementMethod (type : ReflectedType.t) : list Line :=
  [ T ("            virtual void InsertArrayElement( IReflectedType* pTypeInstance, uint64_t arrayID, size_t insertionIdx ) const override final" +++ nl);
    T ("            {" +++ nl) ]
  ++ (if HasDynamicArrayProperties type
    then [ T ("                auto pActualType = reinterpret_cast<" +++ ReflectedType.m_namespace type +++ ReflectedType.m_name type +++ "*>( pTypeInstance );" +++ nl);
          T ("                EE_ASSERT( pActualType != nullptr );" +++ nl +++ nl) ]
        ++ flat_map (fun propertyDesc =>
            (if ReflectedProperty.IsDynamicArrayProperty propertyDesc
                then (if ReflectedProperty.m_isDevOnly propertyDesc
                      then [ mkLine ("                #if EE_DEVELOPMENT_TOOLS" +++ nl) OpenDevTools ]
                      else [])
                    ++ [ T ("                if ( arrayID == " +++ of_N (m_propertyID propertyDesc) +++ " )" +++ nl);
                      T ("                {" +++ nl);
                      T ("                    pActualType->" +++ ReflectedProperty.m_name propertyDesc +++ ".emplace( pActualType->" +++ ReflectedProperty.m_name propertyDesc +++ ".begin() + insertionIdx );" +++ nl);
                      T ("                    return;" +++ nl);
                      T ("                }" +++ nl) ]
                    ++ (if ReflectedProperty.m_isDevOnly propertyDesc
                      then [ mkLine ("                #endif" +++ nl) CloseDevTools ]
                      else [])
                    ++ [ T nl ]
                else []))
          (ReflectedType.m_properties type)
    else [])
  ++ [ T ("                // We should never get here since we are asking for a ptr to an invalid property" +++ nl);
    T ("                EE_UNREACHABLE_CODE();" +++ nl);
    T ("            }" +++ nl +++ nl) ].

Definition GenerateTypeInfoMoveArrayElementMethod (type : ReflectedType.t) : list Line :=
  [ T ("            virtual void MoveArrayElement( IReflectedType* pTypeInstance, uint64_t arrayID, size_t originalElementIdx, size_t newElementIdx ) const override final" +++ nl);
    T ("            {" +++ nl) ]
  ++ (if HasDynamicArrayProperties type
    then [ T ("                auto pActualType = reinterpret_cast<" +++ ReflectedType.m_namespace type +++ ReflectedType.m_name type +++ "*>( pTypeInstance );" +++ nl);
          T ("                EE_ASSERT( pActualType != nullptr );" +++ nl +++ nl) ]
        ++ flat_map (fun propertyDesc =>
            (if ReflectedProperty.IsDynamicArrayProperty propertyDesc
                then (if ReflectedProperty.m_isDevOnly propertyDesc
                      then [ mkLine ("                #if EE_DEVELOPMENT_TOOLS" +++ nl) OpenDevTools ]
                      else [])
                    ++ [ T ("                if ( arrayID == " +++ of_N (m_propertyID propertyDesc) +++ " )" +++ nl);
                      T ("                {" +++ nl);
                      T ("                    auto const originalElement = pActualType->" +++ ReflectedProperty.m_name propertyDesc +++ "[originalElementIdx];" +++ nl);
                      T ("                    pActualType->" +++ ReflectedProperty.m_name propertyDesc +++ ".erase( pActualType->" +++ ReflectedProperty.m_name propertyDesc +++ ".begin() + originalElementIdx );" +++ nl);
                      T ("                    pActualType->" +++ ReflectedProperty.m_name propertyDesc +++ ".insert( pActualType->" +++ ReflectedProperty.m_name propertyDesc +++ ".begin() + newElementIdx, originalElement );" +++ nl);
                      T ("                    return;" +++ nl);
                      T ("                }" +++ nl) ]
                    ++ (if ReflectedProperty.m_isDevOnly propertyDesc
                      then [ mkLine ("                #endif" +++ nl) CloseDevTools ]
                      else [])
                    ++ [ T nl ]
                else []))
          (ReflectedType.m_properties type)
    else [])
  ++ [ T ("                // We should never get here since we are asking for a ptr to an invalid property" +++ nl);
    T ("                EE_UNREACHABLE_CODE();" +++ nl);
    T ("            }" +++ nl +++ nl) ].

Definition GenerateTypeInfoRemoveArrayElementMethod (type : ReflectedType.t) : list Line :=
  [ T ("            virtual void RemoveArrayElement( IReflectedType* pTypeInstance, uint64_t arrayID, size_t elementIdx ) const override final" +++ nl);
    T ("            {" +++ nl) ]
  ++ (if HasDynamicArrayProperties type
    then [ T ("                auto pActualType = reinterpret_cast<" +++ ReflectedType.m_namespace type +++ ReflectedType.m_name type +++ "*>( pTypeInstance );" +++ nl);
          T ("                EE_ASSERT( pActualType != nullptr );" +++ nl +++ nl) ]
        ++ flat_map (fun propertyDesc =>
            (if ReflectedProperty.IsDynamicArrayProperty propertyDesc
                then (if ReflectedProperty.m_isDevOnly propertyDesc
                      then [ mkLine ("                #if EE_DEVELOPMENT_TOOLS" +++ nl) OpenDevTools ]
                      else [])
                    ++ [ T ("                if ( arrayID == " +++ of_N (m_propertyID propertyDesc) +++ " )" +++ nl);
                      T ("                {" +++ nl);
                      T ("                    pActualType->" +++ ReflectedProperty.m_name propertyDesc +++ ".erase( pActualType->" +++ ReflectedProperty.m_name propertyDesc +++ ".begin() + elementIdx );" +++ nl);
                      T ("                    return;" +++ nl);
                      T ("                }" +++ nl) ]
                    ++ (if ReflectedProperty.m_isDevOnly propertyDesc
                      then [ mkLine ("                #endif" +++ nl) CloseDevTools ]
                      else [])
                    ++ [ T nl ]
                else []))
          (ReflectedType.m_properties type)
    else [])
  ++ [ T ("                // We should never get here since we are asking for a ptr to an invalid property" +++ nl);
    T ("                EE_UNREACHABLE_CODE();" +++ nl);
    T ("            }" +++ nl +++ nl) ].

Definition GenerateTypeInfoCopyProperties (type : ReflectedType.t) : list Line :=
  [ T ("            virtual void CopyProperties( IReflectedType* pTypeInstance, IReflectedType const* pRHS ) const override final" +++ nl);
    T ("            {" +++ nl) ]
  ++ (if ReflectedType.HasProperties type
    then [ T ("                auto pType = static_cast<" +++ ReflectedType.m_namespace type +++ ReflectedType.m_name type +++ "*>( pTypeInstance );" +++ nl);
          T ("                auto pRHSType = static_cast<" +++ ReflectedType.m_namespace type +++ ReflectedType.m_name type +++ " const*>( pRHS );" +++ nl);
          T ("                EE_ASSERT( pType != nullptr && pRHSType != nullptr );" +++ nl +++ nl) ]
        ++ flat_map (fun propertyDesc =>
            (if ReflectedProperty.m_isDevOnly propertyDesc
                then [ mkLine ("                #if EE_DEVELOPMENT_TOOLS" +++ nl) OpenDevTools ]
                else [])
              ++ (if IsStaticArrayProperty propertyDesc
                then flat_map (fun i =>
                        [ T ("                pType->" +++ ReflectedProperty.m_name propertyDesc +++ "[" +++ Text.of_nat i +++ "] = pRHSType->" +++ ReflectedProperty.m_name propertyDesc +++ "[" +++ Text.of_nat i +++ "];" +++ nl) ])
                      (seq 0 (GetArraySize propertyDesc))
                else [ T ("                pType->" +++ ReflectedProperty.m_name propertyDesc +++ " = pRHSType->" +++ ReflectedProperty.m_name propertyDesc +++ ";" +++ nl) ])
              ++ (if ReflectedProperty.m_isDevOnly propertyDesc
                then [ mkLine ("                #endif" +++ nl) CloseDevTools ]
                else []))
          (ReflectedType.m_properties type)
    else [])
  ++ [ T ("            }" +++ nl +++ nl) ].

Definition GenerateTypeInfoAreAllPropertiesEqualMethod (type : ReflectedType.t) : list Line :=
  [ T ("            virtual bool AreAllPropertyValuesEqual( IReflectedType const* pTypeInstance, IReflectedType const* pOtherTypeInstance ) const override final" +++ nl);
    T ("            {" +++ nl) ]
  ++ (if ReflectedType.HasProperties type
    then [ T ("                auto pType = reinterpret_cast<" +++ ReflectedType.m_namespace type +++ ReflectedType.m_name type +++ " const*>( pTypeInstance );" +++ nl);
          T ("                auto pOtherType = reinterpret_cast<" +++ ReflectedType.m_namespace type +++ ReflectedType.m_name type +++ " const*>( pOtherTypeInstance );" +++ nl +++ nl) ]
        ++ flat_map (fun propertyDesc =>
            (if ReflectedProperty.m_isDevOnly propertyDesc
                then [ mkLine ("                #if EE_DEVELOPMENT_TOOLS" +++ nl) OpenDevTools ]
                else [])
              ++ [ T ("                if( !IsPropertyValueEqual( pType, pOtherType, " +++ of_N (m_propertyID propertyDesc) +++ " ) )" +++ nl);
                T ("                {" +++ nl);
                T ("                    return false;" +++ nl);
                T ("                }" +++ nl) ]
              ++ (if ReflectedProperty.m_isDevOnly propertyDesc
                then [ mkLine ("                #endif" +++ nl +++ nl) CloseDevTools ]
                else [ T nl ]))
          (ReflectedType.m_properties type)
    else [])
  ++ [ T ("                return true;" +++ nl);
    T ("            }" +++ nl +++ nl) ].

Definition GenerateTypeInfoIsPropertyEqualMethod (type : ReflectedType.t) : list Line :=
  [ T ("            virtual bool IsPropertyValueEqual( IReflectedType const* pTypeInstance, IReflectedType const* pOtherTypeInstance, uint64_t propertyID, int32_t arrayIdx = InvalidIndex ) const override final" +++ nl);
    T ("            {" +++ nl) ]
  ++ (if ReflectedType.HasProperties type
    then [ T ("                auto pType = reinterpret_cast<" +++ ReflectedType.m_namespace type +++ ReflectedType.m_name type +++ " const*>( pTypeInstance );" +++ nl);
          T ("                auto pOtherType = reinterpret_cast<" +++ ReflectedType.m_namespace type +++ ReflectedType.m_name type +++ " const*>( pOtherTypeInstance );" +++ nl +++ nl) ]
        ++ flat_map (fun propertyDesc =>
            (if ReflectedProperty.m_isDevOnly propertyDesc
                then [ mkLine ("                #if EE_DEVELOPMENT_TOOLS" +++ nl) OpenDevTools ]
                else [])
              ++ [ T ("                if ( propertyID == " +++ of_N (m_propertyID propertyDesc) +++ " )" +++ nl);
                T ("                {" +++ nl) ]
              ++ (if ReflectedProperty.IsArrayProperty propertyDesc
                then [ T ("                    // Compare array elements" +++ nl);
                      T ("                    if ( arrayIdx != InvalidIndex )" +++ nl);
                      T ("                    {" +++ nl) ]
                    ++ (if ReflectedProperty.IsDynamicArrayProperty propertyDesc
                      then [ T ("                        if ( arrayIdx >= pOtherType->" +++ ReflectedProperty.m_name propertyDesc +++ ".size() )" +++ nl);
                            T ("                        {" +++ nl);
                            T ("                            return false;" +++ nl);
                            T ("                        }" +++ nl +++ nl) ]
                      else [])
                    ++ (if ReflectedProperty.IsStructureProperty propertyDesc
                      then [ T ("                        return " +++ ReflectedProperty.m_typeName propertyDesc +++ "::s_pTypeInfo->AreAllPropertyValuesEqual( &pType->" +++ ReflectedProperty.m_name propertyDesc +++ "[arrayIdx], &pOtherType->" +++ ReflectedProperty.m_name propertyDesc +++ "[arrayIdx] );" +++ nl) ]
                      else (if IsTypeInstanceProperty propertyDesc
                            then [ T ("                        return pType->" +++ ReflectedProperty.m_name propertyDesc +++ "[arrayIdx].AreTypesAndPropertyValuesEqual( pOtherType->" +++ ReflectedProperty.m_name propertyDesc +++ "[arrayIdx] );" +++ nl) ]
                            else [ T ("                        return pType->" +++ ReflectedProperty.m_name propertyDesc +++ "[arrayIdx] == pOtherType->" +++ ReflectedProperty.m_name propertyDesc +++ "[arrayIdx];" +++ nl) ]))
                    ++ [ T ("                    }" +++ nl);
                      T ("                    else // Compare entire array contents" +++ nl);
                      T ("                    {" +++ nl) ]
                    ++ (if ReflectedProperty.IsDynamicArrayProperty propertyDesc
                      then [ T ("                        if ( pType->" +++ ReflectedProperty.m_name propertyDesc +++ ".size() != pOtherType->" +++ ReflectedProperty.m_name propertyDesc +++ ".size() )" +++ nl);
                            T ("                        {" +++ nl);
                            T ("                            return false;" +++ nl);
                            T ("                        }" +++ nl +++ nl);
                            T ("                        for ( size_t i = 0; i < pType->" +++ ReflectedProperty.m_name propertyDesc +++ ".size(); i++ )" +++ nl) ]
                      else [ T ("                        for ( size_t i = 0; i < " +++ Text.of_nat (GetArraySize propertyDesc) +++ "; i++ )" +++ nl) ])
                    ++ [ T ("                        {" +++ nl) ]
                    ++ (if ReflectedProperty.IsStructureProperty propertyDesc
                      then [ T ("                           if( !" +++ ReflectedProperty.m_typeName propertyDesc +++ "::s_pTypeInfo->AreAllPropertyValuesEqual( &pType->" +++ ReflectedProperty.m_name propertyDesc +++ "[i], &pOtherType->" +++ ReflectedProperty.m_name propertyDesc +++ "[i] ) )" +++ nl);
                            T ("                           {" +++ nl);
                            T ("                               return false;" +++ nl);
                            T ("                           }" +++ nl) ]
                      else (if IsTypeInstanceProperty propertyDesc
                            then [ T ("                           if( !pType->" +++ ReflectedProperty.m_name propertyDesc +++ "[i].AreTypesAndPropertyValuesEqual( pOtherType->" +++ ReflectedProperty.m_name propertyDesc +++ "[i] ) )" +++ nl);
                                  T ("                           {" +++ nl);
                                  T ("                               return false;" +++ nl);
                                  T ("                           }" +++ nl) ]
                            else [ T ("                           if( pType->" +++ ReflectedProperty.m_name propertyDesc +++ "[i] != pOtherType->" +++ ReflectedProperty.m_name propertyDesc +++ "[i] )" +++ nl);
                                  T ("                           {" +++ nl);
                                  T ("                               return false;" +++ nl);
                                  T ("                           }" +++ nl) ]))
                    ++ [ T ("                        }" +++ nl +++ nl);
                      T ("                        return true;" +++ nl);
                      T ("                    }" +++ nl) ]
                else (if ReflectedProperty.IsStructureProperty propertyDesc
                      then [ T ("                    return " +++ ReflectedProperty.m_typeName propertyDesc +++ "::s_pTypeInfo->AreAllPropertyValuesEqual( &pType->" +++ ReflectedProperty.m_name propertyDesc +++ ", &pOtherType->" +++ ReflectedProperty.m_name propertyDesc +++ " );" +++ nl) ]
                      else (if IsTypeInstanceProperty propertyDesc
                            then [ T ("                    return pType->" +++ ReflectedProperty.m_name propertyDesc +++ ".AreTypesAndPropertyValuesEqual( pOtherType->" +++ ReflectedProperty.m_name propertyDesc +++ " );" +++ nl) ]
                            else [ T ("                    return pType->" +++ ReflectedProperty.m_name propertyDesc +++ " == pOtherType->" +++ ReflectedProperty.m_name propertyDesc +++ ";" +++ nl) ])))
              ++ [ T ("                }" +++ nl) ]
              ++ (if ReflectedProperty.m_isDevOnly propertyDesc
                then [ mkLine ("                #endif" +++ nl) CloseDevTools ]
                else [])
              ++ [ T nl ])
          (ReflectedType.m_properties type)
    else [ T ("                EE_UNREACHABLE_CODE();" +++ nl) ])
  ++ [ T ("                return false;" +++ nl);
    T ("            }" +++ nl +++ nl) ].

Definition GenerateTypeInfoSetToDefaultValueMethod (type : ReflectedType.t) : list Line :=
  [ T ("            virtual void ResetToDefault( IReflectedType* pTypeInstance, uint64_t propertyID ) const override final" +++ nl);
    T ("            {" +++ nl) ]
  ++ (if ReflectedType.HasProperties type
    then [ T ("                auto pDefaultType = reinterpret_cast<" +++ ReflectedType.m_namespace type +++ ReflectedType.m_name type +++ " const*>( m_pDefaultInstance );" +++ nl);
          T ("                auto pActualType = reinterpret_cast<" +++ ReflectedType.m_namespace type +++ ReflectedType.m_name type +++ "*>( pTypeInstance );" +++ nl);
          T ("                EE_ASSERT( pActualType != nullptr && pDefaultType != nullptr );" +++ nl +++ nl) ]
        ++ flat_map (fun propertyDesc =>
            (if ReflectedProperty.m_isDevOnly propertyDesc
                then [ mkLine ("                #if EE_DEVELOPMENT_TOOLS" +++ nl) OpenDevTools ]
                else [])
              ++ [ T ("                if ( propertyID == " +++ of_N (m_propertyID propertyDesc) +++ " )" +++ nl);
                T ("                {" +++ nl) ]
              ++ (if IsStaticArrayProperty propertyDesc
                then flat_map (fun i =>
                        [ T ("                    pActualType->" +++ ReflectedProperty.m_name propertyDesc +++ "[" +++ Text.of_nat i +++ "] = pDefaultType->" +++ ReflectedProperty.m_name propertyDesc +++ "[" +++ Text.of_nat i +++ "];" +++ nl) ])
                      (seq 0 (GetArraySize propertyDesc))
                else [ T ("                    pActualType->" +++ ReflectedProperty.m_name propertyDesc +++ " = pDefaultType->" +++ ReflectedProperty.m_name propertyDesc +++ ";" +++ nl) ])
              ++ [ T ("                    return;" +++ nl);
                T ("                }" +++ nl) ]
              ++ (if ReflectedProperty.m_isDevOnly propertyDesc
                then [ mkLine ("                #endif" +++ nl) CloseDevTools ]
                else []))
          (ReflectedType.m_properties type)
    else [])
  ++ [ T ("            }" +++ nl) ].

Definition GenerateTypeInfoExpectedResourceTypeMethod (type : ReflectedType.t) : list Line :=
  [ T ("            virtual ResourceTypeID GetExpectedResourceTypeForProperty( IReflectedType* pType, uint64_t propertyID ) const override final" +++ nl);
    T ("            {" +++ nl) ]
  ++ (if HasResourcePtrProperties type
    then flat_map (fun propertyDesc =>
            (if IsResourcePtrType (ReflectedProperty.m_typeID propertyDesc)
                then (if ReflectedProperty.m_isDevOnly propertyDesc
                      then [ mkLine ("                #if EE_DEVELOPMENT_TOOLS" +++ nl) OpenDevTools ]
                      else [])
                    ++ (if IsTResourcePtr (ReflectedProperty.m_typeID propertyDesc)
                      then [ T ("                if ( propertyID == " +++ of_N (m_propertyID propertyDesc) +++ " )" +++ nl);
                            T ("                {" +++ nl);
                            T ("                    return " +++ m_templateArgTypeName propertyDesc +++ "::GetStaticResourceTypeID();" +++ nl);
                            T ("                }" +++ nl) ]
                      else (if IsPlainResourcePtr (ReflectedProperty.m_typeID propertyDesc)
                            then [ T ("                if ( propertyID == " +++ of_N (m_propertyID propertyDesc) +++ " )" +++ nl);
                                  T ("                {" +++ nl);
                                  T ("                        return ResourceTypeID();" +++ nl);
                                  T ("            }" +++ nl) ]
                            else []))
                    ++ (if ReflectedProperty.m_isDevOnly propertyDesc
                      then [ mkLine ("                #endif" +++ nl +++ nl) CloseDevTools ]
                      else [ T nl ])
                else []))
          (ReflectedType.m_properties type)
    else [])
  ++ [ T ("                // We should never get here since we are asking for a resource type of an invalid property" +++ nl);
    T ("                EE_UNREACHABLE_CODE();" +++ nl);
    T ("                return ResourceTypeID();" +++ nl);
    T ("            }" +++ nl +++ nl) ].

Definition GenerateTypeInfoStaticTypeRegistrationMethods (type : ReflectedType.t) : list Line :=
  [ T ("            static void RegisterType( TypeSystem::TypeRegistry& typeRegistry )" +++ nl);
    T ("            {" +++ nl);
    T ("                " +++ ReflectedType.m_namespace type +++ ReflectedType.m_name type +++ "::s_pTypeInfo = EE::New<TTypeInfo<" +++ ReflectedType.m_namespace type +++ ReflectedType.m_name type +++ ">>();" +++ nl);
    T ("                typeRegistry.RegisterType( " +++ ReflectedType.m_namespace type +++ ReflectedType.m_name type +++ "::s_pTypeInfo );" +++ nl);
    T ("            }" +++ nl +++ nl) ]
  ++ (if negb (ReflectedType.IsAbstract type) && negb (ReflectedType.IsEnum type)
    then [ T ("            static void CreateDefaultInstance()" +++ nl);
          T ("            {" +++ nl);
          T ("                auto pMutableTypeInfo = const_cast<TypeSystem::TypeInfo*&>( " +++ ReflectedType.m_namespace type +++ ReflectedType.m_name type +++ "::s_pTypeInfo ); " +++ nl);
          T ("                auto pMemory = EE::Alloc( sizeof( " +++ ReflectedType.m_namespace type +++ ReflectedType.m_name type +++ " ), alignof( " +++ ReflectedType.m_namespace type +++ ReflectedType.m_name type +++ " ) );" +++ nl) ]
        ++ (if m_hasCustomDefaultInstanceCtor type
          then [ T ("                pMutableTypeInfo->m_pDefaultInstance = new ( pMemory ) " +++ ReflectedType.m_namespace type +++ ReflectedType.m_name type +++ "( DefaultInstanceCtor );" +++ nl +++ nl) ]
          else [ T ("                pMutableTypeInfo->m_pDefaultInstance = new ( pMemory ) " +++ ReflectedType.m_namespace type +++ ReflectedType.m_name type +++ "();" +++ nl +++ nl) ])
        ++ [ T ("                // Set default info" +++ nl);
          T ("                //-------------------------------------------------------------------------" +++ nl +++ nl);
          T ("                auto pDefaultInstance = reinterpret_cast<" +++ ReflectedType.m_namespace type +++ ReflectedType.m_name type +++ " const*>( pMutableTypeInfo->m_pDefaultInstance );" +++ nl) ]
        ++ flat_map (fun prop =>
            (if ReflectedProperty.m_isDevOnly prop
                then [ mkLine (nl +++ "                #if EE_DEVELOPMENT_TOOLS") OpenDevTools ]
                else [])
              ++ [ T (nl +++ "                {" +++ nl);
                T ("                    TypeSystem::PropertyInfo* pPropertyInfo = pMutableTypeInfo->GetPropertyInfo( StringID( " +++ dq +++ ReflectedProperty.m_name prop +++ dq +++ " ) );" +++ nl);
                T ("                    pPropertyInfo->m_pDefaultValue = &pDefaultInstance->" +++ ReflectedProperty.m_name prop +++ ";" +++ nl) ]
              ++ (if ReflectedProperty.IsDynamicArrayProperty prop
                then [ T ("                    pPropertyInfo->m_pDefaultArrayData = pDefaultInstance->" +++ ReflectedProperty.m_name prop +++ ".data();" +++ nl);
                      T ("                    pPropertyInfo->m_arraySize = (int32_t) pDefaultInstance->" +++ ReflectedProperty.m_name prop +++ ".size();" +++ nl);
                      T ("                    pPropertyInfo->m_arrayElementSize = (int32_t) sizeof( " +++ ReflectedProperty.m_typeName prop +++ templateSpecializationString prop +++ " );" +++ nl);
                      T ("                    pPropertyInfo->m_size = sizeof( TVector<" +++ ReflectedProperty.m_typeName prop +++ templateSpecializationString prop +++ "> );" +++ nl) ]
                else (if IsStaticArrayProperty prop
                      then [ T ("                    pPropertyInfo->m_pDefaultArrayData = pDefaultInstance->" +++ ReflectedProperty.m_name prop +++ ";" +++ nl);
                            T ("                    pPropertyInfo->m_arraySize = " +++ Text.of_nat (GetArraySize prop) +++ ";" +++ nl);
                            T ("                    pPropertyInfo->m_arrayElementSize = (int32_t) sizeof( " +++ ReflectedProperty.m_typeName prop +++ templateSpecializationString prop +++ " );" +++ nl);
                            T ("                    pPropertyInfo->m_size = sizeof( " +++ ReflectedProperty.m_typeName prop +++ templateSpecializationString prop +++ " ) * " +++ Text.of_nat (GetArraySize prop) +++ ";" +++ nl) ]
                      else [ T ("                    pPropertyInfo->m_size = sizeof( " +++ ReflectedProperty.m_typeName prop +++ templateSpecializationString prop +++ " );" +++ nl) ]))
              ++ [ T ("                }" +++ nl) ]
              ++ (if ReflectedProperty.m_isDevOnly prop
                then [ mkLine ("                #endif" +++ nl) CloseDevTools ]
                else []))
          (ReflectedType.m_properties type)
        ++ [ T ("            }" +++ nl +++ nl) ]
    else [])
  ++ [ T ("            static void UnregisterType( TypeSystem::TypeRegistry& typeRegistry )" +++ nl);
    T ("            {" +++ nl);
    T ("                typeRegistry.UnregisterType( " +++ ReflectedType.m_namespace type +++ ReflectedType.m_name type +++ "::s_pTypeInfo );" +++ nl) ]
  ++ (if negb (ReflectedType.IsAbstract type) && negb (ReflectedType.IsEnum type)
    then [ T ("                EE::Delete( const_cast<IReflectedType*&>( " +++ ReflectedType.m_namespace type +++ ReflectedType.m_name type +++ "::s_pTypeInfo->m_pDefaultInstance ) );" +++ nl) ]
    else [])
  ++ [ T ("                EE::Delete( " +++ ReflectedType.m_namespace type +++ ReflectedType.m_name type +++ "::s_pTypeInfo );" +++ nl);
    T ("            }" +++ nl +++ nl) ].

Definition GeneratePropertyRegistrationCode (type : ReflectedType.t) (prop : ReflectedProperty.t) : list Line :=
  [ T nl;
    T ("                //-------------------------------------------------------------------------" +++ nl +++ nl) ]
  ++ (if ReflectedProperty.m_isDevOnly prop
    then [ mkLine ("                #if EE_DEVELOPMENT_TOOLS" +++ nl) OpenDevTools ]
    else [])
  ++ [ T ("                propertyInfo.m_ID = StringID( " +++ dq +++ ReflectedProperty.m_name prop +++ dq +++ " );" +++ nl);
    T ("                propertyInfo.m_typeID = TypeSystem::TypeID( " +++ dq +++ ReflectedProperty.m_typeName prop +++ dq +++ " );" +++ nl);
    T ("                propertyInfo.m_parentTypeID = " +++ of_N (ToUint (ReflectedType.m_ID type)) +++ ";" +++ nl);
    T ("                propertyInfo.m_templateArgumentTypeID = TypeSystem::TypeID( " +++ dq +++ m_templateArgTypeName prop +++ dq +++ " );" +++ nl);
    T ("                propertyInfo.m_offset = offsetof( " +++ ReflectedType.m_namespace type +++ ReflectedType.m_name type +++ ", " +++ ReflectedProperty.m_name prop +++ " );" +++ nl +++ nl);
    mkLine ("                #if EE_DEVELOPMENT_TOOLS" +++ nl) OpenDevTools ]
  ++ (if ReflectedProperty.m_isDevOnly prop
    then [ T ("                propertyInfo.m_isForDevelopmentUseOnly = true;" +++ nl) ]
    else [ T ("                propertyInfo.m_isForDevelopmentUseOnly = false;" +++ nl) ])
  ++ [ T ("                propertyInfo.m_metadata.Clear();" +++ nl);
    T ("                propertyInfo.m_metadata.m_flags = TBitFlags<EE::TypeSystem::PropertyMetadata::Flag>( " +++ of_N (m_metaDataFlags prop) +++ " );" +++ nl) ]
  ++ flat_map (fun kv =>
      (if PropertyMetadata.IsUnknown (PropertyMetadata.m_key kv)
          then [ T ("                propertyInfo.m_metadata.m_keyValues.emplace_back( " +++ dq +++ PropertyMetadata.m_keyValue kv +++ dq +++ ", " +++ dq +++ PropertyMetadata.m_value kv +++ dq +++ " );" +++ nl) ]
          else [ T ("                propertyInfo.m_metadata.m_keyValues.emplace_back( EE::TypeSystem::PropertyMetadata::Flag::" +++ s_flagStrings (PropertyMetadata.m_key kv) +++ ", " +++ dq +++ PropertyMetadata.m_value kv +++ dq +++ " );" +++ nl) ]))
    (m_keyValues prop)
  ++ [ mkLine ("                #endif" +++ nl +++ nl) CloseDevTools ]
  ++ (if ReflectedType.IsAbstract type
    then [ T ("                propertyInfo.m_pDefaultValue = nullptr;" +++ nl) ]
    else [])
  ++ [ T ("                propertyInfo.m_flags.Set( " +++ of_N (m_flags prop) +++ " );" +++ nl);
    T ("                m_properties.emplace_back( propertyInfo );" +++ nl);
    T ("                m_propertyMap.insert( TPair<StringID, int32_t>( propertyInfo.m_ID, int32_t( m_properties.size() ) - 1 ) );" +++ nl) ]
  ++ (if ReflectedProperty.m_isDevOnly prop
    then [ mkLine ("                #endif" +++ nl) CloseDevTools ]
    else []).

Definition GenerateTypeInfoConstructor (type parentType : ReflectedType.t) : list Line :=
  [ T ("            TTypeInfo()" +++ nl);
    T ("            {" +++ nl);
    T ("                m_ID = TypeSystem::TypeID( " +++ dq +++ ReflectedType.m_namespace type +++ ReflectedType.m_name type +++ dq +++ " );" +++ nl);
    T ("                m_size = sizeof( " +++ ReflectedType.m_namespace type +++ ReflectedType.m_name type +++ " );" +++ nl);
    T ("                m_alignment = alignof( " +++ ReflectedType.m_namespace type +++ ReflectedType.m_name type +++ " );" +++ nl) ]
  ++ (if ReflectedType.IsAbstract type
    then [ T ("                m_isAbstract = true;" +++ nl) ]
    else [])
  ++ [ T nl;
    mkLine ("                #if EE_DEVELOPMENT_TOOLS" +++ nl) OpenDevTools;
    T ("                m_friendlyName = " +++ dq +++ GetFriendlyName type +++ dq +++ ";" +++ nl);
    T ("                m_namespace = " +++ dq +++ GetInternalNamespace type +++ dq +++ ";" +++ nl);
    T ("                m_category = " +++ dq +++ GetCategory type +++ dq +++ ";" +++ nl) ]
  ++ (if ReflectedType.m_isDevOnly type
    then [ T ("                m_isForDevelopmentUseOnly = true;" +++ nl) ]
    else [])
  ++ [ mkLine ("                #endif" +++ nl +++ nl) CloseDevTools;
    T ("                // Parent types" +++ nl);
    T ("                //-------------------------------------------------------------------------" +++ nl +++ nl);
    T ("                m_pParentTypeInfo = " +++ ReflectedType.m_namespace parentType +++ ReflectedType.m_name parentType +++ "::s_pTypeInfo;" +++ nl) ]
  ++ (if ReflectedType.HasProperties type
    then [ T nl;
          T ("                // Register properties and type" +++ nl);
          T ("                //-------------------------------------------------------------------------" +++ nl +++ nl) ]
        ++ (if negb (ReflectedType.IsAbstract type)
          then [ T ("                auto pActualDefaultInstance = reinterpret_cast<" +++ ReflectedType.m_namespace type +++ ReflectedType.m_name type +++ " const*>( m_pDefaultInstance );" +++ nl) ]
          else [])
        ++ [ T ("                PropertyInfo propertyInfo;" +++ nl) ]
        ++ flat_map (fun prop =>
            GeneratePropertyRegistrationCode type prop)
          (ReflectedType.m_properties type)
    else [])
  ++ [ T ("            }" +++ nl +++ nl) ].

(** The generator with the emitters above in the place of the ones taken
    from elsewhere: the text of [GenerateStructureTypeInfo] is then the
    text the source writes, emitter after emitter. *)
Definition SourceExternals : Externals := {|
  eastl_sort := @eastl_sort E;
  GetModuleHeaderPath := @GetModuleHeaderPath E;
  GetTypeInfoHeaderFilePath := @GetTypeInfoHeaderFilePath E;
  GetTypeInfoSourceFilePath := @GetTypeInfoSourceFilePath E;
  GetRuntimeTypeRegistrationPath := @GetRuntimeTypeRegistrationPath E;
  GetToolsTypeRegistrationPath := @GetToolsTypeRegistrationPath E;
  GetFriendlyName := @GetFriendlyName E;
  GetInternalNamespace := @GetInternalNamespace E;
  GetCategory := @GetCategory E;
  StaticTypeRegistrationMethods := GenerateTypeInfoStaticTypeRegistrationMethods;
  MethodsBeforeLoadingStatus := fun type parentType =>
    GenerateTypeInfoConstructor type parentType
    ++ GenerateTypeInfoCreationMethod type
    ++ GenerateTypeInfoInPlaceCreationMethod type
    ++ GenerateTypeInfoResetTypeMethod type
    ++ GenerateTypeInfoLoadResourcesMethod type
    ++ GenerateTypeInfoUnloadResourcesMethod type;
  MethodsAfterLoadingStatus := fun type =>
    GenerateTypeInfoResourceUnloadingStatusMethod type
    ++ GenerateTypeInfoGetReferencedResourceMethod type
    ++ GenerateTypeInfoExpectedResourceTypeMethod type
    ++ GenerateTypeInfoArrayAccessorMethod type
    ++ GenerateTypeInfoArraySizeMethod type
    ++ GenerateTypeInfoArrayElementSizeMethod type
    ++ GenerateTypeInfoArraySetSizeMethod type
    ++ GenerateTypeInfoArrayClearMethod type
    ++ GenerateTypeInfoAddArrayElementMethod type
    ++ GenerateTypeInfoInsertArrayElementMethod type
    ++ GenerateTypeInfoMoveArrayElementMethod type
    ++ GenerateTypeInfoRemoveArrayElementMethod type
    ++ GenerateTypeInfoCopyProperties type
    ++ GenerateTypeInfoAreAllPropertiesEqualMethod type
    ++ GenerateTypeInfoIsPropertyEqualMethod type
    ++ GenerateTypeInfoSetToDefaultValueMethod type
|}.

End StructureEmitters.

(** ** Further example schemas *)

(** Members to evaluate the emitters on examples: the identifier of a
    property is the length of its name, no property has a template
    argument, metadata or flags. *)
Definition ExampleMembers : SchemaMembers := {|
  m_propertyID := fun p => N.of_nat (String.length (ReflectedProperty.m_name p));
  m_templateArgTypeName := fun _ => EmptyString;
  m_flags := fun _ => 0%N;
  m_metaDataFlags := fun _ => 0%N;
  m_keyValues := fun _ => [];
  s_flagStrings := fun _ => EmptyString;
  IsTypeInstanceProperty := fun _ => false;
  GetArraySize := ReflectedProperty.m_arraySize;
  ToUint := fun id => N.of_nat (String.length id);
  m_hasCustomDefaultInstanceCtor := fun _ => false;
  HasArrayProperties := fun type =>
    existsb ReflectedProperty.IsArrayProperty (ReflectedType.m_properties type);
  HasDynamicArrayProperties := fun type =>
    existsb ReflectedProperty.IsDynamicArrayProperty (ReflectedType.m_properties type);
  HasResourcePtrProperties := fun type =>
    existsb (fun p => IsResourcePtrType (ReflectedProperty.m_typeID p))
            (ReflectedType.m_properties type)
|}.

(** A development-only array of resource pointers. *)
Definition propertyDebugMeshes : ReflectedProperty.t :=
  ReflectedProperty.mk "m_debugMeshes" "EE::TResourcePtr" (CoreType TResourcePtr)
                       DynamicArray 0 true false false.

(** A structure with a resource pointer and a development-only array of
    resource pointers. *)
Definition typeMeshes : ReflectedType.t :=
  ReflectedType.mk "EE::Meshes" "EE::Base" "EE::" "Meshes"
                   false false false false Uint8 [] [propertyMesh; propertyDebugMeshes].

(** An instance whose mesh is loaded and whose one debug mesh is still
    loading. *)
Definition instanceLoadingDebugMesh : Instance :=
  mkInstance (fun _ => mkResourcePtr false true true)
             (fun _ => [mkResourcePtr false true false])
             (fun _ => false)
             (fun _ => Loaded)
             (fun _ => []).


(** * Properties *)

Import TopologicalSorter.

(** ** The topological sorter *)

Section ReduceFacts.

Variable edge : nat -> nat -> bool.



Lemma Remove_In (k x : nat) (l : list nat) : In x (Remove k l) <-> In x l /\ x <> k.
Proof.
  unfold Remove. rewrite filter_In, negb_true_iff, Nat.eqb_neq. tauto.
Qed.

Lemma Remove_length (k : nat) (l : list nat) : In k l -> length (Remove k l) < length l.
Proof.
  induction l as [|y r IH]; simpl; [tauto|].
  intros [->|H].
  - rewrite Nat.eqb_refl. simpl. pose proof (filter_length_le (fun x => negb (x =? k)%nat) r). unfold Remove in *. lia.
  - destruct (y =? k)%nat; simpl.
    + pose proof (filter_length_le (fun x => negb (x =? k)%nat) r). unfold Remove in *. lia.
    + apply IH in H. lia.
Qed.

Lemma Remove_NoDup (k : nat) (l : list nat) : NoDup l -> NoDup (Remove k l).
Proof. apply NoDup_filter. Qed.

Lemma Blocked_false (l : list nat) (k : nat) :
  Blocked edge l k = false <-> forall p, In p l -> edge p k = false.
Proof.
  unfold Blocked. induction l as [|y r IH]; simpl.
  - split; [intros _ p []|reflexivity].
  - rewrite orb_false_iff, IH. split.
    + intros [Hy Hr] p [<-|Hp]; auto.
    + intros H; split; [apply H; auto|intros p Hp; apply H; auto].
Qed.

Lemma Blocked_true (l : list nat) (k : nat) :
  Blocked edge l k = true -> exists p, In p l /\ edge p k = true.
Proof.
  unfold Blocked. rewrite existsb_exists. auto.
Qed.

Lemma Reduce_nil (fuel : nat) : Reduce edge fuel [] = Some [].
Proof. destruct fuel; reflexivity. Qed.

Lemma Reduce_cons (fuel : nat) (a : nat) (rem order : list nat) :
  Reduce edge fuel (a :: rem) = Some order ->
  exists fuel' k order',
    fuel = S fuel' /\ order = k :: order' /\ In k (a :: rem) /\
    Blocked edge (a :: rem) k = false /\
    Reduce edge fuel' (Remove k (a :: rem)) = Some order'.
Proof.
  destruct fuel as [|fuel']; [discriminate|].
  change (Reduce edge (S fuel') (a :: rem)) with
    (match find (fun k => negb (Blocked edge (a :: rem) k)) (a :: rem) with
     | None => None
     | Some k =>
         match Reduce edge fuel' (Remove k (a :: rem)) with
         | None => None
         | Some order => Some (k :: order)
         end
     end).
  destruct (find _ (a :: rem)) as [k|] eqn:Hf; [|discriminate].
  destruct (Reduce edge fuel' (Remove k (a :: rem))) as [order'|] eqn:Hr; [|discriminate].
  intros H; inversion H; subst order.
  apply find_some in Hf. destruct Hf as [Hk Hb]. rewrite negb_true_iff in Hb.
  exists fuel', k, order'. auto.
Qed.

Lemma Reduce_In (fuel : nat) :
  forall remaining order, Reduce edge fuel remaining = Some order ->
  forall x, In x order <-> In x remaining.
Proof.
  induction fuel as [|fuel IH]; intros [|a rem] order H x.
  - inversion H; tauto.
  - discriminate.
  - rewrite Reduce_nil in H. inversion H; tauto.
  - apply Reduce_cons in H. destruct H as (f & k & order' & Hf & -> & Hk & _ & Hr).
    inversion Hf; subst f.
    simpl In at 1. rewrite (IH _ _ Hr x), Remove_In.
    destruct (Nat.eq_dec x k) as [->|Hne]; [tauto|].
    split; [intros [->|[? _]]; tauto|intros ?; right; split; auto].
Qed.

Lemma Reduce_NoDup (fuel : nat) :
  forall remaining order, Reduce edge fuel remaining = Some order -> NoDup order.
Proof.
  induction fuel as [|fuel IH]; intros [|a rem] order H.
  - inversion H; constructor.
  - discriminate.
  - rewrite Reduce_nil in H. inversion H; constructor.
  - apply Reduce_cons in H. destruct H as (f & k & order' & Hf & -> & Hk & _ & Hr).
    inversion Hf; subst f.
    constructor; [|eapply IH; eauto].
    rewrite (Reduce_In _ _ _ Hr), Remove_In. tauto.
Qed.

Lemma Reduce_Ordered (fuel : nat) :
  forall remaining order, Reduce edge fuel remaining = Some order -> Ordered edge order.
Proof.
  induction fuel as [|fuel IH]; intros [|a rem] order H.
  - inversion H; exact I.
  - discriminate.
  - rewrite Reduce_nil in H. inversion H; exact I.
  - apply Reduce_cons in H. destruct H as (f & k & order' & Hf & -> & Hk & Hb & Hr).
    inversion Hf; subst f.
    rewrite Blocked_false in Hb.
    split; [|eapply IH; eauto].
    intros p [<-|Hp]; [auto|].
    apply Hb. rewrite (Reduce_In _ _ _ Hr), Remove_In in Hp. tauto.
Qed.


Lemma Precedes_cons {A : Type} (a : A) (l : list A) (x y : A) :
  Precedes l x y -> Precedes (a :: l) x y.
Proof.
  intros (l1 & l2 & l3 & ->). exists (a :: l1), l2, l3. reflexivity.
Qed.

Lemma Ordered_Precedes (order : list nat) :
  Ordered edge order ->
  forall p c, In p order -> In c order -> edge p c = true -> Precedes order p c.
Proof.
  induction order as [|k r IH]; intros Ho p c Hp Hc He; [destruct Hp|].
  destruct Ho as [Hk Hr].
  destruct Hc as [<-|Hc].
  - rewrite (Hk p Hp) in He. discriminate.
  - destruct Hp as [<-|Hp].
    + apply in_split in Hc. destruct Hc as (l2 & l3 & ->).
      exists [], l2, l3. reflexivity.
    + apply Precedes_cons. apply IH; auto.
Qed.

Lemma Within_incl (l l' : list nat) :
  incl l l' -> forall x y, clos_trans nat (Within edge l) x y -> clos_trans nat (Within edge l') x y.
Proof.
  intros Hi x y H. induction H as [x y (Hx & Hy & He)|x y z _ IH1 _ IH2].
  - apply t_step. repeat split; auto.
  - eapply t_trans; eauto.
Qed.

(** No path of an ordered list enters its head, and a path that does not
    start at the head stays in the tail. *)
Lemma Ordered_path (k : nat) (r : list nat) :
  (forall p, In p (k :: r) -> edge p k = false) ->
  forall x y, clos_trans nat (Within edge (k :: r)) x y ->
  y <> k /\ (x <> k -> clos_trans nat (Within edge r) x y).
Proof.
  intros Hk x y H.
  induction H as [x y (Hx & Hy & He)|x y z _ [IH1 IH1'] _ [IH2 IH2']].
  - assert (y <> k) as Hyk by (intros ->; rewrite (Hk x Hx) in He; discriminate).
    split; [exact Hyk|]. intros Hxk. apply t_step.
    destruct Hx as [Hx|Hx]; [congruence|].
    destruct Hy as [Hy|Hy]; [congruence|].
    repeat split; auto.
  - split; [exact IH2|]. intros Hxk. eapply t_trans; eauto.
Qed.

Lemma Ordered_acyclic (order : list nat) :
  Ordered edge order -> forall x, ~ clos_trans nat (Within edge order) x x.
Proof.
  induction order as [|k r IH]; intros Ho x H.
  - apply clos_trans_t1n in H. destruct H as [y (Hx & _)|y z (Hx & _) _]; destruct Hx.
  - destruct Ho as [Hk Hr].
    destruct (Ordered_path k r Hk x x H) as [Hxk Hp].
    exact (IH Hr x (Hp Hxk)).
Qed.

(** *** A blocked set has a cycle *)

Lemma repeated_element (l : list nat) :
  NoDup l \/ exists a l1 l2 l3, l = l1 ++ a :: l2 ++ a :: l3.
Proof.
  induction l as [|x r [IH|(a & l1 & l2 & l3 & ->)]].
  - left; constructor.
  - destruct (in_dec Nat.eq_dec x r) as [Hin|Hnin].
    + right. apply in_split in Hin. destruct Hin as (l2 & l3 & ->).
      exists x, [], l2, l3. reflexivity.
    + left; constructor; auto.
  - right. exists a, (x :: l1), l2, l3. reflexivity.
Qed.


Lemma Chain_app_r (R : nat -> nat -> Prop) (l1 l2 : list nat) :
  Chain R (l1 ++ l2) -> Chain R l2.
Proof.
  induction l1 as [|x r IH]; simpl; [auto|]. intros [_ H]. auto.
Qed.

Lemma Chain_path (R : nat -> nat -> Prop) (l2 l3 : list nat) :
  forall x a, Chain R (x :: l2 ++ a :: l3) -> clos_trans nat R x a.
Proof.
  induction l2 as [|y r IH]; intros x a H.
  - simpl in H. apply t_step. tauto.
  - change ((x :: (y :: r) ++ a :: l3)) with (x :: y :: r ++ a :: l3) in H.
    destruct H as [Hxy H]. eapply t_trans; [apply t_step; exact Hxy|]. apply IH. exact H.
Qed.

Lemma clos_trans_flip (R : nat -> nat -> Prop) (x y : nat) :
  clos_trans nat (fun a b => R b a) x y -> clos_trans nat R y x.
Proof.
  induction 1; [apply t_step; auto|eapply t_trans; eauto].
Qed.


Lemma Backwards_length (pred : nat -> nat) (n x : nat) :
  length (Backwards pred n x) = S n.
Proof. revert x; induction n; simpl; auto. Qed.

Lemma Backwards_spec (pred : nat -> nat) (S0 : list nat) :
  (forall x, In x S0 -> In (pred x) S0 /\ edge (pred x) x = true) ->
  forall n x, In x S0 ->
  incl (Backwards pred n x) S0 /\
  Chain (fun a b => Within edge S0 b a) (Backwards pred n x).
Proof.
  intros Hp. induction n as [|n IH]; intros x Hx.
  - simpl. split; [intros y [<-|[]]; auto|auto].
  - destruct (Hp x Hx) as [Hpx He].
    destruct (IH (pred x) Hpx) as [Hi Hc].
    split.
    + simpl. intros y [<-|Hy]; auto.
    + change (Backwards pred (S n) x) with (x :: Backwards pred n (pred x)).
      split; [|exact Hc].
      destruct n; simpl; repeat split; auto.
Qed.

Lemma blocked_cycle (S0 : list nat) (x0 : nat) :
  In x0 S0 ->
  (forall k, In k S0 -> Blocked edge S0 k = true) ->
  exists x, clos_trans nat (Within edge S0) x x.
Proof.
  intros Hx0 Hb.
  set (pred := fun k => match find (fun p => edge p k) S0 with Some p => p | None => k end).
  assert (Hp : forall x, In x S0 -> In (pred x) S0 /\ edge (pred x) x = true).
  { intros x Hx. unfold pred.
    destruct (find (fun p => edge p x) S0) as [p|] eqn:Hf.
    - apply find_some in Hf. exact Hf.
    - exfalso. specialize (Hb x Hx). apply Blocked_true in Hb.
      destruct Hb as (p & Hp & He).
      pose proof (find_none _ _ Hf p Hp) as Hn. simpl in Hn. congruence. }
  destruct (Backwards_spec pred S0 Hp (length S0) x0 Hx0) as [Hi Hc].
  destruct (repeated_element (Backwards pred (length S0) x0)) as [Hnd|(a & l1 & l2 & l3 & Heq)].
  - pose proof (NoDup_incl_length Hnd Hi) as Hl.
    rewrite Backwards_length in Hl. lia.
  - exists a. apply clos_trans_flip.
    rewrite Heq in Hc. apply Chain_app_r in Hc.
    eapply Chain_path. exact Hc.
Qed.

Lemma Reduce_None_cons (fuel : nat) (a : nat) (rem : list nat) :
  Reduce edge (S fuel) (a :: rem) = None ->
  (forall k, In k (a :: rem) -> Blocked edge (a :: rem) k = true) \/
  exists k, In k (a :: rem) /\ Reduce edge fuel (Remove k (a :: rem)) = None.
Proof.
  change (Reduce edge (S fuel) (a :: rem)) with
    (match find (fun k => negb (Blocked edge (a :: rem) k)) (a :: rem) with
     | None => None
     | Some k =>
         match Reduce edge fuel (Remove k (a :: rem)) with
         | None => None
         | Some order => Some (k :: order)
         end
     end).
  destruct (find _ (a :: rem)) as [k|] eqn:Hf.
  - destruct (Reduce edge fuel (Remove k (a :: rem))) eqn:Hr; [discriminate|].
    intros _. right. exists k. apply find_some in Hf. tauto.
  - intros _. left. intros k Hk.
    pose proof (find_none _ _ Hf k Hk) as Hn. simpl in Hn.
    rewrite negb_false_iff in Hn. exact Hn.
Qed.

Lemma Reduce_None (fuel : nat) :
  forall remaining, length remaining <= fuel ->
  Reduce edge fuel remaining = None ->
  exists x, clos_trans nat (Within edge remaining) x x.
Proof.
  induction fuel as [|fuel IH]; intros [|a rem] Hl H.
  - discriminate.
  - simpl in Hl. lia.
  - discriminate.
  - apply Reduce_None_cons in H. destruct H as [Hb|(k & Hk & Hr)].
    + apply (blocked_cycle (a :: rem) a); [left; reflexivity|exact Hb].
    + pose proof (Remove_length k (a :: rem) Hk) as Hlt.
      destruct (IH (Remove k (a :: rem))) as [x Hx]; [simpl in *; lia|exact Hr|].
      exists x. eapply Within_incl; [|exact Hx].
      intros y Hy. apply Remove_In in Hy. tauto.
Qed.

Lemma Reduce_Some_acyclic (fuel : nat) (remaining order : list nat) :
  Reduce edge fuel remaining = Some order ->
  forall x, ~ clos_trans nat (Within edge remaining) x x.
Proof.
  intros H x Hc.
  apply (Ordered_acyclic order (Reduce_Ordered _ _ _ H) x).
  eapply Within_incl; [|exact Hc].
  intros y Hy. apply (Reduce_In _ _ _ H). exact Hy.
Qed.

End ReduceFacts.

(** What the sorter does: on success the vector holds the nodes it held,
    every node placed after the nodes it holds in [m_children], and the
    graph has no cycle; on failure the vector is untouched and the graph
    has a cycle. *)
Lemma Sort_meets_specification (nodes : list Node) :
  match Sort nodes with
  | (true, sorted) =>
      exists order,
        sorted = map (NodeAt nodes) order
        /\ Permutation order (seq 0 (length nodes))
        /\ (forall p c, p < length nodes -> c < length nodes ->
              HasChild nodes p c = true -> Precedes order c p)
        /\ (forall x, ~ clos_trans nat (Within (Before nodes) (seq 0 (length nodes))) x x)
  | (false, unsorted) =>
      unsorted = nodes
      /\ exists x, clos_trans nat (Within (Before nodes) (seq 0 (length nodes))) x x
  end.
Proof.
  unfold Sort.
  destruct (Reduce (Before nodes) (length nodes) (seq 0 (length nodes))) as [order|] eqn:Hr.
  - exists order.
    assert (Hin : forall x, In x order <-> In x (seq 0 (length nodes)))
      by (apply (Reduce_In _ _ _ _ Hr)).
    split; [reflexivity|]. split; [|split].
    + apply NoDup_Permutation; [apply (Reduce_NoDup _ _ _ _ Hr)|apply seq_NoDup|exact Hin].
    + intros p c Hp Hc He.
      apply (Ordered_Precedes (Before nodes)); [apply (Reduce_Ordered _ _ _ _ Hr)| | |exact He];
        apply Hin, in_seq; lia.
    + apply (Reduce_Some_acyclic _ _ _ _ Hr).
  - split; [reflexivity|].
    apply (Reduce_None _ (length nodes)); [rewrite length_seq; apply Nat.le_refl|exact Hr].
Qed.

(** ** The ordering pass *)

Lemma DependencyNodes_length (types : list ReflectedType.t) :
  length (DependencyNodes types) = length types.
Proof. unfold DependencyNodes. rewrite length_map, length_seq. reflexivity. Qed.

Lemma NodeAt_DependencyNodes (types : list ReflectedType.t) (p : nat) :
  p < length types ->
  NodeAt (DependencyNodes types) p = mkNode p (DependencyChildren types p).
Proof.
  intros Hp. unfold NodeAt, DependencyNodes.
  rewrite (nth_indep _ emptyNode (mkNode 0 (DependencyChildren types 0)))
    by (rewrite length_map, length_seq; exact Hp).
  rewrite (map_nth (fun i => mkNode i (DependencyChildren types i))).
  rewrite seq_nth by exact Hp. reflexivity.
Qed.

Lemma In_DependencyChildren (types : list ReflectedType.t) (p c : nat) :
  In c (DependencyChildren types p) <->
  c < length types /\ p <> c /\
  ReflectedType.m_ID (nth c types ReflectedType.empty)
  = ReflectedType.m_parentID (nth p types ReflectedType.empty).
Proof.
  unfold DependencyChildren.
  rewrite filter_In, in_seq, andb_true_iff, negb_true_iff, Nat.eqb_neq, String.eqb_eq.
  split; [intros [[_ H1] [H2 H3]]|intros (H1 & H2 & H3)]; repeat split; auto; lia.
Qed.

Lemma HasChild_DependencyEdge (types : list ReflectedType.t) (p c : nat) :
  HasChild (DependencyNodes types) p c = true <-> DependencyEdge types p c.
Proof.
  unfold HasChild, DependencyEdge, ParentEdge.
  destruct (Nat.lt_ge_cases p (length types)) as [Hp|Hp].
  - rewrite NodeAt_DependencyNodes by exact Hp. simpl.
    rewrite existsb_exists. split.
    + intros (x & Hx & He). apply Nat.eqb_eq in He. subst x.
      apply In_DependencyChildren in Hx. tauto.
    + intros (H1 & _ & H2 & H3). exists c. split; [|apply Nat.eqb_refl].
      apply In_DependencyChildren. tauto.
  - unfold NodeAt. rewrite nth_overflow by (rewrite DependencyNodes_length; exact Hp).
    simpl. split; [discriminate|]. intros (_ & H & _). lia.
Qed.

(** A path of the order the sorter works with, read backwards, is a path
    of parent links. *)
Lemma Within_DependencyEdge (types : list ReflectedType.t) (x y : nat) :
  clos_trans nat (Within (Before (DependencyNodes types)) (seq 0 (length types))) x y <->
  clos_trans nat (DependencyEdge types) y x.
Proof.
  split; intros H.
  - induction H as [x y (_ & _ & He)|x y z _ IH1 _ IH2].
    + apply t_step. apply HasChild_DependencyEdge. exact He.
    + eapply t_trans; eauto.
  - induction H as [y x He|y x z _ IH1 _ IH2].
    + apply t_step. pose proof He as (_ & Hy & Hx & _).
      repeat split; [apply in_seq; lia|apply in_seq; lia|].
      apply HasChild_DependencyEdge. exact He.
    + eapply t_trans; eauto.
Qed.

Lemma Sort_DependencyNodes (types : list ReflectedType.t) :
  Sort (DependencyNodes types) =
  match Reduce (Before (DependencyNodes types)) (length types) (seq 0 (length types)) with
  | Some order => (true, map (NodeAt (DependencyNodes types)) order)
  | None => (false, DependencyNodes types)
  end.
Proof. unfold Sort. rewrite DependencyNodes_length. reflexivity. Qed.

Lemma HasCycle_two (types : list ReflectedType.t) :
  HasCycle (DependencyEdge types) -> 2 <= length types.
Proof.
  intros [x H]. apply clos_trans_t1n in H.
  assert (exists y, DependencyEdge types x y) as [y (Hne & Hx & Hy & _)]
    by (inversion H; eauto).
  lia.
Qed.

(** The pass fails exactly on the lists with a cycle between different
    positions. *)
Lemma SortTypesByDependencies_false (types : list ReflectedType.t) :
  fst (SortTypesByDependencies types) = false <-> HasCycle (DependencyEdge types).
Proof.
  unfold SortTypesByDependencies.
  destruct (length types <=? 1)%nat eqn:Hn.
  - simpl. split; [discriminate|]. intros H. apply HasCycle_two in H.
    apply Nat.leb_le in Hn. lia.
  - rewrite Sort_DependencyNodes.
    destruct (Reduce _ _ _) as [order|] eqn:Hr; simpl.
    + split; [discriminate|]. intros [x Hx]. exfalso.
      apply (Reduce_Some_acyclic _ _ _ _ Hr x). apply Within_DependencyEdge. exact Hx.
    + split; [|reflexivity]. intros _.
      assert (Hl : length (seq 0 (length types)) <= length types)
        by (rewrite length_seq; apply Nat.le_refl).
      destruct (Reduce_None _ _ _ Hl Hr) as [x Hx].
      exists x. apply Within_DependencyEdge. exact Hx.
Qed.

Lemma SortTypesByDependencies_failure (types l : list ReflectedType.t) :
  SortTypesByDependencies types = (false, l) -> l = types.
Proof.
  unfold SortTypesByDependencies.
  destruct (length types <=? 1)%nat; [discriminate|].
  destruct (Sort (DependencyNodes types)) as [[|] sorted]; [discriminate|].
  intros H; inversion H; reflexivity.
Qed.

Lemma map_nth_seq {A : Type} (d : A) (l : list A) :
  map (fun k => nth k l d) (seq 0 (length l)) = l.
Proof.
  induction l as [|x r IH]; [reflexivity|].
  simpl. f_equal. rewrite <- seq_shift, map_map. exact IH.
Qed.

Lemma Precedes_map {A B : Type} (f : A -> B) (l : list A) (x y : A) :
  Precedes l x y -> Precedes (map f l) (f x) (f y).
Proof.
  intros (l1 & l2 & l3 & ->). exists (map f l1), (map f l2), (map f l3).
  rewrite map_app. simpl. rewrite map_app. reflexivity.
Qed.

(** On success the caller's vector is the old one read in an order of its
    positions in which the position of the parent of a type stands before
    the position of the type. *)
Lemma SortTypesByDependencies_order (types sorted : list ReflectedType.t) :
  SortTypesByDependencies types = (true, sorted) ->
  exists order,
    Permutation order (seq 0 (length types))
    /\ sorted = map (fun k => nth k types ReflectedType.empty) order
    /\ forall i j, DependencyEdge types i j -> Precedes order j i.
Proof.
  unfold SortTypesByDependencies.
  destruct (length types <=? 1)%nat eqn:Hn.
  - intros H; inversion H; subst sorted. exists (seq 0 (length types)).
    split; [reflexivity|]. split; [symmetry; apply map_nth_seq|].
    intros i j (Hne & Hi & Hj & _). apply Nat.leb_le in Hn. lia.
  - rewrite Sort_DependencyNodes.
    destruct (Reduce _ _ _) as [order|] eqn:Hr; [|discriminate].
    intros H; inversion H; subst sorted; clear H.
    assert (Hin : forall x, In x order <-> In x (seq 0 (length types)))
      by (apply (Reduce_In _ _ _ _ Hr)).
    exists order. split; [|split].
    + apply NoDup_Permutation; [apply (Reduce_NoDup _ _ _ _ Hr)|apply seq_NoDup|exact Hin].
    + rewrite map_map. apply map_ext_in. intros k Hk.
      apply Hin, in_seq in Hk. rewrite NodeAt_DependencyNodes by lia. reflexivity.
    + intros i j He.
      apply (Ordered_Precedes (Before (DependencyNodes types))).
      * apply (Reduce_Ordered _ _ _ _ Hr).
      * apply Hin, in_seq. destruct He as (_ & _ & ? & _). lia.
      * apply Hin, in_seq. destruct He as (_ & ? & _). lia.
      * apply HasChild_DependencyEdge. exact He.
Qed.

(** On success the caller's vector holds the same types, and the parent of
    a type stands before the type: the sorter places a node after the nodes
    it holds in [m_children], and the pass gives the node of a type the
    nodes of its parents. *)
Lemma SortTypesByDependencies_success (types sorted : list ReflectedType.t) :
  SortTypesByDependencies types = (true, sorted) ->
  Permutation sorted types /\
  forall i j, DependencyEdge types i j ->
    Precedes sorted (nth j types ReflectedType.empty) (nth i types ReflectedType.empty).
Proof.
  unfold SortTypesByDependencies.
  destruct (length types <=? 1)%nat eqn:Hn.
  - intros H; inversion H; subst sorted. split; [reflexivity|].
    intros i j (Hne & Hi & Hj & _). apply Nat.leb_le in Hn. lia.
  - rewrite Sort_DependencyNodes.
    destruct (Reduce _ _ _) as [order|] eqn:Hr; [|discriminate].
    intros H; inversion H; subst sorted; clear H.
    assert (Hin : forall x, In x order <-> In x (seq 0 (length types)))
      by (apply (Reduce_In _ _ _ _ Hr)).
    assert (Hmap : map (fun node => nth (m_ID node) types ReflectedType.empty)
                     (map (NodeAt (DependencyNodes types)) order)
                   = map (fun k => nth k types ReflectedType.empty) order).
    { rewrite map_map. apply map_ext_in. intros k Hk.
      apply Hin, in_seq in Hk. rewrite NodeAt_DependencyNodes by lia. reflexivity. }
    rewrite Hmap. split.
    + apply Permutation_trans with
        (map (fun k => nth k types ReflectedType.empty) (seq 0 (length types)));
        [|rewrite map_nth_seq; reflexivity].
      apply Permutation_map. apply NoDup_Permutation.
      * apply (Reduce_NoDup _ _ _ _ Hr).
      * apply seq_NoDup.
      * exact Hin.
    + intros i j He.
      apply (Precedes_map (fun k => nth k types ReflectedType.empty) order j i).
      apply (Ordered_Precedes (Before (DependencyNodes types))).
      * apply (Reduce_Ordered _ _ _ _ Hr).
      * apply Hin, in_seq. destruct He as (_ & _ & ? & _). lia.
      * apply Hin, in_seq. destruct He as (_ & ? & _). lia.
      * apply HasChild_DependencyEdge. exact He.
Qed.

(** *** The order of strings *)

Lemma String_compare_OT (a b : string) : String.compare a b = String_as_OT.compare a b.
Proof.
  revert b; induction a as [|c a IH]; intros [|d b]; simpl; reflexivity.
Qed.

Lemma ltb_lt (a b : string) : String.ltb a b = true <-> String_as_OT.lt a b.
Proof.
  unfold String.ltb, String_as_OT.lt. rewrite String_compare_OT.
  destruct (String_as_OT.compare a b); split; congruence.
Qed.




Lemma sortPredicate_StrictWeakOrder : StrictWeakOrder sortPredicate.
Proof.
  unfold sortPredicate. repeat split; intros *.
  - apply Z.ltb_irrefl.
  - rewrite !Z.ltb_lt. lia.
  - rewrite !Z.ltb_ge. lia.
Qed.

(** *** Insertion sort meets the contract of the library sort *)

Lemma InsertSorted_perm {A : Type} (compare : A -> A -> bool) (x : A) (l : list A) :
  Permutation (x :: l) (InsertSorted compare x l).
Proof.
  induction l as [|y r IH]; simpl; [reflexivity|].
  destruct (compare y x); [|reflexivity].
  rewrite perm_swap. apply perm_skip. exact IH.
Qed.

Lemma InsertionSort_perm {A : Type} (compare : A -> A -> bool) (l : list A) :
  Permutation l (InsertionSort A compare l).
Proof.
  induction l as [|x r IH]; simpl; [reflexivity|].
  rewrite <- InsertSorted_perm. apply perm_skip. exact IH.
Qed.

Lemma InsertSorted_sorted {A : Type} (compare : A -> A -> bool) (x : A) (l : list A) :
  StrictWeakOrder compare ->
  StronglySorted (fun a b => compare b a = false) l ->
  StronglySorted (fun a b => compare b a = false) (InsertSorted compare x l).
Proof.
  intros (Hirr & Htr & Hneg) Hs.
  induction Hs as [|y r Hs IH Hy]; simpl.
  - constructor; constructor.
  - destruct (compare y x) eqn:Hc.
    + constructor; [exact IH|].
      rewrite <- (Permutation_Forall (InsertSorted_perm compare x r)) by exact id.
      constructor; [|exact Hy].
      destruct (compare x y) eqn:Hxy; [|reflexivity].
      pose proof (Htr _ _ _ Hc Hxy) as Hyy. rewrite (Hirr y) in Hyy. discriminate.
    + constructor; [constructor; assumption|].
      constructor; [exact Hc|].
      rewrite Forall_forall in *. intros z Hz. eapply Hneg; [apply Hy; exact Hz|exact Hc].
Qed.

Lemma InsertionSort_sorted {A : Type} (compare : A -> A -> bool) (l : list A) :
  StrictWeakOrder compare ->
  StronglySorted (fun a b => compare b a = false) (InsertionSort A compare l).
Proof.
  intros H. induction l as [|x r IH]; simpl; [constructor|].
  apply InsertSorted_sorted; assumption.
Qed.


Lemma ExampleExternals_laws : ExternalsLaws ExampleExternals.
Proof.
  constructor; simpl.
  - intros; apply InsertionSort_perm.
  - intros; apply InsertionSort_sorted; assumption.
Qed.

(** The laws of the sort carry over to the generator with the emitters of
    the source. *)
Lemma SourceExternals_laws {E : Externals} {M : SchemaMembers} :
  ExternalsLaws E -> ExternalsLaws (SourceExternals (E := E) (M := M)).
Proof.
  intros L. constructor.
  - exact (@eastl_sort_permutation E L).
  - exact (@eastl_sort_sorted E L).
Qed.



(** *** Vector assignment *)








Section EnumFacts.

Context {E : Externals} {L : ExternalsLaws E}.

Variable typeInfo : ReflectedType.t.








End EnumFacts.

(** ** The type ordering pass on cycles *)

Section OrderingPass.

Context {E : Externals}.

Variable m_pDatabase : ReflectionDatabase.t.

Lemma SortTypesByDependencies_cycle (types : list ReflectedType.t) :
  HasCycle (DependencyEdge types) -> SortTypesByDependencies types = (false, types).
Proof.
  intros H. apply SortTypesByDependencies_false in H.
  destruct (SortTypesByDependencies types) as [b l] eqn:Hs. simpl in H. subst b.
  rewrite (SortTypesByDependencies_failure _ _ Hs). reflexivity.
Qed.

Lemma GenerateCodeForProject_header_failure (project : ReflectedProject.t) (g : CodeGenerator.t) :
  (forall g1, exists g2, GenerateProjectTypeInfoHeaderFile m_pDatabase project g1 = Returned false g2) ->
  forall g', GenerateCodeForProject m_pDatabase project g <> Returned true g'.
Proof.
  intros Hh g'. unfold GenerateCodeForProject, bind.
  destruct (GenerateHeaderFiles m_pDatabase project _ g) as [[|] g1|]; simpl; try discriminate.
  destruct (Hh g1) as [g2 ->]. simpl. discriminate.
Qed.

End OrderingPass.

Lemma Truncate_short (n : nat) (s : string) :
  String.length s <= n -> Text.Truncate n s = s.
Proof.
  revert n; induction s as [|c r IH]; intros [|n] H; simpl in *; try reflexivity; try lia.
  rewrite IH by lia. reflexivity.
Qed.

(** C2: on a type list with no parent cycle between different positions
    the ordering pass succeeds, and the caller's list is then the old one
    read in an order of its positions: every position once, so that the
    list holds the same types, as many as before and with no type twice
    if none was, and the parent of a type before the type whenever both
    are in the list.  On Base, Mid (parent Base), Leaf (parent Mid) the
    pass yields Base, Mid, Leaf. *)
Theorem ordering_pass_parents_first (types : list ReflectedType.t) :
  ~ HasCycle (DependencyEdge types) ->
  (exists sorted order,
     SortTypesByDependencies types = (true, sorted)
     /\ Permutation order (seq 0 (length types))
     /\ sorted = map (fun k => nth k types ReflectedType.empty) order
     /\ Permutation sorted types
     /\ length sorted = length types
     /\ (NoDup types -> NoDup sorted)
     /\ (forall i j, i <> j -> ParentEdge types i j ->
           Precedes order j i
           /\ Precedes sorted (nth j types ReflectedType.empty)
                              (nth i types ReflectedType.empty)))
  /\ SortTypesByDependencies [typeBase; typeMid; typeLeaf]
     = (true, [typeBase; typeMid; typeLeaf]).
Proof.
  intros Hc. split; [|vm_compute; reflexivity].
  destruct (SortTypesByDependencies types) as [[|] sorted] eqn:Hs.
  - destruct (SortTypesByDependencies_order _ _ Hs) as (order & Hp & Hm & Ho).
    destruct (SortTypesByDependencies_success _ _ Hs) as [Hperm Hprec].
    exists sorted, order. repeat split; try assumption.
    + apply Permutation_length. exact Hperm.
    + intros Hnd. apply (Permutation_NoDup (Permutation_sym Hperm) Hnd).
    + apply Ho. split; assumption.
    + apply Hprec. split; assumption.
  - elim Hc. apply SortTypesByDependencies_false. rewrite Hs. reflexivity.
Qed.

Lemma ordering_pass_parents_first_witness :
  exists sorted,
    SortTypesByDependencies [typeLeaf; typeBase; typeMid] = (true, sorted)
    /\ Permutation sorted [typeLeaf; typeBase; typeMid]
    /\ Precedes sorted typeBase typeMid
    /\ Precedes sorted typeMid typeLeaf.
Proof.
  assert (Hc : ~ HasCycle (DependencyEdge [typeLeaf; typeBase; typeMid])).
  { intros H. apply SortTypesByDependencies_false in H. vm_compute in H. discriminate H. }
  destruct (ordering_pass_parents_first [typeLeaf; typeBase; typeMid] Hc)
    as [(sorted & order & Hs & _ & _ & Hperm & _ & _ & Hprec) _].
  exists sorted. split; [exact Hs|]. split; [exact Hperm|]. split.
  - apply (Hprec 2 1); [discriminate|]. unfold ParentEdge. cbn. repeat split; lia.
  - apply (Hprec 0 2); [discriminate|]. unfold ParentEdge. cbn. repeat split; lia.
Defined.

(** C3, as stated, fails: a type that is its own parent is a cycle of the
    parent graph, and the pass reports success on it. *)
Lemma self_parent_cycle_not_reported :
  HasCycle (ParentEdge [typeSelf; typeBase])
  /\ SortTypesByDependencies [typeSelf; typeBase] = (true, [typeSelf; typeBase])
  /\ GenerateProjectTypeInfoHeaderFile (E := ExampleExternals)
       (ExampleDatabase [typeSelf; typeBase]) ExampleProject CodeGenerator.initial
     = Returned true
         (WithFile CodeGenerator.initial "Game.typeinfo.h"
            (ProjectTypeInfoHeaderLines (E := ExampleExternals) ExampleProject [typeSelf; typeBase])).
Proof.
  split; [|split].
  - exists 0. apply t_step. unfold ParentEdge. simpl. repeat split; lia.
  - vm_compute. reflexivity.
  - vm_compute. reflexivity.
Qed.

Section CyclicDependency.

Context {E : Externals}.

Variable m_pDatabase : ReflectionDatabase.t.

(** C3, amended: when the types of a project have a parent cycle that goes
    through at least two positions of the type list, the pass returns
    [false] and leaves the list as it was; each of the two project files
    is refused with the cyclic dependency message, which names the
    project, and adds no file; the generation of the project does not
    return [true]. *)
Theorem cyclic_dependency_reported (project : ReflectedProject.t) (g : CodeGenerator.t) :
  let types := ReflectionDatabase.GetAllTypesForProject m_pDatabase (ReflectedProject.m_ID project) in
  HasCycle (DependencyEdge types) ->
  SortTypesByDependencies types = (false, types)
  /\ GenerateProjectTypeInfoHeaderFile m_pDatabase project g
     = Returned false (WithError g (CyclicDependencyMessage project))
  /\ GenerateProjectTypeInfoSourceFile m_pDatabase project g
     = Returned false (WithError g (CyclicDependencyMessage project))
  /\ (forall g', GenerateCodeForProject m_pDatabase project g <> Returned true g')
  /\ CyclicDependencyMessage project
     = "Cyclic header dependency detected in project: " +++ ReflectedProject.m_name project
  /\ (String.length (ReflectedProject.m_name project) <= 209 ->
      Text.Truncate 255 (CyclicDependencyMessage project) = CyclicDependencyMessage project).
Proof.
  intros types Hc.
  pose proof (SortTypesByDependencies_cycle types Hc) as Hs.
  assert (Hh : forall g1, GenerateProjectTypeInfoHeaderFile m_pDatabase project g1
                          = Returned false (WithError g1 (CyclicDependencyMessage project))).
  { intros g1. unfold GenerateProjectTypeInfoHeaderFile. fold types. rewrite Hs. reflexivity. }
  repeat split.
  - exact Hs.
  - apply Hh.
  - unfold GenerateProjectTypeInfoSourceFile. fold types. rewrite Hs. reflexivity.
  - apply GenerateCodeForProject_header_failure. intros g1. eexists. apply Hh.
  - intros Hl. apply Truncate_short. unfold CyclicDependencyMessage.
    assert (Hlen : forall a b, String.length (a +++ b) = String.length a + String.length b).
    { induction a as [|c a IH]; intros b; simpl; [reflexivity|]. rewrite IH. reflexivity. }
    rewrite Hlen. simpl. lia.
Qed.

(** C10: a parent cycle of length one is not detected.  A list of at most
    one type succeeds at the early exit; no node is given itself as a
    child; the pass fails only on a cycle between different positions, so
    a list whose only parent links are from a type to itself succeeds, and
    the project header file is generated with no error logged. *)
Theorem self_parent_is_not_a_cycle (types : list ReflectedType.t) :
  (length types <= 1 -> SortTypesByDependencies types = (true, types))
  /\ (forall i, ~ In i (DependencyChildren types i))
  /\ (fst (SortTypesByDependencies types) = false -> HasCycle (DependencyEdge types))
  /\ ((forall i j, ParentEdge types i j -> i = j) ->
      fst (SortTypesByDependencies types) = true
      /\ forall project g,
           ReflectionDatabase.GetAllTypesForProject m_pDatabase (ReflectedProject.m_ID project) = types ->
           exists g',
             GenerateProjectTypeInfoHeaderFile m_pDatabase project g = Returned true g'
             /\ CodeGenerator.m_errorMessage g' = CodeGenerator.m_errorMessage g).
Proof.
  split; [|split; [|split]].
  - intros H. unfold SortTypesByDependencies.
    apply Nat.leb_le in H. rewrite H. reflexivity.
  - intros i Hi. apply In_DependencyChildren in Hi. destruct Hi as (_ & Hne & _). auto.
  - apply SortTypesByDependencies_false.
  - intros Hself.
    assert (Hok : fst (SortTypesByDependencies types) = true).
    { destruct (fst (SortTypesByDependencies types)) eqn:Hf; [reflexivity|].
      apply SortTypesByDependencies_false in Hf. destruct Hf as [x Hx].
      apply clos_trans_t1n in Hx.
      assert (exists y, DependencyEdge types x y) as [y [Hne Hp]] by (inversion Hx; eauto).
      elim Hne. apply Hself. exact Hp. }
    split; [exact Hok|].
    intros project g Ht. unfold GenerateProjectTypeInfoHeaderFile. rewrite Ht.
    destruct (SortTypesByDependencies types) as [b sorted]. simpl in Hok. subst b.
    eexists. split; reflexivity.
Qed.

End CyclicDependency.

Lemma cyclic_dependency_reported_witness :
  SortTypesByDependencies [typeA; typeB] = (false, [typeA; typeB])
  /\ GenerateProjectTypeInfoHeaderFile (E := ExampleExternals)
       (ExampleDatabase [typeA; typeB]) ExampleProject CodeGenerator.initial
     = Returned false (WithError CodeGenerator.initial (CyclicDependencyMessage ExampleProject)).
Proof.
  assert (Hc : HasCycle (DependencyEdge [typeA; typeB])).
  { exists 0. apply t_trans with 1; apply t_step; unfold DependencyEdge, ParentEdge; simpl;
      repeat split; try lia. }
  destruct (cyclic_dependency_reported (E := ExampleExternals) (ExampleDatabase [typeA; typeB])
              ExampleProject CodeGenerator.initial Hc) as (H1 & H2 & _).
  split; [exact H1|exact H2].
Defined.

Lemma self_parent_is_not_a_cycle_witness :
  fst (SortTypesByDependencies [typeSelf; typeBase]) = true.
Proof.
  destruct (self_parent_is_not_a_cycle (E := ExampleExternals)
              (ExampleDatabase [typeSelf; typeBase]) [typeSelf; typeBase])
    as (_ & _ & _ & H).
  apply H.
  intros i j (Hi & Hj & He). simpl in Hi, Hj.
  destruct i as [|[|i]]; destruct j as [|[|j]]; try lia; simpl in He; discriminate He.
Defined.

(** ** Generated loading status *)

(** The resource-pointer statements keep a recorded failure. *)
Lemma CheckResourcePtr_keeps_failure (failed isSet loaded : bool) :
  CheckResourcePtr failed isSet loaded Failed = GoOn Failed
  \/ CheckResourcePtr failed isSet loaded Failed = Return Loading.
Proof.
  unfold CheckResourcePtr. destruct failed, isSet, loaded; simpl; auto.
Qed.

(** The nested-structure statements assign [status]: a recorded failure is
    replaced by what the nested structure reports. *)
Lemma StructureCheck_overwrites (pActualType : Instance) (typeName name : string) :
  m_structureStatus pActualType name = Loaded ->
  RunStatement pActualType (StructureCheck typeName name) Failed = GoOn Loaded.
Proof. intros H. simpl. rewrite H. reflexivity. Qed.

(** C4: the generated method on a structure whose resource pointer has
    failed and whose nested structure, declared after it, is loaded.  The
    failure recorded for the pointer is overwritten by the assignment of
    the nested status, and the method returns [Loaded]; with the two
    properties declared the other way round it returns [Failed]. *)
Theorem loading_status_failure_overwritten :
  LoadingStatusStatements typeMeshThenSettings
  = [ResourcePtrCheck "m_mesh"; BlankLine; StructureCheck "EE::Settings" "m_settings"; BlankLine]
  /\ HasLoadingFailed (m_resourcePtr instanceFailedMesh "m_mesh") = true
  /\ GetResourceLoadingStatus true typeMeshThenSettings instanceFailedMesh = Loaded
  /\ GetResourceLoadingStatus false typeMeshThenSettings instanceFailedMesh = Loaded
  /\ GetResourceLoadingStatus true typeSettingsThenMesh instanceFailedMesh = Failed.
Proof. repeat split; vm_compute; reflexivity. Qed.

(** ** Parent validation *)

Section ParentValidation.

Context {E : Externals}.

Variable m_pDatabase : ReflectionDatabase.t.

Lemma HeaderTypeBlocks_rejected (project : ReflectedProject.t)
  (pre post : list ReflectedType.t) (typeInfo : ReflectedType.t) :
  ReflectedType.IsEnum typeInfo = false ->
  IsValid (ReflectedType.m_parentID typeInfo) = false ->
  (forall u, In u pre -> exists lines, TypeInfoBlock m_pDatabase project u = Emitted lines) ->
  HeaderTypeBlocks m_pDatabase project (pre ++ typeInfo :: post)
  = Rejected (InvalidParentMessage typeInfo).
Proof.
  intros He Hv. induction pre as [|u pre IH]; intros Hpre; simpl.
  - unfold TypeInfoBlock. rewrite He, Hv. reflexivity.
  - destruct (Hpre u (or_introl eq_refl)) as [lines ->].
    rewrite IH by (intros v Hin; apply Hpre; right; exact Hin). reflexivity.
Qed.

(** C9, amended: in a header whose types, up to the first structure type
    with no valid parent identifier, all generate their type info, the
    generation of the type-info file of the header returns [false], adds
    no file, and logs the invalid parent hierarchy message, which names
    that first type; the message is kept whole when it fits the buffer of
    [LogError]. *)
Theorem invalid_parent_reported (project : ReflectedProject.t) (header : ReflectedHeader.t)
  (pre post : list ReflectedType.t) (typeInfo : ReflectedType.t)
  (outputPath : string) (g : CodeGenerator.t) :
  ReflectedType.IsEnum typeInfo = false ->
  IsValid (ReflectedType.m_parentID typeInfo) = false ->
  (forall u, In u pre -> exists lines, TypeInfoBlock m_pDatabase project u = Emitted lines) ->
  GenerateTypeInfoFileForHeader m_pDatabase project header (pre ++ typeInfo :: post) outputPath g
  = Returned false (WithError g (InvalidParentMessage typeInfo))
  /\ InvalidParentMessage typeInfo
     = "Invalid parent hierarchy for type ("
       +++ (ReflectedType.m_namespace typeInfo +++ ReflectedType.m_name typeInfo)
       +++ "), all registered types must derived from a registered type."
  /\ (String.length (InvalidParentMessage typeInfo) <= 255 ->
      CodeGenerator.m_errorMessage (WithError g (InvalidParentMessage typeInfo))
      = InvalidParentMessage typeInfo).
Proof.
  intros He Hv Hpre. split; [|split].
  - unfold GenerateTypeInfoFileForHeader.
    rewrite (HeaderTypeBlocks_rejected project pre post typeInfo He Hv Hpre). reflexivity.
  - reflexivity.
  - intros Hl. unfold WithError. cbn [CodeGenerator.m_errorMessage].
    apply Truncate_short. exact Hl.
Qed.

End ParentValidation.

Lemma invalid_parent_reported_witness :
  GenerateTypeInfoFileForHeader (E := ExampleExternals)
    (ExampleDatabase [typeMid; typeOrphan]) ExampleProject ExampleHeader
    ([typeMid] ++ typeOrphan :: []) "Types.typeinfo.h" CodeGenerator.initial
  = Returned false (WithError CodeGenerator.initial (InvalidParentMessage typeOrphan)).
Proof.
  apply (invalid_parent_reported (E := ExampleExternals)
           (ExampleDatabase [typeMid; typeOrphan]) ExampleProject ExampleHeader
           [typeMid] [] typeOrphan "Types.typeinfo.h" CodeGenerator.initial).
  - reflexivity.
  - reflexivity.
  - intros u [<-|[]]. eexists. vm_compute. reflexivity.
Defined.

(** C9, as stated, fails.  A structure type with no valid parent is not
    reported when the process halts on a type before it in the header: on
    an enumeration over an underlying type the generator has no case for,
    or on a structure whose parent identifier is valid and names no type
    of the database.  And of two structure types with no valid parent in
    one header, only the first is named: the loop returns at the first. *)
Lemma invalid_parent_not_reported :
  ReflectedType.IsEnum typeOrphan = false
  /\ IsValid (ReflectedType.m_parentID typeOrphan) = false
  /\ GenerateTypeInfoFileForHeader (E := ExampleExternals)
       (ExampleDatabase [typeWide; typeOrphan]) ExampleProject ExampleHeader
       [typeWide; typeOrphan] "Types.typeinfo.h" CodeGenerator.initial
     = Halted
  /\ GenerateTypeInfoFileForHeader (E := ExampleExternals)
       (ExampleDatabase [typeLost; typeOrphan]) ExampleProject ExampleHeader
       [typeLost; typeOrphan] "Types.typeinfo.h" CodeGenerator.initial
     = Halted
  /\ ReflectedType.IsEnum typeStray = false
  /\ IsValid (ReflectedType.m_parentID typeStray) = false
  /\ GenerateTypeInfoFileForHeader (E := ExampleExternals)
       (ExampleDatabase [typeOrphan; typeStray]) ExampleProject ExampleHeader
       [typeOrphan; typeStray] "Types.typeinfo.h" CodeGenerator.initial
     = Returned false (WithError CodeGenerator.initial (InvalidParentMessage typeOrphan))
  /\ InvalidParentMessage typeOrphan <> InvalidParentMessage typeStray.
Proof.
  repeat split; try reflexivity. discriminate.
Qed.

(** ** Solution generation *)

Section SolutionGeneration.

Context {E : Externals}.

Variable m_pDatabase : ReflectionDatabase.t.
Variable m_solutionDirectoryPath : string.

Lemma GenerateSolutionTypeRegistrationFile_true (mode : CompilationMode)
  (g g' : CodeGenerator.t) (b : bool) :
  GenerateSolutionTypeRegistrationFile m_pDatabase m_solutionDirectoryPath mode g = Returned b g' ->
  b = true.
Proof.
  unfold GenerateSolutionTypeRegistrationFile.
  destruct (GenerateResourceRegistrationMethods m_pDatabase mode); [|discriminate].
  unfold bind, EmplaceFile, ret. intros H; inversion H; reflexivity.
Qed.

(** Whatever the generation of the projects did, the solution generation
    returns [true] when it returns. *)
Lemma GenerateCodeForSolution_true (g g' : CodeGenerator.t) (b : bool) :
  GenerateCodeForSolution m_pDatabase m_solutionDirectoryPath g = Returned b g' -> b = true.
Proof.
  unfold GenerateCodeForSolution, bind.
  destruct (GenerateCodeForProjects m_pDatabase _ g) as [[] g1|]; [|discriminate].
  destruct (GenerateSolutionTypeRegistrationFile _ _ Runtime g1) as [ok1 g2|] eqn:H1; [|discriminate].
  apply GenerateSolutionTypeRegistrationFile_true in H1. subst ok1. simpl.
  destruct (GenerateSolutionTypeRegistrationFile _ _ Tools g2) as [ok2 g3|] eqn:H2; [|discriminate].
  apply GenerateSolutionTypeRegistrationFile_true in H2. subst ok2. simpl.
  unfold ret. intros H; inversion H; reflexivity.
Qed.

End SolutionGeneration.

(** C1: a solution whose one project holds a structure type with no valid
    parent.  The generation of the project fails with the invalid parent
    hierarchy message and adds no file; the solution generation goes on
    all the same, adds the two aggregate files and returns [true], the
    error message of the project still in place. *)
Theorem solution_generation_ignores_project_failure :
  GenerateCodeForProject (E := ExampleExternals) (ExampleDatabase [typeOrphan]) ExampleProject
    CodeGenerator.initial
  = Returned false (WithError CodeGenerator.initial (InvalidParentMessage typeOrphan))
  /\ exists g,
       GenerateCodeForSolution (E := ExampleExternals) (ExampleDatabase [typeOrphan]) "Solution/"
         CodeGenerator.initial
       = Returned true g
       /\ map m_path (CodeGenerator.m_generatedFiles g)
          = ["Solution/RuntimeTypeRegistration.h"; "Solution/ToolsTypeRegistration.h"]
       /\ CodeGenerator.m_errorMessage g = InvalidParentMessage typeOrphan.
Proof.
  split; [vm_compute; reflexivity|].
  eexists. split; [vm_compute; reflexivity|].
  split; vm_compute; reflexivity.
Qed.

(** ** Reading the generated text *)

Lemma append_assoc (a b c : string) : (a +++ b) +++ c = a +++ b +++ c.
Proof. induction a as [|x a IH]; [reflexivity|]. cbn. rewrite IH. reflexivity. Qed.

Lemma append_empty_r (a : string) : a +++ EmptyString = a.
Proof. induction a as [|x a IH]; [reflexivity|]. cbn. rewrite IH. reflexivity. Qed.

Lemma Reverse_app (a b : string) : Reverse (a +++ b) = Reverse b +++ Reverse a.
Proof.
  induction a as [|x a IH]; cbn [Reverse append].
  - symmetry. apply append_empty_r.
  - rewrite IH. apply append_assoc.
Qed.

Lemma Reverse_involutive (a : string) : Reverse (Reverse a) = a.
Proof.
  induction a as [|x a IH]; [reflexivity|].
  cbn [Reverse]. rewrite Reverse_app, IH. reflexivity.
Qed.

Lemma StripPrefix_app (p x : string) : StripPrefix p (p +++ x) = Some x.
Proof.
  induction p as [|a p IH]; [reflexivity|].
  cbn [append StripPrefix]. rewrite Ascii.eqb_refl. exact IH.
Qed.

Lemma StripPrefix_Some (p s r : string) : StripPrefix p s = Some r -> s = p +++ r.
Proof.
  revert s. induction p as [|a p IH]; intros s H.
  - injection H as ->. reflexivity.
  - destruct s as [|b s]; [discriminate H|]. cbn [StripPrefix] in H.
    destruct (Ascii.eqb a b) eqn:Hab; [|discriminate H].
    apply Ascii.eqb_eq in Hab. subst b. cbn [append]. f_equal. apply IH. exact H.
Qed.

Lemma StripSuffix_app (suffix x : string) : StripSuffix suffix (x +++ suffix) = Some x.
Proof.
  unfold StripSuffix. rewrite Reverse_app, StripPrefix_app, Reverse_involutive. reflexivity.
Qed.

(** A chunk that is [p], a name and [suffix] reads as the name, whatever
    the name is. *)
Lemma Between_hit (p suffix x : string) : Between p suffix (p +++ x +++ suffix) = Some x.
Proof. unfold Between. rewrite StripPrefix_app. apply StripSuffix_app. Qed.

Lemma Between_found (p suffix x t : string) :
  t = p +++ x +++ suffix -> Between p suffix t = Some x.
Proof. intros ->. apply Between_hit. Qed.

Lemma Clash_app (p s t : string) : Clash p s = true -> Clash p (s +++ t) = true.
Proof.
  revert s. induction p as [|a p IH]; intros [|b s] H; try discriminate H.
  cbn [append Clash] in *. destruct (Ascii.eqb a b); [apply IH; exact H|reflexivity].
Qed.

Lemma Clash_StripPrefix (p s t : string) : Clash p (s +++ t) = true -> StripPrefix p s = None.
Proof.
  revert s. induction p as [|a p IH]; intros s H.
  - destruct (s +++ t); discriminate H.
  - destruct s as [|b s]; [reflexivity|].
    cbn [append Clash StripPrefix] in *.
    destruct (Ascii.eqb a b); [apply IH; exact H|reflexivity].
Qed.

Lemma ClashEnd_app (suffix a t : string) :
  ClashEnd suffix t = true -> ClashEnd suffix (a +++ t) = true.
Proof. unfold ClashEnd. intros H. rewrite Reverse_app. apply Clash_app. exact H. Qed.

(** A chunk whose first characters differ from the ones of the pattern is
    not read, whatever follows. *)
Lemma Between_front (p suffix a rest : string) :
  Clash p a = true -> Between p suffix (a +++ rest) = None.
Proof.
  intros H. unfold Between.
  rewrite (Clash_StripPrefix p (a +++ rest) EmptyString); [reflexivity|].
  rewrite append_empty_r. apply Clash_app. exact H.
Qed.

(** A chunk whose last characters differ from the ones of the pattern is
    not read, whatever stands before. *)
Lemma Between_end (p suffix s : string) :
  ClashEnd suffix s = true -> Between p suffix s = None.
Proof.
  intros H. unfold Between. destruct (StripPrefix p s) as [r|] eqn:Hp; [|reflexivity].
  apply StripPrefix_Some in Hp. subst s. unfold StripSuffix.
  unfold ClashEnd in H. rewrite Reverse_app in H.
  rewrite (Clash_StripPrefix _ _ _ H). reflexivity.
Qed.

Lemma Collect_app {A : Type} (read : string -> option A) (l1 l2 : list Line) :
  Collect read (l1 ++ l2) = Collect read l1 ++ Collect read l2.
Proof.
  induction l1 as [|l r IH]; [reflexivity|].
  cbn [app Collect]. destruct (read (text l)); rewrite IH; reflexivity.
Qed.

Lemma Collect_Unread {A : Type} (read : string -> option A) (lines : list Line) :
  Forall (Unread read) lines -> Collect read lines = [].
Proof.
  induction 1 as [|l r Hl _ IH]; [reflexivity|].
  cbn [Collect]. rewrite Hl. exact IH.
Qed.

Lemma Collect_flat_map {A B : Type} (read : string -> option A) (f : B -> list Line)
  (l : list B) :
  Collect read (flat_map f l) = flat_map (fun x => Collect read (f x)) l.
Proof.
  induction l as [|x r IH]; [reflexivity|].
  cbn [flat_map]. rewrite Collect_app, IH. reflexivity.
Qed.

Lemma Collect_map_hit {A B : Type} (read : string -> option A) (f : B -> Line) (g : B -> A)
  (l : list B) :
  (forall x, read (text (f x)) = Some (g x)) -> Collect read (map f l) = map g l.
Proof.
  intros H. induction l as [|x r IH]; [reflexivity|].
  cbn [map Collect]. rewrite H, IH. reflexivity.
Qed.

Lemma Collect_map_Unread {A B : Type} (read : string -> option A) (f : B -> Line) (l : list B) :
  (forall x, read (text (f x)) = None) -> Collect read (map f l) = [].
Proof.
  intros H. induction l as [|x r IH]; [reflexivity|].
  cbn [map Collect]. rewrite H. exact IH.
Qed.

Lemma Collect_map_option {A B : Type} (read : string -> option A) (f : B -> Line)
  (g : B -> option A) (l : list B) :
  (forall x, read (text (f x)) = g x) ->
  Collect read (map f l) = flat_map (fun x => match g x with Some a => [a] | None => [] end) l.
Proof.
  intros H. induction l as [|x r IH]; [reflexivity|].
  cbn [map Collect flat_map]. rewrite H, IH. destruct (g x); reflexivity.
Qed.

Lemma flat_map_some {A B : Type} (g : A -> B) (l : list A) :
  flat_map (fun x => match Some (g x) with Some a => [a] | None => [] end) l = map g l.
Proof. induction l as [|x r IH]; [reflexivity|]. cbn [flat_map map app]. rewrite IH. reflexivity. Qed.

Lemma flat_map_none {A B : Type} (l : list A) :
  flat_map (fun _ : A => match @None B with Some a => [a] | None => [] end) l = [].
Proof. induction l as [|x r IH]; [reflexivity|exact IH]. Qed.

Lemma Collect_flat_map_Unread {A B : Type} (read : string -> option A) (f : B -> list Line)
  (l : list B) :
  (forall x, Forall (Unread read) (f x)) -> Collect read (flat_map f l) = [].
Proof.
  intros H. rewrite Collect_flat_map. induction l as [|x r IH]; [reflexivity|].
  cbn [flat_map]. rewrite (Collect_Unread _ _ (H x)). exact IH.
Qed.

Lemma Clash_refl_app (p x : string) : Clash p (p +++ x) = false.
Proof.
  induction p as [|a p IH]; [destruct x; reflexivity|].
  cbn [append Clash]. rewrite Ascii.eqb_refl. exact IH.
Qed.

Lemma SkipBlanks_suffix (s : string) : exists b, s = b +++ SkipBlanks s.
Proof.
  induction s as [|c r [b IH]]; [exists EmptyString; reflexivity|].
  cbn [SkipBlanks]. destruct (IsBlank c).
  - exists (String c b). cbn [append]. rewrite <- IH. reflexivity.
  - exists EmptyString. reflexivity.
Qed.

(** A chunk whose last characters differ from the ones of a directive is
    not that directive, whatever stands before. *)
Lemma SkipBlanks_end (p s : string) :
  ClashEnd p s = true -> String.eqb (SkipBlanks s) p = false.
Proof.
  intros H. destruct (String.eqb (SkipBlanks s) p) eqn:He; [|reflexivity].
  apply String.eqb_eq in He. destruct (SkipBlanks_suffix s) as [b Hb].
  rewrite He in Hb. rewrite Hb in H. unfold ClashEnd in H.
  rewrite Reverse_app, Clash_refl_app in H. discriminate H.
Qed.

Lemma OpensRegion_end (s : string) :
  ClashEnd ("#if EE_DEVELOPMENT_TOOLS" +++ Text.nl) s = true ->
  ClashEnd "#if EE_DEVELOPMENT_TOOLS" s = true ->
  OpensRegion s = false.
Proof.
  intros H1 H2. unfold OpensRegion.
  rewrite (SkipBlanks_end _ _ H1), (SkipBlanks_end _ _ H2). reflexivity.
Qed.

Lemma ClosesRegion_end (s : string) :
  ClashEnd ("#endif" +++ Text.nl) s = true ->
  ClashEnd ("#endif" +++ Text.nl +++ Text.nl) s = true ->
  ClosesRegion s = false.
Proof.
  intros H1 H2. unfold ClosesRegion.
  rewrite (SkipBlanks_end _ _ H1), (SkipBlanks_end _ _ H2). reflexivity.
Qed.


Lemma string_of_uint_last (d : uint) :
  d <> Nil ->
  exists c r, Reverse (NilEmpty.string_of_uint d) = String c r /\ Text.IsDigit c = true.
Proof.
  induction d as [|d IH|d IH|d IH|d IH|d IH|d IH|d IH|d IH|d IH|d IH]; intros Hn;
    [congruence|..];
    cbn [NilEmpty.string_of_uint Reverse];
    (destruct d as [|d'|d'|d'|d'|d'|d'|d'|d'|d'|d'];
     [eexists _, _; split; reflexivity|..]);
    (destruct IH as (c & r & Hr & Hc); [discriminate|]; rewrite Hr;
     exists c; eexists; split; [reflexivity|exact Hc]).
Qed.

(** A printed number ends with a digit. *)
Lemma of_nat_last (n : nat) :
  exists c r, Reverse (Text.of_nat n) = String c r /\ Text.IsDigit c = true.
Proof.
  unfold Text.of_nat, NilZero.string_of_uint.
  assert (Hn : Nat.to_uint n <> Nil).
  { rewrite <- (Unsigned.of_to n) at 1. rewrite Unsigned.to_of. apply unorm_nonnil. }
  destruct (Nat.to_uint n) eqn:Hd; try congruence;
    rewrite <- Hd in *; apply string_of_uint_last; exact Hn.
Qed.

(** A printed number and a semicolon do not end a call. *)
Lemma ClashEnd_of_nat (suffix a : string) (n : nat) :
  ClashEnd (suffix +++ ");" +++ Text.nl) (a +++ Text.of_nat n +++ ";" +++ Text.nl) = true.
Proof.
  unfold ClashEnd. rewrite !Reverse_app.
  destruct (of_nat_last n) as (c & r & -> & Hc).
  cbn [Reverse append Text.nl Clash]. rewrite !Ascii.eqb_refl.
  unfold Text.IsDigit in Hc. cbn [existsb] in Hc.
  destruct (Ascii.eqb ")" c) eqn:He; [|reflexivity].
  apply Ascii.eqb_eq in He. subst c. discriminate Hc.
Qed.

(** The end of a chunk, found under the names and numbers written before
    it. *)
Ltac end_clash :=
  first [ solve [vm_compute; reflexivity]
        | apply ClashEnd_app; end_clash ].

(** One pattern that does not fit a chunk: the chunk is a literal, or it
    starts or ends with one that differs from the pattern. *)
Ltac between_miss :=
  first [ solve [vm_compute; reflexivity]
        | solve [apply Between_front; vm_compute; reflexivity]
        | solve [apply Between_end; end_clash] ].


(** The reader reads the chunk with the pattern that [x] stands between
    the two ends of. *)
Ltac read x :=
  unfold ReadAlphabeticalOrder, ReadConstantLabel, ReadTypeCall, ReadTypeDeclaration,
    ReadTypeDefinition, ReadModuleCall, ReadInclude, ReadRegistryStatement;
  cbn [ReadFirst TypeCallPatterns TypeDeclarationPatterns TypeDefinitionPatterns
       ModuleCallPattern RegistryStatementPatterns m_prefix m_suffix m_found text T];
  repeat match goal with
         | |- context [Between ?p ?s ?t] =>
             first [ rewrite (Between_found p s x t eq_refl)
                   | rewrite (Between_found p s x t
                                ltac:(cbn [fst]; rewrite ?append_assoc; reflexivity))
                   | replace (Between p s t) with (@None string) by (symmetry; between_miss) ]
         end;
  reflexivity.

(** No pattern of the reader fits the chunk. *)
Ltac unread :=
  first [ solve [vm_compute; reflexivity]
        | unfold ReadAlphabeticalOrder, ReadConstantLabel, ReadTypeCall, ReadTypeDeclaration,
            ReadTypeDefinition, ReadModuleCall, ReadInclude, ReadRegistryStatement;
          cbn [ReadFirst TypeCallPatterns TypeDeclarationPatterns TypeDefinitionPatterns
               ModuleCallPattern RegistryStatementPatterns m_prefix m_suffix m_found text T];
          repeat match goal with
                 | |- context [Between ?p ?s ?t] =>
                     replace (Between p s t) with (@None string) by (symmetry; between_miss)
                 end;
          reflexivity ].

(** The characters of the chunk open or close a region exactly when the
    chunk is marked so. *)
Ltac legible :=
  split; cbn [text directive T];
  first [ solve [vm_compute; reflexivity]
        | solve [apply OpensRegion_end; end_clash]
        | solve [apply ClosesRegion_end; end_clash] ].

(** A chunk of an aggregate file that no reader of calls or includes
    reads. *)
Ltac no_project_statement :=
  split; [intros [| |]|]; unfold Unread; unread.

(** A chunk that is legible and defines no per-type function. *)
Ltac quiet :=
  split; [legible|intros [| |]; unfold Unread; unread].

(** A list of chunks, each proved by [tac] or assumed. *)
Ltac lines_by tac :=
  repeat match goal with
         | |- Forall _ (if ?b then _ else _) => destruct b
         | |- Forall _ (match ?l with [] => _ | _ :: _ => _ end) => destruct l
         | |- Forall _ [] => apply Forall_nil
         | |- Forall _ (_ :: _) => apply Forall_cons; [first [assumption | tac]|]
         | |- Forall _ (_ ++ _) => apply Forall_app; split
         | |- Forall _ _ => assumption
         end.

Ltac unread_lines := lines_by ltac:(unfold Unread; unread).

Ltac legible_lines := lines_by legible.

Ltac no_project_statements := lines_by no_project_statement.

Ltac quiet_lines := lines_by quiet.

(** ** The constant table of an enumeration *)

Section EnumTable.

Context {E : Externals} {L : ExternalsLaws E}.






End EnumTable.


(** ** Registration order *)

Lemma ReadTypeCall_RegisterTypeCall (f : TypeFunction) (type : ReflectedType.t) :
  ReadTypeCall f (text (RegisterTypeCall type))
  = match f with RegisterType => Some (NameAndGuard type) | _ => None end.
Proof.
  unfold RegisterTypeCall, NameAndGuard.
  destruct (ReflectedType.m_isDevOnly type), f;
    first [ read (ReflectedType.typenameStr type) | unread ].
Qed.

Lemma ReadTypeCall_UnregisterTypeCall (f : TypeFunction) (type : ReflectedType.t) :
  ReadTypeCall f (text (UnregisterTypeCall type))
  = match f with UnregisterType => Some (NameAndGuard type) | _ => None end.
Proof.
  unfold UnregisterTypeCall, NameAndGuard.
  destruct (ReflectedType.m_isDevOnly type), f;
    first [ read (ReflectedType.typenameStr type) | unread ].
Qed.

Lemma TypeCalls_CreateDefaultInstanceCall (f : TypeFunction) (type : ReflectedType.t) :
  TypeCalls f (CreateDefaultInstanceCall type)
  = match f with
    | CreateDefaultInstance =>
        if HasTypeFunction CreateDefaultInstance type then [NameAndGuard type] else []
    | _ => []
    end.
Proof.
  unfold TypeCalls, CreateDefaultInstanceCall, HasTypeFunction, NameAndGuard.
  destruct (ReflectedType.IsAbstract type), (ReflectedType.IsEnum type);
    cbn [orb andb negb Collect]; try (destruct f; reflexivity).
  destruct (ReflectedType.m_isDevOnly type), f; cbn [Collect];
    match goal with
    | |- context [ReadTypeCall ?g ?t] =>
        first [ replace (ReadTypeCall g t) with (Some (ReflectedType.typenameStr type, true))
                  by (symmetry; read (ReflectedType.typenameStr type))
              | replace (ReadTypeCall g t) with (Some (ReflectedType.typenameStr type, false))
                  by (symmetry; read (ReflectedType.typenameStr type))
              | replace (ReadTypeCall g t) with (@None (string * bool)) by (symmetry; unread) ]
    end; reflexivity.
Qed.

Lemma flat_map_singleton_filter {A B : Type} (f : A -> B) (keep : A -> bool) (l : list A) :
  flat_map (fun x => if keep x then [f x] else []) l = map f (filter keep l).
Proof.
  induction l as [|x r IH]; [reflexivity|]. cbn [flat_map filter].
  destruct (keep x); cbn [app map]; rewrite IH; reflexivity.
Qed.

Lemma filter_true {A : Type} (l : list A) : filter (fun _ => true) l = l.
Proof. induction l as [|x r IH]; [reflexivity|]. cbn [filter]. rewrite IH. reflexivity. Qed.

Lemma flat_map_nil {A B : Type} (l : list A) : flat_map (fun _ : A => @nil B) l = [].
Proof. induction l as [|x r IH]; [reflexivity|exact IH]. Qed.

Section ProjectCalls.

Context {E : Externals}.

(** The calls of the per-type functions in the text of the type-info
    source file of a project: the name in each call, and whether the call
    stands inside the macro. *)
Lemma ProjectTypeInfoSourceLines_calls (project : ReflectedProject.t)
  (typesInProject : list ReflectedType.t) (f : TypeFunction) :
  TypeCalls f (ProjectTypeInfoSourceLines project typesInProject)
  = match f with
    | RegisterType => map NameAndGuard typesInProject
    | CreateDefaultInstance =>
        map NameAndGuard (filter (HasTypeFunction CreateDefaultInstance) typesInProject)
    | UnregisterType => map NameAndGuard (rev typesInProject)
    end.
Proof.
  unfold TypeCalls, ProjectTypeInfoSourceLines.
  rewrite !Collect_app, Collect_flat_map.
  rewrite (Collect_map_option (ReadTypeCall f) RegisterTypeCall
             (fun t => match f with RegisterType => Some (NameAndGuard t) | _ => None end))
    by (intros t; apply ReadTypeCall_RegisterTypeCall).
  rewrite (Collect_map_option (ReadTypeCall f) UnregisterTypeCall
             (fun t => match f with UnregisterType => Some (NameAndGuard t) | _ => None end))
    by (intros t; apply ReadTypeCall_UnregisterTypeCall).
  rewrite (flat_map_ext _ _ (TypeCalls_CreateDefaultInstanceCall f)).
  rewrite !Collect_Unread by (destruct f; unread_lines).
  destruct f; cbn [app]; rewrite ?app_nil_r, ?flat_map_nil, ?flat_map_some, ?flat_map_none;
    cbn [app]; rewrite ?app_nil_r; try reflexivity.
  apply flat_map_singleton_filter.
Qed.

End ProjectCalls.

Lemma ReadModuleCall_ModuleCall (f g : ModuleFunction) (project : ReflectedProject.t) :
  ReadModuleCall f (text (ModuleCall g project))
  = match g, f with
    | RegisterTypes, RegisterTypes
    | CreateDefaultInstances, CreateDefaultInstances
    | UnregisterTypes, UnregisterTypes => Some (ReflectedProject.moduleStr project)
    | _, _ => None
    end.
Proof.
  destruct g, f; cbn [ModuleCall];
    first [ read (ReflectedProject.moduleStr project) | unread ].
Qed.

Lemma CalledModuleFunctions_ModuleCall (f g : ModuleFunction) (projects : list ReflectedProject.t) :
  CalledModuleFunctions f (map (ModuleCall g) projects)
  = match g, f with
    | RegisterTypes, RegisterTypes
    | CreateDefaultInstances, CreateDefaultInstances
    | UnregisterTypes, UnregisterTypes => map ReflectedProject.moduleStr projects
    | _, _ => []
    end.
Proof.
  unfold CalledModuleFunctions.
  rewrite (Collect_map_option _ _ _ _ (ReadModuleCall_ModuleCall f g)).
  destruct g, f; first [apply flat_map_some | apply flat_map_none].
Qed.

Lemma Forall_map_lines {A : Type} (P : Line -> Prop) (f : A -> Line) (l : list A) :
  (forall x, P (f x)) -> Forall P (map f l).
Proof. intros H. induction l as [|x r IH]; constructor; [apply H|exact IH]. Qed.

Lemma Forall_flat_map_lines {A : Type} (P : Line -> Prop) (f : A -> list Line) (l : list A) :
  (forall x, Forall P (f x)) -> Forall P (flat_map f l).
Proof.
  intros H. induction l as [|x r IH]; [constructor|].
  cbn [flat_map]. apply Forall_app; split; [apply H|exact IH].
Qed.

Section AggregateCalls.

Context {E : Externals}.

Variable m_pDatabase : ReflectionDatabase.t.
Variable m_solutionDirectoryPath : string.

Lemma ParentTypeLines_no_project_statement (table : list ReflectedResourceType.t)
  (parents : list TypeID) :
  forall lines, ParentTypeLines table parents = Some lines -> Forall NoProjectStatement lines.
Proof.
  induction parents as [|p r IH]; intros lines H; cbn [ParentTypeLines] in H.
  - injection H as <-. constructor.
  - destruct (GetResourceTypeIDForTypeID table p); [|discriminate].
    destruct (ParentTypeLines table r) as [rest|]; [|discriminate].
    apply (f_equal (fun o => match o with Some l => l | None => [] end)) in H.
    cbv beta iota in H. subst lines.
    specialize (IH rest eq_refl). no_project_statements.
Qed.

Lemma ResourceRegistrations_no_project_statement (mode : CompilationMode)
  (table rts : list ReflectedResourceType.t) :
  forall lines, ResourceRegistrations mode table rts = Some lines ->
  Forall NoProjectStatement lines.
Proof.
  induction rts as [|rt r IH]; intros lines H; cbn [ResourceRegistrations] in H.
  - injection H as <-. constructor.
  - destruct (_ && ReflectedResourceType.m_isDevOnly rt); [apply IH; exact H|].
    unfold ResourceRegistration in H.
    destruct (ParentTypeLines table (ReflectedResourceType.m_parents rt)) as [pl|] eqn:Hp;
      [|discriminate].
    apply ParentTypeLines_no_project_statement in Hp.
    destruct (ResourceRegistrations mode table r) as [rest|]; [|discriminate].
    apply (f_equal (fun o => match o with Some l => l | None => [] end)) in H.
    cbv beta iota in H. subst lines.
    specialize (IH rest eq_refl).
    no_project_statements.
Qed.

Lemma GenerateResourceRegistrationMethods_no_project_statement (mode : CompilationMode)
  (lines : list Line) :
  GenerateResourceRegistrationMethods m_pDatabase mode = Some lines ->
  Forall NoProjectStatement lines.
Proof.
  unfold GenerateResourceRegistrationMethods.
  destruct (ResourceRegistrations mode _ _) as [regs|] eqn:Hr; [|discriminate].
  apply ResourceRegistrations_no_project_statement in Hr.
  assert (Hu : Forall NoProjectStatement
                 (flat_map (ResourceUnregistration mode)
                    (rev (ReflectionDatabase.GetAllRegisteredResourceTypes m_pDatabase)))).
  { apply Forall_flat_map_lines. intros rt. unfold ResourceUnregistration.
    no_project_statements. }
  intros H.
  apply (f_equal (fun o => match o with Some l => l | None => [] end)) in H.
  cbv beta iota in H. subst lines.
  no_project_statements.
Qed.

Lemma DataFileRegistration_no_project_statement (dt : ReflectedDataFileType.t) :
  Forall NoProjectStatement (DataFileRegistration dt).
Proof.
  unfold DataFileRegistration.
  assert (Hn : NoProjectStatement
                 (T ("        dataFileInfo.m_extensionFourCC = "
                     +++ Text.of_nat (ReflectedDataFileType.m_extensionFourCC dt)
                     +++ ";" +++ Text.nl))).
  { split; [intros f|unfold Unread; unread].
    unfold Unread, ReadModuleCall. cbn [ReadFirst text T].
    rewrite Between_end; [reflexivity|].
    destruct f; cbn [ModuleCallPattern m_suffix].
    - exact (ClashEnd_of_nat "_RegisterTypes( typeRegistry " _ _).
    - exact (ClashEnd_of_nat "_CreateDefaultInstances(" _ _).
    - exact (ClashEnd_of_nat "_UnregisterTypes( typeRegistry " _ _). }
  no_project_statements.
Qed.

Lemma GenerateDataFileRegistrationMethods_no_project_statement :
  Forall NoProjectStatement (GenerateDataFileRegistrationMethods m_pDatabase).
Proof.
  unfold GenerateDataFileRegistrationMethods.
  assert (H1 : Forall NoProjectStatement
                 (flat_map DataFileRegistration
                    (ReflectionDatabase.GetAllRegisteredDataFileTypes m_pDatabase)))
    by (apply Forall_flat_map_lines, DataFileRegistration_no_project_statement).
  assert (H2 : Forall NoProjectStatement
                 (map (fun dt =>
                         T ("        typeRegistry.UnregisterDataFileInfo( TypeSystem::TypeID( "
                            +++ Text.dq +++ ReflectedDataFileType.m_typeID dt +++ Text.dq
                            +++ " ) );" +++ Text.nl))
                      (rev (ReflectionDatabase.GetAllRegisteredDataFileTypes m_pDatabase))))
    by (apply Forall_map_lines; intros dt; no_project_statement).
  no_project_statements.
Qed.

Lemma NoProjectStatement_calls (f : ModuleFunction) (lines : list Line) :
  Forall NoProjectStatement lines -> CalledModuleFunctions f lines = [].
Proof.
  intros H. apply Collect_Unread.
  apply (Forall_impl _ (fun l Hl => proj1 Hl f) H).
Qed.

Lemma ModuleInclude_calls (f : ModuleFunction) (projects : list ReflectedProject.t) :
  CalledModuleFunctions f (map ModuleInclude projects) = [].
Proof.
  apply Collect_map_Unread. intros p. unfold ModuleInclude. destruct f; unread.
Qed.

(** The calls of the per-project functions in the text of an aggregate
    file. *)
Lemma SolutionTypeRegistrationLines_calls (mode : CompilationMode)
  (projects : list ReflectedProject.t) (resourceMethods : list Line) (f : ModuleFunction) :
  Forall NoProjectStatement resourceMethods ->
  CalledModuleFunctions f (SolutionTypeRegistrationLines m_pDatabase mode projects resourceMethods)
  = match f with
    | UnregisterTypes => map ReflectedProject.moduleStr (rev projects)
    | _ => map ReflectedProject.moduleStr projects
    end.
Proof.
  intros Hr.
  pose proof (NoProjectStatement_calls f _ Hr) as Hrc.
  pose proof (NoProjectStatement_calls f _ GenerateDataFileRegistrationMethods_no_project_statement)
    as Hdc.
  pose proof (ModuleInclude_calls f projects) as Hi.
  pose proof (CalledModuleFunctions_ModuleCall f RegisterTypes projects) as H1.
  pose proof (CalledModuleFunctions_ModuleCall f CreateDefaultInstances projects) as H2.
  pose proof (CalledModuleFunctions_ModuleCall f UnregisterTypes (rev projects)) as H3.
  unfold CalledModuleFunctions in *. unfold SolutionTypeRegistrationLines.
  rewrite !Collect_app, Hrc, Hi, H1, H2, H3.
  replace (Collect (ReadModuleCall f)
             (if IsTools mode then T Text.nl :: GenerateDataFileRegistrationMethods m_pDatabase
              else []))
    with (@nil string)
    by (destruct (IsTools mode); [|reflexivity]; cbn [Collect text T];
        replace (ReadModuleCall f Text.nl) with (@None string) by (destruct f; reflexivity);
        symmetry; exact Hdc).
  rewrite !Collect_Unread by (destruct f; unread_lines).
  destruct f; cbn [app]; rewrite ?app_nil_r; reflexivity.
Qed.

Lemma GenerateSolutionTypeRegistrationFile_calls (mode : CompilationMode)
  (g g' : CodeGenerator.t) (b : bool) :
  GenerateSolutionTypeRegistrationFile m_pDatabase m_solutionDirectoryPath mode g = Returned b g' ->
  exists path contents,
    g' = WithFile g path contents
    /\ forall f,
         CalledModuleFunctions f contents
         = match f with
           | UnregisterTypes =>
               map ReflectedProject.moduleStr (rev (SolutionProjects m_pDatabase mode))
           | _ => map ReflectedProject.moduleStr (SolutionProjects m_pDatabase mode)
           end.
Proof.
  unfold GenerateSolutionTypeRegistrationFile.
  destruct (GenerateResourceRegistrationMethods m_pDatabase mode) as [resourceMethods|] eqn:Hr;
    [|discriminate].
  apply GenerateResourceRegistrationMethods_no_project_statement in Hr.
  unfold bind, EmplaceFile, ret. intros H.
  eexists _, (SolutionTypeRegistrationLines m_pDatabase mode (SolutionProjects m_pDatabase mode)
                resourceMethods).
  split; [inversion H; reflexivity|].
  intros f. apply SolutionTypeRegistrationLines_calls. exact Hr.
Qed.

End AggregateCalls.


Lemma StronglySorted_weaken {A : Type} (R R' : A -> A -> Prop) (l : list A) :
  (forall x y, R x y -> R' x y) -> StronglySorted R l -> StronglySorted R' l.
Proof.
  intros HR. induction 1 as [|x r _ IH Hx]; constructor; [exact IH|].
  eapply Forall_impl; [apply HR|exact Hx].
Qed.

Section RegistrationOrder.

Context {E : Externals} {L : ExternalsLaws E}.

Variable m_pDatabase : ReflectionDatabase.t.
Variable m_solutionDirectoryPath : string.

(** The projects of an aggregate file stand in ascending order of their
    dependency count. *)
Lemma SolutionProjects_sorted (mode : CompilationMode) :
  StronglySorted
    (fun p q => (ReflectedProject.m_dependencyCount p <= ReflectedProject.m_dependencyCount q)%Z)
    (SolutionProjects m_pDatabase mode).
Proof.
  unfold SolutionProjects.
  apply (StronglySorted_weaken (fun x y => sortPredicate y x = false)).
  - intros p q H. unfold sortPredicate in H. apply Z.ltb_ge in H. exact H.
  - apply eastl_sort_sorted, sortPredicate_StrictWeakOrder.
Qed.


End RegistrationOrder.


(** ** Project selection *)

Lemma Assign_app {A : Type} (pre : list A) (x y : A) (suf : list A) :
  Assign (length pre) x (pre ++ y :: suf) = pre ++ x :: suf.
Proof.
  induction pre as [|a r IH]; simpl; [reflexivity|]. rewrite IH. reflexivity.
Qed.

Lemma erase_unsorted_spec {A : Type} (pre : list A) (p : A) (suf : list A) :
  firstn (length pre) (erase_unsorted (pre ++ p :: suf) (length pre)) = pre
  /\ Permutation (erase_unsorted (pre ++ p :: suf) (length pre)) (pre ++ suf).
Proof.
  unfold erase_unsorted.
  destruct (exists_last (l := p :: suf)) as (body & back & Hb); [discriminate|].
  assert (Hn : nth_error (pre ++ p :: suf) (length (pre ++ p :: suf) - 1) = Some back).
  { rewrite Hb, app_assoc, length_app. simpl.
    rewrite nth_error_app2 by lia.
    replace (length (pre ++ body) + 1 - 1 - length (pre ++ body)) with 0 by lia.
    reflexivity. }
  rewrite Hn, Assign_app.
  destruct suf as [|s suf'].
  - assert (body = [] /\ back = p) as [-> ->].
    { destruct body as [|b [|b' body']]; simpl in Hb; inversion Hb; auto;
        try (destruct body'; discriminate). }
    rewrite removelast_last, app_nil_r, firstn_all. split; reflexivity.
  - destruct body as [|b body']; [simpl in Hb; inversion Hb|].
    simpl in Hb. inversion Hb as [[Hp Hs]]. subst b. rewrite Hs.
    replace (pre ++ back :: body' ++ [back]) with ((pre ++ back :: body') ++ [back])
      by (rewrite <- app_assoc; reflexivity).
    rewrite removelast_last. split.
    + rewrite firstn_app, firstn_all, Nat.sub_diag. simpl. apply app_nil_r.
    + apply Permutation_app_head. apply Permutation_cons_append.
Qed.

Lemma filter_all {A : Type} (f : A -> bool) (l : list A) :
  Forall (fun x => f x = true) l -> filter f l = l.
Proof.
  induction 1 as [|x r Hx _ IH]; simpl; [reflexivity|]. rewrite Hx, IH. reflexivity.
Qed.

Lemma Permutation_filter' {A : Type} (f : A -> bool) (l l' : list A) :
  Permutation l l' -> Permutation (filter f l) (filter f l').
Proof.
  induction 1 as [|x l l' _ IH|x y l|l l' l'' _ IH1 _ IH2]; simpl.
  - constructor.
  - destruct (f x); [apply perm_skip|]; exact IH.
  - destruct (f x), (f y); try reflexivity. apply perm_swap.
  - eapply Permutation_trans; eauto.
Qed.

Lemma EraseUnwantedProjects_spec (mode : CompilationMode) (fuel : nat) :
  forall i projects,
    length projects - i <= fuel ->
    i <= length projects ->
    Forall (fun p => IsWantedProject mode p = true) (firstn i projects) ->
    Permutation (EraseUnwantedProjects mode fuel i projects)
                (filter (IsWantedProject mode) projects).
Proof.
  induction fuel as [|fuel IH]; intros i projects Hf Hi Hw.
  - simpl. assert (i = length projects) by lia. subst i.
    rewrite firstn_all in Hw. rewrite filter_all by exact Hw. reflexivity.
  - cbn [EraseUnwantedProjects].
    destruct (nth_error projects i) as [p|] eqn:Hn.
    + destruct (nth_error_split _ _ Hn) as (pre & suf & -> & Hlen). subst i.
      destruct (erase_unsorted_spec pre p suf) as [Hfirst Hperm].
      assert (Herase : IsWantedProject mode p = false ->
                Permutation
                  (EraseUnwantedProjects mode fuel (length pre)
                     (erase_unsorted (pre ++ p :: suf) (length pre)))
                  (filter (IsWantedProject mode) (pre ++ p :: suf))).
      { intros Hp.
        eapply Permutation_trans; [apply IH|].
        - rewrite (Permutation_length Hperm). rewrite !length_app in *. simpl in *. lia.
        - rewrite (Permutation_length Hperm). rewrite length_app. lia.
        - rewrite Hfirst. rewrite firstn_app, firstn_all, Nat.sub_diag in Hw.
          simpl in Hw. rewrite app_nil_r in Hw. exact Hw.
        - eapply Permutation_trans; [apply Permutation_filter'; exact Hperm|].
          rewrite !filter_app. simpl. rewrite Hp. reflexivity. }
      unfold IsWantedProject in Herase |- *.
      destruct mode; simpl in Herase |- *.
      * destruct (ReflectedProject.m_isToolsProject p) eqn:Ht; simpl.
        { apply Herase. rewrite andb_false_r. reflexivity. }
        destruct (IsValid (ReflectedProject.m_moduleHeaderID p)) eqn:Hv; simpl.
        { apply IH.
          - rewrite length_app in *. simpl in *. lia.
          - rewrite length_app. simpl. lia.
          - replace (S (length pre)) with (length (pre ++ [p])) by (rewrite length_app; simpl; lia).
            replace (pre ++ p :: suf) with ((pre ++ [p]) ++ suf) by (rewrite <- app_assoc; reflexivity).
            rewrite firstn_app, firstn_all, Nat.sub_diag. simpl. rewrite app_nil_r.
            rewrite firstn_app, firstn_all, Nat.sub_diag in Hw. simpl in Hw.
            rewrite app_nil_r in Hw.
            apply Forall_app; split; [exact Hw|].
            constructor; [|constructor]. unfold IsWantedProject. simpl. rewrite Hv, Ht. reflexivity. }
        apply Herase. reflexivity.
      * destruct (IsValid (ReflectedProject.m_moduleHeaderID p)) eqn:Hv; simpl.
        { apply IH.
          - rewrite length_app in *. simpl in *. lia.
          - rewrite length_app. simpl. lia.
          - replace (S (length pre)) with (length (pre ++ [p])) by (rewrite length_app; simpl; lia).
            replace (pre ++ p :: suf) with ((pre ++ [p]) ++ suf) by (rewrite <- app_assoc; reflexivity).
            rewrite firstn_app, firstn_all, Nat.sub_diag. simpl. rewrite app_nil_r.
            rewrite firstn_app, firstn_all, Nat.sub_diag in Hw. simpl in Hw.
            rewrite app_nil_r in Hw.
            apply Forall_app; split; [exact Hw|].
            constructor; [|constructor]. unfold IsWantedProject. simpl. rewrite Hv. reflexivity. }
        apply Herase. reflexivity.
    + apply nth_error_None in Hn. assert (i = length projects) by lia. subst i.
      rewrite firstn_all in Hw. rewrite filter_all by exact Hw. reflexivity.
Qed.

Section ProjectSelection.

Context {E : Externals} {L : ExternalsLaws E}.

Variable m_pDatabase : ReflectionDatabase.t.
Variable m_solutionDirectoryPath : string.

(** C7: for each build mode, the projects of the aggregate file are
    exactly the projects with a valid module header, the tools projects
    left out in runtime mode only; they stand in ascending order of their
    dependency count, and the registration calls read from the text of the
    file are the calls of these projects, in that order. *)
Theorem solution_projects_selected_and_sorted (mode : CompilationMode) :
  Permutation (SolutionProjects m_pDatabase mode)
              (filter (IsWantedProject mode) (ReflectionDatabase.GetReflectedProjects m_pDatabase))
  /\ (forall p, In p (SolutionProjects m_pDatabase mode) <->
        In p (ReflectionDatabase.GetReflectedProjects m_pDatabase)
        /\ IsValid (ReflectedProject.m_moduleHeaderID p) = true
        /\ (mode = Runtime -> ReflectedProject.m_isToolsProject p = false))
  /\ StronglySorted
       (fun p q => (ReflectedProject.m_dependencyCount p <= ReflectedProject.m_dependencyCount q)%Z)
       (SolutionProjects m_pDatabase mode)
  /\ (forall g b g',
        GenerateSolutionTypeRegistrationFile m_pDatabase m_solutionDirectoryPath mode g
        = Returned b g' ->
        exists path contents,
          g' = WithFile g path contents
          /\ CalledModuleFunctions RegisterTypes contents
             = map ReflectedProject.moduleStr (SolutionProjects m_pDatabase mode)).
Proof.
  assert (Hperm : Permutation (SolutionProjects m_pDatabase mode)
                    (filter (IsWantedProject mode)
                       (ReflectionDatabase.GetReflectedProjects m_pDatabase))).
  { unfold SolutionProjects.
    eapply Permutation_trans; [apply Permutation_sym, eastl_sort_permutation|].
    apply EraseUnwantedProjects_spec; [lia|lia|constructor]. }
  split; [exact Hperm|]. split; [|split].
  - intros p. split.
    + intros Hin. apply (Permutation_in _ Hperm) in Hin. apply filter_In in Hin.
      destruct Hin as [Hin Hw]. unfold IsWantedProject in Hw.
      apply andb_true_iff in Hw. destruct Hw as [Hv Ht].
      repeat split; auto. intros ->. simpl in Ht.
      destruct (ReflectedProject.m_isToolsProject p); [discriminate|reflexivity].
    + intros (Hin & Hv & Ht). apply (Permutation_in _ (Permutation_sym Hperm)).
      apply filter_In. split; [exact Hin|]. unfold IsWantedProject. rewrite Hv.
      destruct mode; simpl; [rewrite Ht; reflexivity|reflexivity].
  - apply SolutionProjects_sorted.
  - intros g b g' H.
    destruct (GenerateSolutionTypeRegistrationFile_calls m_pDatabase m_solutionDirectoryPath
                mode g g' b H) as (path & contents & Hg & Hcalls).
    exists path, contents. split; [exact Hg|]. apply Hcalls.
Qed.

End ProjectSelection.

Lemma solution_projects_selected_and_sorted_witness :
  SolutionProjects (E := ExampleExternals) SolutionDatabase Runtime = [projectBase; projectEngine]
  /\ SolutionProjects (E := ExampleExternals) SolutionDatabase Tools
     = [projectBase; projectEngine; projectEditor]
  /\ Permutation (SolutionProjects (E := ExampleExternals) SolutionDatabase Runtime)
                 (filter (IsWantedProject Runtime)
                         (ReflectionDatabase.GetReflectedProjects SolutionDatabase))
  /\ exists path contents,
       GenerateSolutionTypeRegistrationFile (E := ExampleExternals) SolutionDatabase "Solution/"
         Runtime CodeGenerator.initial
       = Returned true (WithFile CodeGenerator.initial path contents)
       /\ CalledModuleFunctions RegisterTypes contents
          = ["EE_Base_BaseModule"; "EE_Engine_EngineModule"].
Proof.
  split; [vm_compute; reflexivity|]. split; [vm_compute; reflexivity|].
  destruct (solution_projects_selected_and_sorted (E := ExampleExternals)
              (L := ExampleExternals_laws) SolutionDatabase "Solution/" Runtime)
    as (Hperm & _ & _ & Hcalls).
  split; [exact Hperm|].
  destruct (Hcalls CodeGenerator.initial true _ eq_refl) as (path & contents & Hg & Hc).
  exists path, contents. split; [rewrite <- Hg; reflexivity|exact Hc].
Defined.

(** ** The generator on small inputs *)

Example ReplaceScopeSeparators_module :
  Text.ReplaceScopeSeparators "EE::Game::GameModule" = "EE_Game_GameModule".
Proof. reflexivity. Qed.

Example Render_RegisterTypeCall :
  Render [RegisterTypeCall typeBase; RegisterTypeCall typeDebugComponent]
  = "        RegisterType_EE_Base( typeRegistry );" +++ Text.nl
    +++ "        EE_DEVELOPMENT_TOOLS_ONLY( RegisterType_EE_DebugComponent( typeRegistry ) );"
    +++ Text.nl.
Proof. reflexivity. Qed.

Example Render_TypeDeclarations :
  Render (TypeDeclarations typeBase)
  = "    void RegisterType_EE_Base( TypeSystem::TypeRegistry& typeRegistry );" +++ Text.nl
    +++ "    void CreateDefaultInstance_EE_Base();" +++ Text.nl
    +++ "    void UnregisterType_EE_Base( TypeSystem::TypeRegistry& typeRegistry );"
    +++ Text.nl +++ Text.nl.
Proof. reflexivity. Qed.

Example erase_unsorted_middle : erase_unsorted [1; 2; 3; 4] 1 = [1; 4; 3].
Proof. reflexivity. Qed.

Example erase_unsorted_last : erase_unsorted [1; 2; 3] 2 = [1; 2].
Proof. reflexivity. Qed.

Example EraseUnwantedProjects_runtime :
  EraseUnwantedProjects Runtime 4 0 [projectEngine; projectEditor; projectScratch; projectBase]
  = [projectEngine; projectBase].
Proof. reflexivity. Qed.

Example SortedOrder_Greek : SortedOrder (E := ExampleExternals) typeGreek = [1; 0].
Proof. reflexivity. Qed.

Example SortTypesByDependencies_scenario_B :
  SortTypesByDependencies [typeA; typeB] = (false, [typeA; typeB]).
Proof. reflexivity. Qed.

Example SortTypesByDependencies_reversed_input :
  SortTypesByDependencies [typeLeaf; typeMid; typeBase] = (true, [typeBase; typeMid; typeLeaf]).
Proof. reflexivity. Qed.

Example GetResourceLoadingStatus_loading_first :
  GetResourceLoadingStatus true typeMeshThenSettings
    (mkInstance (fun _ => mkResourcePtr false true false) (fun _ => []) (fun _ => false)
                (fun _ => Failed) (fun _ => []))
  = Loading.
Proof. reflexivity. Qed.
(** * Further properties *)

(** ** Logged messages *)

Lemma Truncate_length (n : nat) (s : string) : String.length (Text.Truncate n s) <= n.
Proof.
  revert s; induction n as [|n IH]; intros [|c s]; simpl; try lia.
  specialize (IH s). lia.
Qed.

Lemma Truncate_prefix (n : nat) (s : string) : String.prefix (Text.Truncate n s) s = true.
Proof.
  revert s; induction n as [|n IH]; intros [|c s]; simpl; try reflexivity.
  destruct (ascii_dec c c) as [_|Hc]; [apply IH|congruence].
Qed.

(** X1: [LogError] returns [false] and stores the first 255 characters of
    the message: what it stores is a prefix of the message that fits the
    buffer, and is the whole message exactly when the message has at most
    255 characters; the generated files and the warning are left as they
    are. *)
Theorem LogError_message_fits_buffer (message : string) (g : CodeGenerator.t) :
  exists g',
    LogError message g = Returned false g'
    /\ String.length (CodeGenerator.m_errorMessage g') <= 255
    /\ String.prefix (CodeGenerator.m_errorMessage g') message = true
    /\ String.eqb (CodeGenerator.m_errorMessage g') message
       = (String.length message <=? 255)%nat
    /\ CodeGenerator.m_generatedFiles g' = CodeGenerator.m_generatedFiles g
    /\ CodeGenerator.m_warningMessage g' = CodeGenerator.m_warningMessage g.
Proof.
  exists (WithError g message). unfold LogError, WithError.
  cbn [CodeGenerator.m_errorMessage CodeGenerator.m_generatedFiles CodeGenerator.m_warningMessage].
  repeat split.
  - apply Truncate_length.
  - apply Truncate_prefix.
  - destruct (String.length message <=? 255)%nat eqn:Hl.
    + apply Nat.leb_le in Hl. rewrite (Truncate_short _ _ Hl). apply String.eqb_refl.
    + apply Nat.leb_gt in Hl. apply String.eqb_neq. intros He.
      pose proof (Truncate_length 255 message) as Hle. rewrite He in Hle. lia.
Qed.

(** ** The ordering pass keeps the types *)

(** X2: whatever the ordering pass returns, the caller's list holds the
    types it held before, each as often as before. *)
Theorem SortTypesByDependencies_keeps_types (structureTypes : list ReflectedType.t) :
  Permutation (snd (SortTypesByDependencies structureTypes)) structureTypes
  /\ length (snd (SortTypesByDependencies structureTypes)) = length structureTypes.
Proof.
  assert (H : Permutation (snd (SortTypesByDependencies structureTypes)) structureTypes).
  { destruct (SortTypesByDependencies structureTypes) as [[|] l] eqn:Hs; simpl.
    - apply (SortTypesByDependencies_success _ _ Hs).
    - rewrite (SortTypesByDependencies_failure _ _ Hs). apply Permutation_refl. }
  split; [exact H|apply Permutation_length; exact H].
Qed.

(** ** The files and the errors of a project *)

Section ProjectFiles.

Context {E : Externals}.

Variable m_pDatabase : ReflectionDatabase.t.
Variable m_solutionDirectoryPath : string.

(** A type the parent validation refuses. *)
Lemma HeaderTypeBlocks_Rejected (project : ReflectedProject.t)
  (typesInHeader : list ReflectedType.t) (message : string) :
  HeaderTypeBlocks m_pDatabase project typesInHeader = Rejected message ->
  exists typeInfo,
    In typeInfo typesInHeader
    /\ ReflectedType.IsEnum typeInfo = false
    /\ IsValid (ReflectedType.m_parentID typeInfo) = false
    /\ message = InvalidParentMessage typeInfo.
Proof.
  induction typesInHeader as [|typeInfo rest IH]; simpl; [discriminate|].
  destruct (TypeInfoBlock m_pDatabase project typeInfo) as [info|m|] eqn:Hb.
  - destruct (HeaderTypeBlocks m_pDatabase project rest) as [lines|m|] eqn:Hr; try discriminate.
    intros H. destruct IH as (u & Hin & Hu); [exact H|].
    exists u. split; [right; exact Hin|exact Hu].
  - intros H. exists typeInfo. split; [left; reflexivity|].
    unfold TypeInfoBlock in Hb.
    destruct (ReflectedType.IsEnum typeInfo) eqn:He.
    + destruct (GenerateEnumTypeInfo _ typeInfo); discriminate.
    + destruct (IsValid (ReflectedType.m_parentID typeInfo)) eqn:Hv; simpl in Hb.
      * destruct (ReflectionDatabase.GetType _ _); discriminate.
      * split; [reflexivity|]. split; [reflexivity|]. congruence.
  - discriminate.
Qed.

(** The generation of the type-info file of a header adds the file, or
    refuses a type and logs the error. *)
Lemma GenerateTypeInfoFileForHeader_cases (project : ReflectedProject.t)
  (header : ReflectedHeader.t) (typesInHeader : list ReflectedType.t) (outputPath : string)
  (g g' : CodeGenerator.t) (b : bool) :
  GenerateTypeInfoFileForHeader m_pDatabase project header typesInHeader outputPath g
  = Returned b g' ->
  (b = true /\ exists contents, g' = WithFile g outputPath contents)
  \/ (b = false
      /\ exists typeInfo,
           In typeInfo typesInHeader
           /\ ReflectedType.IsEnum typeInfo = false
           /\ IsValid (ReflectedType.m_parentID typeInfo) = false
           /\ g' = WithError g (InvalidParentMessage typeInfo)).
Proof.
  unfold GenerateTypeInfoFileForHeader.
  destruct (HeaderTypeBlocks m_pDatabase project typesInHeader) as [lines|message|] eqn:Hb.
  - unfold bind, EmplaceFile, ret. intros H. left. inversion H. split; [reflexivity|].
    eexists. reflexivity.
  - unfold LogError. intros H. right. inversion H. split; [reflexivity|].
    destruct (HeaderTypeBlocks_Rejected _ _ _ Hb) as (u & Hin & He & Hv & ->).
    exists u. repeat split; assumption.
  - discriminate.
Qed.

(** The loop over the headers: it adds the type-info files of the headers
    in their order, or stops at the first header with a refused type. *)
Lemma GenerateHeaderFiles_cases (project : ReflectedProject.t) (headers : list ReflectedHeader.t) :
  forall (g g' : CodeGenerator.t) (b : bool),
    GenerateHeaderFiles m_pDatabase project headers g = Returned b g' ->
    (exists files,
       CodeGenerator.m_generatedFiles g' = CodeGenerator.m_generatedFiles g ++ files
       /\ CodeGenerator.m_warningMessage g' = CodeGenerator.m_warningMessage g
       /\ ((b = true
            /\ CodeGenerator.m_errorMessage g' = CodeGenerator.m_errorMessage g
            /\ map m_path files
               = map ReflectedHeader.m_typeInfoPath
                   (filter
                      (fun header =>
                         negb (String.eqb (ReflectedHeader.m_ID header)
                                          (ReflectedProject.m_moduleHeaderID project))
                         && match ReflectionDatabase.GetAllTypesForHeader m_pDatabase
                                    (ReflectedHeader.m_ID header) with
                            | [] => false
                            | _ :: _ => true
                            end)
                      headers))
           \/ (b = false
               /\ exists header typeInfo,
                    In header headers
                    /\ In typeInfo (ReflectionDatabase.GetAllTypesForHeader m_pDatabase
                                      (ReflectedHeader.m_ID header))
                    /\ ReflectedType.IsEnum typeInfo = false
                    /\ IsValid (ReflectedType.m_parentID typeInfo) = false
                    /\ CodeGenerator.m_errorMessage g'
                       = Text.Truncate 255 (InvalidParentMessage typeInfo)))).
Proof.
  induction headers as [|header rest IH]; intros g g' b; cbn [GenerateHeaderFiles filter].
  - unfold ret. intros H. inversion H. exists []. rewrite app_nil_r.
    split; [reflexivity|]. split; [reflexivity|]. left. repeat split; reflexivity.
  - destruct (String.eqb (ReflectedHeader.m_ID header) (ReflectedProject.m_moduleHeaderID project)).
    + cbn [negb andb]. intros H. destruct (IH _ _ _ H) as (files & Hf & Hw & Hc).
      exists files. split; [exact Hf|]. split; [exact Hw|].
      destruct Hc as [Hc|(Hb & h & u & Hin & Hu)]; [left; exact Hc|right].
      split; [exact Hb|]. exists h, u. split; [right; exact Hin|exact Hu].
    + cbn [negb andb].
      destruct (ReflectionDatabase.GetAllTypesForHeader m_pDatabase (ReflectedHeader.m_ID header))
        as [|t ts] eqn:Ht.
      * intros H. destruct (IH _ _ _ H) as (files & Hf & Hw & Hc).
        exists files. split; [exact Hf|]. split; [exact Hw|].
        destruct Hc as [Hc|(Hb & h & u & Hin & Hu)]; [left; exact Hc|right].
        split; [exact Hb|]. exists h, u. split; [right; exact Hin|exact Hu].
      * unfold bind.
        destruct (GenerateTypeInfoFileForHeader m_pDatabase project header (t :: ts)
                    (ReflectedHeader.m_typeInfoPath header) g) as [ok g1|] eqn:Hg; [|discriminate].
        destruct (GenerateTypeInfoFileForHeader_cases _ _ _ _ _ _ _ Hg)
          as [(-> & contents & ->)|(-> & u & Hin & He & Hv & ->)].
        -- intros H. destruct (IH _ _ _ H) as (files & Hf & Hw & Hc).
           exists (mkGeneratedFile (ReflectedHeader.m_typeInfoPath header) contents :: files).
           split; [rewrite Hf; unfold WithFile; cbn [CodeGenerator.m_generatedFiles];
                   rewrite <- app_assoc; reflexivity|].
           split; [rewrite Hw; reflexivity|].
           destruct Hc as [(Hb & Hm & Hp)|(Hb & h & v & Hh & Hv)]; [left|right].
           ++ split; [exact Hb|]. split; [rewrite Hm; reflexivity|].
              cbn [map m_path]. rewrite Hp. reflexivity.
           ++ split; [exact Hb|]. exists h, v. split; [right; exact Hh|exact Hv].
        -- unfold ret. intros H. inversion H. exists []. rewrite app_nil_r.
           split; [reflexivity|]. split; [reflexivity|]. right. split; [reflexivity|].
           exists header, u. split; [left; reflexivity|]. rewrite Ht.
           repeat split; assumption.
Qed.

(** The two project files: each is added, or refused with the cyclic
    dependency message. *)
Lemma GenerateProjectTypeInfoHeaderFile_cases (project : ReflectedProject.t)
  (g g' : CodeGenerator.t) (b : bool) :
  GenerateProjectTypeInfoHeaderFile m_pDatabase project g = Returned b g' ->
  (b = true /\ exists contents, g' = WithFile g (GetTypeInfoHeaderFilePath project) contents)
  \/ (b = false
      /\ fst (SortTypesByDependencies
                (ReflectionDatabase.GetAllTypesForProject m_pDatabase (ReflectedProject.m_ID project)))
         = false
      /\ g' = WithError g (CyclicDependencyMessage project)).
Proof.
  unfold GenerateProjectTypeInfoHeaderFile.
  destruct (SortTypesByDependencies _) as [[|] typesInProject]; simpl.
  - unfold bind, EmplaceFile, ret. intros H. left. inversion H. split; [reflexivity|].
    eexists. reflexivity.
  - unfold LogError. intros H. right. inversion H. repeat split.
Qed.

Lemma GenerateProjectTypeInfoSourceFile_cases (project : ReflectedProject.t)
  (g g' : CodeGenerator.t) (b : bool) :
  GenerateProjectTypeInfoSourceFile m_pDatabase project g = Returned b g' ->
  (b = true /\ exists contents, g' = WithFile g (GetTypeInfoSourceFilePath project) contents)
  \/ (b = false
      /\ fst (SortTypesByDependencies
                (ReflectionDatabase.GetAllTypesForProject m_pDatabase (ReflectedProject.m_ID project)))
         = false
      /\ g' = WithError g (CyclicDependencyMessage project)).
Proof.
  unfold GenerateProjectTypeInfoSourceFile.
  destruct (SortTypesByDependencies _) as [[|] typesInProject]; simpl.
  - unfold bind, EmplaceFile, ret. intros H. left. inversion H. split; [reflexivity|].
    eexists. reflexivity.
  - unfold LogError. intros H. right. inversion H. repeat split.
Qed.

(** The generation of a project: the files it adds, and the error it logs
    when it fails. *)
Lemma GenerateCodeForProject_cases (project : ReflectedProject.t)
  (g g' : CodeGenerator.t) (b : bool) :
  GenerateCodeForProject m_pDatabase project g = Returned b g' ->
  exists files,
    CodeGenerator.m_generatedFiles g' = CodeGenerator.m_generatedFiles g ++ files
    /\ ((b = true
         /\ CodeGenerator.m_errorMessage g' = CodeGenerator.m_errorMessage g
         /\ map m_path files
            = map ReflectedHeader.m_typeInfoPath (HeadersWithTypes m_pDatabase project)
              ++ [GetTypeInfoHeaderFilePath project; GetTypeInfoSourceFilePath project])
        \/ (b = false
            /\ ((exists header typeInfo,
                   In header (ReflectedProject.m_headerFiles project)
                   /\ In typeInfo (ReflectionDatabase.GetAllTypesForHeader m_pDatabase
                                     (ReflectedHeader.m_ID header))
                   /\ ReflectedType.IsEnum typeInfo = false
                   /\ IsValid (ReflectedType.m_parentID typeInfo) = false
                   /\ CodeGenerator.m_errorMessage g'
                      = Text.Truncate 255 (InvalidParentMessage typeInfo))
                \/ (HasCycle (DependencyEdge
                                (ReflectionDatabase.GetAllTypesForProject m_pDatabase
                                   (ReflectedProject.m_ID project)))
                    /\ CodeGenerator.m_errorMessage g'
                       = Text.Truncate 255 (CyclicDependencyMessage project))))).
Proof.
  unfold GenerateCodeForProject, bind.
  destruct (GenerateHeaderFiles m_pDatabase project _ g) as [ok g1|] eqn:Hh; [|discriminate].
  destruct (GenerateHeaderFiles_cases _ _ _ _ _ Hh) as (files & Hf & _ & Hc).
  destruct Hc as [(-> & Hm & Hp)|(-> & header & typeInfo & Hcause)].
  - cbn [negb].
    destruct (GenerateProjectTypeInfoHeaderFile m_pDatabase project g1) as [ok g2|] eqn:H1;
      [|discriminate].
    destruct (GenerateProjectTypeInfoHeaderFile_cases _ _ _ _ H1)
      as [(-> & c1 & ->)|(-> & Hs & ->)].
    + cbn [negb].
      destruct (GenerateProjectTypeInfoSourceFile m_pDatabase project _) as [ok g3|] eqn:H2;
        [|discriminate].
      destruct (GenerateProjectTypeInfoSourceFile_cases _ _ _ _ H2)
        as [(-> & c2 & ->)|(-> & Hs & ->)].
      * cbn [negb]. unfold ret. intros H. inversion H.
        exists (files ++ [mkGeneratedFile (GetTypeInfoHeaderFilePath project) c1;
                          mkGeneratedFile (GetTypeInfoSourceFilePath project) c2]).
        unfold WithFile. cbn [CodeGenerator.m_generatedFiles CodeGenerator.m_errorMessage].
        split; [rewrite Hf, <- !app_assoc; reflexivity|]. left.
        split; [reflexivity|]. split; [exact Hm|].
        rewrite map_app, Hp. reflexivity.
      * cbn [negb]. unfold ret. intros H. inversion H.
        exists (files ++ [mkGeneratedFile (GetTypeInfoHeaderFilePath project) c1]).
        unfold WithError, WithFile. cbn [CodeGenerator.m_generatedFiles CodeGenerator.m_errorMessage].
        split; [rewrite Hf, <- app_assoc; reflexivity|]. right. split; [reflexivity|]. right.
        split; [apply SortTypesByDependencies_false; exact Hs|reflexivity].
    + cbn [negb]. unfold ret. intros H. inversion H. exists files.
      unfold WithError. cbn [CodeGenerator.m_generatedFiles CodeGenerator.m_errorMessage].
      split; [exact Hf|]. right. split; [reflexivity|]. right.
      split; [apply SortTypesByDependencies_false; exact Hs|reflexivity].
  - cbn [negb]. unfold ret. intros H. inversion H. subst g' b. exists files.
    split; [exact Hf|]. right. split; [reflexivity|]. left.
    exists header, typeInfo. exact Hcause.
Qed.

(** X3: when the generation of a project returns [false], an error has
    been logged and names its cause: a structure type of one of the
    headers of the project has no valid parent identifier and the message
    is the invalid parent hierarchy message of that type, or the types of
    the project have a parent cycle and the message is the cyclic
    dependency message of the project.  The files generated before the
    failure stay in the list. *)
Theorem GenerateCodeForProject_failure_is_logged (project : ReflectedProject.t)
  (g g' : CodeGenerator.t) :
  GenerateCodeForProject m_pDatabase project g = Returned false g' ->
  (exists files,
     CodeGenerator.m_generatedFiles g' = CodeGenerator.m_generatedFiles g ++ files)
  /\ ((exists header typeInfo,
         In header (ReflectedProject.m_headerFiles project)
         /\ In typeInfo (ReflectionDatabase.GetAllTypesForHeader m_pDatabase
                           (ReflectedHeader.m_ID header))
         /\ ReflectedType.IsEnum typeInfo = false
         /\ IsValid (ReflectedType.m_parentID typeInfo) = false
         /\ CodeGenerator.m_errorMessage g'
            = Text.Truncate 255 (InvalidParentMessage typeInfo))
      \/ (HasCycle (DependencyEdge
                      (ReflectionDatabase.GetAllTypesForProject m_pDatabase
                         (ReflectedProject.m_ID project)))
          /\ CodeGenerator.m_errorMessage g'
             = Text.Truncate 255 (CyclicDependencyMessage project))).
Proof.
  intros H. destruct (GenerateCodeForProject_cases _ _ _ _ H) as (files & Hf & Hc).
  split; [exists files; exact Hf|].
  destruct Hc as [(Hb & _)|(_ & Hcause)]; [discriminate Hb|exact Hcause].
Qed.

(** X4: when the generation of a project returns [true], it has added,
    in this order, the type-info file of every header of the project that
    is not the module header and holds a reflected type, then the type-info
    header file and the type-info source file of the project; no error
    has been logged. *)
Theorem GenerateCodeForProject_success_files (project : ReflectedProject.t)
  (g g' : CodeGenerator.t) :
  GenerateCodeForProject m_pDatabase project g = Returned true g' ->
  map m_path (CodeGenerator.m_generatedFiles g')
  = map m_path (CodeGenerator.m_generatedFiles g)
    ++ map ReflectedHeader.m_typeInfoPath (HeadersWithTypes m_pDatabase project)
    ++ [GetTypeInfoHeaderFilePath project; GetTypeInfoSourceFilePath project]
  /\ CodeGenerator.m_errorMessage g' = CodeGenerator.m_errorMessage g.
Proof.
  intros H. destruct (GenerateCodeForProject_cases _ _ _ _ H) as (files & Hf & Hc).
  destruct Hc as [(_ & Hm & Hp)|(Hb & _)]; [|discriminate Hb].
  split; [|exact Hm]. rewrite Hf, map_app, Hp. reflexivity.
Qed.

(** The loop over the projects only adds files. *)
Lemma GenerateCodeForProjects_files (projects : list ReflectedProject.t) :
  forall (g g' : CodeGenerator.t) (u : unit),
    GenerateCodeForProjects m_pDatabase projects g = Returned u g' ->
    exists files, CodeGenerator.m_generatedFiles g' = CodeGenerator.m_generatedFiles g ++ files.
Proof.
  induction projects as [|prj rest IH]; intros g g' u; cbn [GenerateCodeForProjects].
  - unfold ret. intros H. inversion H. exists []. rewrite app_nil_r. reflexivity.
  - destruct (negb (IsValid (ReflectedProject.m_moduleHeaderID prj))); [apply IH|].
    unfold bind.
    destruct (GenerateCodeForProject m_pDatabase prj g) as [ok g1|] eqn:Hp; [|discriminate].
    intros H. destruct (IH _ _ _ H) as (files & Hf).
    destruct (GenerateCodeForProject_cases _ _ _ _ Hp) as (files0 & Hf0 & _).
    eexists. rewrite Hf, Hf0, <- app_assoc. reflexivity.
Qed.

(** The generation of an aggregate file adds the file of its mode. *)
Lemma GenerateSolutionTypeRegistrationFile_file (mode : CompilationMode)
  (g g' : CodeGenerator.t) (b : bool) :
  GenerateSolutionTypeRegistrationFile m_pDatabase m_solutionDirectoryPath mode g = Returned b g' ->
  b = true
  /\ exists contents,
       g' = WithFile g
              (match mode with
               | Runtime => GetRuntimeTypeRegistrationPath m_solutionDirectoryPath
               | Tools => GetToolsTypeRegistrationPath m_solutionDirectoryPath
               end)
              contents.
Proof.
  unfold GenerateSolutionTypeRegistrationFile.
  destruct (GenerateResourceRegistrationMethods m_pDatabase mode); [|discriminate].
  unfold bind, EmplaceFile, ret. intros H. inversion H. split; [reflexivity|].
  eexists. reflexivity.
Qed.

(** X5: when the solution generation returns, it returns [true]; the
    files it has added are the files of the projects followed by the
    runtime aggregate file and the tools aggregate file, which are the
    last two generated files. *)
Theorem GenerateCodeForSolution_files (g g' : CodeGenerator.t) (b : bool) :
  GenerateCodeForSolution m_pDatabase m_solutionDirectoryPath g = Returned b g' ->
  b = true
  /\ exists projectFiles runtime tools,
       CodeGenerator.m_generatedFiles g'
       = CodeGenerator.m_generatedFiles g ++ projectFiles
         ++ [ mkGeneratedFile (GetRuntimeTypeRegistrationPath m_solutionDirectoryPath) runtime;
              mkGeneratedFile (GetToolsTypeRegistrationPath m_solutionDirectoryPath) tools ].
Proof.
  unfold GenerateCodeForSolution, bind.
  destruct (GenerateCodeForProjects m_pDatabase _ g) as [u g1|] eqn:Hp; [|discriminate].
  destruct (GenerateCodeForProjects_files _ _ _ _ Hp) as (files & Hf).
  destruct (GenerateSolutionTypeRegistrationFile _ _ Runtime g1) as [ok1 g2|] eqn:H1; [|discriminate].
  destruct (GenerateSolutionTypeRegistrationFile_file _ _ _ _ H1) as (-> & runtime & ->).
  cbn [negb].
  destruct (GenerateSolutionTypeRegistrationFile _ _ Tools _) as [ok2 g3|] eqn:H2; [|discriminate].
  destruct (GenerateSolutionTypeRegistrationFile_file _ _ _ _ H2) as (-> & tools & ->).
  cbn [negb]. unfold ret. intros H. inversion H. split; [reflexivity|].
  exists files, runtime, tools. unfold WithFile. cbn [CodeGenerator.m_generatedFiles].
  rewrite Hf, <- !app_assoc. reflexivity.
Qed.

(** *** Resource types with a parent that is not registered *)

Lemma ParentTypeLines_Some (table : list ReflectedResourceType.t) (parents : list TypeID) :
  match ParentTypeLines table parents with Some _ => true | None => false end
  = forallb (fun parentType =>
               existsb (fun r => String.eqb (ReflectedResourceType.m_typeID r) parentType) table)
            parents.
Proof.
  induction parents as [|p rest IH]; [reflexivity|].
  cbn [ParentTypeLines forallb]. unfold GetResourceTypeIDForTypeID.
  destruct (find (fun r => String.eqb (ReflectedResourceType.m_typeID r) p) table) as [r|] eqn:Hf.
  - assert (He : existsb (fun r => String.eqb (ReflectedResourceType.m_typeID r) p) table = true).
    { apply existsb_exists. exists r. apply find_some in Hf. exact Hf. }
    rewrite He. cbn [andb]. rewrite <- IH.
    destruct (ParentTypeLines table rest); reflexivity.
  - assert (He : existsb (fun r => String.eqb (ReflectedResourceType.m_typeID r) p) table = false).
    { apply not_true_is_false. intros Hex. apply existsb_exists in Hex.
      destruct Hex as (r & Hin & Hr). apply (find_none _ _ Hf) in Hin. congruence. }
    rewrite He. reflexivity.
Qed.

Lemma ResourceRegistrations_Some (mode : CompilationMode)
  (table rts : list ReflectedResourceType.t) :
  match ResourceRegistrations mode table rts with Some _ => true | None => false end
  = forallb (fun rt => negb (IsRegisteredIn mode rt) || ParentsResolve table rt) rts.
Proof.
  induction rts as [|rt rest IH]; [reflexivity|].
  cbn [ResourceRegistrations forallb].
  assert (Hskip : (match mode with Runtime => true | Tools => false end)
                  && ReflectedResourceType.m_isDevOnly rt
                  = negb (IsRegisteredIn mode rt))
    by (unfold IsRegisteredIn, IsTools;
        destruct mode, (ReflectedResourceType.m_isDevOnly rt); reflexivity).
  rewrite Hskip. destruct (IsRegisteredIn mode rt); cbn [negb orb andb]; [|exact IH].
  rewrite <- IH. unfold ResourceRegistration, ParentsResolve. rewrite <- ParentTypeLines_Some.
  destruct (ParentTypeLines table (ReflectedResourceType.m_parents rt)); [|reflexivity].
  cbn [andb]. destruct (ResourceRegistrations mode table rest); reflexivity.
Qed.

(** X6: the resource registration methods of a mode are generated exactly
    when every parent of every resource type registered in that mode is
    the type of a registered resource type; otherwise the lookup of the
    parent runs into the unreachable code and the generator halts.  In
    runtime mode the parents of the development-only resource types are
    not looked up. *)
Theorem GenerateResourceRegistrationMethods_halts (mode : CompilationMode) :
  match GenerateResourceRegistrationMethods m_pDatabase mode with
  | Some _ => true
  | None => false
  end
  = forallb
      (fun rt =>
         negb (IsRegisteredIn mode rt)
         || ParentsResolve (ReflectionDatabase.GetAllRegisteredResourceTypes m_pDatabase) rt)
      (ReflectionDatabase.GetAllRegisteredResourceTypes m_pDatabase).
Proof.
  unfold GenerateResourceRegistrationMethods. rewrite <- ResourceRegistrations_Some.
  destruct (ResourceRegistrations mode _ _); reflexivity.
Qed.

(** *** Databases with nothing to halt on *)

Lemma TypeInfoBlock_resolves (project : ReflectedProject.t) (typeInfo : ReflectedType.t) :
  TypeResolves m_pDatabase typeInfo = true ->
  TypeInfoBlock m_pDatabase project typeInfo <> Aborted.
Proof.
  unfold TypeResolves, TypeInfoBlock.
  destruct (ReflectedType.IsEnum typeInfo).
  - unfold GenerateEnumTypeInfo.
    destruct (ReflectedType.m_underlyingType typeInfo); cbn [IsIntegralType UnderlyingTypeLine];
      discriminate.
  - destruct (IsValid (ReflectedType.m_parentID typeInfo)); cbn [negb orb]; [|discriminate].
    destruct (ReflectionDatabase.GetType m_pDatabase _); discriminate.
Qed.

Lemma HeaderTypeBlocks_resolves (project : ReflectedProject.t)
  (typesInHeader : list ReflectedType.t) :
  forallb (TypeResolves m_pDatabase) typesInHeader = true ->
  HeaderTypeBlocks m_pDatabase project typesInHeader <> Aborted.
Proof.
  induction typesInHeader as [|typeInfo rest IH]; cbn [forallb HeaderTypeBlocks]; [discriminate|].
  intros H. apply andb_prop in H. destruct H as [Ht Hr].
  pose proof (TypeInfoBlock_resolves project typeInfo Ht) as Hb.
  destruct (TypeInfoBlock m_pDatabase project typeInfo); [|discriminate|congruence].
  specialize (IH Hr). destruct (HeaderTypeBlocks m_pDatabase project rest);
    [discriminate|discriminate|congruence].
Qed.

Lemma GenerateHeaderFiles_returns (project : ReflectedProject.t) (headers : list ReflectedHeader.t) :
  forallb
    (fun header =>
       forallb (TypeResolves m_pDatabase)
               (ReflectionDatabase.GetAllTypesForHeader m_pDatabase (ReflectedHeader.m_ID header)))
    headers = true ->
  forall g, exists b g', GenerateHeaderFiles m_pDatabase project headers g = Returned b g'.
Proof.
  induction headers as [|header rest IH]; cbn [forallb GenerateHeaderFiles]; intros H g.
  - eexists _, _. reflexivity.
  - apply andb_prop in H. destruct H as [Hh Hr].
    destruct (String.eqb _ _); [apply (IH Hr)|].
    destruct (ReflectionDatabase.GetAllTypesForHeader m_pDatabase (ReflectedHeader.m_ID header))
      as [|t ts] eqn:Ht; [apply (IH Hr)|].
    unfold bind, GenerateTypeInfoFileForHeader.
    pose proof (HeaderTypeBlocks_resolves project (t :: ts) Hh) as Hb.
    destruct (HeaderTypeBlocks m_pDatabase project (t :: ts)) as [lines|message|];
      [| |congruence].
    + unfold EmplaceFile, ret. apply (IH Hr).
    + unfold LogError, ret. eexists _, _. reflexivity.
Qed.

Lemma GenerateCodeForProject_returns (project : ReflectedProject.t) :
  forallb
    (fun header =>
       forallb (TypeResolves m_pDatabase)
               (ReflectionDatabase.GetAllTypesForHeader m_pDatabase (ReflectedHeader.m_ID header)))
    (ReflectedProject.m_headerFiles project) = true ->
  forall g, exists b g', GenerateCodeForProject m_pDatabase project g = Returned b g'.
Proof.
  intros H g. unfold GenerateCodeForProject, bind.
  destruct (GenerateHeaderFiles_returns project _ H g) as (ok & g1 & ->).
  destruct ok; cbn [negb]; [|eexists _, _; reflexivity].
  unfold GenerateProjectTypeInfoHeaderFile, GenerateProjectTypeInfoSourceFile.
  destruct (SortTypesByDependencies _) as [[|] typesInProject];
    unfold bind, EmplaceFile, LogError, ret; cbn [negb]; eexists _, _; reflexivity.
Qed.

Lemma GenerateCodeForProjects_returns (projects : list ReflectedProject.t) :
  forallb
    (fun prj =>
       forallb
         (fun header =>
            forallb (TypeResolves m_pDatabase)
                    (ReflectionDatabase.GetAllTypesForHeader m_pDatabase (ReflectedHeader.m_ID header)))
         (ReflectedProject.m_headerFiles prj))
    projects = true ->
  forall g, exists g', GenerateCodeForProjects m_pDatabase projects g = Returned tt g'.
Proof.
  induction projects as [|prj rest IH]; cbn [forallb GenerateCodeForProjects]; intros H g.
  - eexists. reflexivity.
  - apply andb_prop in H. destruct H as [Hp Hr].
    destruct (negb (IsValid (ReflectedProject.m_moduleHeaderID prj))); [apply (IH Hr)|].
    unfold bind. destruct (GenerateCodeForProject_returns prj Hp g) as (b & g1 & ->).
    apply (IH Hr).
Qed.

Lemma GenerateSolutionTypeRegistrationFile_returns (mode : CompilationMode) :
  forallb (ParentsResolve (ReflectionDatabase.GetAllRegisteredResourceTypes m_pDatabase))
          (ReflectionDatabase.GetAllRegisteredResourceTypes m_pDatabase) = true ->
  forall g, exists g',
    GenerateSolutionTypeRegistrationFile m_pDatabase m_solutionDirectoryPath mode g
    = Returned true g'.
Proof.
  intros H g. unfold GenerateSolutionTypeRegistrationFile, GenerateResourceRegistrationMethods.
  pose proof (ResourceRegistrations_Some mode
                (ReflectionDatabase.GetAllRegisteredResourceTypes m_pDatabase)
                (ReflectionDatabase.GetAllRegisteredResourceTypes m_pDatabase)) as Hs.
  assert (Hall : forallb
                   (fun rt => negb (IsRegisteredIn mode rt)
                              || ParentsResolve
                                   (ReflectionDatabase.GetAllRegisteredResourceTypes m_pDatabase) rt)
                   (ReflectionDatabase.GetAllRegisteredResourceTypes m_pDatabase) = true).
  { apply forallb_forall. intros rt Hin.
    rewrite (proj1 (forallb_forall _ _) H rt Hin). apply orb_true_r. }
  rewrite Hall in Hs.
  destruct (ResourceRegistrations mode _ _); [|discriminate].
  unfold bind, EmplaceFile, ret. eexists. reflexivity.
Qed.

(** X7: on a database in which every enumeration of every header has one
    of the six integral underlying types, every valid parent identifier
    of a structure type names a type of the database and every parent of
    a resource type is a registered resource type, the solution
    generation does not halt: it returns, and returns [true]. *)
Theorem GenerateCodeForSolution_returns (g : CodeGenerator.t) :
  DatabaseResolves m_pDatabase = true ->
  exists g', GenerateCodeForSolution m_pDatabase m_solutionDirectoryPath g = Returned true g'.
Proof.
  unfold DatabaseResolves. intros H. apply andb_prop in H. destruct H as [Ht Hr].
  unfold GenerateCodeForSolution, bind.
  destruct (GenerateCodeForProjects_returns _ Ht g) as (g1 & ->).
  destruct (GenerateSolutionTypeRegistrationFile_returns Runtime Hr g1) as (g2 & ->).
  cbn [negb].
  destruct (GenerateSolutionTypeRegistrationFile_returns Tools Hr g2) as (g3 & ->).
  cbn [negb]. unfold ret. eexists. reflexivity.
Qed.

End ProjectFiles.

Lemma GenerateCodeForProject_failure_is_logged_witness :
  exists files,
    CodeGenerator.m_generatedFiles
      (WithError CodeGenerator.initial (InvalidParentMessage typeOrphan))
    = CodeGenerator.m_generatedFiles CodeGenerator.initial ++ files.
Proof.
  apply (GenerateCodeForProject_failure_is_logged (E := ExampleExternals)
           (ExampleDatabase [typeOrphan]) ExampleProject CodeGenerator.initial
           (WithError CodeGenerator.initial (InvalidParentMessage typeOrphan))).
  vm_compute. reflexivity.
Defined.

Lemma GenerateCodeForProject_success_files_witness :
  exists g',
    GenerateCodeForProject (E := ExampleExternals) (ExampleDatabase [typeMid; typeLeaf])
      ExampleProject CodeGenerator.initial = Returned true g'
    /\ map m_path (CodeGenerator.m_generatedFiles g')
       = [ "Game/_Module/_AutoGenerated/Types.h"; "Game.typeinfo.h"; "Game.typeinfo.cpp" ].
Proof.
  destruct (GenerateCodeForProject (E := ExampleExternals) (ExampleDatabase [typeMid; typeLeaf])
              ExampleProject CodeGenerator.initial) as [[|] g'|] eqn:Hg;
    [|vm_compute in Hg; discriminate Hg|vm_compute in Hg; discriminate Hg].
  exists g'. split; [reflexivity|].
  apply (GenerateCodeForProject_success_files (E := ExampleExternals)
           (ExampleDatabase [typeMid; typeLeaf]) ExampleProject CodeGenerator.initial g' Hg).
Defined.

Lemma GenerateCodeForSolution_files_witness :
  exists g',
    GenerateCodeForSolution (E := ExampleExternals) SolutionDatabase "Solution/"
      CodeGenerator.initial = Returned true g'
    /\ exists projectFiles runtime tools,
         CodeGenerator.m_generatedFiles g'
         = CodeGenerator.m_generatedFiles CodeGenerator.initial ++ projectFiles
           ++ [ mkGeneratedFile "Solution/RuntimeTypeRegistration.h" runtime;
                mkGeneratedFile "Solution/ToolsTypeRegistration.h" tools ].
Proof.
  destruct (GenerateCodeForSolution (E := ExampleExternals) SolutionDatabase "Solution/"
              CodeGenerator.initial) as [[|] g'|] eqn:Hg;
    [|vm_compute in Hg; discriminate Hg|vm_compute in Hg; discriminate Hg].
  exists g'. split; [reflexivity|].
  apply (GenerateCodeForSolution_files (E := ExampleExternals) SolutionDatabase "Solution/"
           CodeGenerator.initial g' true Hg).
Defined.

Lemma GenerateCodeForSolution_returns_witness :
  exists g',
    GenerateCodeForSolution (E := ExampleExternals) (ExampleDatabase [typeMid; typeGreek; typeOrphan])
      "Solution/" CodeGenerator.initial = Returned true g'.
Proof.
  apply (GenerateCodeForSolution_returns (E := ExampleExternals)
           (ExampleDatabase [typeMid; typeGreek; typeOrphan]) "Solution/" CodeGenerator.initial).
  vm_compute. reflexivity.
Defined.

(** ** Guarded regions in the text of the emitters *)

Lemma Nests_nil : Nests 0 [].
Proof. intros depth rest. reflexivity. Qed.

Lemma Nests_plain (k : nat) (l : Line) (lines : list Line) :
  Unbracketed l -> Nests k lines -> Nests k (l :: lines).
Proof.
  intros Hl H depth rest. cbn [app GuardDepth]. destruct Hl as [-> | ->]; apply H.
Qed.

Lemma Nests_open (k : nat) (l : Line) (lines : list Line) :
  directive l = OpenDevTools -> Nests (S k) lines -> Nests k (l :: lines).
Proof.
  intros Hl H depth rest. cbn [app GuardDepth]. rewrite Hl. apply (H depth rest).
Qed.

Lemma Nests_close (k : nat) (l : Line) (lines : list Line) :
  directive l = CloseDevTools -> Nests k lines -> Nests (S k) (l :: lines).
Proof.
  intros Hl H depth rest. cbn [app GuardDepth Nat.add]. rewrite Hl. apply (H depth rest).
Qed.

Lemma Nests_app (k : nat) (l1 l2 : list Line) :
  Nests 0 l1 -> Nests k l2 -> Nests k (l1 ++ l2).
Proof.
  intros H1 H2 depth rest. rewrite <- app_assoc. rewrite (H1 (k + depth)). apply H2.
Qed.

Lemma Nests_last (k : nat) (lines : list Line) : Nests k (lines ++ []) -> Nests k lines.
Proof. rewrite app_nil_r. exact (fun H => H). Qed.

Lemma Nests_flat_map {A : Type} (f : A -> list Line) (l : list A) :
  (forall x, Nests 0 (f x)) -> Nests 0 (flat_map f l).
Proof.
  intros H. induction l as [|x r IH]; [apply Nests_nil|].
  cbn [flat_map]. apply Nests_app; [apply H|exact IH].
Qed.

Lemma Nests_WellNested (lines : list Line) : Nests 0 lines -> WellNested lines.
Proof.
  intros H. unfold WellNested. rewrite <- (app_nil_r lines). apply (H 0 []).
Qed.

(** Well nested text is compiled out whole inside a region that is
    compiled out. *)
Lemma GuardDepth_Preprocess (lines : list Line) :
  forall k k', GuardDepth k lines = Some k' ->
  forall depth rest,
    Preprocess (S depth + k) (lines ++ rest) = Preprocess (S depth + k') rest.
Proof.
  induction lines as [|l r IH]; intros k k' H depth rest; cbn [GuardDepth] in H.
  - injection H as <-. reflexivity.
  - cbn [app Preprocess Nat.add].
    destruct (directive l).
    + apply (IH k k' H).
    + rewrite plus_n_Sm. apply (IH (S k) k' H).
    + destruct k as [|j]; [discriminate|].
      rewrite <- plus_n_Sm. cbn [pred]. apply (IH j k' H).
    + apply (IH k k' H).
Qed.

Lemma Nests_Balanced (lines : list Line) : Nests 0 lines -> Balanced lines.
Proof.
  intros H depth rest.
  pose proof (GuardDepth_Preprocess lines 0 0 (Nests_WellNested lines H) depth rest) as Hp.
  rewrite Nat.add_0_r in Hp. exact Hp.
Qed.

Lemma flat_map_map_text {A B : Type} (text : B -> list Line) (f : A -> B) (l : list A) :
  flat_map text (map f l) = flat_map (fun x => text (f x)) l.
Proof.
  induction l as [|x r IH]; [reflexivity|]. cbn [map flat_map]. rewrite IH. reflexivity.
Qed.

Lemma flat_map_flat_map_text {A B : Type} (text : B -> list Line) (f : A -> list B) (l : list A) :
  flat_map text (flat_map f l) = flat_map (fun x => flat_map text (f x)) l.
Proof.
  induction l as [|x r IH]; [reflexivity|]. cbn [flat_map]. rewrite flat_map_app, IH. reflexivity.
Qed.

(** The text of a list of chunks, chunk after chunk: a chunk with no
    directive or inside the macro is passed, an opening goes one region
    deeper, a closing comes back, a part that is balanced is passed
    whole. *)
Ltac nests_step :=
  match goal with
  | |- Nests 0 [] => apply Nests_nil
  | H : Nests 0 ?l |- Nests _ (?l ++ _) => apply Nests_app; [exact H|]
  | H : forall x, Nests 0 (?f x) |- Nests _ (?f _ ++ _) => apply Nests_app; [apply H|]
  | |- Nests _ ((if ?b then _ else _) ++ _) => destruct b
  | |- Nests _ (if ?b then _ else _) => destruct b
  | |- Nests _ ([] ++ _) => change (@app Line [] ?l) with l
  | |- Nests _ ((_ :: _) ++ _) => cbn [app]
  | |- Nests _ (flat_map _ (if ?b then _ else _) ++ _) => destruct b
  | |- Nests _ (flat_map _ [] ++ _) => cbn [flat_map]
  | |- Nests _ (flat_map ?t (?x :: ?l) ++ _) =>
      change (flat_map t (x :: l)) with (t x ++ flat_map t l)
  | |- Nests _ (ResourceStatementText _ ++ _) => cbn [ResourceStatementText]
  | |- Nests _ (UnloadingStatementText _ ++ _) => cbn [UnloadingStatementText]
  | |- Nests _ (StatusStatementText _ ++ _) => cbn [StatusStatementText]
  | |- Nests _ (flat_map _ _ ++ _) =>
      apply Nests_app;
      [apply Nests_flat_map; intros ?; apply Nests_last|]
  | |- Nests _ ((_ ++ _) ++ _) => rewrite <- app_assoc
  | |- Nests _ (_ :: _) =>
      first [ apply Nests_plain; [first [left; reflexivity | right; reflexivity]|]
            | apply Nests_open; [reflexivity|]
            | apply Nests_close; [reflexivity|] ]
  end.

Ltac nests_lines := apply Nests_last; repeat nests_step.

(** The chunks of the text of an emitter, each legible and none the
    definition of a per-type function. *)
Ltac role_lines :=
  repeat match goal with
         | H : Forall ?P ?l |- Forall ?P ?l => exact H
         | H : forall x, Forall ?P (?f x) |- Forall ?P (?f _) => apply H
         | |- Forall _ (if ?b then _ else _) => destruct b
         | |- Forall _ [] => apply Forall_nil
         | |- Forall _ (_ :: _) => apply Forall_cons; [quiet|]
         | |- Forall _ (_ ++ _) => apply Forall_app; split
         | |- Forall _ (flat_map _ _) => apply Forall_flat_map, Forall_forall; intros ? _
         | |- Forall _ (map _ _) => apply Forall_map, Forall_forall; intros ? _
         | |- Quiet _ => quiet
         end.

(** *** The statements of the resource methods *)

Lemma LoadResourcesPropertyStatements_Nests (propertyDesc : ReflectedProperty.t) :
  Nests 0 (flat_map ResourceStatementText (LoadResourcesPropertyStatements propertyDesc)).
Proof.
  unfold LoadResourcesPropertyStatements.
  destruct (IsResourcePtrType _); [|destruct (_ && _); [|apply Nests_nil]];
    destruct (ReflectedProperty.m_isDevOnly propertyDesc),
             (ReflectedProperty.IsArrayProperty propertyDesc),
             (ReflectedProperty.IsDynamicArrayProperty propertyDesc);
    rewrite ?flat_map_app, ?flat_map_map_text; cbn [flat_map app ResourceStatementText];
    nests_lines.
Qed.

Lemma UnloadResourcesPropertyStatements_Nests (propertyDesc : ReflectedProperty.t) :
  Nests 0 (flat_map ResourceStatementText (UnloadResourcesPropertyStatements propertyDesc)).
Proof.
  unfold UnloadResourcesPropertyStatements.
  destruct (IsResourcePtrType _); [|destruct (_ && _); [|apply Nests_nil]];
    destruct (ReflectedProperty.m_isDevOnly propertyDesc),
             (ReflectedProperty.IsArrayProperty propertyDesc),
             (ReflectedProperty.IsDynamicArrayProperty propertyDesc);
    rewrite ?flat_map_app, ?flat_map_map_text; cbn [flat_map app ResourceStatementText];
    nests_lines.
Qed.

Lemma ReferencedResourcesPropertyStatements_Nests (propertyDesc : ReflectedProperty.t) :
  Nests 0 (flat_map ResourceStatementText (ReferencedResourcesPropertyStatements propertyDesc)).
Proof.
  unfold ReferencedResourcesPropertyStatements.
  destruct (IsResourcePtrType _); [|destruct (_ && _); [|apply Nests_nil]];
    destruct (ReflectedProperty.m_isDevOnly propertyDesc),
             (ReflectedProperty.IsArrayProperty propertyDesc),
             (ReflectedProperty.IsDynamicArrayProperty propertyDesc);
    rewrite ?flat_map_app, ?flat_map_map_text; cbn [flat_map app ResourceStatementText];
    nests_lines.
Qed.

Lemma PropertyUnloadingStatements_Nests (propertyDesc : ReflectedProperty.t) :
  Nests 0 (flat_map UnloadingStatementText (PropertyUnloadingStatements propertyDesc)).
Proof.
  unfold PropertyUnloadingStatements.
  destruct (IsResourcePtrType _); [|destruct (_ && _); [|apply Nests_nil]];
    destruct (ReflectedProperty.m_isDevOnly propertyDesc),
             (ReflectedProperty.IsArrayProperty propertyDesc),
             (ReflectedProperty.IsDynamicArrayProperty propertyDesc);
    rewrite ?flat_map_app, ?flat_map_map_text, ?flat_map_flat_map_text;
    cbn [flat_map app UnloadingStatementText]; nests_lines.
Qed.

Lemma GenerateTypeInfoLoadResourcesMethod_Nests (type : ReflectedType.t) :
  Nests 0 (GenerateTypeInfoLoadResourcesMethod type).
Proof.
  assert (H : Nests 0 (flat_map ResourceStatementText (LoadResourcesStatements type))).
  { unfold LoadResourcesStatements. destruct (ReflectedType.HasResourcePtrOrStructProperties type);
      [|apply Nests_nil].
    rewrite flat_map_flat_map_text. apply Nests_flat_map.
    apply LoadResourcesPropertyStatements_Nests. }
  unfold GenerateTypeInfoLoadResourcesMethod. nests_lines.
Qed.

Lemma GenerateTypeInfoUnloadResourcesMethod_Nests (type : ReflectedType.t) :
  Nests 0 (GenerateTypeInfoUnloadResourcesMethod type).
Proof.
  assert (H : Nests 0 (flat_map ResourceStatementText (UnloadResourcesStatements type))).
  { unfold UnloadResourcesStatements. destruct (ReflectedType.HasResourcePtrOrStructProperties type);
      [|apply Nests_nil].
    rewrite flat_map_flat_map_text. apply Nests_flat_map.
    apply UnloadResourcesPropertyStatements_Nests. }
  unfold GenerateTypeInfoUnloadResourcesMethod. nests_lines.
Qed.

Lemma GenerateTypeInfoGetReferencedResourceMethod_Nests (type : ReflectedType.t) :
  Nests 0 (GenerateTypeInfoGetReferencedResourceMethod type).
Proof.
  assert (H : Nests 0 (flat_map ResourceStatementText (ReferencedResourcesStatements type))).
  { unfold ReferencedResourcesStatements.
    destruct (ReflectedType.HasResourcePtrOrStructProperties type); [|apply Nests_nil].
    rewrite flat_map_flat_map_text. apply Nests_flat_map.
    apply ReferencedResourcesPropertyStatements_Nests. }
  unfold GenerateTypeInfoGetReferencedResourceMethod. nests_lines.
Qed.

Lemma GenerateTypeInfoResourceUnloadingStatusMethod_Nests (type : ReflectedType.t) :
  Nests 0 (GenerateTypeInfoResourceUnloadingStatusMethod type).
Proof.
  assert (H : Nests 0 (flat_map UnloadingStatementText (UnloadingStatusStatements type))).
  { unfold UnloadingStatusStatements.
    destruct (ReflectedType.HasResourcePtrOrStructProperties type); [|apply Nests_nil].
    rewrite flat_map_flat_map_text. apply Nests_flat_map.
    apply PropertyUnloadingStatements_Nests. }
  unfold GenerateTypeInfoResourceUnloadingStatusMethod. nests_lines.
Qed.

Lemma PropertyStatusStatements_Nests (propertyDesc : ReflectedProperty.t) :
  Nests 0 (flat_map StatusStatementText (PropertyStatusStatements propertyDesc)).
Proof.
  unfold PropertyStatusStatements.
  destruct (IsResourcePtrType _); [|destruct (_ && _); [|apply Nests_nil]];
    destruct (ReflectedProperty.m_isDevOnly propertyDesc),
             (ReflectedProperty.IsArrayProperty propertyDesc),
             (ReflectedProperty.IsDynamicArrayProperty propertyDesc);
    rewrite ?flat_map_app, ?flat_map_map_text; cbn [flat_map app StatusStatementText];
    nests_lines.
Qed.

Lemma GenerateTypeInfoResourceLoadingStatusMethod_Nests (type : ReflectedType.t) :
  Nests 0 (GenerateTypeInfoResourceLoadingStatusMethod type).
Proof.
  assert (H : Nests 0 (flat_map StatusStatementText (LoadingStatusStatements type))).
  { unfold LoadingStatusStatements.
    destruct (ReflectedType.HasResourcePtrOrStructProperties type); [|apply Nests_nil].
    rewrite flat_map_flat_map_text. apply Nests_flat_map.
    apply PropertyStatusStatements_Nests. }
  unfold GenerateTypeInfoResourceLoadingStatusMethod. nests_lines.
Qed.

(** *** The text of the other emitters *)

Section EmitterText.

Context {E : Externals} {M : SchemaMembers}.

Lemma GenerateTypeInfoCreationMethod_Nests (type : ReflectedType.t) :
  Nests 0 (GenerateTypeInfoCreationMethod type).
Proof. unfold GenerateTypeInfoCreationMethod. nests_lines. Qed.

Lemma GenerateTypeInfoInPlaceCreationMethod_Nests (type : ReflectedType.t) :
  Nests 0 (GenerateTypeInfoInPlaceCreationMethod type).
Proof. unfold GenerateTypeInfoInPlaceCreationMethod. nests_lines. Qed.

Lemma GenerateTypeInfoResetTypeMethod_Nests (type : ReflectedType.t) :
  Nests 0 (GenerateTypeInfoResetTypeMethod type).
Proof. unfold GenerateTypeInfoResetTypeMethod. nests_lines. Qed.

Lemma GenerateTypeInfoArrayAccessorMethod_Nests (type : ReflectedType.t) :
  Nests 0 (GenerateTypeInfoArrayAccessorMethod type).
Proof. unfold GenerateTypeInfoArrayAccessorMethod. nests_lines. Qed.

Lemma GenerateTypeInfoArraySizeMethod_Nests (type : ReflectedType.t) :
  Nests 0 (GenerateTypeInfoArraySizeMethod type).
Proof. unfold GenerateTypeInfoArraySizeMethod. nests_lines. Qed.

Lemma GenerateTypeInfoArrayElementSizeMethod_Nests (type : ReflectedType.t) :
  Nests 0 (GenerateTypeInfoArrayElementSizeMethod type).
Proof. unfold GenerateTypeInfoArrayElementSizeMethod. nests_lines. Qed.

Lemma GenerateTypeInfoArraySetSizeMethod_Nests (type : ReflectedType.t) :
  Nests 0 (GenerateTypeInfoArraySetSizeMethod type).
Proof. unfold GenerateTypeInfoArraySetSizeMethod. nests_lines. Qed.

Lemma GenerateTypeInfoArrayClearMethod_Nests (type : ReflectedType.t) :
  Nests 0 (GenerateTypeInfoArrayClearMethod type).
Proof. unfold GenerateTypeInfoArrayClearMethod. nests_lines. Qed.

Lemma GenerateTypeInfoAddArrayElementMethod_Nests (type : ReflectedType.t) :
  Nests 0 (GenerateTypeInfoAddArrayElementMethod type).
Proof. unfold GenerateTypeInfoAddArrayElementMethod. nests_lines. Qed.

Lemma GenerateTypeInfoInsertArrayElementMethod_Nests (type : ReflectedType.t) :
  Nests 0 (GenerateTypeInfoInsertArrayElementMethod type).
Proof. unfold GenerateTypeInfoInsertArrayElementMethod. nests_lines. Qed.

Lemma GenerateTypeInfoMoveArrayElementMethod_Nests (type : ReflectedType.t) :
  Nests 0 (GenerateTypeInfoMoveArrayElementMethod type).
Proof. unfold GenerateTypeInfoMoveArrayElementMethod. nests_lines. Qed.

Lemma GenerateTypeInfoRemoveArrayElementMethod_Nests (type : ReflectedType.t) :
  Nests 0 (GenerateTypeInfoRemoveArrayElementMethod type).
Proof. unfold GenerateTypeInfoRemoveArrayElementMethod. nests_lines. Qed.

Lemma GenerateTypeInfoCopyProperties_Nests (type : ReflectedType.t) :
  Nests 0 (GenerateTypeInfoCopyProperties type).
Proof. unfold GenerateTypeInfoCopyProperties. nests_lines. Qed.

Lemma GenerateTypeInfoAreAllPropertiesEqualMethod_Nests (type : ReflectedType.t) :
  Nests 0 (GenerateTypeInfoAreAllPropertiesEqualMethod type).
Proof. unfold GenerateTypeInfoAreAllPropertiesEqualMethod. nests_lines. Qed.

Lemma GenerateTypeInfoIsPropertyEqualMethod_Nests (type : ReflectedType.t) :
  Nests 0 (GenerateTypeInfoIsPropertyEqualMethod type).
Proof. unfold GenerateTypeInfoIsPropertyEqualMethod. nests_lines. Qed.

Lemma GenerateTypeInfoSetToDefaultValueMethod_Nests (type : ReflectedType.t) :
  Nests 0 (GenerateTypeInfoSetToDefaultValueMethod type).
Proof. unfold GenerateTypeInfoSetToDefaultValueMethod. nests_lines. Qed.

Lemma GenerateTypeInfoExpectedResourceTypeMethod_Nests (type : ReflectedType.t) :
  Nests 0 (GenerateTypeInfoExpectedResourceTypeMethod type).
Proof. unfold GenerateTypeInfoExpectedResourceTypeMethod. nests_lines. Qed.

Lemma GenerateTypeInfoStaticTypeRegistrationMethods_Nests (type : ReflectedType.t) :
  Nests 0 (GenerateTypeInfoStaticTypeRegistrationMethods type).
Proof. unfold GenerateTypeInfoStaticTypeRegistrationMethods. nests_lines. Qed.

Lemma GeneratePropertyRegistrationCode_Nests (type : ReflectedType.t)
  (prop : ReflectedProperty.t) :
  Nests 0 (GeneratePropertyRegistrationCode type prop).
Proof. unfold GeneratePropertyRegistrationCode. nests_lines. Qed.

Lemma GenerateTypeInfoConstructor_Nests (type parentType : ReflectedType.t) :
  Nests 0 (GenerateTypeInfoConstructor type parentType).
Proof.
  pose proof (GeneratePropertyRegistrationCode_Nests type) as H.
  unfold GenerateTypeInfoConstructor. nests_lines.
Qed.

End EmitterText.

(** ** The text of the emitters, chunk by chunk *)

Lemma ResourceStatementText_quiet (s : ResourceStatement) : Forall Quiet (ResourceStatementText s).
Proof.
  destruct s as [op ?|op ? ?|op ?|op ? ?|op ? ? ?|op ? ?| | | |]; try destruct op;
    cbn [ResourceStatementText]; role_lines.
Qed.

Lemma UnloadingStatementText_quiet (s : UnloadingStatement) :
  Forall Quiet (UnloadingStatementText s).
Proof. destruct s; cbn [UnloadingStatementText]; role_lines. Qed.

Lemma StatusStatementText_quiet (s : StatusStatement) : Forall Quiet (StatusStatementText s).
Proof. destruct s; cbn [StatusStatementText]; role_lines. Qed.

Lemma GenerateTypeInfoResourceLoadingStatusMethod_quiet (type : ReflectedType.t) :
  Forall Quiet (GenerateTypeInfoResourceLoadingStatusMethod type).
Proof.
  pose proof StatusStatementText_quiet as H.
  unfold GenerateTypeInfoResourceLoadingStatusMethod. role_lines.
Qed.

Lemma GenerateTypeInfoLoadResourcesMethod_quiet (type : ReflectedType.t) :
  Forall Quiet (GenerateTypeInfoLoadResourcesMethod type).
Proof.
  pose proof ResourceStatementText_quiet as H.
  unfold GenerateTypeInfoLoadResourcesMethod. role_lines.
Qed.

Lemma GenerateTypeInfoUnloadResourcesMethod_quiet (type : ReflectedType.t) :
  Forall Quiet (GenerateTypeInfoUnloadResourcesMethod type).
Proof.
  pose proof ResourceStatementText_quiet as H.
  unfold GenerateTypeInfoUnloadResourcesMethod. role_lines.
Qed.

Lemma GenerateTypeInfoGetReferencedResourceMethod_quiet (type : ReflectedType.t) :
  Forall Quiet (GenerateTypeInfoGetReferencedResourceMethod type).
Proof.
  pose proof ResourceStatementText_quiet as H.
  unfold GenerateTypeInfoGetReferencedResourceMethod. role_lines.
Qed.

Lemma GenerateTypeInfoResourceUnloadingStatusMethod_quiet (type : ReflectedType.t) :
  Forall Quiet (GenerateTypeInfoResourceUnloadingStatusMethod type).
Proof.
  pose proof UnloadingStatementText_quiet as H.
  unfold GenerateTypeInfoResourceUnloadingStatusMethod. role_lines.
Qed.

Section EmitterRoles.

Context {E : Externals} {M : SchemaMembers}.

Lemma GenerateTypeInfoCreationMethod_quiet (type : ReflectedType.t) :
  Forall Quiet (GenerateTypeInfoCreationMethod type).
Proof. unfold GenerateTypeInfoCreationMethod. role_lines. Qed.

Lemma GenerateTypeInfoInPlaceCreationMethod_quiet (type : ReflectedType.t) :
  Forall Quiet (GenerateTypeInfoInPlaceCreationMethod type).
Proof. unfold GenerateTypeInfoInPlaceCreationMethod. role_lines. Qed.

Lemma GenerateTypeInfoResetTypeMethod_quiet (type : ReflectedType.t) :
  Forall Quiet (GenerateTypeInfoResetTypeMethod type).
Proof. unfold GenerateTypeInfoResetTypeMethod. role_lines. Qed.

Lemma GenerateTypeInfoArrayAccessorMethod_quiet (type : ReflectedType.t) :
  Forall Quiet (GenerateTypeInfoArrayAccessorMethod type).
Proof. unfold GenerateTypeInfoArrayAccessorMethod. role_lines. Qed.

Lemma GenerateTypeInfoArraySizeMethod_quiet (type : ReflectedType.t) :
  Forall Quiet (GenerateTypeInfoArraySizeMethod type).
Proof. unfold GenerateTypeInfoArraySizeMethod. role_lines. Qed.

Lemma GenerateTypeInfoArrayElementSizeMethod_quiet (type : ReflectedType.t) :
  Forall Quiet (GenerateTypeInfoArrayElementSizeMethod type).
Proof. unfold GenerateTypeInfoArrayElementSizeMethod. role_lines. Qed.

Lemma GenerateTypeInfoArraySetSizeMethod_quiet (type : ReflectedType.t) :
  Forall Quiet (GenerateTypeInfoArraySetSizeMethod type).
Proof. unfold GenerateTypeInfoArraySetSizeMethod. role_lines. Qed.

Lemma GenerateTypeInfoArrayClearMethod_quiet (type : ReflectedType.t) :
  Forall Quiet (GenerateTypeInfoArrayClearMethod type).
Proof. unfold GenerateTypeInfoArrayClearMethod. role_lines. Qed.

Lemma GenerateTypeInfoAddArrayElementMethod_quiet (type : ReflectedType.t) :
  Forall Quiet (GenerateTypeInfoAddArrayElementMethod type).
Proof. unfold GenerateTypeInfoAddArrayElementMethod. role_lines. Qed.

Lemma GenerateTypeInfoInsertArrayElementMethod_quiet (type : ReflectedType.t) :
  Forall Quiet (GenerateTypeInfoInsertArrayElementMethod type).
Proof. unfold GenerateTypeInfoInsertArrayElementMethod. role_lines. Qed.

Lemma GenerateTypeInfoMoveArrayElementMethod_quiet (type : ReflectedType.t) :
  Forall Quiet (GenerateTypeInfoMoveArrayElementMethod type).
Proof. unfold GenerateTypeInfoMoveArrayElementMethod. role_lines. Qed.

Lemma GenerateTypeInfoRemoveArrayElementMethod_quiet (type : ReflectedType.t) :
  Forall Quiet (GenerateTypeInfoRemoveArrayElementMethod type).
Proof. unfold GenerateTypeInfoRemoveArrayElementMethod. role_lines. Qed.

Lemma GenerateTypeInfoCopyProperties_quiet (type : ReflectedType.t) :
  Forall Quiet (GenerateTypeInfoCopyProperties type).
Proof. unfold GenerateTypeInfoCopyProperties. role_lines. Qed.

Lemma GenerateTypeInfoAreAllPropertiesEqualMethod_quiet (type : ReflectedType.t) :
  Forall Quiet (GenerateTypeInfoAreAllPropertiesEqualMethod type).
Proof. unfold GenerateTypeInfoAreAllPropertiesEqualMethod. role_lines. Qed.

Lemma GenerateTypeInfoIsPropertyEqualMethod_quiet (type : ReflectedType.t) :
  Forall Quiet (GenerateTypeInfoIsPropertyEqualMethod type).
Proof. unfold GenerateTypeInfoIsPropertyEqualMethod. role_lines. Qed.

Lemma GenerateTypeInfoSetToDefaultValueMethod_quiet (type : ReflectedType.t) :
  Forall Quiet (GenerateTypeInfoSetToDefaultValueMethod type).
Proof. unfold GenerateTypeInfoSetToDefaultValueMethod. role_lines. Qed.

Lemma GenerateTypeInfoExpectedResourceTypeMethod_quiet (type : ReflectedType.t) :
  Forall Quiet (GenerateTypeInfoExpectedResourceTypeMethod type).
Proof. unfold GenerateTypeInfoExpectedResourceTypeMethod. role_lines. Qed.

Lemma GenerateTypeInfoStaticTypeRegistrationMethods_quiet (type : ReflectedType.t) :
  Forall Quiet (GenerateTypeInfoStaticTypeRegistrationMethods type).
Proof. unfold GenerateTypeInfoStaticTypeRegistrationMethods. role_lines. Qed.

Lemma GeneratePropertyRegistrationCode_quiet (type : ReflectedType.t)
  (prop : ReflectedProperty.t) :
  Forall Quiet (GeneratePropertyRegistrationCode type prop).
Proof. unfold GeneratePropertyRegistrationCode. role_lines. Qed.

Lemma GenerateTypeInfoConstructor_quiet (type parentType : ReflectedType.t) :
  Forall Quiet (GenerateTypeInfoConstructor type parentType).
Proof.
  pose proof (GeneratePropertyRegistrationCode_quiet type) as H.
  unfold GenerateTypeInfoConstructor. role_lines.
Qed.

(** The type info of a structure, as the source writes it in full. *)
Lemma GenerateStructureTypeInfo_quiet (exportMacro : string) (typeInfo parentType : ReflectedType.t) :
  Forall Quiet (GenerateStructureTypeInfo (E := SourceExternals) exportMacro typeInfo parentType).
Proof.
  pose proof (GenerateTypeInfoStaticTypeRegistrationMethods_quiet typeInfo).
  pose proof (GenerateTypeInfoCreationMethod_quiet typeInfo).
  pose proof (GenerateTypeInfoInPlaceCreationMethod_quiet typeInfo).
  pose proof (GenerateTypeInfoResetTypeMethod_quiet typeInfo).
  pose proof (GenerateTypeInfoLoadResourcesMethod_quiet typeInfo).
  pose proof (GenerateTypeInfoUnloadResourcesMethod_quiet typeInfo).
  pose proof (GenerateTypeInfoResourceLoadingStatusMethod_quiet typeInfo).
  pose proof (GenerateTypeInfoResourceUnloadingStatusMethod_quiet typeInfo).
  pose proof (GenerateTypeInfoGetReferencedResourceMethod_quiet typeInfo).
  pose proof (GenerateTypeInfoExpectedResourceTypeMethod_quiet typeInfo).
  pose proof (GenerateTypeInfoArrayAccessorMethod_quiet typeInfo).
  pose proof (GenerateTypeInfoArraySizeMethod_quiet typeInfo).
  pose proof (GenerateTypeInfoArrayElementSizeMethod_quiet typeInfo).
  pose proof (GenerateTypeInfoArraySetSizeMethod_quiet typeInfo).
  pose proof (GenerateTypeInfoArrayClearMethod_quiet typeInfo).
  pose proof (GenerateTypeInfoAddArrayElementMethod_quiet typeInfo).
  pose proof (GenerateTypeInfoInsertArrayElementMethod_quiet typeInfo).
  pose proof (GenerateTypeInfoMoveArrayElementMethod_quiet typeInfo).
  pose proof (GenerateTypeInfoRemoveArrayElementMethod_quiet typeInfo).
  pose proof (GenerateTypeInfoCopyProperties_quiet typeInfo).
  pose proof (GenerateTypeInfoAreAllPropertiesEqualMethod_quiet typeInfo).
  pose proof (GenerateTypeInfoIsPropertyEqualMethod_quiet typeInfo).
  pose proof (GenerateTypeInfoSetToDefaultValueMethod_quiet typeInfo).
  pose proof (GenerateTypeInfoConstructor_quiet typeInfo parentType).
  unfold GenerateStructureTypeInfo, StructureTypeInfoBody, StructureBanner.
  cbn [StaticTypeRegistrationMethods MethodsBeforeLoadingStatus MethodsAfterLoadingStatus
       SourceExternals].
  role_lines.
Qed.

Lemma StructureTypeInfoBody_Nests (typeInfo parentType : ReflectedType.t) :
  Nests 0 (StructureTypeInfoBody (E := SourceExternals) typeInfo parentType).
Proof.
  pose proof (GenerateTypeInfoStaticTypeRegistrationMethods_Nests typeInfo).
  pose proof (GenerateTypeInfoCreationMethod_Nests typeInfo).
  pose proof (GenerateTypeInfoInPlaceCreationMethod_Nests typeInfo).
  pose proof (GenerateTypeInfoResetTypeMethod_Nests typeInfo).
  pose proof (GenerateTypeInfoLoadResourcesMethod_Nests typeInfo).
  pose proof (GenerateTypeInfoUnloadResourcesMethod_Nests typeInfo).
  pose proof (GenerateTypeInfoResourceLoadingStatusMethod_Nests typeInfo).
  pose proof (GenerateTypeInfoResourceUnloadingStatusMethod_Nests typeInfo).
  pose proof (GenerateTypeInfoGetReferencedResourceMethod_Nests typeInfo).
  pose proof (GenerateTypeInfoExpectedResourceTypeMethod_Nests typeInfo).
  pose proof (GenerateTypeInfoArrayAccessorMethod_Nests typeInfo).
  pose proof (GenerateTypeInfoArraySizeMethod_Nests typeInfo).
  pose proof (GenerateTypeInfoArrayElementSizeMethod_Nests typeInfo).
  pose proof (GenerateTypeInfoArraySetSizeMethod_Nests typeInfo).
  pose proof (GenerateTypeInfoArrayClearMethod_Nests typeInfo).
  pose proof (GenerateTypeInfoAddArrayElementMethod_Nests typeInfo).
  pose proof (GenerateTypeInfoInsertArrayElementMethod_Nests typeInfo).
  pose proof (GenerateTypeInfoMoveArrayElementMethod_Nests typeInfo).
  pose proof (GenerateTypeInfoRemoveArrayElementMethod_Nests typeInfo).
  pose proof (GenerateTypeInfoCopyProperties_Nests typeInfo).
  pose proof (GenerateTypeInfoAreAllPropertiesEqualMethod_Nests typeInfo).
  pose proof (GenerateTypeInfoIsPropertyEqualMethod_Nests typeInfo).
  pose proof (GenerateTypeInfoSetToDefaultValueMethod_Nests typeInfo).
  pose proof (GenerateTypeInfoConstructor_Nests typeInfo parentType).
  unfold StructureTypeInfoBody.
  cbn [StaticTypeRegistrationMethods MethodsBeforeLoadingStatus MethodsAfterLoadingStatus
       SourceExternals].
  nests_lines.
Qed.

Lemma GenerateStructureTypeInfo_Nests (exportMacro : string) (typeInfo parentType : ReflectedType.t) :
  Nests 0 (GenerateStructureTypeInfo (E := SourceExternals) exportMacro typeInfo parentType).
Proof.
  pose proof (StructureTypeInfoBody_Nests typeInfo parentType) as Hb.
  unfold GenerateStructureTypeInfo, StructureBanner. nests_lines.
Qed.


End EmitterRoles.

(** ** The contents of the generated files *)

Lemma AddsFiles_refl (P : list Line -> Prop) (g : CodeGenerator.t) : AddsFiles P g g.
Proof. exists []. rewrite app_nil_r. split; [reflexivity|constructor]. Qed.

Lemma AddsFiles_trans (P : list Line -> Prop) (g1 g2 g3 : CodeGenerator.t) :
  AddsFiles P g1 g2 -> AddsFiles P g2 g3 -> AddsFiles P g1 g3.
Proof.
  intros (f1 & H1 & P1) (f2 & H2 & P2). exists (f1 ++ f2).
  split; [rewrite H2, H1, app_assoc; reflexivity|apply Forall_app; split; assumption].
Qed.

Lemma AddsFiles_WithFile (P : list Line -> Prop) (g : CodeGenerator.t) (path : string)
  (contents : list Line) :
  P contents -> AddsFiles P g (WithFile g path contents).
Proof.
  intros H. exists [mkGeneratedFile path contents].
  split; [reflexivity|constructor; [exact H|constructor]].
Qed.

Lemma AddsFiles_WithError (P : list Line -> Prop) (g : CodeGenerator.t) (message : string) :
  AddsFiles P g (WithError g message).
Proof. exists []. unfold WithError. cbn. rewrite app_nil_r. split; [reflexivity|constructor]. Qed.

Section GeneratedContents.

Context {E : Externals}.

Variable m_pDatabase : ReflectionDatabase.t.
Variable m_solutionDirectoryPath : string.

(** What holds of the contents of each kind of file. *)
Variable P : list Line -> Prop.

Hypothesis P_header :
  forall project header typesInHeader lines,
    HeaderTypeBlocks m_pDatabase project typesInHeader = Emitted lines ->
    P (HeaderFilePreamble header ++ lines).

Hypothesis P_projectHeader :
  forall project typesInProject, P (ProjectTypeInfoHeaderLines project typesInProject).

Hypothesis P_projectSource :
  forall project typesInProject, P (ProjectTypeInfoSourceLines project typesInProject).

Hypothesis P_aggregate :
  forall mode resourceMethods,
    GenerateResourceRegistrationMethods m_pDatabase mode = Some resourceMethods ->
    P (SolutionTypeRegistrationLines m_pDatabase mode (SolutionProjects m_pDatabase mode)
         resourceMethods).

Lemma GenerateHeaderFiles_contents (project : ReflectedProject.t) (headers : list ReflectedHeader.t) :
  forall g b g',
    GenerateHeaderFiles m_pDatabase project headers g = Returned b g' -> AddsFiles P g g'.
Proof.
  induction headers as [|header rest IH]; intros g b g'; cbn [GenerateHeaderFiles].
  - unfold ret. intros H. inversion H. apply AddsFiles_refl.
  - destruct (String.eqb _ _); [apply IH|].
    destruct (ReflectionDatabase.GetAllTypesForHeader m_pDatabase (ReflectedHeader.m_ID header))
      as [|t ts]; [apply IH|].
    unfold bind, GenerateTypeInfoFileForHeader.
    destruct (HeaderTypeBlocks m_pDatabase project (t :: ts)) as [lines|message|] eqn:Hb;
      [| |discriminate].
    + unfold EmplaceFile, ret. intros H. apply IH in H.
      apply (AddsFiles_trans P _ _ _ (AddsFiles_WithFile P g _ _ (P_header _ header _ _ Hb)) H).
    + unfold LogError, ret. intros H. inversion H. apply AddsFiles_WithError.
Qed.

Lemma GenerateCodeForProject_contents (project : ReflectedProject.t) :
  forall g b g',
    GenerateCodeForProject m_pDatabase project g = Returned b g' -> AddsFiles P g g'.
Proof.
  intros g b g'. unfold GenerateCodeForProject, bind.
  destruct (GenerateHeaderFiles m_pDatabase project _ g) as [ok g1|] eqn:Hh; [|discriminate].
  apply GenerateHeaderFiles_contents in Hh.
  destruct ok; cbn [negb]; [|unfold ret; intros H; inversion H; subst; exact Hh].
  unfold GenerateProjectTypeInfoHeaderFile, GenerateProjectTypeInfoSourceFile.
  destruct (SortTypesByDependencies _) as [[|] typesInProject];
    unfold bind, EmplaceFile, LogError, ret; cbn [negb]; intros H; inversion H;
    apply (AddsFiles_trans P _ _ _ Hh).
  - apply (AddsFiles_trans P _ (WithFile g1 (GetTypeInfoHeaderFilePath project)
                                 (ProjectTypeInfoHeaderLines project typesInProject)));
      apply AddsFiles_WithFile; [apply P_projectHeader|apply P_projectSource].
  - apply AddsFiles_WithError.
Qed.

Lemma GenerateCodeForProjects_contents (projects : list ReflectedProject.t) :
  forall g u g',
    GenerateCodeForProjects m_pDatabase projects g = Returned u g' -> AddsFiles P g g'.
Proof.
  induction projects as [|prj rest IH]; intros g u g'; cbn [GenerateCodeForProjects].
  - unfold ret. intros H. inversion H. apply AddsFiles_refl.
  - destruct (negb (IsValid (ReflectedProject.m_moduleHeaderID prj))); [apply IH|].
    unfold bind.
    destruct (GenerateCodeForProject m_pDatabase prj g) as [ok g1|] eqn:Hp; [|discriminate].
    apply GenerateCodeForProject_contents in Hp. intros H. apply IH in H.
    apply (AddsFiles_trans P _ _ _ Hp H).
Qed.

Lemma GenerateSolutionTypeRegistrationFile_contents (mode : CompilationMode) :
  forall g b g',
    GenerateSolutionTypeRegistrationFile m_pDatabase m_solutionDirectoryPath mode g
    = Returned b g' ->
    AddsFiles P g g'.
Proof.
  intros g b g'. unfold GenerateSolutionTypeRegistrationFile.
  destruct (GenerateResourceRegistrationMethods m_pDatabase mode) as [resourceMethods|] eqn:Hr;
    [|discriminate].
  unfold bind, EmplaceFile, ret. intros H. inversion H.
  apply AddsFiles_WithFile. apply P_aggregate. exact Hr.
Qed.

Lemma GenerateCodeForSolution_contents :
  forall g b g',
    GenerateCodeForSolution m_pDatabase m_solutionDirectoryPath g = Returned b g' ->
    AddsFiles P g g'.
Proof.
  intros g b g'. unfold GenerateCodeForSolution, bind.
  destruct (GenerateCodeForProjects m_pDatabase _ g) as [u g1|] eqn:Hp; [|discriminate].
  apply GenerateCodeForProjects_contents in Hp.
  destruct (GenerateSolutionTypeRegistrationFile _ _ Runtime g1) as [ok1 g2|] eqn:H1; [|discriminate].
  pose proof (GenerateSolutionTypeRegistrationFile_contents _ _ _ _ H1) as Hc1.
  destruct ok1; cbn [negb];
    [|unfold ret; intros H; inversion H; subst; apply (AddsFiles_trans P _ _ _ Hp Hc1)].
  destruct (GenerateSolutionTypeRegistrationFile _ _ Tools g2) as [ok2 g3|] eqn:H2; [|discriminate].
  pose proof (GenerateSolutionTypeRegistrationFile_contents _ _ _ _ H2) as Hc2.
  assert (Hall : AddsFiles P g g3)
    by (apply (AddsFiles_trans P _ _ _ Hp); apply (AddsFiles_trans P _ _ _ Hc1 Hc2)).
  destruct ok2; cbn [negb]; unfold ret; intros H; inversion H; subst; exact Hall.
Qed.

End GeneratedContents.

(** ** Guarded regions in the generated files *)

Lemma Unbracketed_Nests (lines : list Line) : Forall Unbracketed lines -> Nests 0 lines.
Proof. induction 1 as [|l r Hl _ IH]; [apply Nests_nil|apply Nests_plain; assumption]. Qed.

Ltac unbracketed_all :=
  repeat match goal with
         | H : Forall Unbracketed ?l |- Forall Unbracketed ?l => exact H
         | H : forall x, Forall Unbracketed (?f x) |- Forall Unbracketed (?f _) => apply H
         | |- Forall Unbracketed (if ?b then _ else _) => destruct b
         | |- Forall Unbracketed (match ?l with [] => _ | _ :: _ => _ end) => destruct l
         | |- Forall Unbracketed [] => apply Forall_nil
         | |- Forall Unbracketed (_ :: _) =>
             apply Forall_cons; [first [left; reflexivity | right; reflexivity | assumption]|]
         | |- Forall Unbracketed (_ ++ _) => apply Forall_app; split
         | |- Forall Unbracketed (flat_map _ _) => apply Forall_flat_map, Forall_forall; intros ? _
         | |- Forall Unbracketed (map _ _) => apply Forall_map, Forall_forall; intros ? _
         | |- Unbracketed _ => first [left; reflexivity | right; reflexivity]
         end.

Lemma TypeDeclarations_Unbracketed (type : ReflectedType.t) :
  Forall Unbracketed (TypeDeclarations type).
Proof. unfold TypeDeclarations. unbracketed_all. Qed.

Lemma TypeRegistrationFunctions_Unbracketed (typeInfo : ReflectedType.t) :
  Forall Unbracketed (TypeRegistrationFunctions typeInfo).
Proof. unfold TypeRegistrationFunctions. unbracketed_all. Qed.

Lemma RegisterTypeCall_Unbracketed (type : ReflectedType.t) : Unbracketed (RegisterTypeCall type).
Proof.
  unfold RegisterTypeCall. destruct (ReflectedType.m_isDevOnly type); [right|left]; reflexivity.
Qed.

Lemma UnregisterTypeCall_Unbracketed (type : ReflectedType.t) :
  Unbracketed (UnregisterTypeCall type).
Proof.
  unfold UnregisterTypeCall. destruct (ReflectedType.m_isDevOnly type); [right|left]; reflexivity.
Qed.

Lemma CreateDefaultInstanceCall_Unbracketed (type : ReflectedType.t) :
  Forall Unbracketed (CreateDefaultInstanceCall type).
Proof. unfold CreateDefaultInstanceCall. unbracketed_all. Qed.

Section FileNesting.

Context {E : Externals}.

Variable m_pDatabase : ReflectionDatabase.t.

Lemma ProjectTypeInfoHeaderLines_Unbracketed (project : ReflectedProject.t)
  (typesInProject : list ReflectedType.t) :
  Forall Unbracketed (ProjectTypeInfoHeaderLines project typesInProject).
Proof.
  pose proof TypeDeclarations_Unbracketed as H.
  unfold ProjectTypeInfoHeaderLines. unbracketed_all.
Qed.

Lemma ProjectTypeInfoSourceLines_Unbracketed (project : ReflectedProject.t)
  (typesInProject : list ReflectedType.t) :
  Forall Unbracketed (ProjectTypeInfoSourceLines project typesInProject).
Proof.
  pose proof CreateDefaultInstanceCall_Unbracketed as H.
  unfold ProjectTypeInfoSourceLines. unbracketed_all;
    first [apply RegisterTypeCall_Unbracketed | apply UnregisterTypeCall_Unbracketed].
Qed.

Lemma ParentTypeLines_Unbracketed (table : list ReflectedResourceType.t) (parents : list TypeID) :
  forall lines, ParentTypeLines table parents = Some lines -> Forall Unbracketed lines.
Proof.
  induction parents as [|p r IH]; intros lines H; cbn [ParentTypeLines] in H.
  - injection H as <-. constructor.
  - destruct (GetResourceTypeIDForTypeID table p); [|discriminate].
    destruct (ParentTypeLines table r) as [rest|]; [|discriminate].
    apply (f_equal (fun o => match o with Some l => l | None => [] end)) in H.
    cbv beta iota in H. subst lines.
    constructor; [left; reflexivity|]. apply IH. reflexivity.
Qed.

Lemma ResourceRegistrations_Unbracketed (mode : CompilationMode)
  (table rts : list ReflectedResourceType.t) :
  forall lines, ResourceRegistrations mode table rts = Some lines -> Forall Unbracketed lines.
Proof.
  induction rts as [|rt r IH]; intros lines H; cbn [ResourceRegistrations] in H.
  - injection H as <-. constructor.
  - destruct (_ && ReflectedResourceType.m_isDevOnly rt); [apply IH; exact H|].
    unfold ResourceRegistration in H.
    destruct (ParentTypeLines table (ReflectedResourceType.m_parents rt)) as [pl|] eqn:Hp;
      [|discriminate].
    apply ParentTypeLines_Unbracketed in Hp.
    destruct (ResourceRegistrations mode table r) as [rest|]; [|discriminate].
    apply (f_equal (fun o => match o with Some l => l | None => [] end)) in H.
    cbv beta iota in H. subst lines.
    specialize (IH rest eq_refl).
    unbracketed_all.
Qed.

Lemma GenerateResourceRegistrationMethods_Unbracketed (mode : CompilationMode)
  (lines : list Line) :
  GenerateResourceRegistrationMethods m_pDatabase mode = Some lines -> Forall Unbracketed lines.
Proof.
  unfold GenerateResourceRegistrationMethods.
  destruct (ResourceRegistrations mode _ _) as [regs|] eqn:Hr; [|discriminate].
  apply ResourceRegistrations_Unbracketed in Hr.
  intros H.
  apply (f_equal (fun o => match o with Some l => l | None => [] end)) in H.
  cbv beta iota in H. subst lines.
  assert (Hu : forall rt, Forall Unbracketed (ResourceUnregistration mode rt))
    by (intros rt; unfold ResourceUnregistration; unbracketed_all).
  unbracketed_all.
Qed.

Lemma GenerateDataFileRegistrationMethods_Unbracketed :
  Forall Unbracketed (GenerateDataFileRegistrationMethods m_pDatabase).
Proof.
  assert (Hd : forall dt, Forall Unbracketed (DataFileRegistration dt))
    by (intros dt; unfold DataFileRegistration; unbracketed_all).
  unfold GenerateDataFileRegistrationMethods. unbracketed_all.
Qed.

Lemma ConstantTable_Unbracketed (constants : list ReflectedEnumConstant.t) :
  forall i sortedOrder, Forall Unbracketed (ConstantTable constants i sortedOrder).
Proof.
  induction constants as [|c r IH]; intros i sortedOrder; [constructor|].
  cbn [ConstantTable]. apply Forall_app; split; [|apply IH].
  unfold ConstantEntry. unbracketed_all.
Qed.

Lemma SolutionTypeRegistrationLines_Unbracketed (mode : CompilationMode)
  (projects : list ReflectedProject.t) (resourceMethods : list Line) :
  Forall Unbracketed resourceMethods ->
  Forall Unbracketed (SolutionTypeRegistrationLines m_pDatabase mode projects resourceMethods).
Proof.
  intros Hr. pose proof GenerateDataFileRegistrationMethods_Unbracketed as Hd.
  unfold SolutionTypeRegistrationLines. unbracketed_all;
    match goal with
    | |- Unbracketed (ModuleCall ?f _) => destruct f; left; reflexivity
    end.
Qed.

Lemma GenerateEnumTypeInfo_Nests (exportMacro : string) (typeInfo : ReflectedType.t)
  (lines : list Line) :
  GenerateEnumTypeInfo exportMacro typeInfo = Some lines -> Nests 0 lines.
Proof.
  unfold GenerateEnumTypeInfo.
  destruct (UnderlyingTypeLine (ReflectedType.m_underlyingType typeInfo)) as [underlying|] eqn:Hu;
    [|discriminate].
  assert (Hp : Unbracketed underlying).
  { destruct (ReflectedType.m_underlyingType typeInfo); cbn [UnderlyingTypeLine] in Hu;
      try discriminate; injection Hu as <-; left; reflexivity. }
  intros H.
  apply (f_equal (fun o => match o with Some l => l | None => [] end)) in H.
  cbv beta iota in H. subst lines.
  assert (Hb : Nests 0 (EnumTypeInfoBody typeInfo underlying)).
  { apply Unbracketed_Nests. unfold EnumTypeInfoBody, EnumVirtualMethods.
    pose proof (ConstantTable_Unbracketed (ReflectedType.m_enumConstants typeInfo) 0
                  (SortedOrder typeInfo)) as Hc.
    unbracketed_all. }
  unfold EnumBanner. nests_lines.
Qed.

Lemma GenerateComponentCodegen_Nests (typeInfo : ReflectedType.t) :
  Nests 0 (GenerateComponentCodegen typeInfo).
Proof.
  assert (Hb : Nests 0 (ComponentMethods typeInfo)).
  { apply Unbracketed_Nests. unfold ComponentMethods. unbracketed_all. }
  unfold GenerateComponentCodegen, ComponentBanner. nests_lines.
Qed.

Lemma TypeBlockTail_Nests (typeInfo : ReflectedType.t) : Nests 0 (TypeBlockTail typeInfo).
Proof.
  pose proof (GenerateComponentCodegen_Nests typeInfo) as Hc.
  pose proof (Unbracketed_Nests _ (TypeRegistrationFunctions_Unbracketed typeInfo)) as Hf.
  unfold TypeBlockTail. nests_lines.
Qed.

End FileNesting.

Section SourceFiles.

Context {E : Externals} {M : SchemaMembers}.

Variable m_pDatabase : ReflectionDatabase.t.
Variable m_solutionDirectoryPath : string.

Lemma HeaderTypeBlocks_Nests (project : ReflectedProject.t) (typesInHeader : list ReflectedType.t) :
  forall lines,
    HeaderTypeBlocks (E := SourceExternals) m_pDatabase project typesInHeader = Emitted lines ->
    Nests 0 lines.
Proof.
  induction typesInHeader as [|typeInfo rest IH]; intros lines; cbn [HeaderTypeBlocks].
  - intros H. inversion H. apply Nests_nil.
  - destruct (TypeInfoBlock m_pDatabase project typeInfo) as [info|m|] eqn:Hb; try discriminate.
    destruct (HeaderTypeBlocks m_pDatabase project rest) as [tail|m|]; try discriminate.
    intros H.
    apply (f_equal (fun e => match e with Emitted l => l | _ => [] end)) in H.
    cbv beta iota in H. subst lines.
    assert (Hi : Nests 0 info).
    { unfold TypeInfoBlock in Hb. destruct (ReflectedType.IsEnum typeInfo).
      - destruct (GenerateEnumTypeInfo _ typeInfo) as [l|] eqn:He; [|discriminate].
        apply (GenerateEnumTypeInfo_Nests (E := SourceExternals)) in He.
        inversion Hb. subst. exact He.
      - destruct (negb _); [discriminate|].
        destruct (ReflectionDatabase.GetType m_pDatabase _) as [parent|]; [|discriminate].
        inversion Hb. apply GenerateStructureTypeInfo_Nests. }
    apply Nests_app; [exact Hi|]. apply Nests_app; [apply TypeBlockTail_Nests|].
    apply IH. reflexivity.
Qed.

(** X8: every file the solution generation adds, with the emitters as
    the source writes them, is well nested: each closing directive of a
    development-tools region closes a region that the file has opened
    before, and no region is left open at the end of the file. *)
Theorem generated_files_are_well_nested (g g' : CodeGenerator.t) (b : bool) :
  GenerateCodeForSolution (E := SourceExternals) m_pDatabase m_solutionDirectoryPath g
  = Returned b g' ->
  AddsFiles WellNested g g'.
Proof.
  apply (GenerateCodeForSolution_contents (E := SourceExternals)).
  - intros project header typesInHeader lines H. apply Nests_WellNested.
    apply Nests_app; [|apply (HeaderTypeBlocks_Nests _ _ _ H)].
    apply Unbracketed_Nests. unfold HeaderFilePreamble. unbracketed_all.
  - intros project typesInProject. apply Nests_WellNested, Unbracketed_Nests.
    apply ProjectTypeInfoHeaderLines_Unbracketed.
  - intros project typesInProject. apply Nests_WellNested, Unbracketed_Nests.
    apply ProjectTypeInfoSourceLines_Unbracketed.
  - intros mode resourceMethods H. apply Nests_WellNested, Unbracketed_Nests.
    apply SolutionTypeRegistrationLines_Unbracketed.
    apply (GenerateResourceRegistrationMethods_Unbracketed _ _ _ H).
Qed.

End SourceFiles.

(** ** Declared, defined and called functions *)

Lemma DeclaredTypes_TypeDeclarations (f : TypeFunction) (type : ReflectedType.t) :
  DeclaredTypes f (TypeDeclarations type)
  = if HasTypeFunction f type then [NameAndGuard type] else [].
Proof.
  unfold DeclaredTypes, TypeDeclarations, HasTypeFunction, NameAndGuard.
  destruct (ReflectedType.m_isDevOnly type), (ReflectedType.IsAbstract type),
    (ReflectedType.IsEnum type), f; cbn [negb andb app Collect];
    repeat match goal with
           | |- context [ReadTypeDeclaration ?g ?t] =>
               first [ replace (ReadTypeDeclaration g t)
                         with (Some (ReflectedType.typenameStr type, true))
                         by (symmetry; read (ReflectedType.typenameStr type))
                     | replace (ReadTypeDeclaration g t)
                         with (Some (ReflectedType.typenameStr type, false))
                         by (symmetry; read (ReflectedType.typenameStr type))
                     | replace (ReadTypeDeclaration g t) with (@None (string * bool))
                         by (symmetry; unread) ]
           end; reflexivity.
Qed.

Lemma Clash_longer (p q s : string) : Clash p s = true -> Clash (p +++ q) s = true.
Proof.
  revert s. induction p as [|a p IH]; intros [|b s] H; try discriminate H.
  cbn [append Clash] in *. destruct (Ascii.eqb a b); [apply IH; exact H|reflexivity].
Qed.

(** The declaration of a per-project function, after an export macro that
    is not the word [void], is not the declaration of a per-type
    function. *)
Lemma Between_after_export_macro (exportMacro q suffix rest : string) :
  Clash "void " (exportMacro +++ " ") = true ->
  Between ("    void " +++ q) suffix ("    " +++ exportMacro +++ " void " +++ rest) = None.
Proof.
  intros H. unfold Between.
  replace (StripPrefix ("    void " +++ q) ("    " +++ exportMacro +++ " void " +++ rest))
    with (StripPrefix ("void " +++ q) ((exportMacro +++ " ") +++ "void " +++ rest))
    by (rewrite append_assoc; reflexivity).
  rewrite (Clash_StripPrefix _ _ EmptyString); [reflexivity|].
  rewrite append_empty_r. apply Clash_app. apply Clash_longer. exact H.
Qed.

Section ProjectFunctions.

Context {E : Externals}.

Lemma ProjectTypeInfoHeaderLines_declares (project : ReflectedProject.t)
  (typesInProject : list ReflectedType.t) (f : TypeFunction) :
  Clash "void " (ReflectedProject.m_exportMacro project +++ " ") = true ->
  DeclaredTypes f (ProjectTypeInfoHeaderLines project typesInProject)
  = map NameAndGuard (filter (HasTypeFunction f) typesInProject).
Proof.
  intros Hm. unfold DeclaredTypes, ProjectTypeInfoHeaderLines.
  rewrite !Collect_app, Collect_flat_map.
  rewrite (flat_map_ext _ _ (DeclaredTypes_TypeDeclarations f)).
  rewrite flat_map_singleton_filter.
  rewrite (Collect_Unread _ [_; _; _; _; _; _; _; _; _; _; _]) by (destruct f; unread_lines).
  replace (Collect (ReadTypeDeclaration f) _) with (@nil (string * bool));
    [cbn [app]; rewrite app_nil_r; reflexivity|].
  symmetry. apply Collect_Unread.
  repeat (apply Forall_cons || apply Forall_nil); unfold Unread, ReadTypeDeclaration;
    destruct f; cbn [ReadFirst TypeDeclarationPatterns m_prefix m_suffix m_found text T];
    repeat match goal with
           | |- context [Between ?p ?s ?t] =>
               first [ rewrite (Between_after_export_macro _ _ _ _ Hm : Between p s t = None)
                     | replace (Between p s t) with (@None string)
                         by (symmetry; between_miss) ]
           end; reflexivity.
Qed.

End ProjectFunctions.

Section ProjectDeclarations.

Context {E : Externals}.

(** X9: when the export macro of the project is not the word void, the
    type-info header file of the project, read from its text, declares for
    the types in the order of the ordering pass one registration and one
    unregistration function per type and one default-instance function per
    type that is neither abstract nor an enumeration, inside the
    development-tools macro exactly for the development-only types; the
    type-info source file of the project calls exactly the declared
    functions, each inside the macro exactly when its declaration is, the
    registration and default-instance functions in the order of their
    declarations, the unregistration functions in the reverse order. *)
Theorem project_calls_the_declared_functions (project : ReflectedProject.t)
  (typesInProject : list ReflectedType.t) (f : TypeFunction) :
  Clash "void " (ReflectedProject.m_exportMacro project +++ " ") = true ->
  DeclaredTypes f (ProjectTypeInfoHeaderLines project typesInProject)
  = map NameAndGuard (filter (HasTypeFunction f) typesInProject)
  /\ TypeCalls f (ProjectTypeInfoSourceLines project typesInProject)
     = match f with
       | UnregisterType =>
           rev (DeclaredTypes f (ProjectTypeInfoHeaderLines project typesInProject))
       | _ => DeclaredTypes f (ProjectTypeInfoHeaderLines project typesInProject)
       end.
Proof.
  intros Hm.
  pose proof (ProjectTypeInfoHeaderLines_declares project typesInProject f Hm) as Hd.
  split; [exact Hd|]. rewrite Hd, ProjectTypeInfoSourceLines_calls.
  destruct f; cbn [HasTypeFunction]; rewrite ?filter_true; try reflexivity.
  apply map_rev.
Qed.

End ProjectDeclarations.

Lemma project_calls_the_declared_functions_witness :
  DeclaredTypes CreateDefaultInstance
    (ProjectTypeInfoHeaderLines (E := ExampleExternals) ExampleProject
       [typeBase; typeGreek; typeDebugComponent])
  = [("EE_Base", false); ("EE_DebugComponent", true)]
  /\ TypeCalls CreateDefaultInstance
       (ProjectTypeInfoSourceLines (E := ExampleExternals) ExampleProject
          [typeBase; typeGreek; typeDebugComponent])
     = [("EE_Base", false); ("EE_DebugComponent", true)].
Proof.
  destruct (project_calls_the_declared_functions (E := ExampleExternals) ExampleProject
              [typeBase; typeGreek; typeDebugComponent] CreateDefaultInstance eq_refl)
    as [Hd Hc].
  split; [exact Hd|]. rewrite Hc. exact Hd.
Defined.

Lemma TypeDefinitions_TypeRegistrationFunctions (f : TypeFunction) (type : ReflectedType.t) :
  TypeDefinitions f (TypeRegistrationFunctions type)
  = if HasTypeFunction f type then [DefinitionAndGuard f type] else [].
Proof.
  unfold TypeDefinitions, TypeRegistrationFunctions, HasTypeFunction, DefinitionAndGuard.
  destruct (ReflectedType.m_isDevOnly type), (ReflectedType.IsAbstract type),
    (ReflectedType.IsEnum type), f; cbn [negb andb app Collect];
    repeat match goal with
           | |- context [ReadTypeDefinition ?g ?t] =>
               first [ replace (ReadTypeDefinition g t)
                         with (Some (ReflectedType.typenameStr type
                                     +++ "( TypeSystem::TypeRegistry& typeRegistry )"
                                     +++ " { TypeSystem::TTypeInfo<"
                                     +++ ReflectedType.m_namespace type
                                     +++ ReflectedType.m_name type, true))
                         by (symmetry;
                             read (ReflectedType.typenameStr type
                                   +++ "( TypeSystem::TypeRegistry& typeRegistry )"
                                   +++ " { TypeSystem::TTypeInfo<"
                                   +++ ReflectedType.m_namespace type
                                   +++ ReflectedType.m_name type))
                     | replace (ReadTypeDefinition g t)
                         with (Some (ReflectedType.typenameStr type
                                     +++ "( TypeSystem::TypeRegistry& typeRegistry )"
                                     +++ " { TypeSystem::TTypeInfo<"
                                     +++ ReflectedType.m_namespace type
                                     +++ ReflectedType.m_name type, false))
                         by (symmetry;
                             read (ReflectedType.typenameStr type
                                   +++ "( TypeSystem::TypeRegistry& typeRegistry )"
                                   +++ " { TypeSystem::TTypeInfo<"
                                   +++ ReflectedType.m_namespace type
                                   +++ ReflectedType.m_name type))
                     | replace (ReadTypeDefinition g t)
                         with (Some (ReflectedType.typenameStr type
                                     +++ "()" +++ " { TypeSystem::TTypeInfo<"
                                     +++ ReflectedType.m_namespace type
                                     +++ ReflectedType.m_name type, true))
                         by (symmetry;
                             read (ReflectedType.typenameStr type
                                   +++ "()" +++ " { TypeSystem::TTypeInfo<"
                                   +++ ReflectedType.m_namespace type
                                   +++ ReflectedType.m_name type))
                     | replace (ReadTypeDefinition g t)
                         with (Some (ReflectedType.typenameStr type
                                     +++ "()" +++ " { TypeSystem::TTypeInfo<"
                                     +++ ReflectedType.m_namespace type
                                     +++ ReflectedType.m_name type, false))
                         by (symmetry;
                             read (ReflectedType.typenameStr type
                                   +++ "()" +++ " { TypeSystem::TTypeInfo<"
                                   +++ ReflectedType.m_namespace type
                                   +++ ReflectedType.m_name type))
                     | replace (ReadTypeDefinition g t) with (@None (string * bool))
                         by (symmetry; unread) ]
           end; reflexivity.
Qed.

Lemma Quiet_definitions (f : TypeFunction) (lines : list Line) :
  Forall Quiet lines -> TypeDefinitions f lines = [].
Proof.
  intros H. apply Collect_Unread. apply (Forall_impl _ (fun l Hl => proj2 Hl f) H).
Qed.


Section TypeInfoFunctions.

Context {E : Externals}.

Lemma ConstantTable_quiet (constants : list ReflectedEnumConstant.t) :
  forall i sortedOrder, Forall Quiet (ConstantTable constants i sortedOrder).
Proof.
  induction constants as [|c r IH]; intros i sortedOrder; [constructor|].
  cbn [ConstantTable]. apply Forall_app; split; [|apply IH].
  unfold ConstantEntry. quiet_lines.
Qed.

Lemma UnderlyingTypeLine_quiet (id : CoreTypeID) (underlying : Line) :
  UnderlyingTypeLine id = Some underlying -> Quiet underlying.
Proof.
  intros Hu. destruct id; cbn [UnderlyingTypeLine] in Hu; try discriminate Hu;
    injection Hu as <-; quiet.
Qed.

Lemma EnumTypeInfoBody_quiet (typeInfo : ReflectedType.t) (underlying : Line) :
  Quiet underlying -> Forall Quiet (EnumTypeInfoBody typeInfo underlying).
Proof.
  intros Hu.
  pose proof (ConstantTable_quiet (ReflectedType.m_enumConstants typeInfo) 0
                (SortedOrder typeInfo)) as Hc.
  unfold EnumTypeInfoBody, EnumVirtualMethods. quiet_lines.
Qed.

Lemma GenerateEnumTypeInfo_quiet (exportMacro : string) (typeInfo : ReflectedType.t)
  (lines : list Line) :
  GenerateEnumTypeInfo exportMacro typeInfo = Some lines -> Forall Quiet lines.
Proof.
  unfold GenerateEnumTypeInfo.
  destruct (UnderlyingTypeLine (ReflectedType.m_underlyingType typeInfo)) as [underlying|] eqn:Hu;
    [|discriminate].
  apply UnderlyingTypeLine_quiet in Hu.
  pose proof (EnumTypeInfoBody_quiet typeInfo underlying Hu) as Hb.
  intros H.
  apply (f_equal (fun o => match o with Some l => l | None => [] end)) in H.
  cbv beta iota in H. subst lines.
  unfold EnumBanner. quiet_lines.
Qed.

Lemma ComponentMethods_quiet (typeInfo : ReflectedType.t) :
  Forall Quiet (ComponentMethods typeInfo).
Proof. unfold ComponentMethods. quiet_lines. Qed.

Lemma GenerateComponentCodegen_quiet (typeInfo : ReflectedType.t) :
  Forall Quiet (GenerateComponentCodegen typeInfo).
Proof.
  pose proof (ComponentMethods_quiet typeInfo) as Hc.
  unfold GenerateComponentCodegen, ComponentBanner. quiet_lines.
Qed.

Lemma TypeBlockTail_defines (f : TypeFunction) (typeInfo : ReflectedType.t) :
  TypeDefinitions f (TypeBlockTail typeInfo)
  = if HasTypeFunction f typeInfo then [DefinitionAndGuard f typeInfo] else [].
Proof.
  rewrite <- TypeDefinitions_TypeRegistrationFunctions.
  pose proof (Quiet_definitions f _ (GenerateComponentCodegen_quiet typeInfo)) as Hc.
  unfold TypeDefinitions in *. unfold TypeBlockTail.
  rewrite !Collect_app.
  replace (Collect (ReadTypeDefinition f)
             (if ReflectedType.IsEntityComponent typeInfo
              then GenerateComponentCodegen typeInfo else []))
    with (@nil (string * bool))
    by (destruct (ReflectedType.IsEntityComponent typeInfo); [symmetry; exact Hc|reflexivity]).
  rewrite (Collect_Unread _ [_; _]) by (destruct f; unread_lines).
  rewrite (Collect_Unread _ [_]) by (destruct f; unread_lines).
  cbn [app]. rewrite app_nil_r. reflexivity.
Qed.

End TypeInfoFunctions.

Section HeaderFunctions.

Context {E : Externals} {M : SchemaMembers}.

Variable m_pDatabase : ReflectionDatabase.t.
Variable m_solutionDirectoryPath : string.

Lemma TypeInfoBlock_quiet (project : ReflectedProject.t) (typeInfo : ReflectedType.t)
  (info : list Line) :
  TypeInfoBlock (E := SourceExternals) m_pDatabase project typeInfo = Emitted info ->
  Forall Quiet info.
Proof.
  unfold TypeInfoBlock. destruct (ReflectedType.IsEnum typeInfo).
  - destruct (GenerateEnumTypeInfo _ typeInfo) as [l|] eqn:He; [|discriminate].
    apply (GenerateEnumTypeInfo_quiet (E := SourceExternals)) in He.
    intros H.
    apply (f_equal (fun e => match e with Emitted l => l | _ => [] end)) in H.
    cbv beta iota in H. subst info. exact He.
  - destruct (negb _); [discriminate|].
    destruct (ReflectionDatabase.GetType m_pDatabase _) as [parent|]; [|discriminate].
    intros H.
    apply (f_equal (fun e => match e with Emitted l => l | _ => [] end)) in H.
    cbv beta iota in H. subst info. apply GenerateStructureTypeInfo_quiet.
Qed.

Lemma HeaderTypeBlocks_defines (f : TypeFunction) (project : ReflectedProject.t)
  (typesInHeader : list ReflectedType.t) :
  forall lines,
    HeaderTypeBlocks (E := SourceExternals) m_pDatabase project typesInHeader = Emitted lines ->
    TypeDefinitions f lines
    = map (DefinitionAndGuard f) (filter (HasTypeFunction f) typesInHeader).
Proof.
  induction typesInHeader as [|typeInfo rest IH]; intros lines; cbn [HeaderTypeBlocks].
  - intros H. inversion H. reflexivity.
  - destruct (TypeInfoBlock m_pDatabase project typeInfo) as [info|m|] eqn:Hb; try discriminate.
    destruct (HeaderTypeBlocks m_pDatabase project rest) as [tail|m|]; try discriminate.
    intros H.
    apply (f_equal (fun e => match e with Emitted l => l | _ => [] end)) in H.
    cbv beta iota in H. subst lines.
    pose proof (Quiet_definitions f _ (TypeInfoBlock_quiet _ _ _ Hb)) as Hi.
    specialize (IH tail eq_refl).
    pose proof (TypeBlockTail_defines f typeInfo) as Ht.
    unfold TypeDefinitions in *.
    rewrite !Collect_app, Hi, Ht, IH. cbn [app filter].
    destruct (HasTypeFunction f typeInfo); reflexivity.
Qed.

(** X10: the type-info file of a header, with the emitters as the source
    writes them and read from its text, defines one registration and one
    unregistration function for every type of the header, in the order of
    the types, and one default-instance function for every type that is
    neither abstract nor an enumeration; each function forwards to the
    static member function of the type info of its type, and it stands
    inside the development-tools macro exactly when the type is
    development-only.  No other chunk of the file reads as the definition
    of such a function. *)
Theorem header_file_defines_the_declared_functions (project : ReflectedProject.t)
  (header : ReflectedHeader.t) (typesInHeader : list ReflectedType.t) (outputPath : string)
  (g g' : CodeGenerator.t) :
  GenerateTypeInfoFileForHeader (E := SourceExternals) m_pDatabase project header typesInHeader
    outputPath g = Returned true g' ->
  exists contents,
    g' = WithFile g outputPath contents
    /\ forall f,
         TypeDefinitions f contents
         = map (DefinitionAndGuard f) (filter (HasTypeFunction f) typesInHeader)
         /\ map snd (TypeDefinitions f contents)
            = map ReflectedType.m_isDevOnly (filter (HasTypeFunction f) typesInHeader).
Proof.
  unfold GenerateTypeInfoFileForHeader.
  destruct (HeaderTypeBlocks m_pDatabase project typesInHeader) as [lines|message|] eqn:Hb;
    [| |discriminate].
  - unfold bind, EmplaceFile, ret. intros H. inversion H.
    exists (HeaderFilePreamble header ++ lines). split; [reflexivity|]. intros f.
    assert (Hd : TypeDefinitions f (HeaderFilePreamble header ++ lines)
                 = map (DefinitionAndGuard f) (filter (HasTypeFunction f) typesInHeader)).
    { pose proof (HeaderTypeBlocks_defines f _ _ _ Hb) as Hl.
      unfold TypeDefinitions in *. rewrite Collect_app, Hl.
      rewrite Collect_Unread; [reflexivity|].
      unfold HeaderFilePreamble. destruct f; unread_lines. }
    split; [exact Hd|]. rewrite Hd, map_map. reflexivity.
  - unfold LogError. discriminate.
Qed.

End HeaderFunctions.

Lemma header_file_defines_the_declared_functions_witness :
  exists g' contents,
    GenerateTypeInfoFileForHeader
      (E := SourceExternals (E := ExampleExternals) (M := ExampleMembers))
      (ExampleDatabase [typeMeshes; typeGreek]) ExampleProject ExampleHeader [typeMeshes; typeGreek]
      "Types.typeinfo.h" CodeGenerator.initial
    = Returned true g'
    /\ g' = WithFile CodeGenerator.initial "Types.typeinfo.h" contents
    /\ map snd (TypeDefinitions RegisterType contents) = [false; false]
    /\ map snd (TypeDefinitions CreateDefaultInstance contents) = [false].
Proof.
  destruct (GenerateTypeInfoFileForHeader
              (E := SourceExternals (E := ExampleExternals) (M := ExampleMembers))
              (ExampleDatabase [typeMeshes; typeGreek]) ExampleProject ExampleHeader
              [typeMeshes; typeGreek] "Types.typeinfo.h" CodeGenerator.initial)
    as [[|] g'|] eqn:Hg;
    [|vm_compute in Hg; discriminate Hg|vm_compute in Hg; discriminate Hg].
  destruct (header_file_defines_the_declared_functions (E := ExampleExternals)
              (M := ExampleMembers) (ExampleDatabase [typeMeshes; typeGreek]) ExampleProject
              ExampleHeader [typeMeshes; typeGreek] "Types.typeinfo.h" CodeGenerator.initial g' Hg)
    as (contents & Hc & Hf).
  exists g', contents. split; [reflexivity|]. split; [exact Hc|].
  split; [apply (proj2 (Hf RegisterType))|apply (proj2 (Hf CreateDefaultInstance))].
Defined.

(** ** The includes of an aggregate file *)

Section AggregateIncludes.

Context {E : Externals}.

Variable m_pDatabase : ReflectionDatabase.t.
Variable m_solutionDirectoryPath : string.

Lemma NoProjectStatement_includes (lines : list Line) :
  Forall NoProjectStatement lines -> IncludedFiles lines = [].
Proof.
  intros H. apply Collect_Unread. apply (Forall_impl _ (fun l Hl => proj2 Hl) H).
Qed.

Lemma IncludedFiles_ModuleInclude (projects : list ReflectedProject.t) :
  IncludedFiles (map ModuleInclude projects) = map GetTypeInfoHeaderFilePath projects.
Proof.
  apply Collect_map_hit. intros p. unfold ModuleInclude.
  read (GetTypeInfoHeaderFilePath p).
Qed.

Lemma IncludedFiles_ModuleCall (f : ModuleFunction) (projects : list ReflectedProject.t) :
  IncludedFiles (map (ModuleCall f) projects) = [].
Proof.
  apply Collect_map_Unread. intros p. destruct f; cbn [ModuleCall]; unread.
Qed.

(** X11: the aggregate file of a mode, read from its text, includes the
    three headers of the type system and then the type-info header of
    every project whose functions it calls, and no other file: the
    included type-info headers are the headers of the selected projects,
    in the order of the registration calls. *)
Theorem aggregate_file_includes_the_called_projects (mode : CompilationMode)
  (g g' : CodeGenerator.t) (b : bool) :
  GenerateSolutionTypeRegistrationFile m_pDatabase m_solutionDirectoryPath mode g = Returned b g' ->
  exists path contents,
    g' = WithFile g path contents
    /\ IncludedFiles contents
       = [ "Base/TypeSystem/TypeRegistry.h"; "Base/TypeSystem/ResourceInfo.h";
           "Base/TypeSystem/DataFileInfo.h" ]
         ++ map GetTypeInfoHeaderFilePath (SolutionProjects m_pDatabase mode)
    /\ CalledModuleFunctions RegisterTypes contents
       = map ReflectedProject.moduleStr (SolutionProjects m_pDatabase mode).
Proof.
  unfold GenerateSolutionTypeRegistrationFile.
  destruct (GenerateResourceRegistrationMethods m_pDatabase mode) as [resourceMethods|] eqn:Hr;
    [|discriminate].
  apply GenerateResourceRegistrationMethods_no_project_statement in Hr.
  unfold bind, EmplaceFile, ret. intros H. inversion H.
  eexists _, _. split; [reflexivity|]. split.
  - pose proof (NoProjectStatement_includes _ Hr) as Hn.
    pose proof (NoProjectStatement_includes _
                  (GenerateDataFileRegistrationMethods_no_project_statement m_pDatabase)) as Hd.
    pose proof (IncludedFiles_ModuleInclude (SolutionProjects m_pDatabase mode)) as Hi.
    pose proof (IncludedFiles_ModuleCall RegisterTypes (SolutionProjects m_pDatabase mode)) as Hc1.
    pose proof (IncludedFiles_ModuleCall CreateDefaultInstances (SolutionProjects m_pDatabase mode))
      as Hc2.
    pose proof (IncludedFiles_ModuleCall UnregisterTypes (rev (SolutionProjects m_pDatabase mode)))
      as Hc3.
    unfold IncludedFiles in *. unfold SolutionTypeRegistrationLines.
    rewrite !Collect_app, Hn, Hi, Hc1, Hc2, Hc3.
    replace (Collect ReadInclude
               (if IsTools mode then T Text.nl :: GenerateDataFileRegistrationMethods m_pDatabase
                else []))
      with (@nil string)
      by (destruct (IsTools mode); [|reflexivity]; cbn [Collect text T];
          replace (ReadInclude Text.nl) with (@None string) by reflexivity;
          symmetry; exact Hd).
    match goal with
    | |- Collect ReadInclude ?l ++ _ = _ =>
        replace (Collect ReadInclude l)
          with [ "Base/TypeSystem/TypeRegistry.h"; "Base/TypeSystem/ResourceInfo.h";
                 "Base/TypeSystem/DataFileInfo.h" ] by reflexivity
    end.
    rewrite !Collect_Unread by unread_lines.
    cbn [app]. rewrite ?app_nil_r. reflexivity.
  - apply (SolutionTypeRegistrationLines_calls m_pDatabase mode _ _ RegisterTypes). exact Hr.
Qed.

End AggregateIncludes.

Lemma aggregate_file_includes_the_called_projects_witness :
  exists g' path contents,
    GenerateSolutionTypeRegistrationFile (E := ExampleExternals) SolutionDatabase "Solution/"
      Runtime CodeGenerator.initial = Returned true g'
    /\ g' = WithFile CodeGenerator.initial path contents
    /\ IncludedFiles contents
       = [ "Base/TypeSystem/TypeRegistry.h"; "Base/TypeSystem/ResourceInfo.h";
           "Base/TypeSystem/DataFileInfo.h"; "Base.typeinfo.h"; "Engine.typeinfo.h" ].
Proof.
  destruct (GenerateSolutionTypeRegistrationFile (E := ExampleExternals) SolutionDatabase
              "Solution/" Runtime CodeGenerator.initial) as [[|] g'|] eqn:Hg;
    [|vm_compute in Hg; discriminate Hg|vm_compute in Hg; discriminate Hg].
  destruct (aggregate_file_includes_the_called_projects (E := ExampleExternals) SolutionDatabase
              "Solution/" Runtime CodeGenerator.initial g' true Hg)
    as (path & contents & Hc & Hi & _).
  exists g', path, contents. split; [reflexivity|]. split; [exact Hc|].
  rewrite Hi. vm_compute. reflexivity.
Defined.

(** ** Development-only content *)




(** *** Resource types in the text of the registration functions *)









Section DevelopmentOnly.

Context {E : Externals} {M : SchemaMembers}.

Variable m_pDatabase : ReflectionDatabase.t.





End DevelopmentOnly.


(** ** The nesting of the text of each emitter *)

Section EmitterNesting.

Context {E : Externals} {M : SchemaMembers}.

(** X12: the text of each of the nine array methods is well nested: a
    development-tools region is opened before the test of a
    development-only array property and closed after it, and nowhere
    else. *)
Theorem array_methods_are_well_nested (type : ReflectedType.t) :
  WellNested (GenerateTypeInfoArrayAccessorMethod type)
  /\ WellNested (GenerateTypeInfoArraySizeMethod type)
  /\ WellNested (GenerateTypeInfoArrayElementSizeMethod type)
  /\ WellNested (GenerateTypeInfoArraySetSizeMethod type)
  /\ WellNested (GenerateTypeInfoArrayClearMethod type)
  /\ WellNested (GenerateTypeInfoAddArrayElementMethod type)
  /\ WellNested (GenerateTypeInfoInsertArrayElementMethod type)
  /\ WellNested (GenerateTypeInfoMoveArrayElementMethod type)
  /\ WellNested (GenerateTypeInfoRemoveArrayElementMethod type).
Proof.
  repeat split; apply Nests_WellNested.
  - apply GenerateTypeInfoArrayAccessorMethod_Nests.
  - apply GenerateTypeInfoArraySizeMethod_Nests.
  - apply GenerateTypeInfoArrayElementSizeMethod_Nests.
  - apply GenerateTypeInfoArraySetSizeMethod_Nests.
  - apply GenerateTypeInfoArrayClearMethod_Nests.
  - apply GenerateTypeInfoAddArrayElementMethod_Nests.
  - apply GenerateTypeInfoInsertArrayElementMethod_Nests.
  - apply GenerateTypeInfoMoveArrayElementMethod_Nests.
  - apply GenerateTypeInfoRemoveArrayElementMethod_Nests.
Qed.

(** X13: the text of the methods that copy, compare and reset the
    properties, and of the method that gives the resource type a property
    expects, is well nested. *)
Theorem property_methods_are_well_nested (type : ReflectedType.t) :
  WellNested (GenerateTypeInfoCopyProperties type)
  /\ WellNested (GenerateTypeInfoAreAllPropertiesEqualMethod type)
  /\ WellNested (GenerateTypeInfoIsPropertyEqualMethod type)
  /\ WellNested (GenerateTypeInfoSetToDefaultValueMethod type)
  /\ WellNested (GenerateTypeInfoExpectedResourceTypeMethod type).
Proof.
  repeat split; apply Nests_WellNested.
  - apply GenerateTypeInfoCopyProperties_Nests.
  - apply GenerateTypeInfoAreAllPropertiesEqualMethod_Nests.
  - apply GenerateTypeInfoIsPropertyEqualMethod_Nests.
  - apply GenerateTypeInfoSetToDefaultValueMethod_Nests.
  - apply GenerateTypeInfoExpectedResourceTypeMethod_Nests.
Qed.

(** X14: the text of the static registration methods, of the
    constructor, whose development-tools region for the metadata of a
    property lies inside the region of a development-only property, and of
    the three creation methods is well nested. *)
Theorem registration_methods_are_well_nested (type parentType : ReflectedType.t) :
  WellNested (GenerateTypeInfoStaticTypeRegistrationMethods type)
  /\ WellNested (GenerateTypeInfoConstructor type parentType)
  /\ WellNested (GenerateTypeInfoCreationMethod type)
  /\ WellNested (GenerateTypeInfoInPlaceCreationMethod type)
  /\ WellNested (GenerateTypeInfoResetTypeMethod type).
Proof.
  repeat split; apply Nests_WellNested.
  - apply GenerateTypeInfoStaticTypeRegistrationMethods_Nests.
  - apply GenerateTypeInfoConstructor_Nests.
  - apply GenerateTypeInfoCreationMethod_Nests.
  - apply GenerateTypeInfoInPlaceCreationMethod_Nests.
  - apply GenerateTypeInfoResetTypeMethod_Nests.
Qed.

End EmitterNesting.

Lemma generated_files_are_well_nested_witness :
  exists g',
    GenerateCodeForSolution
      (E := SourceExternals (E := ExampleExternals) (M := ExampleMembers))
      (ExampleDatabase [typeMeshes; typeGreek]) "Solution/" CodeGenerator.initial
    = Returned true g'
    /\ AddsFiles WellNested CodeGenerator.initial g'.
Proof.
  destruct (GenerateCodeForSolution
              (E := SourceExternals (E := ExampleExternals) (M := ExampleMembers))
              (ExampleDatabase [typeMeshes; typeGreek]) "Solution/" CodeGenerator.initial)
    as [[|] g'|] eqn:Hg;
    [|vm_compute in Hg; discriminate Hg|vm_compute in Hg; discriminate Hg].
  exists g'. split; [reflexivity|].
  apply (generated_files_are_well_nested (E := ExampleExternals) (M := ExampleMembers)
           (ExampleDatabase [typeMeshes; typeGreek]) "Solution/" CodeGenerator.initial g' true Hg).
Defined.

(** ** What the generated loading status returns *)

Lemma RunStatements_checks (developmentTools : bool) (pType : Instance)
  (body rest : list StatusStatement) :
  forallb (fun s => negb (IsGuard s)) body = true ->
  forall status,
    RunStatements developmentTools pType false (body ++ rest) status
    = match RunChecks pType body status with
      | GoOn status' => RunStatements developmentTools pType false rest status'
      | Return v => v
      end.
Proof.
  induction body as [|s r IH]; intros Hb status; [reflexivity|].
  cbn [forallb] in Hb. apply andb_prop in Hb. destruct Hb as [Hs Hr].
  cbn [app RunChecks].
  destruct s; try discriminate Hs; cbn [RunStatements];
    (destruct (RunStatement pType _ status); [apply (IH Hr)|reflexivity]).
Qed.

Lemma RunStatements_skipped (developmentTools : bool) (pType : Instance)
  (body rest : list StatusStatement) :
  forallb (fun s => negb (IsGuard s)) body = true ->
  forall status,
    RunStatements developmentTools pType true (body ++ rest) status
    = RunStatements developmentTools pType true rest status.
Proof.
  induction body as [|s r IH]; intros Hb status; [reflexivity|].
  cbn [forallb] in Hb. apply andb_prop in Hb. destruct Hb as [Hs Hr].
  cbn [app]. destruct s; try discriminate Hs; cbn [RunStatements]; apply (IH Hr).
Qed.

(** The statements of one property, inside their region. *)
Lemma RunStatements_region (developmentTools isDevOnly : bool) (pType : Instance)
  (body rest : list StatusStatement) (status : LoadingStatus) :
  forallb (fun s => negb (IsGuard s)) body = true ->
  RunStatements developmentTools pType false
    (((if isDevOnly then [GuardOpen] else []) ++ body
      ++ (if isDevOnly then [GuardClose] else []) ++ [BlankLine]) ++ rest) status
  = if developmentTools || negb isDevOnly
    then match RunChecks pType body status with
         | GoOn status' => RunStatements developmentTools pType false rest status'
         | Return v => v
         end
    else RunStatements developmentTools pType false rest status.
Proof.
  intros Hb. rewrite <- !app_assoc.
  destruct isDevOnly, developmentTools; cbn [app RunStatements negb orb].
  - rewrite (RunStatements_checks _ _ _ _ Hb).
    destruct (RunChecks pType body status); reflexivity.
  - rewrite (RunStatements_skipped _ _ _ _ Hb). reflexivity.
  - rewrite (RunStatements_checks _ _ _ _ Hb).
    destruct (RunChecks pType body status); reflexivity.
  - rewrite (RunStatements_checks _ _ _ _ Hb).
    destruct (RunChecks pType body status); reflexivity.
Qed.

Lemma forallb_map_checks {A : Type} (f : A -> StatusStatement) (l : list A) :
  (forall x, IsGuard (f x) = false) ->
  forallb (fun s => negb (IsGuard s)) (map f l) = true.
Proof.
  intros H. induction l as [|x r IH]; [reflexivity|].
  cbn [map forallb]. rewrite H, IH. reflexivity.
Qed.

Lemma last_cons {A : Type} (a d : A) (l : list A) : last (a :: l) d = last l a.
Proof.
  revert a d. induction l as [|b r IH]; intros a d; [reflexivity|].
  change (last (a :: b :: r) d) with (last (b :: r) d).
  rewrite (IH b d), (IH b a). reflexivity.
Qed.

Lemma last_map_seq {A : Type} (f : nat -> A) (n : nat) (d : A) :
  last (map f (seq 0 n)) d = match n with O => d | S m => f m end.
Proof.
  destruct n as [|m]; [reflexivity|].
  rewrite seq_S, map_app. cbn [map Nat.add]. apply last_last.
Qed.

Lemma RunChecks_pointer_elements (pType : Instance) (name : string) (indices : list nat) :
  forall status,
    RunChecks pType (map (ResourcePtrElementCheck name) indices) status
    = if existsb
           (fun i =>
              let r := nth i (m_resourcePtrArray pType name) emptyResourcePtr in
              PointerPending (HasLoadingFailed r) (m_arrayIsSet pType name) (IsLoaded r))
           indices
      then Return Loading
      else GoOn (if existsb
                      (fun i => HasLoadingFailed
                                  (nth i (m_resourcePtrArray pType name) emptyResourcePtr))
                      indices
                 then Failed else status).
Proof.
  induction indices as [|i r IH]; intros status; [reflexivity|].
  cbn [map RunChecks RunStatement existsb]. cbv zeta.
  unfold CheckResourcePtr, PointerPending.
  destruct (HasLoadingFailed (nth i (m_resourcePtrArray pType name) emptyResourcePtr)),
    (m_arrayIsSet pType name),
    (IsLoaded (nth i (m_resourcePtrArray pType name) emptyResourcePtr));
    cbn [negb andb orb]; try reflexivity; rewrite IH; unfold PointerPending;
    repeat match goal with |- context [existsb ?f r] => destruct (existsb f r) end; reflexivity.
Qed.

Lemma ForEachResourcePtr_result (elements : list ResourcePtrState) :
  forall status,
    ForEachResourcePtr elements status
    = if existsb (fun r => PointerPending (HasLoadingFailed r) (IsSet r) (IsLoaded r)) elements
      then Return Loading
      else GoOn (if existsb HasLoadingFailed elements then Failed else status).
Proof.
  induction elements as [|x r IH]; intros status; [reflexivity|].
  cbn [ForEachResourcePtr existsb]. unfold CheckResourcePtr, PointerPending.
  destruct (HasLoadingFailed x), (IsSet x), (IsLoaded x);
    cbn [negb andb orb]; try reflexivity; rewrite IH; unfold PointerPending;
    repeat match goal with |- context [existsb ?f r] => destruct (existsb f r) end; reflexivity.
Qed.

Lemma RunChecks_structure_elements (pType : Instance) (typeName name : string)
  (indices : list nat) :
  forall status,
    RunChecks pType (map (StructureElementCheck typeName name) indices) status
    = if existsb (fun i => IsLoadingStatus (nth i (m_structureArrayStatus pType name) Loaded))
                 indices
      then Return Loading
      else GoOn (last (map (fun i => nth i (m_structureArrayStatus pType name) Loaded) indices)
                      status).
Proof.
  induction indices as [|i r IH]; intros status; [reflexivity|].
  cbn [map RunChecks RunStatement existsb]. unfold CheckStructure.
  rewrite last_cons.
  destruct (nth i (m_structureArrayStatus pType name) Loaded); cbn [IsLoadingStatus orb];
    try reflexivity; apply IH.
Qed.

Lemma ForEachStructure_result (elements : list LoadingStatus) :
  forall status,
    ForEachStructure elements status
    = if existsb IsLoadingStatus elements then Return Loading
      else GoOn (last elements status).
Proof.
  induction elements as [|x r IH]; intros status; [reflexivity|].
  cbn [ForEachStructure existsb]. unfold CheckStructure. rewrite last_cons.
  destruct x; cbn [IsLoadingStatus orb]; try reflexivity; apply IH.
Qed.

(** The statements of one property: they return [Loading] when the
    property is compiled and pending, and leave [status] for the next
    property otherwise. *)
Lemma RunStatements_property (developmentTools : bool) (pType : Instance)
  (propertyDesc : ReflectedProperty.t) (rest : list StatusStatement) (status : LoadingStatus) :
  RunStatements developmentTools pType false (PropertyStatusStatements propertyDesc ++ rest) status
  = if CompiledIn developmentTools propertyDesc && PropertyReturnsLoading pType propertyDesc
    then Loading
    else RunStatements developmentTools pType false rest
           (if CompiledIn developmentTools propertyDesc
            then StatusAfterProperty pType propertyDesc status
            else status).
Proof.
  unfold PropertyStatusStatements, PropertyReturnsLoading, PropertyPending, StatusAfterProperty,
    PropertyFailed,
    CompiledIn, ReflectedProperty.IsStructureProperty, ReflectedProperty.IsArrayProperty,
    ReflectedProperty.IsDynamicArrayProperty.
  cbv zeta.
  destruct (IsResourcePtrType (ReflectedProperty.m_typeID propertyDesc)).
  - destruct (ReflectedProperty.m_arrayCategory propertyDesc).
    + rewrite RunStatements_region by reflexivity.
      destruct (developmentTools || negb (ReflectedProperty.m_isDevOnly propertyDesc));
        [|reflexivity].
      cbn [RunChecks RunStatement andb]. cbv zeta. unfold CheckResourcePtr, PointerPending.
      destruct (HasLoadingFailed (m_resourcePtr pType (ReflectedProperty.m_name propertyDesc))),
        (IsSet (m_resourcePtr pType (ReflectedProperty.m_name propertyDesc))),
        (IsLoaded (m_resourcePtr pType (ReflectedProperty.m_name propertyDesc))); reflexivity.
    + rewrite RunStatements_region by (apply forallb_map_checks; reflexivity).
      destruct (developmentTools || negb (ReflectedProperty.m_isDevOnly propertyDesc));
        [|reflexivity].
      rewrite RunChecks_pointer_elements. cbn [andb].
      destruct (existsb _ (seq 0 (ReflectedProperty.m_arraySize propertyDesc))); reflexivity.
    + rewrite RunStatements_region by reflexivity.
      destruct (developmentTools || negb (ReflectedProperty.m_isDevOnly propertyDesc));
        [|reflexivity].
      cbn [RunChecks RunStatement andb]. rewrite ForEachResourcePtr_result.
      destruct (existsb _ (m_resourcePtrArray pType (ReflectedProperty.m_name propertyDesc)));
        reflexivity.
  - destruct (negb (IsCoreType (ReflectedProperty.m_typeID propertyDesc))
              && negb (ReflectedProperty.IsEnumProperty propertyDesc)
              && negb (ReflectedProperty.IsBitFlagsProperty propertyDesc)).
    + destruct (ReflectedProperty.m_arrayCategory propertyDesc).
      * rewrite RunStatements_region by reflexivity.
        destruct (developmentTools || negb (ReflectedProperty.m_isDevOnly propertyDesc));
          [|reflexivity].
        cbn [RunChecks RunStatement andb]. unfold CheckStructure.
        destruct (m_structureStatus pType (ReflectedProperty.m_name propertyDesc)); reflexivity.
      * rewrite RunStatements_region by (apply forallb_map_checks; reflexivity).
        destruct (developmentTools || negb (ReflectedProperty.m_isDevOnly propertyDesc));
          [|reflexivity].
        rewrite RunChecks_structure_elements, last_map_seq. cbn [andb].
        destruct (existsb _ (seq 0 (ReflectedProperty.m_arraySize propertyDesc))); reflexivity.
      * rewrite RunStatements_region by reflexivity.
        destruct (developmentTools || negb (ReflectedProperty.m_isDevOnly propertyDesc));
          [|reflexivity].
        cbn [RunChecks RunStatement andb]. rewrite ForEachStructure_result.
        destruct (existsb _ (m_structureArrayStatus pType (ReflectedProperty.m_name propertyDesc)));
          reflexivity.
    + cbn [app]. rewrite andb_false_r.
      destruct (developmentTools || negb (ReflectedProperty.m_isDevOnly propertyDesc));
        reflexivity.
Qed.

Lemma RunStatements_properties (developmentTools : bool) (pType : Instance)
  (properties : list ReflectedProperty.t) :
  forall status,
    RunStatements developmentTools pType false (flat_map PropertyStatusStatements properties)
      status
    = if existsb (fun p => CompiledIn developmentTools p && PropertyReturnsLoading pType p) properties
      then Loading
      else StatusAtEnd developmentTools pType properties status.
Proof.
  induction properties as [|p r IH]; intros status; [reflexivity|].
  cbn [flat_map existsb]. rewrite RunStatements_property.
  destruct (CompiledIn developmentTools p && PropertyReturnsLoading pType p); [reflexivity|].
  cbn [orb]. rewrite IH. reflexivity.
Qed.

(** A property that is neither a resource pointer nor a nested structure
    has no statement. *)
Lemma PropertyStatusStatements_none (propertyDesc : ReflectedProperty.t) :
  IsResourcePtrType (ReflectedProperty.m_typeID propertyDesc)
  || ReflectedProperty.IsStructureProperty propertyDesc = false ->
  PropertyStatusStatements propertyDesc = [].
Proof.
  unfold PropertyStatusStatements, ReflectedProperty.IsStructureProperty.
  destruct (IsResourcePtrType _); [discriminate|]. cbn [orb]. intros ->. reflexivity.
Qed.

(** The test on the properties of the type changes nothing to the
    statements: a type with no resource pointer and no nested structure
    has none. *)
Lemma LoadingStatusStatements_flat_map (type : ReflectedType.t) :
  LoadingStatusStatements type
  = flat_map PropertyStatusStatements (ReflectedType.m_properties type).
Proof.
  unfold LoadingStatusStatements, ReflectedType.HasResourcePtrOrStructProperties.
  destruct (existsb _ (ReflectedType.m_properties type)) eqn:He; [reflexivity|].
  symmetry. induction (ReflectedType.m_properties type) as [|p r IH]; [reflexivity|].
  cbn [existsb] in He. apply orb_false_elim in He. destruct He as [Hp Hr].
  cbn [flat_map]. rewrite (PropertyStatusStatements_none p Hp), (IH Hr). reflexivity.
Qed.

Lemma GetResourceLoadingStatus_result (developmentTools : bool) (type : ReflectedType.t)
  (pType : Instance) :
  GetResourceLoadingStatus developmentTools type pType
  = if existsb (fun p => CompiledIn developmentTools p && PropertyReturnsLoading pType p)
               (ReflectedType.m_properties type)
    then Loading
    else StatusAtEnd developmentTools pType (ReflectedType.m_properties type) Loaded.
Proof.
  unfold GetResourceLoadingStatus. rewrite LoadingStatusStatements_flat_map.
  apply RunStatements_properties.
Qed.

(** When no compiled property is pending, the status at the end is not
    [Loading]. *)
Lemma StatusAfterProperty_not_loading (pType : Instance) (propertyDesc : ReflectedProperty.t)
  (status : LoadingStatus) :
  PropertyReturnsLoading pType propertyDesc = false ->
  IsLoadingStatus status = false ->
  IsLoadingStatus (StatusAfterProperty pType propertyDesc status) = false.
Proof.
  unfold PropertyReturnsLoading, PropertyPending, StatusAfterProperty. cbv zeta.
  destruct (IsResourcePtrType _).
  - intros _ Hs. destruct (PropertyFailed pType propertyDesc); [reflexivity|exact Hs].
  - destruct (ReflectedProperty.IsStructureProperty propertyDesc); [|intros _ Hs; exact Hs].
    destruct (ReflectedProperty.m_arrayCategory propertyDesc).
    + intros H _. exact H.
    + destruct (ReflectedProperty.m_arraySize propertyDesc) as [|n]; [intros _ Hs; exact Hs|].
      intros H _. rewrite seq_S, existsb_app in H. apply orb_false_elim in H.
      destruct H as [_ H]. cbn [existsb Nat.add] in H. rewrite orb_false_r in H. exact H.
    + intros H Hs.
      induction (m_structureArrayStatus pType (ReflectedProperty.m_name propertyDesc))
        as [|x r IH] using rev_ind; [exact Hs|].
      rewrite last_last. rewrite existsb_app in H. apply orb_false_elim in H.
      destruct H as [_ H]. cbn [existsb] in H. rewrite orb_false_r in H. exact H.
Qed.

Lemma StatusAtEnd_not_loading (developmentTools : bool) (pType : Instance)
  (properties : list ReflectedProperty.t) :
  forall status,
    existsb (fun p => CompiledIn developmentTools p && PropertyReturnsLoading pType p) properties = false ->
    IsLoadingStatus status = false ->
    IsLoadingStatus (StatusAtEnd developmentTools pType properties status) = false.
Proof.
  unfold StatusAtEnd.
  induction properties as [|p r IH]; intros status He Hs; [exact Hs|].
  cbn [existsb] in He. apply orb_false_elim in He. destruct He as [Hp Hr].
  cbn [fold_left]. apply (IH _ Hr).
  destruct (CompiledIn developmentTools p); [|exact Hs].
  apply StatusAfterProperty_not_loading; [exact Hp|exact Hs].
Qed.

Lemma PropertyReturnsLoading_pending (pType : Instance) (propertyDesc : ReflectedProperty.t) :
  IsStaticResourcePtrArray propertyDesc = false ->
  PropertyReturnsLoading pType propertyDesc = PropertyPending pType propertyDesc.
Proof.
  unfold IsStaticResourcePtrArray, PropertyReturnsLoading. cbv zeta.
  destruct (IsResourcePtrType (ReflectedProperty.m_typeID propertyDesc)); [|reflexivity].
  destruct (ReflectedProperty.m_arrayCategory propertyDesc); try reflexivity. discriminate.
Qed.

Lemma existsb_pending (developmentTools : bool) (pType : Instance)
  (properties : list ReflectedProperty.t) :
  forallb (fun p => negb (CompiledIn developmentTools p && IsStaticResourcePtrArray p))
          properties = true ->
  existsb (fun p => CompiledIn developmentTools p && PropertyReturnsLoading pType p) properties
  = existsb (fun p => CompiledIn developmentTools p && PropertyPending pType p) properties.
Proof.
  induction properties as [|p r IH]; intros H; [reflexivity|].
  cbn [forallb] in H. apply andb_prop in H. destruct H as [Hp Hr].
  cbn [existsb]. rewrite (IH Hr). f_equal.
  destruct (CompiledIn developmentTools p); [|reflexivity].
  cbn [andb negb] in Hp |- *. apply PropertyReturnsLoading_pending.
  destruct (IsStaticResourcePtrArray p); [discriminate Hp|reflexivity].
Qed.

(** X15: for a type none of whose compiled properties is a fixed-size
    array of resource pointers, the generated [GetResourceLoadingStatus]
    returns [Loading] exactly when one of the properties that are compiled
    is pending: one of its resource pointers has not failed, is set and is
    not loaded, or one of its nested structures reports [Loading].
    However the properties are ordered and whatever has failed, a resource
    that is still loading is never missed.  For an element of a fixed-size
    array of resource pointers the generated test asks [IsSet] of the array
    member instead of the element; such properties are left out. *)
Theorem loading_is_never_missed (developmentTools : bool) (type : ReflectedType.t)
  (pType : Instance) :
  forallb (fun p => negb (CompiledIn developmentTools p && IsStaticResourcePtrArray p))
          (ReflectedType.m_properties type) = true ->
  IsLoadingStatus (GetResourceLoadingStatus developmentTools type pType)
  = existsb (fun p => CompiledIn developmentTools p && PropertyPending pType p)
            (ReflectedType.m_properties type).
Proof.
  intros Hs. rewrite <- (existsb_pending _ _ _ Hs).
  rewrite GetResourceLoadingStatus_result.
  destruct (existsb _ (ReflectedType.m_properties type)) eqn:He; [reflexivity|].
  apply StatusAtEnd_not_loading; [exact He|reflexivity].
Qed.

Lemma loading_is_never_missed_witness :
  IsLoadingStatus (GetResourceLoadingStatus true typeMeshes instanceLoadingDebugMesh) = true
  /\ IsLoadingStatus (GetResourceLoadingStatus false typeMeshes instanceLoadingDebugMesh) = false.
Proof.
  split.
  - rewrite (loading_is_never_missed true typeMeshes instanceLoadingDebugMesh eq_refl).
    reflexivity.
  - rewrite (loading_is_never_missed false typeMeshes instanceLoadingDebugMesh eq_refl).
    reflexivity.
Defined.

Lemma StatusAtEnd_pointers (developmentTools : bool) (pType : Instance)
  (properties : list ReflectedProperty.t) :
  forallb (fun p => negb (ReflectedProperty.IsStructureProperty p)) properties = true ->
  forall status,
    StatusAtEnd developmentTools pType properties status
    = if existsb (fun p => CompiledIn developmentTools p && PropertyFailed pType p) properties
      then Failed else status.
Proof.
  unfold StatusAtEnd.
  induction properties as [|p r IH]; intros Hn status; [reflexivity|].
  cbn [forallb] in Hn. apply andb_prop in Hn. destruct Hn as [Hp Hr].
  cbn [fold_left existsb]. rewrite (IH Hr).
  unfold StatusAfterProperty, PropertyFailed. cbv zeta.
  destruct (CompiledIn developmentTools p); cbn [andb orb]; [|reflexivity].
  destruct (IsResourcePtrType (ReflectedProperty.m_typeID p)).
  - match goal with |- context [if ?b then Failed else status] => destruct b end;
      cbn [orb]; [|reflexivity].
    destruct (existsb _ r); reflexivity.
  - destruct (ReflectedProperty.IsStructureProperty p); [discriminate Hp|]. reflexivity.
Qed.

(** X16: for a type with no nested structure property, and none of whose
    compiled properties is a fixed-size array of resource pointers, the
    generated [GetResourceLoadingStatus] returns [Loading] when a compiled
    property is pending, [Failed] when no compiled property is pending and
    a resource pointer of a compiled property has failed to load, and
    [Loaded] when nothing is pending and nothing has failed: among
    resource pointers a recorded failure is kept to the end. *)
Theorem pointer_failure_is_kept (developmentTools : bool) (type : ReflectedType.t)
  (pType : Instance) :
  forallb (fun p => negb (ReflectedProperty.IsStructureProperty p))
          (ReflectedType.m_properties type) = true ->
  forallb (fun p => negb (CompiledIn developmentTools p && IsStaticResourcePtrArray p))
          (ReflectedType.m_properties type) = true ->
  GetResourceLoadingStatus developmentTools type pType
  = if existsb (fun p => CompiledIn developmentTools p && PropertyPending pType p)
               (ReflectedType.m_properties type)
    then Loading
    else if existsb (fun p => CompiledIn developmentTools p && PropertyFailed pType p)
                    (ReflectedType.m_properties type)
         then Failed
         else Loaded.
Proof.
  intros Hn Hs. rewrite <- (existsb_pending _ _ _ Hs).
  rewrite GetResourceLoadingStatus_result, (StatusAtEnd_pointers _ _ _ Hn).
  reflexivity.
Qed.

Lemma pointer_failure_is_kept_witness :
  GetResourceLoadingStatus false typeMeshes instanceFailedMesh = Failed.
Proof.
  rewrite (pointer_failure_is_kept false typeMeshes instanceFailedMesh eq_refl eq_refl).
  reflexivity.
Defined.

(** ** What the generated unloading status returns *)

Lemma RunUnloadingStatements_checks (developmentTools : bool) (pType : UnloadingInstance)
  (body rest : list UnloadingStatement) :
  forallb (fun s => negb (IsUnloadingGuard s)) body = true ->
  RunUnloadingStatements developmentTools pType false (body ++ rest)
  = match RunUnloadingChecks pType body with
    | Next => RunUnloadingStatements developmentTools pType false rest
    | Stop result => result
    end.
Proof.
  induction body as [|s r IH]; intros Hb; [reflexivity|].
  cbn [forallb] in Hb. apply andb_prop in Hb. destruct Hb as [Hs Hr].
  cbn [app RunUnloadingChecks].
  destruct s; try discriminate Hs; cbn [RunUnloadingStatements];
    (destruct (RunUnloadingStatement pType _); [apply (IH Hr)|reflexivity]).
Qed.

Lemma RunUnloadingStatements_skipped (developmentTools : bool) (pType : UnloadingInstance)
  (body rest : list UnloadingStatement) :
  forallb (fun s => negb (IsUnloadingGuard s)) body = true ->
  RunUnloadingStatements developmentTools pType true (body ++ rest)
  = RunUnloadingStatements developmentTools pType true rest.
Proof.
  induction body as [|s r IH]; intros Hb; [reflexivity|].
  cbn [forallb] in Hb. apply andb_prop in Hb. destruct Hb as [Hs Hr].
  cbn [app]. destruct s; try discriminate Hs; cbn [RunUnloadingStatements]; apply (IH Hr).
Qed.

Lemma RunUnloadingStatements_region (developmentTools isDevOnly : bool)
  (pType : UnloadingInstance) (body rest : list UnloadingStatement) :
  forallb (fun s => negb (IsUnloadingGuard s)) body = true ->
  RunUnloadingStatements developmentTools pType false
    (((if isDevOnly then [UnloadingGuardOpen] else []) ++ body
      ++ (if isDevOnly then [UnloadingGuardClose] else []) ++ [UnloadingBlankLine]) ++ rest)
  = if developmentTools || negb isDevOnly
    then match RunUnloadingChecks pType body with
         | Next => RunUnloadingStatements developmentTools pType false rest
         | Stop result => result
         end
    else RunUnloadingStatements developmentTools pType false rest.
Proof.
  intros Hb. rewrite <- !app_assoc.
  destruct isDevOnly, developmentTools; cbn [app RunUnloadingStatements negb orb].
  - rewrite (RunUnloadingStatements_checks _ _ _ _ Hb).
    destruct (RunUnloadingChecks pType body); reflexivity.
  - rewrite (RunUnloadingStatements_skipped _ _ _ _ Hb). reflexivity.
  - rewrite (RunUnloadingStatements_checks _ _ _ _ Hb).
    destruct (RunUnloadingChecks pType body); reflexivity.
  - rewrite (RunUnloadingStatements_checks _ _ _ _ Hb).
    destruct (RunUnloadingChecks pType body); reflexivity.
Qed.

Lemma RunUnloadingChecks_one (pType : UnloadingInstance) (s : UnloadingStatement) :
  RunUnloadingChecks pType [s] = RunUnloadingStatement pType s.
Proof. cbn [RunUnloadingChecks]. destruct (RunUnloadingStatement pType s); reflexivity. Qed.

Lemma RunUnloadingChecks_pointer_elements (pType : UnloadingInstance) (name : string)
  (indices : list nat) :
  RunUnloadingChecks pType (map (UnloadedElementCheck name) indices)
  = ForEachUnloaded
      (fun i => CheckUnloaded (nth i (m_unloadingPtrArray pType name) unloadedPtr)) indices.
Proof.
  induction indices as [|i r IH]; [reflexivity|].
  cbn [map RunUnloadingChecks RunUnloadingStatement ForEachUnloaded]. rewrite IH. reflexivity.
Qed.

Lemma RunUnloadingChecks_structure_elements (pType : UnloadingInstance)
  (typeName name : string) (k : nat) (indices : list nat) :
  RunUnloadingChecks pType
    (flat_map (fun i => StructureUnloadedElementCheck typeName name i
                        :: (if (i =? k)%nat then [UnloadingBlankLine] else []))
              indices)
  = ForEachUnloaded
      (fun i => CheckStructureUnloaded (nth i (m_structureArrayUnloading pType name) Unloaded))
      indices.
Proof.
  induction indices as [|i r IH]; [reflexivity|].
  cbn [flat_map app RunUnloadingChecks RunUnloadingStatement ForEachUnloaded].
  destruct (i =? k)%nat; cbn [app RunUnloadingChecks RunUnloadingStatement]; rewrite IH;
    reflexivity.
Qed.

Lemma structure_elements_checks (typeName name : string) (k : nat) (indices : list nat) :
  forallb (fun s => negb (IsUnloadingGuard s))
    (flat_map (fun i => StructureUnloadedElementCheck typeName name i
                        :: (if (i =? k)%nat then [UnloadingBlankLine] else []))
              indices) = true.
Proof.
  induction indices as [|i r IH]; [reflexivity|].
  cbn [flat_map app forallb IsUnloadingGuard negb andb].
  destruct (i =? k)%nat; cbn [app forallb IsUnloadingGuard negb andb]; exact IH.
Qed.

Lemma forallb_map_unloading_checks {A : Type} (f : A -> UnloadingStatement) (l : list A) :
  (forall x, IsUnloadingGuard (f x) = false) ->
  forallb (fun s => negb (IsUnloadingGuard s)) (map f l) = true.
Proof.
  intros H. induction l as [|x r IH]; [reflexivity|].
  cbn [map forallb]. rewrite H, IH. reflexivity.
Qed.

(** The statements of one property, before the ones that follow. *)
Lemma RunUnloadingStatements_property (developmentTools : bool) (pType : UnloadingInstance)
  (propertyDesc : ReflectedProperty.t) (rest : list UnloadingStatement) :
  RunUnloadingStatements developmentTools pType false
    (PropertyUnloadingStatements propertyDesc ++ rest)
  = if CompiledIn developmentTools propertyDesc
    then match PropertyUnloadingFlow pType propertyDesc with
         | Next => RunUnloadingStatements developmentTools pType false rest
         | Stop result => result
         end
    else RunUnloadingStatements developmentTools pType false rest.
Proof.
  unfold PropertyUnloadingStatements, PropertyUnloadingFlow, CompiledIn,
    ReflectedProperty.IsStructureProperty, ReflectedProperty.IsArrayProperty,
    ReflectedProperty.IsDynamicArrayProperty.
  cbv zeta.
  destruct (IsResourcePtrType (ReflectedProperty.m_typeID propertyDesc)).
  - destruct (ReflectedProperty.m_arrayCategory propertyDesc).
    + rewrite RunUnloadingStatements_region by reflexivity.
      rewrite RunUnloadingChecks_one. reflexivity.
    + rewrite RunUnloadingStatements_region
        by (apply forallb_map_unloading_checks; reflexivity).
      rewrite RunUnloadingChecks_pointer_elements. reflexivity.
    + rewrite RunUnloadingStatements_region by reflexivity.
      rewrite RunUnloadingChecks_one. reflexivity.
  - destruct (negb (IsCoreType (ReflectedProperty.m_typeID propertyDesc))
              && negb (ReflectedProperty.IsEnumProperty propertyDesc)
              && negb (ReflectedProperty.IsBitFlagsProperty propertyDesc)).
    + destruct (ReflectedProperty.m_arrayCategory propertyDesc).
      * rewrite RunUnloadingStatements_region by reflexivity.
        rewrite RunUnloadingChecks_one. reflexivity.
      * rewrite RunUnloadingStatements_region by apply structure_elements_checks.
        rewrite RunUnloadingChecks_structure_elements. reflexivity.
      * rewrite RunUnloadingStatements_region by reflexivity.
        rewrite RunUnloadingChecks_one. reflexivity.
    + cbn [app].
      destruct (developmentTools || negb (ReflectedProperty.m_isDevOnly propertyDesc));
        reflexivity.
Qed.

Lemma ForEachUnloaded_next {A : Type} (check : A -> UnloadingFlow) (ok : A -> bool)
  (elements : list A) :
  (forall x, IsNext (check x) = ok x) ->
  IsNext (ForEachUnloaded check elements) = forallb ok elements.
Proof.
  intros H. induction elements as [|x r IH]; [reflexivity|].
  cbn [ForEachUnloaded forallb]. rewrite <- (H x), <- IH.
  destruct (check x); reflexivity.
Qed.

Lemma ForEachUnloaded_stop {A : Type} (check : A -> UnloadingFlow) (elements : list A)
  (result : UnloadingResult) :
  (forall x r, check x = Stop r -> IsUnloadedResult r = false) ->
  ForEachUnloaded check elements = Stop result -> IsUnloadedResult result = false.
Proof.
  intros H. induction elements as [|x r IH]; [discriminate|].
  cbn [ForEachUnloaded]. destruct (check x) as [|r'] eqn:Hx; [exact IH|].
  intros Hr. injection Hr as <-. exact (H x r' Hx).
Qed.

Lemma ForEachUnloaded_quiet {A : Type} (check : A -> UnloadingFlow) (ok quiet : A -> bool)
  (elements : list A) :
  (forall x, quiet x = false -> check x = if ok x then Next else Stop (Reports Unloading)) ->
  existsb quiet elements = false ->
  ForEachUnloaded check elements
  = if forallb ok elements then Next else Stop (Reports Unloading).
Proof.
  intros H. induction elements as [|x r IH]; [reflexivity|].
  cbn [existsb]. intros He. apply orb_false_elim in He. destruct He as [Hx Hr].
  cbn [ForEachUnloaded forallb]. rewrite (H x Hx).
  destruct (ok x); cbn [andb]; [exact (IH Hr)|reflexivity].
Qed.

Lemma existsb_const_false {A : Type} (l : list A) : existsb (fun _ => false) l = false.
Proof. induction l as [|x r IH]; [reflexivity|exact IH]. Qed.

Lemma CheckUnloaded_next (r : UnloadingPtrState) :
  IsNext (CheckUnloaded r) = PointerUnloaded r.
Proof. unfold CheckUnloaded, PointerUnloaded. destruct (IsLoading r), (IsUnloaded r); reflexivity. Qed.

Lemma CheckUnloaded_stop (r : UnloadingPtrState) (result : UnloadingResult) :
  CheckUnloaded r = Stop result -> IsUnloadedResult result = false.
Proof.
  unfold CheckUnloaded. destruct (IsLoading r), (IsUnloaded r); cbn [negb];
    try discriminate; intros H; injection H as <-; reflexivity.
Qed.

Lemma CheckUnloaded_quiet (r : UnloadingPtrState) :
  IsLoading r = false ->
  CheckUnloaded r = if PointerUnloaded r then Next else Stop (Reports Unloading).
Proof.
  unfold CheckUnloaded, PointerUnloaded. intros ->. destruct (IsUnloaded r); reflexivity.
Qed.

Lemma CheckStructureUnloaded_next (nested : ResourceStatus) :
  IsNext (CheckStructureUnloaded nested) = IsUnloadedStatus nested.
Proof. unfold CheckStructureUnloaded. destruct (IsUnloadedStatus nested); reflexivity. Qed.

Lemma CheckStructureUnloaded_stop (nested : ResourceStatus) (result : UnloadingResult) :
  CheckStructureUnloaded nested = Stop result -> IsUnloadedResult result = false.
Proof.
  unfold CheckStructureUnloaded. destruct (IsUnloadedStatus nested); [discriminate|].
  intros H. injection H as <-. reflexivity.
Qed.

Lemma CheckStructureUnloaded_result (nested : ResourceStatus) :
  CheckStructureUnloaded nested
  = if IsUnloadedStatus nested then Next else Stop (Reports Unloading).
Proof. reflexivity. Qed.

Lemma PropertyUnloadingFlow_next (pType : UnloadingInstance) (propertyDesc : ReflectedProperty.t) :
  IsNext (PropertyUnloadingFlow pType propertyDesc) = PropertyUnloaded pType propertyDesc.
Proof.
  unfold PropertyUnloadingFlow, PropertyUnloaded. cbv zeta.
  destruct (IsResourcePtrType _).
  - destruct (ReflectedProperty.m_arrayCategory propertyDesc).
    + apply CheckUnloaded_next.
    + apply ForEachUnloaded_next. intros i. apply CheckUnloaded_next.
    + apply ForEachUnloaded_next. apply CheckUnloaded_next.
  - destruct (ReflectedProperty.IsStructureProperty propertyDesc); [|reflexivity].
    destruct (ReflectedProperty.m_arrayCategory propertyDesc).
    + apply CheckStructureUnloaded_next.
    + apply ForEachUnloaded_next. intros i. apply CheckStructureUnloaded_next.
    + apply ForEachUnloaded_next. apply CheckStructureUnloaded_next.
Qed.

Lemma PropertyUnloadingFlow_stop (pType : UnloadingInstance)
  (propertyDesc : ReflectedProperty.t) (result : UnloadingResult) :
  PropertyUnloadingFlow pType propertyDesc = Stop result -> IsUnloadedResult result = false.
Proof.
  unfold PropertyUnloadingFlow. cbv zeta.
  destruct (IsResourcePtrType _).
  - destruct (ReflectedProperty.m_arrayCategory propertyDesc).
    + apply CheckUnloaded_stop.
    + apply ForEachUnloaded_stop. intros i. apply CheckUnloaded_stop.
    + apply ForEachUnloaded_stop. apply CheckUnloaded_stop.
  - destruct (ReflectedProperty.IsStructureProperty propertyDesc); [|discriminate].
    destruct (ReflectedProperty.m_arrayCategory propertyDesc).
    + apply CheckStructureUnloaded_stop.
    + apply ForEachUnloaded_stop. intros i. apply CheckStructureUnloaded_stop.
    + apply ForEachUnloaded_stop. apply CheckStructureUnloaded_stop.
Qed.

Lemma PropertyUnloadingFlow_quiet (pType : UnloadingInstance)
  (propertyDesc : ReflectedProperty.t) :
  PropertyLoading pType propertyDesc = false ->
  PropertyUnloadingFlow pType propertyDesc
  = if PropertyUnloaded pType propertyDesc then Next else Stop (Reports Unloading).
Proof.
  unfold PropertyUnloadingFlow, PropertyUnloaded, PropertyLoading. cbv zeta.
  destruct (IsResourcePtrType _).
  - destruct (ReflectedProperty.m_arrayCategory propertyDesc).
    + apply CheckUnloaded_quiet.
    + apply (ForEachUnloaded_quiet _ _
               (fun i => IsLoading (nth i (m_unloadingPtrArray pType
                                             (ReflectedProperty.m_name propertyDesc))
                                        unloadedPtr))).
      intros i. apply CheckUnloaded_quiet.
    + apply (ForEachUnloaded_quiet _ _ IsLoading). apply CheckUnloaded_quiet.
  - intros _.
    destruct (ReflectedProperty.IsStructureProperty propertyDesc); [|reflexivity].
    destruct (ReflectedProperty.m_arrayCategory propertyDesc).
    + apply CheckStructureUnloaded_result.
    + apply (ForEachUnloaded_quiet _ _ (fun _ => false)); [|apply existsb_const_false].
      intros i _. apply CheckStructureUnloaded_result.
    + apply (ForEachUnloaded_quiet _ _ (fun _ => false)); [|apply existsb_const_false].
      intros i _. apply CheckStructureUnloaded_result.
Qed.

Lemma PropertyUnloadingStatements_none (propertyDesc : ReflectedProperty.t) :
  IsResourcePtrType (ReflectedProperty.m_typeID propertyDesc)
  || ReflectedProperty.IsStructureProperty propertyDesc = false ->
  PropertyUnloadingStatements propertyDesc = [].
Proof.
  unfold PropertyUnloadingStatements, ReflectedProperty.IsStructureProperty.
  destruct (IsResourcePtrType _); [discriminate|]. cbn [orb]. intros ->. reflexivity.
Qed.

Lemma UnloadingStatusStatements_flat_map (type : ReflectedType.t) :
  UnloadingStatusStatements type
  = flat_map PropertyUnloadingStatements (ReflectedType.m_properties type).
Proof.
  unfold UnloadingStatusStatements, ReflectedType.HasResourcePtrOrStructProperties.
  destruct (existsb _ (ReflectedType.m_properties type)) eqn:He; [reflexivity|].
  symmetry. induction (ReflectedType.m_properties type) as [|p r IH]; [reflexivity|].
  cbn [existsb] in He. apply orb_false_elim in He. destruct He as [Hp Hr].
  cbn [flat_map]. rewrite (PropertyUnloadingStatements_none p Hp), (IH Hr). reflexivity.
Qed.

(** X17: the generated [GetResourceUnloadingStatus], its assertions
    checked, returns [Unloaded] exactly when every property that is
    compiled has all its resource pointers unloaded and not loading, and
    all its nested structures reporting [Unloaded]. *)
Theorem unloaded_only_when_all_is_unloaded (developmentTools : bool) (type : ReflectedType.t)
  (pType : UnloadingInstance) :
  IsUnloadedResult (GetResourceUnloadingStatus developmentTools type pType)
  = forallb (fun p => negb (CompiledIn developmentTools p) || PropertyUnloaded pType p)
            (ReflectedType.m_properties type).
Proof.
  unfold GetResourceUnloadingStatus. rewrite UnloadingStatusStatements_flat_map.
  induction (ReflectedType.m_properties type) as [|p r IH]; [reflexivity|].
  cbn [flat_map forallb]. rewrite RunUnloadingStatements_property.
  destruct (CompiledIn developmentTools p); cbn [negb orb andb]; [|exact IH].
  rewrite <- PropertyUnloadingFlow_next.
  destruct (PropertyUnloadingFlow pType p) as [|result] eqn:Hp; cbn [IsNext andb]; [exact IH|].
  exact (PropertyUnloadingFlow_stop _ _ _ Hp).
Qed.

(** X18: when no resource pointer of a compiled property is loading, no
    assertion of the generated [GetResourceUnloadingStatus] fails: it
    returns [Unloaded] if every compiled property is unloaded and
    [Unloading] otherwise. *)
Theorem unloading_status_without_loading_pointer (developmentTools : bool)
  (type : ReflectedType.t) (pType : UnloadingInstance) :
  existsb (fun p => CompiledIn developmentTools p && PropertyLoading pType p)
          (ReflectedType.m_properties type) = false ->
  GetResourceUnloadingStatus developmentTools type pType
  = Reports (if forallb (fun p => negb (CompiledIn developmentTools p)
                                  || PropertyUnloaded pType p)
                        (ReflectedType.m_properties type)
             then Unloaded else Unloading).
Proof.
  unfold GetResourceUnloadingStatus. rewrite UnloadingStatusStatements_flat_map.
  induction (ReflectedType.m_properties type) as [|p r IH]; [reflexivity|].
  cbn [existsb]. intros He. apply orb_false_elim in He. destruct He as [Hp Hr].
  cbn [flat_map forallb]. rewrite RunUnloadingStatements_property.
  destruct (CompiledIn developmentTools p); cbn [negb orb andb] in *; [|exact (IH Hr)].
  rewrite (PropertyUnloadingFlow_quiet _ _ Hp).
  destruct (PropertyUnloaded pType p); cbn [andb]; [exact (IH Hr)|reflexivity].
Qed.

Lemma unloading_status_without_loading_pointer_witness :
  GetResourceUnloadingStatus true typeMeshes instanceUnloading = Reports Unloading.
Proof.
  rewrite (unloading_status_without_loading_pointer true typeMeshes instanceUnloading eq_refl).
  reflexivity.
Defined.

(** ** A runtime build *)

Lemma existsb_compiled_filter (f : ReflectedProperty.t -> bool)
  (properties : list ReflectedProperty.t) :
  existsb (fun p => CompiledIn false p && f p)
          (filter (fun p => negb (ReflectedProperty.m_isDevOnly p)) properties)
  = existsb (fun p => CompiledIn false p && f p) properties.
Proof.
  induction properties as [|p r IH]; [reflexivity|].
  cbn [filter existsb].
  pose proof (eq_refl : CompiledIn false p = negb (ReflectedProperty.m_isDevOnly p)) as Hc.
  destruct (negb (ReflectedProperty.m_isDevOnly p)); cbn [existsb]; rewrite Hc, IH;
    reflexivity.
Qed.

Lemma StatusAtEnd_filter (pType : Instance) (properties : list ReflectedProperty.t) :
  forall status,
    StatusAtEnd false pType
      (filter (fun p => negb (ReflectedProperty.m_isDevOnly p)) properties) status
    = StatusAtEnd false pType properties status.
Proof.
  unfold StatusAtEnd.
  induction properties as [|p r IH]; intros status; [reflexivity|].
  cbn [filter fold_left].
  pose proof (eq_refl : CompiledIn false p = negb (ReflectedProperty.m_isDevOnly p)) as Hc.
  destruct (negb (ReflectedProperty.m_isDevOnly p)); cbn [fold_left]; rewrite Hc; apply IH.
Qed.

Lemma RunUnloadingStatements_filter (pType : UnloadingInstance)
  (properties : list ReflectedProperty.t) :
  RunUnloadingStatements false pType false
    (flat_map PropertyUnloadingStatements
       (filter (fun p => negb (ReflectedProperty.m_isDevOnly p)) properties))
  = RunUnloadingStatements false pType false
      (flat_map PropertyUnloadingStatements properties).
Proof.
  induction properties as [|p r IH]; [reflexivity|].
  cbn [filter flat_map]. rewrite (RunUnloadingStatements_property false pType p).
  pose proof (eq_refl : CompiledIn false p = negb (ReflectedProperty.m_isDevOnly p)) as Hc.
  destruct (negb (ReflectedProperty.m_isDevOnly p)); rewrite Hc; [|exact IH].
  cbn [flat_map]. rewrite RunUnloadingStatements_property, Hc, IH. reflexivity.
Qed.

(** X19: in a build without [EE_DEVELOPMENT_TOOLS] the generated
    [GetResourceLoadingStatus] and [GetResourceUnloadingStatus] of a type
    return what those of the same type without its development-only
    properties return: the state of a development-only property is never
    looked at. *)
Theorem runtime_status_ignores_development_properties (type : ReflectedType.t)
  (pType : Instance) (pUnloading : UnloadingInstance) :
  GetResourceLoadingStatus false type pType
  = GetResourceLoadingStatus false (WithoutDevOnlyProperties type) pType
  /\ GetResourceUnloadingStatus false type pUnloading
     = GetResourceUnloadingStatus false (WithoutDevOnlyProperties type) pUnloading.
Proof.
  split.
  - rewrite !GetResourceLoadingStatus_result. cbn [WithoutDevOnlyProperties ReflectedType.m_properties].
    rewrite existsb_compiled_filter, StatusAtEnd_filter. reflexivity.
  - unfold GetResourceUnloadingStatus. rewrite !UnloadingStatusStatements_flat_map.
    cbn [WithoutDevOnlyProperties ReflectedType.m_properties].
    symmetry. apply RunUnloadingStatements_filter.
Qed.

(** ** What the generated load, unload and enumeration methods do *)

Lemma WithOperation_ForEachPointer (op op' : ResourceOperation) (name : string)
  (elements : list ResourcePtrState) :
  forall i,
    map (WithOperation op') (ForEachPointer op name i elements)
    = ForEachPointer op' name i elements.
Proof.
  induction elements as [|r rest IH]; intros i; [reflexivity|].
  cbn [ForEachPointer]. rewrite map_app, IH. destruct (IsSet r); reflexivity.
Qed.

Lemma WithOperation_WithOperation (op op' : ResourceOperation) (events : list ResourceEvent) :
  map (WithOperation op) (map (WithOperation op') events) = map (WithOperation op) events.
Proof.
  rewrite map_map. apply map_ext. intros e. destruct e; reflexivity.
Qed.

(** The events of a statement do not depend on the layout of the text,
    and depend on the operation only by the operation they carry. *)
Lemma RunResourceStatements_Essentials (developmentTools : bool) (pType : Instance)
  (body : list ResourceStatement) :
  forall skipping,
    map (WithOperation LoadOperation)
        (RunResourceStatements developmentTools pType skipping body)
    = RunResourceStatements developmentTools pType skipping (Essentials body).
Proof.
  induction body as [|s rest IH]; intros skipping; [reflexivity|].
  destruct s; cbn [Essentials Essence RunResourceStatements]; try apply IH;
    destruct skipping; try apply IH;
    rewrite map_app, IH; f_equal; cbn [RunResourceStatement];
    first [ reflexivity
          | destruct (IsSet _); reflexivity
          | apply WithOperation_ForEachPointer
          | rewrite map_map; reflexivity ].
Qed.

Lemma RunResourceStatements_operation (developmentTools : bool) (pType : Instance)
  (op : ResourceOperation) (body : list ResourceStatement) :
  Forall (HasOperation op) body ->
  forall skipping,
    map (WithOperation op) (RunResourceStatements developmentTools pType skipping body)
    = RunResourceStatements developmentTools pType skipping body.
Proof.
  induction 1 as [|s rest Hs _ IH]; intros skipping; [reflexivity|].
  destruct s; cbn [HasOperation] in Hs; try subst op; cbn [RunResourceStatements];
    try apply IH; destruct skipping; try apply IH;
    rewrite map_app, IH; f_equal; cbn [RunResourceStatement];
    first [ reflexivity
          | destruct (IsSet _); reflexivity
          | apply WithOperation_ForEachPointer
          | rewrite map_map; reflexivity ].
Qed.

(** Two bodies with the same statements, layout and operation apart, do
    the same. *)
Lemma RunResourceStatements_same (developmentTools : bool) (pType : Instance)
  (op : ResourceOperation) (body body' : list ResourceStatement) :
  Forall (HasOperation op) body ->
  Essentials body = Essentials body' ->
  forall skipping,
    RunResourceStatements developmentTools pType skipping body
    = map (WithOperation op) (RunResourceStatements developmentTools pType skipping body').
Proof.
  intros Hop He skipping.
  rewrite <- (RunResourceStatements_operation developmentTools pType op body Hop).
  rewrite <- (WithOperation_WithOperation op LoadOperation
                (RunResourceStatements developmentTools pType skipping body)).
  rewrite <- (WithOperation_WithOperation op LoadOperation
                (RunResourceStatements developmentTools pType skipping body')).
  rewrite !RunResourceStatements_Essentials, He. reflexivity.
Qed.

Lemma Essentials_app (body body' : list ResourceStatement) :
  Essentials (body ++ body') = Essentials body ++ Essentials body'.
Proof.
  induction body as [|s rest IH]; [reflexivity|].
  cbn [app Essentials]. rewrite IH. destruct (Essence s); reflexivity.
Qed.

Lemma Essentials_flat_map {A : Type} (f g : A -> list ResourceStatement) (l : list A) :
  (forall x, Essentials (f x) = Essentials (g x)) ->
  Essentials (flat_map f l) = Essentials (flat_map g l).
Proof.
  intros H. induction l as [|x r IH]; [reflexivity|].
  cbn [flat_map]. rewrite !Essentials_app, H, IH. reflexivity.
Qed.

Lemma Essentials_map {A : Type} (f g : A -> ResourceStatement) (l : list A) :
  (forall x, Essence (f x) = Some (g x)) ->
  Essentials (map f l) = map g l.
Proof.
  intros H. induction l as [|x r IH]; [reflexivity|].
  cbn [map Essentials]. rewrite H, IH. reflexivity.
Qed.

Lemma Essentials_pointer_elements (op : ResourceOperation) (name : string) (l : list nat) :
  Essentials (map (PointerElementStatement op name) l)
  = map (PointerElementStatement LoadOperation name) l.
Proof. apply Essentials_map. reflexivity. Qed.

Lemma Essentials_structure_elements (op : ResourceOperation) (typeName name : string)
  (l : list nat) :
  Essentials (map (StructureElementStatement op typeName name) l)
  = map (StructureElementStatement LoadOperation typeName name) l.
Proof. apply Essentials_map. reflexivity. Qed.

Lemma UnloadResourcesPropertyStatements_Essentials (propertyDesc : ReflectedProperty.t) :
  Essentials (UnloadResourcesPropertyStatements propertyDesc)
  = Essentials (LoadResourcesPropertyStatements propertyDesc).
Proof.
  unfold UnloadResourcesPropertyStatements, LoadResourcesPropertyStatements. cbv zeta.
  destruct (IsResourcePtrType _);
    [|destruct (negb (IsCoreType _) && negb _ && negb _); [|reflexivity]];
    destruct (ReflectedProperty.m_isDevOnly propertyDesc),
      (ReflectedProperty.IsArrayProperty propertyDesc),
      (ReflectedProperty.IsDynamicArrayProperty propertyDesc);
    try reflexivity;
    rewrite !Essentials_app, ?Essentials_pointer_elements, ?Essentials_structure_elements;
    cbn [Essentials Essence app]; rewrite ?app_nil_r; reflexivity.
Qed.

Lemma ReferencedResourcesPropertyStatements_Essentials (propertyDesc : ReflectedProperty.t) :
  Essentials (ReferencedResourcesPropertyStatements propertyDesc)
  = Essentials (LoadResourcesPropertyStatements propertyDesc).
Proof.
  unfold ReferencedResourcesPropertyStatements, LoadResourcesPropertyStatements. cbv zeta.
  destruct (IsResourcePtrType _);
    [|destruct (negb (IsCoreType _) && negb _ && negb _); [|reflexivity]];
    destruct (ReflectedProperty.m_isDevOnly propertyDesc),
      (ReflectedProperty.IsArrayProperty propertyDesc),
      (ReflectedProperty.IsDynamicArrayProperty propertyDesc);
    try reflexivity;
    rewrite !Essentials_app, ?Essentials_pointer_elements, ?Essentials_structure_elements;
    cbn [Essentials Essence app]; rewrite ?app_nil_r; reflexivity.
Qed.

Lemma Forall_HasOperation_map {A : Type} (op : ResourceOperation)
  (f : A -> ResourceStatement) (l : list A) :
  (forall x, HasOperation op (f x)) -> Forall (HasOperation op) (map f l).
Proof.
  intros H. induction l as [|x r IH]; constructor; [apply H|exact IH].
Qed.

Lemma Forall_HasOperation_flat_map {A : Type} (op : ResourceOperation)
  (f : A -> list ResourceStatement) (l : list A) :
  (forall x, Forall (HasOperation op) (f x)) -> Forall (HasOperation op) (flat_map f l).
Proof.
  intros H. induction l as [|x r IH]; [constructor|].
  cbn [flat_map]. apply Forall_app. split; [apply H|exact IH].
Qed.

Ltac has_operation :=
  repeat first
    [ apply Forall_nil
    | apply Forall_cons; [exact I || reflexivity|]
    | apply Forall_app; split
    | apply Forall_HasOperation_map; intros; reflexivity ].

Lemma UnloadResourcesPropertyStatements_operation (propertyDesc : ReflectedProperty.t) :
  Forall (HasOperation UnloadOperation) (UnloadResourcesPropertyStatements propertyDesc).
Proof.
  unfold UnloadResourcesPropertyStatements. cbv zeta.
  destruct (IsResourcePtrType _);
    [|destruct (negb (IsCoreType _) && negb _ && negb _); [|constructor]];
    destruct (ReflectedProperty.m_isDevOnly propertyDesc),
      (ReflectedProperty.IsArrayProperty propertyDesc),
      (ReflectedProperty.IsDynamicArrayProperty propertyDesc);
    has_operation.
Qed.

Lemma ReferencedResourcesPropertyStatements_operation (propertyDesc : ReflectedProperty.t) :
  Forall (HasOperation ReferenceOperation) (ReferencedResourcesPropertyStatements propertyDesc).
Proof.
  unfold ReferencedResourcesPropertyStatements. cbv zeta.
  destruct (IsResourcePtrType _);
    [|destruct (negb (IsCoreType _) && negb _ && negb _); [|constructor]];
    destruct (ReflectedProperty.m_isDevOnly propertyDesc),
      (ReflectedProperty.IsArrayProperty propertyDesc),
      (ReflectedProperty.IsDynamicArrayProperty propertyDesc);
    has_operation.
Qed.

Lemma UnloadResources_LoadResources (developmentTools : bool) (type : ReflectedType.t)
  (pType : Instance) :
  UnloadResources developmentTools type pType
  = map (WithOperation UnloadOperation) (LoadResources developmentTools type pType).
Proof.
  unfold UnloadResources, LoadResources, UnloadResourcesStatements, LoadResourcesStatements.
  destruct (ReflectedType.HasResourcePtrOrStructProperties type); [|reflexivity].
  apply RunResourceStatements_same.
  - apply Forall_HasOperation_flat_map, UnloadResourcesPropertyStatements_operation.
  - apply Essentials_flat_map, UnloadResourcesPropertyStatements_Essentials.
Qed.

Lemma GetReferencedResources_LoadResources (developmentTools : bool) (type : ReflectedType.t)
  (pType : Instance) :
  GetReferencedResources developmentTools type pType
  = map (WithOperation ReferenceOperation) (LoadResources developmentTools type pType).
Proof.
  unfold GetReferencedResources, LoadResources, ReferencedResourcesStatements,
    LoadResourcesStatements.
  destruct (ReflectedType.HasResourcePtrOrStructProperties type); [|reflexivity].
  apply RunResourceStatements_same.
  - apply Forall_HasOperation_flat_map, ReferencedResourcesPropertyStatements_operation.
  - apply Essentials_flat_map, ReferencedResourcesPropertyStatements_Essentials.
Qed.

(** X20: the generated [UnloadResources] and [GetReferencedResources] go
    through the same resource pointers and nested structures as the
    generated [LoadResources], in the same order and under the same
    tests: what is requested is released by the unload, and listed by the
    enumeration, whether [EE_DEVELOPMENT_TOOLS] is on or not. *)
Theorem unload_and_enumeration_mirror_load (developmentTools : bool) (type : ReflectedType.t)
  (pType : Instance) :
  UnloadResources developmentTools type pType
  = map (WithOperation UnloadOperation) (LoadResources developmentTools type pType)
  /\ GetReferencedResources developmentTools type pType
     = map (WithOperation ReferenceOperation) (LoadResources developmentTools type pType).
Proof.
  split; [apply UnloadResources_LoadResources|apply GetReferencedResources_LoadResources].
Qed.

Lemma RunResourceStatements_free (developmentTools : bool) (pType : Instance)
  (body rest : list ResourceStatement) :
  forallb (fun s => negb (IsRegion s)) body = true ->
  forall skipping,
    RunResourceStatements developmentTools pType skipping (body ++ rest)
    = (if skipping then [] else flat_map (RunResourceStatement pType) body)
      ++ RunResourceStatements developmentTools pType skipping rest.
Proof.
  induction body as [|s r IH]; intros Hb skipping; [destruct skipping; reflexivity|].
  cbn [forallb] in Hb. apply andb_prop in Hb. destruct Hb as [Hs Hr].
  cbn [app flat_map].
  destruct s; try discriminate Hs; cbn [RunResourceStatements]; rewrite (IH Hr);
    destruct skipping; cbn [app]; rewrite <- ?app_assoc; reflexivity.
Qed.

Lemma forallb_map_free {A : Type} (f : A -> ResourceStatement) (l : list A) :
  (forall x, IsRegion (f x) = false) ->
  forallb (fun s => negb (IsRegion s)) (map f l) = true.
Proof.
  intros H. induction l as [|x r IH]; [reflexivity|].
  cbn [map forallb]. rewrite H, IH. reflexivity.
Qed.

(** The statements of a region that is compiled out, and of a property
    with no region. *)
Lemma RunResourceStatements_region (pType : Instance)
  (body rest : list ResourceStatement) (closing : ResourceStatement) :
  forallb (fun s => negb (IsRegion s)) body = true ->
  closing = RegionClose \/ closing = RegionCloseBlank ->
  RunResourceStatements false pType false (([RegionOpen] ++ body ++ [closing]) ++ rest)
  = RunResourceStatements false pType false rest.
Proof.
  intros Hb Hc. rewrite <- !app_assoc. cbn [app RunResourceStatements negb].
  rewrite (RunResourceStatements_free _ _ _ _ Hb).
  destruct Hc; subst closing; reflexivity.
Qed.

Lemma LoadResourcesPropertyStatements_runtime (pType : Instance)
  (propertyDesc : ReflectedProperty.t) (rest rest' : list ResourceStatement) :
  RunResourceStatements false pType false rest
  = RunResourceStatements false pType false rest' ->
  RunResourceStatements false pType false (LoadResourcesPropertyStatements propertyDesc ++ rest)
  = RunResourceStatements false pType false
      ((if ReflectedProperty.m_isDevOnly propertyDesc then []
        else LoadResourcesPropertyStatements propertyDesc) ++ rest').
Proof.
  intros Hr. unfold LoadResourcesPropertyStatements. cbv zeta.
  destruct (IsResourcePtrType _);
    [|destruct (negb (IsCoreType _) && negb _ && negb _);
      [|destruct (ReflectedProperty.m_isDevOnly propertyDesc); exact Hr]];
    (destruct (ReflectedProperty.m_isDevOnly propertyDesc);
     [ rewrite RunResourceStatements_region;
       [ exact Hr
       | destruct (ReflectedProperty.IsArrayProperty propertyDesc),
           (ReflectedProperty.IsDynamicArrayProperty propertyDesc);
         try reflexivity; apply forallb_map_free; reflexivity
       | auto ]
     | rewrite !(RunResourceStatements_free false pType ([] ++ _ ++ [Blank]));
       [ rewrite Hr; reflexivity | | ];
       cbn [app]; rewrite forallb_app;
       (apply andb_true_intro; split; [|reflexivity]);
       destruct (ReflectedProperty.IsArrayProperty propertyDesc),
         (ReflectedProperty.IsDynamicArrayProperty propertyDesc);
       try reflexivity; apply forallb_map_free; reflexivity ]).
Qed.

Lemma LoadResourcesPropertyStatements_none (propertyDesc : ReflectedProperty.t) :
  IsResourcePtrType (ReflectedProperty.m_typeID propertyDesc)
  || ReflectedProperty.IsStructureProperty propertyDesc = false ->
  LoadResourcesPropertyStatements propertyDesc = [].
Proof.
  unfold LoadResourcesPropertyStatements, ReflectedProperty.IsStructureProperty.
  destruct (IsResourcePtrType _); [discriminate|]. cbn [orb]. intros ->. reflexivity.
Qed.

Lemma LoadResourcesStatements_flat_map (type : ReflectedType.t) :
  LoadResourcesStatements type
  = flat_map LoadResourcesPropertyStatements (ReflectedType.m_properties type).
Proof.
  unfold LoadResourcesStatements, ReflectedType.HasResourcePtrOrStructProperties.
  destruct (existsb _ (ReflectedType.m_properties type)) eqn:He; [reflexivity|].
  symmetry. induction (ReflectedType.m_properties type) as [|p r IH]; [reflexivity|].
  cbn [existsb] in He. apply orb_false_elim in He. destruct He as [Hp Hr].
  cbn [flat_map]. rewrite (LoadResourcesPropertyStatements_none p Hp), (IH Hr). reflexivity.
Qed.

Lemma LoadResources_runtime (type : ReflectedType.t) (pType : Instance) :
  LoadResources false type pType
  = LoadResources false (WithoutDevOnlyProperties type) pType.
Proof.
  unfold LoadResources. rewrite !LoadResourcesStatements_flat_map.
  cbn [WithoutDevOnlyProperties ReflectedType.m_properties].
  induction (ReflectedType.m_properties type) as [|p r IH]; [reflexivity|].
  cbn [flat_map filter].
  rewrite (LoadResourcesPropertyStatements_runtime pType p _ _ IH).
  destruct (ReflectedProperty.m_isDevOnly p); reflexivity.
Qed.

(** X21: in a build without [EE_DEVELOPMENT_TOOLS] the generated
    [LoadResources], [UnloadResources] and [GetReferencedResources] of a
    type do what those of the same type without its development-only
    properties do: no resource of a development-only property is
    requested, released or listed. *)
Theorem runtime_resources_ignore_development_properties (type : ReflectedType.t)
  (pType : Instance) :
  LoadResources false type pType
  = LoadResources false (WithoutDevOnlyProperties type) pType
  /\ UnloadResources false type pType
     = UnloadResources false (WithoutDevOnlyProperties type) pType
  /\ GetReferencedResources false type pType
     = GetReferencedResources false (WithoutDevOnlyProperties type) pType.
Proof.
  repeat split.
  - apply LoadResources_runtime.
  - rewrite !UnloadResources_LoadResources, <- LoadResources_runtime. reflexivity.
  - rewrite !GetReferencedResources_LoadResources, <- LoadResources_runtime. reflexivity.
Qed.
